(** * Page-speed analysis: metric normalisation and report assembly

    A shallow embedding of the four skill scripts of the repository

    - [pagespeed-insights/scripts/fetch_psi.py]   (lab metrics),
    - [crux-data/scripts/fetch_crux.py]           (field metrics),
    - [playwright-network/scripts/capture_network.py] (network trace),
    - [generate-excel-report/scripts/generate_excel.py] (report tables),

    together with the properties their specification states about them,
    and of the rest of the scripts (the parsers of lab, field and trace
    data, the entry points) and of the [analyzer] package that drives
    them, with further properties read off the code.

    Python values are modelled in [Py]: numbers are exact rationals
    extended with the two infinities and NaN, dictionaries are
    insertion-ordered association lists, and operations that can raise
    return in the [res] monad. *)

From Stdlib Require Import QArith Qround ZArith String Ascii List Lia Bool.
From Stdlib Require Import Sorting.Sorted Sorting.Permutation DecimalString.
From stdpp Require Import base tactics option list gmap strings.

Local Open Scope string_scope.
Local Open Scope list_scope.

(* ===================================================================== *)
(** * The fragment of Python the scripts use *)
(* ===================================================================== *)

Module Py.

(** ** Numbers

    A Python [float] is identified with the rational it denotes (binary
    rounding error of float arithmetic is not modelled), extended with
    [inf], [-inf] and [nan]. *)

Inductive float : Type :=
| Fin (q : Q)
| PosInf
| NegInf
| NaN.

(** [x <= y] on floats: every comparison with [nan] is false. *)
Definition fle (x y : float) : bool :=
  match x, y with
  | NaN, _ | _, NaN => false
  | NegInf, _ => true
  | _, PosInf => true
  | Fin a, Fin b => Qle_bool a b
  | Fin _, NegInf => false
  | PosInf, _ => false
  end.

(** [x < y]. *)
Definition flt (x y : float) : bool :=
  match x, y with
  | NaN, _ | _, NaN => false
  | NegInf, NegInf => false
  | NegInf, _ => true
  | PosInf, _ => false
  | Fin _, NegInf => false
  | Fin _, PosInf => true
  | Fin a, Fin b => negb (Qle_bool b a)
  end.

(** [x / c] for a positive literal [c] (1000, 1024, 100). *)
Definition fdiv (x : float) (c : positive) : float :=
  match x with
  | Fin q => Fin (Qred (q / inject_Z (Zpos c)))
  | other => other
  end.

(** Round to the nearest integer, ties to the even neighbour: the rule
    of Python's [round]. *)
Definition round_half_even (q : Q) : Z :=
  let n := Qnum q in
  let d := Zpos (Qden q) in
  let fl := (n / d)%Z in
  let r := (n mod d)%Z in
  match (2 * r ?= d)%Z with
  | Lt => fl
  | Gt => (fl + 1)%Z
  | Eq => if Z.even fl then fl else (fl + 1)%Z
  end.

(** [10 ** n]. *)
Definition pow10 (n : nat) : positive := Pos.pow 10 (Pos.of_nat n).

Definition scale10 (n : nat) : positive :=
  match n with O => 1%positive | _ => pow10 n end.

(** [round(q, n)] on a finite number: the nearest multiple of
    [10 ** -n], ties to even. *)
Definition round_q (q : Q) (n : nat) : Q :=
  Qred (round_half_even (q * inject_Z (Zpos (scale10 n))) # scale10 n).

(** [round(x, ndigits)]: a float again; [inf] and [nan] pass through. *)
Definition round_nd (x : float) (n : nat) : float :=
  match x with
  | Fin q => Fin (round_q q n)
  | other => other
  end.

(** ** Exceptions and the result monad *)

Inductive exn : Type :=
| AttributeError
| TypeError
| KeyError
| IndexError
| ValueError
| IllegalCharacterError.

Inductive res (A : Type) : Type :=
| Ok (a : A)
| Raise (e : exn).
Arguments Ok {A} a.
Arguments Raise {A} e.

Definition bind {A B : Type} (m : res A) (k : A -> res B) : res B :=
  match m with
  | Ok a => k a
  | Raise e => Raise e
  end.

End Py.

Export Py.

Declare Scope py_scope.
Delimit Scope py_scope with py.
Notation "'let*' x ':=' m 'in' k" := (Py.bind m (fun x => k))
  (at level 10, x name, m at level 100, k at level 200) : py_scope.
Notation "'let*' ' p ':=' m 'in' k" := (Py.bind m (fun p => k))
  (at level 10, p strict pattern, m at level 100, k at level 200) : py_scope.
Local Open Scope py_scope.

(* ===================================================================== *)
(** * Strings and dictionaries *)
(* ===================================================================== *)

Module Str.

(** Python strings are modelled over 8-bit characters; code points above
    255 are outside the model. *)

Definition lower_ascii (c : ascii) : ascii :=
  let n := nat_of_ascii c in
  if (65 <=? n)%nat && (n <=? 90)%nat then ascii_of_nat (n + 32) else c.

Definition upper_ascii (c : ascii) : ascii :=
  let n := nat_of_ascii c in
  if (97 <=? n)%nat && (n <=? 122)%nat then ascii_of_nat (n - 32) else c.

(** [s.lower()] *)
Fixpoint lower (s : string) : string :=
  match s with
  | EmptyString => EmptyString
  | String c r => String (lower_ascii c) (lower r)
  end.

(** [s.capitalize()]: first character upper-cased, the rest lower-cased. *)
Definition capitalize (s : string) : string :=
  match s with
  | EmptyString => EmptyString
  | String c r => String (upper_ascii c) (lower r)
  end.

(** Characters [str.strip] and the number parsers treat as blank. *)
Definition is_space (c : ascii) : bool :=
  let n := nat_of_ascii c in
  ((9 <=? n)%nat && (n <=? 13)%nat) || ((28 <=? n)%nat && (n <=? 32)%nat)
  || (n =? 133)%nat || (n =? 160)%nat.

Definition is_digit (c : ascii) : bool :=
  let n := nat_of_ascii c in (48 <=? n)%nat && (n <=? 57)%nat.

Definition digit_val (c : ascii) : Z := Z.of_nat (nat_of_ascii c - 48).

Fixpoint lstrip (s : string) : string :=
  match s with
  | String c r => if is_space c then lstrip r else s
  | EmptyString => EmptyString
  end.

Fixpoint rstrip (s : string) : string :=
  match s with
  | String c r =>
      match rstrip r with
      | EmptyString => if is_space c then EmptyString else String c EmptyString
      | r' => String c r'
      end
  | EmptyString => EmptyString
  end.

(** [s.strip()] *)
Definition strip (s : string) : string := rstrip (lstrip s).

(** Read a run of decimal digits, single underscores allowed between two
    digits; returns the value read so far, the number of digits and the
    unread rest. *)
Fixpoint read_digits (s : string) (acc : Z) (n : nat) : Z * nat * string :=
  match s with
  | String c r =>
      if is_digit c then read_digits r (acc * 10 + digit_val c)%Z (S n)
      else if Ascii.eqb c "_" then
        match n, r with
        | S _, String c' _ =>
            if is_digit c' then read_digits r acc n else (acc, n, s)
        | _, _ => (acc, n, s)
        end
      else (acc, n, s)
  | EmptyString => (acc, n, s)
  end.

(** An optional sign: [true] for a minus. *)
Definition read_sign (s : string) : bool * string :=
  match s with
  | String "-" r => (true, r)
  | String "+" r => (false, r)
  | _ => (false, s)
  end.

(** [int(s)] for a string, base 10; [None] stands for [ValueError]. *)
Definition parse_int (s : string) : option Z :=
  let '(neg, r) := read_sign (strip s) in
  match read_digits r 0 0 with
  | (z, S _, EmptyString) => Some (if neg then (- z)%Z else z)
  | _ => None
  end.

(** [p in s] for two strings. *)
Fixpoint is_substring (p s : string) : bool :=
  String.prefix p s
  || match s with
     | String _ r => is_substring p r
     | EmptyString => false
     end.

(** The characters of a string, as Python iterates them. *)
Fixpoint chars (s : string) : list string :=
  match s with
  | String c r => String c EmptyString :: chars r
  | EmptyString => []
  end.

(** [s[:n]] *)
Fixpoint take (n : nat) (s : string) : string :=
  match n, s with
  | S n', String c r => String c (take n' r)
  | _, _ => EmptyString
  end.

(** [float(s)] for a string; [None] stands for [ValueError]. Overflow of
    huge exponents to [inf] is not modelled. *)
Definition parse_float (s : string) : option float :=
  let '(neg, r) := read_sign (strip s) in
  let lr := lower r in
  if String.eqb lr "inf" || String.eqb lr "infinity" then
    Some (if neg then NegInf else PosInf)
  else if String.eqb lr "nan" then Some NaN
  else
    let '(ip, n1, r1) := read_digits r 0 0 in
    let '(m, n2, r2) :=
      match r1 with
      | String "." r' => read_digits r' ip 0
      | _ => (ip, O, r1)
      end in
    let mant : Q := m # scale10 n2 in
    let signed (q : Q) : float := Fin (Qred (if neg then (- q)%Q else q)) in
    match (n1 + n2)%nat with
    | O => None
    | S _ =>
        match r2 with
        | EmptyString => Some (signed mant)
        | String c r3 =>
            if Ascii.eqb c "e" || Ascii.eqb c "E" then
              let '(eneg, r4) := read_sign r3 in
              match read_digits r4 0 0 with
              | (e, S _, EmptyString) =>
                  let p := inject_Z (10 ^ e)%Z in
                  Some (signed (if eneg then (mant / p)%Q else (mant * p)%Q))
              | _ => None
              end
            else None
        end
    end.

End Str.

Module Dict.

(** A [dict] with string keys: an association list in insertion order.
    [get] returns the first binding of the key. *)

Fixpoint get {V : Type} (d : list (string * V)) (k : string) : option V :=
  match d with
  | [] => None
  | (k', v) :: r => if String.eqb k' k then Some v else get r k
  end.

(** [k in d] *)
Definition mem {V : Type} (d : list (string * V)) (k : string) : bool :=
  match get d k with Some _ => true | None => false end.

(** [d[k] = v]: overwrite in place when the key exists (the key keeps its
    position), append otherwise. *)
Fixpoint set {V : Type} (d : list (string * V)) (k : string) (v : V)
  : list (string * V) :=
  match d with
  | [] => [(k, v)]
  | (k', v') :: r =>
      if String.eqb k' k then (k', v) :: r else (k', v') :: set r k v
  end.

Definition keys {V : Type} (d : list (string * V)) : list string := map fst d.
Definition values {V : Type} (d : list (string * V)) : list V := map snd d.

End Dict.

(* ===================================================================== *)
(** * Python values *)
(* ===================================================================== *)

Module Val.

(** The values a parsed JSON document holds. An object is a [dict] in
    document order; a number is an [int] or a finite [float] (JSON has no
    literal for an infinity or for NaN). *)
#[local] Unset Elimination Schemes.
Inductive value : Type :=
| VNone
| VBool (b : bool)
| VInt (z : Z)
| VFloat (x : Q)
| VStr (s : string)
| VList (l : list value)
| VDict (d : list (string * value)).
#[local] Set Elimination Schemes.

(** The number a value stands for in arithmetic and comparisons ([bool]
    is a subclass of [int]). *)
Definition as_number (v : value) : option Q :=
  match v with
  | VInt z => Some (inject_Z z)
  | VFloat x => Some x
  | VBool b => Some (if b then 1%Q else 0%Q)
  | _ => None
  end.

(** Truth value testing: [bool(v)]. *)
Definition truthy (v : value) : bool :=
  match v with
  | VNone => false
  | VBool b => b
  | VInt z => negb (z =? 0)%Z
  | VFloat q => negb (Qeq_bool q 0)
  | VStr s => negb (String.eqb s "")
  | VList l => match l with [] => false | _ => true end
  | VDict d => match d with [] => false | _ => true end
  end.

(** [a or b] *)
Definition por (a b : value) : value := if truthy a then a else b.

(** [v is None] *)
Definition is_none (v : value) : bool :=
  match v with VNone => true | _ => false end.

(** [v == s] for a string literal [s]. *)
Definition eq_str (v : value) (s : string) : bool :=
  match v with VStr s' => String.eqb s' s | _ => false end.

(** [d.get(k, default)]: only a [dict] has the method. *)
Definition get (d : value) (k : string) (default : value) : res value :=
  match d with
  | VDict kv => Ok (match Dict.get kv k with Some v => v | None => default end)
  | _ => Raise AttributeError
  end.

(** [k in c] *)
Definition contains (c : value) (k : string) : res bool :=
  match c with
  | VDict kv => Ok (Dict.mem kv k)
  | VList l => Ok (existsb (fun v => eq_str v k) l)
  | VStr s => Ok (Str.is_substring k s)
  | _ => Raise TypeError
  end.

(** [c[k]] for a string key. *)
Definition getitem (c : value) (k : string) : res value :=
  match c with
  | VDict kv =>
      match Dict.get kv k with Some v => Ok v | None => Raise KeyError end
  | _ => Raise TypeError
  end.

(** [c[0]] *)
Definition first (c : value) : res value :=
  match c with
  | VList (x :: _) => Ok x
  | VList [] => Raise IndexError
  | VStr (String c _) => Ok (VStr (String c EmptyString))
  | VStr EmptyString => Raise IndexError
  | VDict _ => Raise KeyError
  | _ => Raise TypeError
  end.

(** [c[i]] for a small literal index. *)
Definition nth (c : value) (i : nat) : res value :=
  match c with
  | VList l =>
      match List.nth_error l i with Some x => Ok x | None => Raise IndexError end
  | VStr s =>
      match List.nth_error (Str.chars s) i with
      | Some x => Ok (VStr x)
      | None => Raise IndexError
      end
  | VDict _ => Raise KeyError
  | _ => Raise TypeError
  end.

(** [len(c)] *)
Definition len (c : value) : res nat :=
  match c with
  | VList l => Ok (List.length l)
  | VStr s => Ok (String.length s)
  | VDict d => Ok (List.length d)
  | _ => Raise TypeError
  end.

(** [for x in c]: the elements the loop visits. *)
Definition iter (c : value) : res (list value) :=
  match c with
  | VList l => Ok l
  | VDict d => Ok (map VStr (Dict.keys d))
  | VStr s => Ok (map VStr (Str.chars s))
  | _ => Raise TypeError
  end.

(** [d.items()] *)
Definition items (d : value) : res (list (string * value)) :=
  match d with
  | VDict kv => Ok kv
  | _ => Raise AttributeError
  end.

(** [float(v)] *)
Definition to_float (v : value) : res float :=
  match v with
  | VStr s =>
      match Str.parse_float s with Some x => Ok x | None => Raise ValueError end
  | VNone | VList _ | VDict _ => Raise TypeError
  | VInt z => Ok (Fin (inject_Z z))
  | VFloat x => Ok (Fin x)
  | VBool b => Ok (Fin (if b then 1 else 0))
  end.

(** A numeric operand; anything else makes the operator raise. *)
Definition number (v : value) : res Q :=
  match as_number v with Some x => Ok x | None => Raise TypeError end.

(** [v] is a number. *)
Definition is_number (v : value) : bool :=
  match as_number v with Some _ => true | None => false end.

(** A key of a dict that may be missing: when it is there, its value
    passes [ok]. *)
Definition opt_field (kv : list (string * value)) (k : string)
    (ok : value -> bool) : bool :=
  match Dict.get kv k with
  | Some v => ok v
  | None => true
  end.

(** Run a loop body over a list, stopping at the first exception. *)
Fixpoint foldM {A S : Type} (f : S -> A -> res S) (l : list A) (s : S) : res S :=
  match l with
  | [] => Ok s
  | x :: r => let* s' := f s x in foldM f r s'
  end.

End Val.

Export Val.

(* ===================================================================== *)
(** * Stable sorting *)
(* ===================================================================== *)

Module Sort.

(** [sorted(l, key=key, reverse=True)] and [l.sort(key=key, reverse=True)]:
    Python's sort is stable, also with [reverse=True]; the result of a
    stable sort is determined by the input, so insertion sort stands for
    it. An element is put in front of the first one whose key is not
    larger. *)
Fixpoint insert_desc {A : Type} (key : A -> Z) (x : A) (l : list A) : list A :=
  match l with
  | [] => [x]
  | y :: r =>
      if (key y <=? key x)%Z then x :: y :: r
      else y :: insert_desc key x r
  end.

Definition sorted_desc {A : Type} (key : A -> Z) (l : list A) : list A :=
  foldr (insert_desc key) [] l.

(** Descending by key: every element is followed by keys not larger. *)
Definition descending {A : Type} (key : A -> Z) (l : list A) : Prop :=
  StronglySorted (fun a b => (key b <= key a)%Z) l.

End Sort.

(* ===================================================================== *)
(** * fetch_psi.py: the lab-side classifier *)
(* ===================================================================== *)

Module FetchPsi.

(** One entry of [CWV_THRESHOLDS]. *)
Record threshold : Type := { good : Q; poor : Q; unit : string }.

Definition CWV_THRESHOLDS : list (string * threshold) :=
  [ ("lcp",  {| good := 2500; poor := 4000; unit := "ms" |});
    ("inp",  {| good := 200;  poor := 500;  unit := "ms" |});
    ("cls",  {| good := 1 # 10; poor := 1 # 4; unit := "" |});
    ("fcp",  {| good := 1800; poor := 3000; unit := "ms" |});
    ("ttfb", {| good := 800;  poor := 1800; unit := "ms" |}) ].

(** [thresholds.get("good", float("inf"))] where [thresholds] is the
    table entry or the empty dict. *)
Definition good_of (t : option threshold) : float :=
  match t with Some t => Fin (good t) | None => PosInf end.
Definition poor_of (t : option threshold) : float :=
  match t with Some t => Fin (poor t) | None => PosInf end.

Definition get_status (metric : string) (value : float) : string :=
  let thresholds := Dict.get CWV_THRESHOLDS (Str.lower metric) in
  let good := good_of thresholds in
  let poor := poor_of thresholds in
  if fle value good then "good"
  else if fle value poor then "needs_improvement"
  else "poor".

Definition convert_to_display_unit (metric : string) (value_ms : float)
  : float * string :=
  let m := Str.lower metric in
  if String.eqb m "lcp" || String.eqb m "fcp" || String.eqb m "ttfb" then
    (round_nd (fdiv value_ms 1000) 2, "s")
  else if String.eqb m "inp" || String.eqb m "tbt" then
    (round_nd value_ms 0, "ms")
  else if String.eqb m "cls" then
    (round_nd value_ms 3, "")
  else
    (round_nd value_ms 2, "ms").

(** ** Opportunities *)

(** One entry of the opportunities list: the dict with the keys [id],
    [title], [description] and, when the provider supplies them,
    [savings_ms] and [savings_bytes]. *)
Record Opportunity : Type := {
  id : string;
  title : value;
  description : value;
  savings_ms : option Z;
  savings_bytes : option value
}.

(** The entry as the dict the script returns. *)
Definition opportunity_dict (o : Opportunity) : value :=
  VDict
    ([("id", VStr (id o)); ("title", title o); ("description", description o)]
     ++ match savings_ms o with Some z => [("savings_ms", VInt z)] | None => [] end
     ++ match savings_bytes o with Some b => [("savings_bytes", b)] | None => [] end).

(** The sort key [x.get("savings_ms", 0)]. *)
Definition savings_key (o : Opportunity) : Z :=
  match savings_ms o with Some z => z | None => 0%Z end.

(** A list or a dict cannot be a member of a set. *)
Definition hashable (v : value) : bool :=
  match v with VList _ | VDict _ => false | _ => true end.

(** One step of the set comprehension over the audit references: the
    identifier is taken when the group is [load-opportunities]. *)
Definition add_opportunity_id (ids : list value) (ref : value)
  : res (list value) :=
  let* group := Val.get ref "group" VNone in
  if eq_str group "load-opportunities" then
    let* i := Val.getitem ref "id" in
    if hashable i then Ok (ids ++ [i]) else Raise TypeError
  else Ok ids.

Definition opportunity_ids (perf_audits : value) : res (list value) :=
  let* refs := Val.iter perf_audits in
  Val.foldM add_opportunity_id refs [].

(** [audit_id in opportunity_ids] *)
Definition is_opportunity (ids : list value) (audit_id : string) : bool :=
  existsb (fun v => eq_str v audit_id) ids.

(** The body of the loop over [audits.items()]: [None] when the audit is
    skipped by a [continue]. *)
Definition opportunity_of (ids : list value) (audit_id : string)
    (audit : value) : res (option Opportunity) :=
  if negb (is_opportunity ids audit_id) then Ok None
  else
    let* score := Val.get audit "score" VNone in
    if is_none score then Ok None
    else
      let* sc := Val.number score in
      if Qle_bool (9 # 10) sc then Ok None
      else
        let* details := Val.get audit "details" (VDict []) in
        let* t := Val.get audit "title" (VStr "") in
        let* d := Val.get audit "description" (VStr "") in
        let* has_ms := Val.contains details "overallSavingsMs" in
        let* ms :=
          if has_ms then
            let* raw := Val.getitem details "overallSavingsMs" in
            let* x := Val.number raw in
            Ok (Some (round_half_even x))
          else Ok None in
        let* has_bytes := Val.contains details "overallSavingsBytes" in
        let* bs :=
          if has_bytes then
            let* raw := Val.getitem details "overallSavingsBytes" in
            Ok (Some raw)
          else Ok None in
        Ok (Some {| id := audit_id; title := t; description := d;
                    savings_ms := ms; savings_bytes := bs |}).

(** One pass of the loop: the entry, if any, is appended. *)
Definition add_opportunity (ids : list value) (acc : list Opportunity)
    (item : string * value) : res (list Opportunity) :=
  let* o := opportunity_of ids (fst item) (snd item) in
  match o with
  | Some o => Ok (acc ++ [o])
  | None => Ok acc
  end.

(** The opportunities in the order of the audits, before the sort. *)
Definition collect_opportunities (ids : list value)
    (audits : list (string * value)) : res (list Opportunity) :=
  Val.foldM (add_opportunity ids) audits [].

Definition parse_opportunities (lighthouse_result : value)
  : res (list Opportunity) :=
  let* audits := Val.get lighthouse_result "audits" (VDict []) in
  let* categories := Val.get lighthouse_result "categories" (VDict []) in
  let* performance := Val.get categories "performance" (VDict []) in
  let* perf_audits := Val.get performance "auditRefs" (VList []) in
  let* ids := opportunity_ids perf_audits in
  let* items := Val.items audits in
  let* opportunities := collect_opportunities ids items in
  Ok (Sort.sorted_desc savings_key opportunities).

(** ** What the selection of opportunities is about *)

(** The audits of a document, in provider order. *)
Definition audits_of (lighthouse_result : value) : list (string * value) :=
  match Val.get lighthouse_result "audits" (VDict []) with
  | Ok (VDict kv) => kv
  | _ => []
  end.

(** The audit references of the performance category. *)
Definition audit_refs_of (lighthouse_result : value) : list value :=
  let refs :=
    let* categories := Val.get lighthouse_result "categories" (VDict []) in
    let* performance := Val.get categories "performance" (VDict []) in
    let* perf_audits := Val.get performance "auditRefs" (VList []) in
    Val.iter perf_audits in
  match refs with Ok l => l | Raise _ => [] end.

(** The audit is referenced in the load-opportunities group. *)
Definition in_load_opportunities (lighthouse_result : value)
    (audit_id : string) : Prop :=
  exists ref : value,
    In ref (audit_refs_of lighthouse_result) /\
    Val.get ref "group" VNone = Ok (VStr "load-opportunities") /\
    Val.getitem ref "id" = Ok (VStr audit_id).

(** The audit has a score, a number below 0.9. *)
Definition score_below (audit : value) : Prop :=
  exists (sc : value) (x : Q),
    Val.get audit "score" VNone = Ok sc /\
    as_number sc = Some x /\ (x < 9 # 10)%Q.

(** The savings of the entry are those of the audit's details: the
    milliseconds rounded to the nearest integer, the bytes as they are. *)
Definition savings_from (audit : value) (o : Opportunity) : Prop :=
  exists details : value,
    Val.get audit "details" (VDict []) = Ok details /\
    (forall z, savings_ms o = Some z ->
       exists raw x, Val.getitem details "overallSavingsMs" = Ok raw /\
                     as_number raw = Some x /\ z = round_half_even x) /\
    (forall b, savings_bytes o = Some b ->
       Val.getitem details "overallSavingsBytes" = Ok b).

(** ** Documents of the expected shape

    Every part may be missing; a part that is there has the type the
    provider gives it. *)

Definition wf_details (details : value) : bool :=
  match details with
  | VDict kv => opt_field kv "overallSavingsMs" is_number
  | _ => false
  end.

Definition wf_audit (audit : value) : bool :=
  match audit with
  | VDict kv =>
      opt_field kv "score" (fun v => is_none v || is_number v)
      && opt_field kv "details" wf_details
  | _ => false
  end.

Definition wf_ref (ref : value) : bool :=
  match ref with
  | VDict kv =>
      match Dict.get kv "id" with Some (VStr _) => true | _ => false end
  | _ => false
  end.

Definition wf_refs (v : value) : bool :=
  match v with VList refs => forallb wf_ref refs | _ => false end.

Definition wf_audits (v : value) : bool :=
  match v with
  | VDict audits => forallb (fun kv => wf_audit (snd kv)) audits
  | _ => false
  end.

Definition wf_performance (v : value) : bool :=
  match v with VDict kv => opt_field kv "auditRefs" wf_refs | _ => false end.

Definition wf_categories (v : value) : bool :=
  match v with
  | VDict kv => opt_field kv "performance" wf_performance
  | _ => false
  end.

Definition wf_lighthouse (lighthouse_result : value) : bool :=
  match lighthouse_result with
  | VDict kv =>
      opt_field kv "audits" wf_audits && opt_field kv "categories" wf_categories
  | _ => false
  end.

End FetchPsi.

(* ===================================================================== *)
(** * fetch_crux.py: the field-side classifier *)
(* ===================================================================== *)

Module FetchCrux.

Record threshold : Type :=
  { good : Q; poor : Q; unit : string; display : string }.

Definition CWV_THRESHOLDS : list (string * threshold) :=
  [ ("largest_contentful_paint",
      {| good := 2500; poor := 4000; unit := "ms"; display := "s" |});
    ("interaction_to_next_paint",
      {| good := 200; poor := 500; unit := "ms"; display := "ms" |});
    ("cumulative_layout_shift",
      {| good := 1 # 10; poor := 1 # 4; unit := ""; display := "" |});
    ("first_contentful_paint",
      {| good := 1800; poor := 3000; unit := "ms"; display := "s" |});
    ("experimental_time_to_first_byte",
      {| good := 800; poor := 1800; unit := "ms"; display := "s" |});
    ("first_input_delay",
      {| good := 100; poor := 300; unit := "ms"; display := "ms" |}) ].

Definition METRIC_DISPLAY_NAMES : list (string * string) :=
  [ ("largest_contentful_paint", "lcp");
    ("interaction_to_next_paint", "inp");
    ("cumulative_layout_shift", "cls");
    ("first_contentful_paint", "fcp");
    ("experimental_time_to_first_byte", "ttfb");
    ("first_input_delay", "fid") ].

Definition good_of (t : option threshold) : float :=
  match t with Some t => Fin (good t) | None => PosInf end.
Definition poor_of (t : option threshold) : float :=
  match t with Some t => Fin (poor t) | None => PosInf end.
(** [thresholds.get("display", "ms")] *)
Definition display_of (t : option threshold) : string :=
  match t with Some t => display t | None => "ms" end.

Definition get_status (metric_key : string) (p75_value : float) : string :=
  let thresholds := Dict.get CWV_THRESHOLDS metric_key in
  let good := good_of thresholds in
  let poor := poor_of thresholds in
  if fle p75_value good then "good"
  else if fle p75_value poor then "needs_improvement"
  else "poor".

Definition convert_p75 (metric_key : string) (value : float)
  : float * string :=
  let thresholds := Dict.get CWV_THRESHOLDS metric_key in
  let display := display_of thresholds in
  if String.eqb display "s" then (round_nd (fdiv value 1000) 2, "s")
  else if String.eqb display "ms" then (round_nd value 0, "ms")
  else (round_nd value 3, "").

(** Parse the provider's histogram into the three densities; the empty
    dict when there are fewer than three buckets. *)
Definition parse_histogram (histogram : value)
  : res (list (string * float)) :=
  if negb (truthy histogram) then Ok []
  else
    let* n := Val.len histogram in
    if (n <? 3)%nat then Ok []
    else
      let density (i : nat) : res float :=
        let* b := Val.nth histogram i in
        let* d := Val.get b "density" (VInt 0) in
        let* x := Val.to_float d in
        Ok (round_nd x 3) in
      let* g := density 0%nat in
      let* ni := density 1%nat in
      let* p := density 2%nat in
      Ok [("good", g); ("needs_improvement", ni); ("poor", p)].

End FetchCrux.

(* ===================================================================== *)
(** * capture_network.py: the network trace aggregator *)
(* ===================================================================== *)

Module CaptureNetwork.

(** Data captured for a network request. *)
Record RequestData : Type := {
  url : string;
  resource_type : string;
  start_time : float;
  end_time : float;
  duration_ms : float;
  size_bytes : Z;
  status : Z;
  from_cache : bool
}.

(** [RequestData(url=..., resource_type=...)]: every other field at its
    default. *)
Definition new_request (u rt : string) : RequestData :=
  {| url := u; resource_type := rt;
     start_time := Fin 0; end_time := Fin 0; duration_ms := Fin 0;
     size_bytes := 0; status := 0; from_cache := false |}.

Definition set_response (r : RequestData) (st : Z) (fc : bool) : RequestData :=
  {| url := url r; resource_type := resource_type r;
     start_time := start_time r; end_time := end_time r;
     duration_ms := duration_ms r; size_bytes := size_bytes r;
     status := st; from_cache := fc |}.

Definition set_size (r : RequestData) (n : Z) : RequestData :=
  {| url := url r; resource_type := resource_type r;
     start_time := start_time r; end_time := end_time r;
     duration_ms := duration_ms r; size_bytes := n;
     status := status r; from_cache := from_cache r |}.

Definition set_timing (r : RequestData) (st d : float) : RequestData :=
  {| url := url r; resource_type := resource_type r;
     start_time := st; end_time := end_time r;
     duration_ms := d; size_bytes := size_bytes r;
     status := status r; from_cache := from_cache r |}.

Definition type_map : list (string * string) :=
  [ ("document", "document"); ("script", "script");
    ("stylesheet", "stylesheet"); ("image", "image"); ("font", "font");
    ("xhr", "xhr"); ("fetch", "xhr"); ("media", "media");
    ("websocket", "websocket"); ("manifest", "other"); ("other", "other") ].

(** Map the browser's resource type to the simplified category. *)
Definition get_resource_type (resource_type : string) : string :=
  match Dict.get type_map resource_type with
  | Some t => t
  | None => "other"
  end.

(** What the page delivers to the two handlers while it loads. *)
Inductive event : Type :=
| Request (url : string) (resource_type : string)
| Response (url : string) (status : Z) (from_service_worker : bool)
           (content_length : option string).

(** One entry of the page's resource timing list. *)
Record timing_entry : Type := {
  name : string;
  entry_start_time : float;
  duration : float;
  transfer_size : Z;
  encoded_body_size : Z
}.

(** The handler of a request: a fresh record is stored under the URL; a
    URL seen before keeps its place in the map and loses what was known
    of it. *)
Definition on_request (request_map : list (string * RequestData))
    (u rt : string) : list (string * RequestData) :=
  Dict.set request_map u (new_request u (get_resource_type rt)).

(** The handler of a response: updates the record of the URL, if any. The
    size comes from the [content-length] header when it parses. *)
Definition on_response (request_map : list (string * RequestData))
    (req_url : string) (st : Z) (from_sw : bool)
    (content_length : option string) : list (string * RequestData) :=
  match Dict.get request_map req_url with
  | Some req_data =>
      let req_data := set_response req_data st from_sw in
      let req_data :=
        match content_length with
        | Some cl =>
            if negb (String.eqb cl "") then
              match Str.parse_int cl with
              | Some n => set_size req_data n
              | None => req_data
              end
            else req_data
        | None => req_data
        end in
      Dict.set request_map req_url req_data
  | None => request_map
  end.

Definition handle (request_map : list (string * RequestData)) (e : event)
  : list (string * RequestData) :=
  match e with
  | Request u rt => on_request request_map u rt
  | Response u st sw cl => on_response request_map u st sw cl
  end.

(** The update of the loop over the resource timing entries. *)
Definition apply_timing (request_map : list (string * RequestData))
    (entry : timing_entry) : list (string * RequestData) :=
  let entry_url := name entry in
  match Dict.get request_map entry_url with
  | Some req_data =>
      let req_data :=
        set_timing req_data (entry_start_time entry) (duration entry) in
      let req_data :=
        if (0 <? transfer_size entry)%Z then
          set_size req_data (transfer_size entry)
        else if (0 <? encoded_body_size entry)%Z then
          set_size req_data (encoded_body_size entry)
        else req_data in
      Dict.set request_map entry_url req_data
  | None => request_map
  end.

(** One bucket of [by_type]. *)
Record bucket : Type := { count : Z; bytes : Z }.

(** The body of the summary loop over [requests_list]. *)
Definition summary_step (acc : list (string * bucket) * Z) (req : RequestData)
  : list (string * bucket) * Z :=
  let '(by_type, total_bytes) := acc in
  let rtype := resource_type req in
  let by_type :=
    if Dict.mem by_type rtype then by_type
    else Dict.set by_type rtype {| count := 0; bytes := 0 |} in
  let by_type :=
    match Dict.get by_type rtype with
    | Some b =>
        Dict.set by_type rtype
          {| count := count b + 1; bytes := bytes b + size_bytes req |}
    | None => by_type
    end in
  (by_type, (total_bytes + size_bytes req)%Z).

Definition summary_loop (requests_list : list RequestData)
  : list (string * bucket) * Z :=
  fold_left summary_step requests_list ([], 0%Z).

Record Summary : Type := {
  total_requests : nat;
  total_transfer_bytes : Z;
  total_transfer_mb : float;
  by_type : list (string * bucket)
}.

(** One entry of [largest_resources]. *)
Record LargestResource : Type := {
  l_url : string;
  l_type : string;
  l_size_bytes : Z;
  l_size_kb : float;
  l_duration_ms : float
}.

Definition largest_entry (r : RequestData) : LargestResource :=
  {| l_url := url r;
     l_type := resource_type r;
     l_size_bytes := size_bytes r;
     l_size_kb := round_nd (fdiv (Fin (inject_Z (size_bytes r))) 1024) 1;
     l_duration_ms := round_nd (duration_ms r) 0 |}.

(** [sorted(requests_list, key=lambda r: r.size_bytes, reverse=True)] *)
Definition sorted_by_size (requests_list : list RequestData)
  : list RequestData :=
  Sort.sorted_desc size_bytes requests_list.

(** The comprehension over [sorted_by_size[:10]] with its filter. *)
Definition largest_of (requests_list : list RequestData)
  : list LargestResource :=
  map largest_entry
    (List.filter (fun r => (0 <? size_bytes r)%Z)
       (firstn 10 (sorted_by_size requests_list))).

(** One entry of [blocking_resources]. *)
Record BlockingResource : Type := {
  b_url : string;
  b_type : string;
  b_size_bytes : Z;
  b_blocks : string
}.

Definition blocking_of (requests_list : list RequestData)
  : list BlockingResource :=
  map (fun req =>
         {| b_url := url req; b_type := resource_type req;
            b_size_bytes := size_bytes req;
            b_blocks := if String.eqb (resource_type req) "stylesheet"
                        then "render" else "parser" |})
    (List.filter
       (fun req =>
          (String.eqb (resource_type req) "stylesheet"
           || String.eqb (resource_type req) "script")
          && flt (start_time req) (Fin 500))
       requests_list).

Record Capture : Type := {
  summary : Summary;
  largest_resources : list LargestResource;
  blocking_resources : list BlockingResource
}.

(** The request map once the page has loaded and the timing entries have
    been applied. *)
Definition request_map_of (events : list event)
    (resource_timing : list timing_entry) : list (string * RequestData) :=
  fold_left apply_timing resource_timing (fold_left handle events []).

(** The result of a successful capture, from the events the handlers saw
    and the resource timing entries read after the load (the page timing
    block and the waterfall are left out). *)
Definition capture_network (events : list event)
    (resource_timing : list timing_entry) : Capture :=
  let request_map := request_map_of events resource_timing in
  let requests_list := Dict.values request_map in
  let '(by_type, total_bytes) := summary_loop requests_list in
  {| summary :=
       {| total_requests := List.length requests_list;
          total_transfer_bytes := total_bytes;
          total_transfer_mb :=
            round_nd (fdiv (Fin (inject_Z total_bytes)) (1024 * 1024)) 2;
          by_type := by_type |};
     largest_resources := largest_of requests_list;
     blocking_resources := blocking_of requests_list |}.

(** The byte sums and the counts of the buckets of [by_type], added up. *)
Definition sum_bytes (by_type : list (string * bucket)) : Z :=
  fold_right (fun kb acc => (bytes (snd kb) + acc)%Z) 0%Z by_type.

Definition sum_counts (by_type : list (string * bucket)) : Z :=
  fold_right (fun kb acc => (count (snd kb) + acc)%Z) 0%Z by_type.

(** The sizes of a list of records, added up. *)
Definition sum_sizes (requests_list : list RequestData) : Z :=
  fold_right (fun r acc => (size_bytes r + acc)%Z) 0%Z requests_list.

(** The request map holds each record under its own URL, once. *)
Definition keyed (request_map : list (string * RequestData)) : Prop :=
  NoDup (Dict.keys request_map) /\
  Forall (fun kv => url (snd kv) = fst kv) request_map.

End CaptureNetwork.

(* ===================================================================== *)
(** * generate_excel.py: the report table builder *)
(* ===================================================================== *)

Module GenerateExcel.

(** A worksheet: the values given to its cells so far, by (row, column).
    Styles, frozen panes and column widths carry no data and are left
    out. *)
Abbreviation worksheet := (gmap (nat * nat) value).

(** Characters the workbook format forbids:
    [\x00-\x08], [\x0B-\x0C], [\x0E-\x1F]. *)
Definition illegal (c : ascii) : bool :=
  let n := nat_of_ascii c in
  (n <=? 8)%nat || ((11 <=? n)%nat && (n <=? 12)%nat)
  || ((14 <=? n)%nat && (n <=? 31)%nat).

(** No character of the text is forbidden. *)
Fixpoint legal (s : string) : bool :=
  match s with
  | String c r => negb (illegal c) && legal r
  | EmptyString => true
  end.

(** What the library takes as the value of a cell: [None], a boolean, a
    number, or a text with no forbidden character among its first 32767,
    which are those the library keeps. It has no cell type for a list or
    for a dict. *)
Definition accepted (v : value) : bool :=
  match v with
  | VList _ | VDict _ => false
  | VStr s => legal (Str.take (Z.to_nat 32767) s)
  | _ => true
  end.

(** [ws.cell(row=r, column=c, value=v)]: the library raises [ValueError]
    on a list or a dict, and [IllegalCharacterError] on a text with a
    forbidden character. *)
Definition cell (ws : worksheet) (r c : nat) (v : value) : res worksheet :=
  match v with
  | VList _ | VDict _ => Raise ValueError
  | VStr s =>
      if legal (Str.take (Z.to_nat 32767) s) then Ok (<[(r, c) := v]> ws)
      else Raise IllegalCharacterError
  | _ => Ok (<[(r, c) := v]> ws)
  end.

(** The loop over [enumerate(headers, 1)]. *)
Fixpoint write_headers (ws : worksheet) (col_idx : nat) (headers : list string)
  : res worksheet :=
  match headers with
  | [] => Ok ws
  | h :: r =>
      let* ws := cell ws 1 col_idx (VStr h) in
      write_headers ws (S col_idx) r
  end.

(** [%.0f]: the nearest integer, in decimal. *)
Definition format_0f (q : Q) : string :=
  let z := round_half_even q in
  if (z =? 0)%Z && negb (Qle_bool 0 q) then "-0"
  else NilZero.string_of_int (Z.to_int z).

Fixpoint strip_illegal (s : string) : string :=
  match s with
  | String c r =>
      if illegal c then strip_illegal r else String c (strip_illegal r)
  | EmptyString => EmptyString
  end.

(** [s.rfind(' ')]: the index of the last blank, if any. *)
Fixpoint rfind_space (s : string) : option nat :=
  match s with
  | String c r =>
      match rfind_space r with
      | Some i => Some (S i)
      | None => if Ascii.eqb c " " then Some O else None
      end
  | EmptyString => None
  end.

(** [url.split('/')[-1]]: what follows the last slash. *)
Fixpoint last_segment (s : string) : string :=
  match s with
  | String c r =>
      if Str.is_substring "/" r then last_segment r
      else if Ascii.eqb c "/" then r
      else s
  | EmptyString => EmptyString
  end.

Definition max_length : Z := 32767.

(** ** What the sheets are read against *)

(** The cells of one row, from column [col_idx] on. *)
Fixpoint write_cells (ws : worksheet) (row_idx col_idx : nat)
    (cells : list value) : worksheet :=
  match cells with
  | [] => ws
  | v :: r =>
      write_cells (<[(row_idx, col_idx) := v]> ws) row_idx (S col_idx) r
  end.

(** Consecutive rows, from row [row_idx] on. *)
Fixpoint write_table (ws : worksheet) (row_idx : nat)
    (rows : list (list value)) : worksheet :=
  match rows with
  | [] => ws
  | cells :: r => write_table (write_cells ws row_idx 1 cells) (S row_idx) r
  end.

(** A sheet with its header row only. *)
Definition header_row (headers : list string) : worksheet :=
  write_cells ∅ 1 1 (map VStr headers).

(** The strategies of one result, each with the URL of the result. *)
Definition strategies_of (psi : value) : list (value * (string * value)) :=
  match Val.get psi "url" (VStr ""), Val.get psi "strategies" (VDict []) with
  | Ok url, Ok (VDict its) => map (fun it => (url, it)) its
  | _, _ => []
  end.

(** The results of a document. *)
Definition psi_results_of (data : value) : list value :=
  match Val.get data "psi_results" (VList []) with
  | Ok v => match Val.iter v with Ok l => l | Raise _ => [] end
  | Raise _ => []
  end.

(** The (URL, strategy) pairs of a document, in the order of the rows of
    the Core Web Vitals sheet. *)
Definition strategy_rows (data : value) : list (value * (string * value)) :=
  concat (map strategies_of (psi_results_of data)).


(** The page-level field mapping of a strategy, when there is one: a
    missing key and [null] both stand for none. *)
Definition field_mapping (strategy_data : value)
  : option (list (string * value)) :=
  match strategy_data with
  | VDict kv =>
      match Dict.get kv "field_metrics" with
      | Some (VDict f) => Some f
      | _ => None
      end
  | _ => None
  end.

(** The field metric of a strategy under a key, when it is present and
    not [null]. *)
Definition field_metric (strategy_data : value) (key : string)
  : option value :=
  match field_mapping strategy_data with
  | Some f =>
      match Dict.get f key with
      | Some VNone | None => None
      | Some v => Some v
      end
  | None => None
  end.

(** The field metrics of the strategy are numbers (or [null]). *)
Definition field_numeric (strategy_data : value) : Prop :=
  forall key v, field_metric strategy_data key = Some v -> is_number v = true.

(** ** Documents that differ only in the origin-level field metrics *)

Definition drop_key (k : string) (kv : list (string * value))
  : list (string * value) :=
  List.filter (fun b => negb (String.eqb (fst b) k)) kv.

(** Apply [f] to what a dict holds under [k]. *)
Definition map_field (k : string) (f : value -> value) (d : value) : value :=
  match d with
  | VDict kv =>
      VDict (map (fun b => if String.eqb (fst b) k then (fst b, f (snd b)) else b) kv)
  | _ => d
  end.

(** Apply [f] to every value of a dict. *)
Definition map_values (f : value -> value) (d : value) : value :=
  match d with
  | VDict kv => VDict (map (fun b => (fst b, f (snd b))) kv)
  | _ => d
  end.

(** Apply [f] to every element of a list. *)
Definition map_list (f : value -> value) (d : value) : value :=
  match d with
  | VList l => VList (map f l)
  | _ => d
  end.

Definition strategy_without_origin (strategy_data : value) : value :=
  match strategy_data with
  | VDict kv => VDict (drop_key "origin_field_metrics" kv)
  | _ => strategy_data
  end.

(** One result with [origin_field_metrics] removed from every strategy. *)
Definition result_without_origin : value -> value :=
  map_field "strategies" (map_values strategy_without_origin).

(** The document with [origin_field_metrics] removed from every strategy
    of every result. *)
Definition without_origin (data : value) : value :=
  map_field "psi_results" (map_list result_without_origin) data.

Definition differ_only_in_origin (d1 d2 : value) : Prop :=
  without_origin d1 = without_origin d2.

(** ** Parts that are missing *)


(** The columns of a row that show one part of the entry of the row: the
    column, the paths the part is read at (the network sheet reads an
    entry first, its summary next), and what the cell holds when the part
    is at none of them. *)
Abbreviation placeholders := (list (nat * list (list string) * value)).









(** ** Documents with parts missing

    Every key of every dict may be missing; a part that is there has the
    type the collectors give it. *)

Definition is_dict (v : value) : bool :=
  match v with VDict _ => true | _ => false end.

Definition is_str (v : value) : bool :=
  match v with VStr _ => true | _ => false end.

Definition dict_of (ok : list (string * value) -> bool) (v : value) : bool :=
  match v with VDict kv => ok kv | _ => false end.

Definition list_of (ok : value -> bool) (v : value) : bool :=
  match v with VList l => forallb ok l | _ => false end.

Definition none_or (ok : value -> bool) (v : value) : bool :=
  match v with VNone => true | _ => ok v end.

Definition wf_cwv : value -> bool :=
  dict_of (fun kv =>
    opt_field kv "lcp" is_dict && opt_field kv "inp" is_dict && opt_field kv "cls" is_dict
    && opt_field kv "fcp" is_dict && opt_field kv "ttfb" is_dict && opt_field kv "tbt" is_dict).

Definition wf_opportunity : value -> bool :=
  dict_of (fun kv =>
    opt_field kv "savings_bytes" (none_or is_number) && opt_field kv "description" is_str).

Definition wf_strategy : value -> bool :=
  dict_of (fun kv =>
    opt_field kv "core_web_vitals" wf_cwv
    && opt_field kv "field_metrics" (none_or is_dict)
    && opt_field kv "opportunities" (list_of wf_opportunity)).


Definition wf_bucket : value -> bool :=
  dict_of (fun kv => opt_field kv "bytes" is_number).






Section Builder.

(** Python's [str()] on a value that is not a string: the digits of a
    number, [None], [True], the text of a list or of a dict. *)
Variable repr : value -> string.

(** [str(v)], also what an f-string puts for [{v}]. *)
Definition py_str (v : value) : string :=
  match v with
  | VStr s => s
  | _ => repr v
  end.

(** Sanitize content for a cell: illegal control characters are removed
    and overlong text is cut, at a blank when one is near the end. *)
Definition sanitize_for_excel (v : value) : string :=
  match v with
  | VNone => ""
  | _ =>
      let content := strip_illegal (py_str v) in
      if (max_length <? Z.of_nat (String.length content))%Z then
        let content := Str.take (Z.to_nat (max_length - 20)) content in
        match rfind_space content with
        | Some last_space =>
            (* last_space > max_length * 0.8, that is > 26213.6 *)
            if (26214 <=? Z.of_nat last_space)%Z then
              (Str.take last_space content ++ "... [truncated]")%string
            else (content ++ "... [truncated]")%string
        | None => (content ++ "... [truncated]")%string
        end
      else content
  end.

(** Human-readable status of a metric dict. *)
Definition _get_status_text (metric : value) : res string :=
  let* status := Val.get metric "status" (VStr "") in
  if eq_str status "good" then Ok "Good"
  else if eq_str status "needs_improvement" then Ok "Needs Improvement"
  else if eq_str status "poor" then Ok "Poor"
  else Ok "".

(** A lab metric as value followed by unit. *)
Definition _format_metric (metric : value) : res string :=
  if negb (truthy metric) then Ok ""
  else
    let* v := Val.get metric "value" (VStr "") in
    let* u := Val.get metric "unit" (VStr "") in
    if eq_str v "" then Ok ""
    else Ok (py_str v ++ py_str u)%string.

(** A field metric as value followed by unit, or [N/A]. *)
Definition _format_field_metric (field : value) (key unit : string)
  : res string :=
  if negb (truthy field) then Ok "N/A"
  else
    let* present := Val.contains field key in
    if negb present then Ok "N/A"
    else
      let* v := Val.getitem field key in
      if is_none v then Ok "N/A"
      else Ok (py_str v ++ unit)%string.

(** The text of a field column as the specification words it: the value
    followed by the unit when the field metric is present, [N/A] when the
    mapping or the key is absent or [null]. *)
Definition field_cell (strategy_data : value) (key unit : string) : string :=
  match field_metric strategy_data key with
  | Some v => (py_str v ++ unit)%string
  | None => "N/A"
  end.

(** [d.get(k, {})] followed by a formatter. *)
Definition get_with (f : value -> res string) (d : value) (k : string)
  : res value :=
  let* m := Val.get d k (VDict []) in
  let* s := f m in
  Ok (VStr s).

(** ** Summary *)

Definition summary_headers : list string :=
  ["URL"; "Mobile Score"; "Desktop Score"; "LCP Status"; "INP Status";
   "CLS Status"; "Top Issue"].

(** The body of the loop over [enumerate(psi_results, 2)]. *)
Definition summary_row (ws : worksheet) (row_idx : nat) (psi : value)
  : res worksheet :=
  let* url := Val.get psi "url" (VStr "") in
  let* strategies := Val.get psi "strategies" (VDict []) in
  let* mobile := Val.get strategies "mobile" (VDict []) in
  let* desktop := Val.get strategies "desktop" (VDict []) in
  let* mobile_cwv := Val.get mobile "core_web_vitals" (VDict []) in
  let* mobile_opps := Val.get mobile "opportunities" (VList []) in
  let* top_issue :=
    if truthy mobile_opps then
      let* o := Val.first mobile_opps in
      Val.get o "title" (VStr "")
    else Ok (VStr "") in
  let* ws := cell ws row_idx 1 (VStr (sanitize_for_excel url)) in
  let* ms := Val.get mobile "performance_score" (VStr "") in
  let* ws := cell ws row_idx 2 ms in
  let* ds := Val.get desktop "performance_score" (VStr "") in
  let* ws := cell ws row_idx 3 ds in
  let* lcp := get_with _get_status_text mobile_cwv "lcp" in
  let* ws := cell ws row_idx 4 lcp in
  let* inp := get_with _get_status_text mobile_cwv "inp" in
  let* ws := cell ws row_idx 5 inp in
  let* cls := get_with _get_status_text mobile_cwv "cls" in
  let* ws := cell ws row_idx 6 cls in
  cell ws row_idx 7 (VStr (sanitize_for_excel top_issue)).

(** A loop whose body writes one row and moves to the next. *)
Fixpoint write_rows {A : Type} (row : worksheet -> nat -> A -> res worksheet)
    (ws : worksheet) (row_idx : nat) (l : list A) : res (worksheet * nat) :=
  match l with
  | [] => Ok (ws, row_idx)
  | x :: r =>
      let* ws' := row ws row_idx x in
      write_rows row ws' (S row_idx) r
  end.

Definition create_summary_sheet (data : value) : res worksheet :=
  let* ws := write_headers ∅ 1 summary_headers in
  let* psi_results := Val.get data "psi_results" (VList []) in
  let* results := Val.iter psi_results in
  let* '(ws, _) := write_rows summary_row ws 2 results in
  (* the colour scale over B2:C{row_count} *)
  let* _ := if truthy psi_results then Val.len psi_results else Ok O in
  Ok ws.

(** ** Core Web Vitals *)

Definition cwv_headers : list string :=
  ["URL"; "Strategy"; "Score"; "LCP Lab"; "LCP Field"; "INP Lab";
   "INP Field"; "CLS Lab"; "CLS Field"; "FCP"; "TTFB"; "TBT"].

(** The body of the loop over [strategies.items()]. *)
Definition cwv_row (url : value) (ws : worksheet) (row_idx : nat)
    (item : string * value) : res worksheet :=
  let '(strategy_name, strategy_data) := item in
  let* cwv := Val.get strategy_data "core_web_vitals" (VDict []) in
  let* fm := Val.get strategy_data "field_metrics" (VDict []) in
  let field := por fm (VDict []) in
  let* lcp := Val.get cwv "lcp" (VDict []) in
  let* inp := Val.get cwv "inp" (VDict []) in
  let* cls := Val.get cwv "cls" (VDict []) in
  let* fcp := Val.get cwv "fcp" (VDict []) in
  let* ttfb := Val.get cwv "ttfb" (VDict []) in
  let* tbt := Val.get cwv "tbt" (VDict []) in
  let* ws := cell ws row_idx 1 (VStr (sanitize_for_excel url)) in
  let* ws := cell ws row_idx 2 (VStr (Str.capitalize strategy_name)) in
  let* score := Val.get strategy_data "performance_score" (VStr "") in
  let* ws := cell ws row_idx 3 score in
  let* c4 := _format_metric lcp in
  let* ws := cell ws row_idx 4 (VStr c4) in
  let* c5 := _format_field_metric field "lcp_p75" "s" in
  let* ws := cell ws row_idx 5 (VStr c5) in
  let* c6 := _format_metric inp in
  let* ws := cell ws row_idx 6 (VStr c6) in
  let* c7 := _format_field_metric field "inp_p75" "ms" in
  let* ws := cell ws row_idx 7 (VStr c7) in
  let* c8 := _format_metric cls in
  let* ws := cell ws row_idx 8 (VStr c8) in
  let* c9 := _format_field_metric field "cls_p75" "" in
  let* ws := cell ws row_idx 9 (VStr c9) in
  let* c10 := _format_metric fcp in
  let* ws := cell ws row_idx 10 (VStr c10) in
  let* c11 := _format_metric ttfb in
  let* ws := cell ws row_idx 11 (VStr c11) in
  let* c12 := _format_metric tbt in
  cell ws row_idx 12 (VStr c12).

(** The body of the loop over [psi_results]: one row per strategy. *)
Definition cwv_rows (st : worksheet * nat) (psi : value)
  : res (worksheet * nat) :=
  let '(ws, row_idx) := st in
  let* url := Val.get psi "url" (VStr "") in
  let* strategies := Val.get psi "strategies" (VDict []) in
  let* its := Val.items strategies in
  write_rows (cwv_row url) ws row_idx its.

Definition create_core_web_vitals_sheet (data : value) : res worksheet :=
  let* ws := write_headers ∅ 1 cwv_headers in
  let* psi_results := Val.get data "psi_results" (VList []) in
  let* results := Val.iter psi_results in
  let* '(ws, _) := Val.foldM cwv_rows results (ws, 2%nat) in
  Ok ws.

(** ** Network Analysis *)

Definition network_headers : list string :=
  ["URL"; "Total Requests"; "Transfer (MB)"; "Scripts (count)";
   "Scripts (KB)"; "Images (count)"; "Images (KB)"; "CSS (count)";
   "CSS (KB)"; "Fonts (count)"; "Fonts (KB)"; "Largest Resource"].

(** [a.get(k) or b.get(k, default)]: the second dict is only consulted
    when the first gives nothing true. *)
Definition get_or (a b : value) (k : string) (default : value) : res value :=
  let* x := Val.get a k VNone in
  if truthy x then Ok x else Val.get b k default.

(** [round(d.get("bytes", 0) / 1024, 0)] *)
Definition kb_of (d : value) : res value :=
  let* b := Val.get d "bytes" (VInt 0) in
  let* x := Val.number b in
  Ok (VFloat (round_q (x / 1024)%Q 0)).

(** The text of the largest-resource column. *)
Definition largest_name_of (largest : value) : res string :=
  if truthy largest then
    let* resource := Val.first largest in
    let* sb := Val.get resource "size_bytes" (VInt 0) in
    let* x := Val.number sb in
    let size_kb := (x / 1024)%Q in
    let* u := Val.get resource "url" (VStr "") in
    match u with
    | VStr s =>
        Ok (Str.take 30 (last_segment s) ++ " (" ++ format_0f size_kb ++ "KB)")%string
    | _ => Raise AttributeError
    end
  else Ok "".

(** The body of the loop over [enumerate(network_results, 2)]. *)
Definition network_row (ws : worksheet) (row_idx : nat) (network : value)
  : res worksheet :=
  let* url := Val.get network "url" (VStr "") in
  let* summary := Val.get network "summary" (VDict []) in
  let* by_type := get_or network summary "by_type" (VDict []) in
  let* total_requests := get_or network summary "total_requests" (VInt 0) in
  let* total_bytes := get_or network summary "total_transfer_bytes" (VInt 0) in
  let* largest := Val.get network "largest_resources" (VList []) in
  let* scripts := Val.get by_type "script" (VDict []) in
  let* images := Val.get by_type "image" (VDict []) in
  let* css := Val.get by_type "stylesheet" (VDict []) in
  let* fonts := Val.get by_type "font" (VDict []) in
  let* largest_name := largest_name_of largest in
  let* ws := cell ws row_idx 1 (VStr (sanitize_for_excel url)) in
  let* ws := cell ws row_idx 2 total_requests in
  let* tb := Val.number total_bytes in
  let* ws := cell ws row_idx 3 (VFloat (round_q (tb / 1024 / 1024)%Q 2)) in
  let* c4 := Val.get scripts "count" (VInt 0) in
  let* ws := cell ws row_idx 4 c4 in
  let* c5 := kb_of scripts in
  let* ws := cell ws row_idx 5 c5 in
  let* c6 := Val.get images "count" (VInt 0) in
  let* ws := cell ws row_idx 6 c6 in
  let* c7 := kb_of images in
  let* ws := cell ws row_idx 7 c7 in
  let* c8 := Val.get css "count" (VInt 0) in
  let* ws := cell ws row_idx 8 c8 in
  let* c9 := kb_of css in
  let* ws := cell ws row_idx 9 c9 in
  let* c10 := Val.get fonts "count" (VInt 0) in
  let* ws := cell ws row_idx 10 c10 in
  let* c11 := kb_of fonts in
  let* ws := cell ws row_idx 11 c11 in
  cell ws row_idx 12 (VStr (sanitize_for_excel (VStr largest_name))).

Definition create_network_analysis_sheet (data : value) : res worksheet :=
  let* ws := write_headers ∅ 1 network_headers in
  let* network_results := Val.get data "network_results" (VList []) in
  let* results := Val.iter network_results in
  let* '(ws, _) := write_rows network_row ws 2 results in
  Ok ws.

(** ** Opportunities *)

Definition opportunities_headers : list string :=
  ["URL"; "Strategy"; "Opportunity"; "Est. Savings (ms)";
   "Est. Savings (KB)"; "Description"].

(** The body of the loop over the opportunities of one strategy. *)
Definition opportunity_row (url : value) (strategy_name : string)
    (ws : worksheet) (row_idx : nat) (opp : value) : res worksheet :=
  let* ws := cell ws row_idx 1 (VStr (sanitize_for_excel url)) in
  let* ws := cell ws row_idx 2 (VStr (Str.capitalize strategy_name)) in
  let* t := Val.get opp "title" (VStr "") in
  let* ws := cell ws row_idx 3 (VStr (sanitize_for_excel t)) in
  let* ms := Val.get opp "savings_ms" (VStr "") in
  let* ws := cell ws row_idx 4 ms in
  let* savings_bytes := Val.get opp "savings_bytes" (VInt 0) in
  let* savings_kb :=
    if truthy savings_bytes then
      let* x := Val.number savings_bytes in
      Ok (VFloat (round_q (x / 1024)%Q 1))
    else Ok (VStr "") in
  let* ws := cell ws row_idx 5 savings_kb in
  let* desc := Val.get opp "description" (VStr "") in
  let* n := Val.len desc in
  let* desc :=
    if (200 <? n)%nat then
      match desc with
      | VStr s => Ok (VStr (Str.take 197 s ++ "..."))
      | _ => Raise TypeError
      end
    else Ok desc in
  cell ws row_idx 6 (VStr (sanitize_for_excel desc)).

(** The body of the loop over [strategies.items()]. *)
Definition opportunities_of_strategy (url : value) (st : worksheet * nat)
    (item : string * value) : res (worksheet * nat) :=
  let '(ws, row_idx) := st in
  let '(strategy_name, strategy_data) := item in
  let* opportunities := Val.get strategy_data "opportunities" (VList []) in
  let* opps := Val.iter opportunities in
  write_rows (opportunity_row url strategy_name) ws row_idx opps.

(** The body of the loop over [psi_results]. *)
Definition opportunities_of_psi (st : worksheet * nat) (psi : value)
  : res (worksheet * nat) :=
  let* url := Val.get psi "url" (VStr "") in
  let* strategies := Val.get psi "strategies" (VDict []) in
  let* its := Val.items strategies in
  Val.foldM (opportunities_of_strategy url) its st.

Definition create_opportunities_sheet (data : value) : res worksheet :=
  let* ws := write_headers ∅ 1 opportunities_headers in
  let* psi_results := Val.get data "psi_results" (VList []) in
  let* results := Val.iter psi_results in
  let* '(ws, _) := Val.foldM opportunities_of_psi results (ws, 2%nat) in
  Ok ws.

(** ** The workbook *)

Record Workbook : Type := {
  Summary : worksheet;
  CoreWebVitals : worksheet;
  NetworkAnalysis : worksheet;
  Opportunities : worksheet;
  url_count : nat
}.

(** The four sheets, in their order, and the number of URLs of the
    manifest (the file name and the time stamp are left out). *)
Definition generate_excel (data : value) : res Workbook :=
  let* s := create_summary_sheet data in
  let* c := create_core_web_vitals_sheet data in
  let* n := create_network_analysis_sheet data in
  let* o := create_opportunities_sheet data in
  let* urls := Val.get data "urls" (VList []) in
  let* k := Val.len urls in
  let* k :=
    match k with
    | O =>
        let* psi_results := Val.get data "psi_results" (VList []) in
        Val.len psi_results
    | _ => Ok k
    end in
  Ok {| Summary := s; CoreWebVitals := c; NetworkAnalysis := n;
        Opportunities := o; url_count := k |}.

(** ** The rows as the specification describes them *)

(** The row of a (URL, strategy) pair in the Core Web Vitals sheet: the
    URL, the strategy, the score, and the lab and field columns, the field
    columns being those of [field_cell]. *)
Definition cwv_cells_spec (x : value * (string * value)) (cells : list value)
  : Prop :=
  exists (score : value) (lcp inp cls fcp ttfb tbt : string),
    cells =
    [ VStr (sanitize_for_excel (fst x));
      VStr (Str.capitalize (fst (snd x)));
      score;
      VStr lcp; VStr (field_cell (snd (snd x)) "lcp_p75" "s");
      VStr inp; VStr (field_cell (snd (snd x)) "inp_p75" "ms");
      VStr cls; VStr (field_cell (snd (snd x)) "cls_p75" "");
      VStr fcp; VStr ttfb; VStr tbt ].



(** ** Documents whose values can be written

    Some parts of a document go to a cell as they are, others as their
    text; a strategy goes by its name. Every key may be missing. *)















End Builder.

End GenerateExcel.

(* ===================================================================== *)
(** * Sample documents *)
(* ===================================================================== *)

Module Examples.

(** The digits of an integer. *)
Definition digits (z : Z) : string := NilZero.string_of_int (Z.to_int z).

(** The number of decimals of a denominator that divides a power of ten. *)
Fixpoint decimals (d : positive) (k fuel : nat) : option nat :=
  match fuel with
  | O => None
  | S fuel' =>
      if ((10 ^ Z.of_nat k) mod Zpos d =? 0)%Z then Some k
      else decimals d (S k) fuel'
  end.

(** [n] zeros. *)
Fixpoint zeros (n : nat) : string :=
  match n with O => EmptyString | S n' => String "0" (zeros n') end.

(** The text of a float with a short decimal expansion, as Python prints
    it: 4.2, 0.05, 65.0. *)
Definition float_text (q : Q) : string :=
  let q := Qred q in
  match decimals (Qden q) 0 18 with
  | Some k =>
      let scaled := (Z.abs (Qnum q) * (10 ^ Z.of_nat k / Zpos (Qden q)))%Z in
      let whole := (scaled / 10 ^ Z.of_nat k)%Z in
      let frac := digits (scaled mod 10 ^ Z.of_nat k) in
      ((if (Qnum q <? 0)%Z then "-" else "")
       ++ digits whole ++ "."
       ++ match k with
          | O => "0"
          | _ => zeros (k - String.length frac) ++ frac
          end)%string
  | None => (digits (Qnum q) ++ "/" ++ digits (Zpos (Qden q)))%string
  end.

(** Python's text of a value, for the numbers, [None] and the booleans;
    the text of a container is abridged. *)
Definition repr (v : value) : string :=
  match v with
  | VNone => "None"
  | VBool true => "True"
  | VBool false => "False"
  | VInt z => digits z
  | VFloat q => float_text q
  | VStr s => String "'" (s ++ "'")
  | VList _ => "[...]"
  | VDict _ => "{...}"
  end%string.

(** A metric of the lab normalizer. *)
Definition metric (v : Q) (u band : string) : value :=
  VDict [("value", VFloat v); ("unit", VStr u); ("raw_ms", VFloat v);
         ("status", VStr band)].

(** The field mapping of the origin, the same in every strategy. *)
Definition origin_metrics (lcp : Q) : value :=
  VDict [("lcp_p75", VFloat lcp); ("inp_p75", VInt 150);
         ("cls_p75", VFloat (2 # 100))].

(** Two URLs: the first with lab, field and network data for mobile and
    lab data only for desktop, the second with a bare mobile result. The
    origin-level metrics are there for both strategies of the first. *)
Definition report_with_origin (origin_lcp : Q) : value :=
  VDict
    [ ("urls", VList [VStr "https://a.test/"; VStr "https://a.test/blog"]);
      ("psi_results",
        VList
          [ VDict
              [ ("url", VStr "https://a.test/");
                ("strategies",
                  VDict
                    [ ("mobile",
                        VDict
                          [ ("success", VBool true);
                            ("performance_score", VInt 65);
                            ("core_web_vitals",
                              VDict
                                [ ("lcp", metric (42 # 10) "s" "poor");
                                  ("inp", metric 180 "ms" "good");
                                  ("cls", metric (5 # 100) "" "good") ]);
                            ("field_metrics",
                              VDict
                                [ ("lcp_p75", VFloat (25 # 10));
                                  ("inp_p75", VInt 180);
                                  ("cls_p75", VFloat (5 # 100)) ]);
                            ("origin_field_metrics",
                              origin_metrics origin_lcp);
                            ("opportunities",
                              VList
                                [ VDict
                                    [ ("id", VStr "unused-javascript");
                                      ("title",
                                        VStr "Reduce unused JavaScript");
                                      ("description",
                                        VStr "Remove dead code.");
                                      ("savings_ms", VInt 1200);
                                      ("savings_bytes", VInt 204800) ];
                                  VDict
                                    [ ("id", VStr "render-blocking-resources");
                                      ("title",
                                        VStr "Eliminate render-blocking resources") ] ]) ]);
                      ("desktop",
                        VDict
                          [ ("performance_score", VInt 90);
                            ("field_metrics", VNone);
                            ("origin_field_metrics",
                              origin_metrics origin_lcp) ]) ]) ];
            VDict
              [ ("url", VStr "https://a.test/blog");
                ("strategies",
                  VDict [("mobile", VDict [("performance_score", VInt 80)])]) ] ]);
      ("network_results",
        VList
          [ VDict
              [ ("url", VStr "https://a.test/");
                ("summary",
                  VDict
                    [ ("total_requests", VInt 45);
                      ("total_transfer_bytes", VInt 1524000);
                      ("by_type",
                        VDict
                          [ ("script",
                              VDict [("count", VInt 15);
                                     ("bytes", VInt 500000)]) ]) ]);
                ("largest_resources",
                  VList
                    [ VDict
                        [ ("url", VStr "https://a.test/static/app.js");
                          ("size_bytes", VInt 204800) ] ]) ] ]) ].

Definition report_document : value := report_with_origin (21 # 10).

(** The same document with other origin-level metrics. *)
Definition report_document_other_origin : value :=
  report_with_origin (39 # 10).

(** The first strategy of the first URL. *)
Definition mobile_strategy : value :=
  match GenerateExcel.strategy_rows report_document with
  | (_, (_, sd)) :: _ => sd
  | [] => VNone
  end.




(** An audit of a lab document. *)
Definition audit (t : string) (score : value) (details : list (string * value))
  : value :=
  VDict [("title", VStr t); ("description", VStr ""); ("score", score);
         ("details", VDict details)].

Definition audit_ref (i group : string) : value :=
  VDict [("id", VStr i); ("weight", VInt 0); ("group", VStr group)].

(** A lab document: five audits of the load-opportunities group, one of
    them passing and one without a score, and one diagnostic. *)
Definition lab_document : value :=
  VDict
    [ ("audits",
        VDict
          [ ("unused-css-rules",
              audit "Reduce unused CSS" (VFloat (1 # 2))
                [("overallSavingsMs", VFloat (3005 # 10))]);
            ("uses-text-compression",
              audit "Enable text compression" (VFloat (95 # 100)) []);
            ("unused-javascript",
              audit "Reduce unused JavaScript" (VInt 0)
                [("overallSavingsMs", VInt 900);
                 ("overallSavingsBytes", VInt 2048)]);
            ("uses-rel-preconnect",
              audit "Preconnect to required origins" VNone []);
            ("offscreen-images",
              audit "Defer offscreen images" (VInt 0)
                [("overallSavingsMs", VInt 300)]);
            ("long-tasks",
              audit "Avoid long main-thread tasks" (VInt 0) []) ]);
      ("categories",
        VDict
          [ ("performance",
              VDict
                [ ("score", VFloat (65 # 100));
                  ("auditRefs",
                    VList
                      [ audit_ref "unused-css-rules" "load-opportunities";
                        audit_ref "uses-text-compression" "load-opportunities";
                        audit_ref "unused-javascript" "load-opportunities";
                        audit_ref "uses-rel-preconnect" "load-opportunities";
                        audit_ref "offscreen-images" "load-opportunities";
                        audit_ref "long-tasks" "diagnostics" ]) ]) ]) ].

(** What the lab normalizer makes of it. *)
Definition lab_opportunities : list FetchPsi.Opportunity :=
  [ {| FetchPsi.id := "unused-javascript";
       FetchPsi.title := VStr "Reduce unused JavaScript";
       FetchPsi.description := VStr "";
       FetchPsi.savings_ms := Some 900%Z;
       FetchPsi.savings_bytes := Some (VInt 2048) |};
    {| FetchPsi.id := "unused-css-rules";
       FetchPsi.title := VStr "Reduce unused CSS";
       FetchPsi.description := VStr "";
       FetchPsi.savings_ms := Some 300%Z;
       FetchPsi.savings_bytes := None |};
    {| FetchPsi.id := "offscreen-images";
       FetchPsi.title := VStr "Defer offscreen images";
       FetchPsi.description := VStr "";
       FetchPsi.savings_ms := Some 300%Z;
       FetchPsi.savings_bytes := None |} ].

(** A bucket of a field-metrics histogram. *)
Definition histogram_bucket (density : string) : value :=
  VDict [("start", VInt 0); ("density", VStr density)].

End Examples.

(* ===================================================================== *)
(** * The threshold table and the bands as the specification words them *)
(* ===================================================================== *)

Module Spec.

(** The metric kinds of the specification's threshold table. *)
Inductive kind : Type := LCP | INP | CLS | FCP | TTFB | FID.

Definition kinds : list kind := [LCP; INP; CLS; FCP; TTFB; FID].

(** The kinds the lab-side table of [fetch_psi.py] has an entry for. *)
Definition lab_kinds : list kind := [LCP; INP; CLS; FCP; TTFB].

(** The specification's table: "LCP good 2500 / poor 4000, INP 200 / 500,
    CLS 0.1 / 0.25, FCP 1800 / 3000, TTFB 800 / 1800, FID 100 / 300". *)
Definition spec_good (k : kind) : Q :=
  match k with
  | LCP => 2500 | INP => 200 | CLS => 1 # 10
  | FCP => 1800 | TTFB => 800 | FID => 100
  end.

Definition spec_poor (k : kind) : Q :=
  match k with
  | LCP => 4000 | INP => 500 | CLS => 1 # 4
  | FCP => 3000 | TTFB => 1800 | FID => 300
  end.

(** The name of a kind on the lab side (the display name). *)
Definition lab_key (k : kind) : string :=
  match k with
  | LCP => "lcp" | INP => "inp" | CLS => "cls"
  | FCP => "fcp" | TTFB => "ttfb" | FID => "fid"
  end.

(** The name of a kind on the field side (the provider's metric key). *)
Definition field_key (k : kind) : string :=
  match k with
  | LCP => "largest_contentful_paint"
  | INP => "interaction_to_next_paint"
  | CLS => "cumulative_layout_shift"
  | FCP => "first_contentful_paint"
  | TTFB => "experimental_time_to_first_byte"
  | FID => "first_input_delay"
  end.

(** The specification's policy for a classifier [classify] of one kind:
    good iff [v <= g], needs_improvement iff [g < v <= p], poor otherwise. *)
Definition banded (classify : float -> string) (g p : Q) : Prop :=
  forall v : float,
    (classify v = "good" <-> fle v (Fin g) = true) /\
    (classify v = "needs_improvement" <->
       flt (Fin g) v = true /\ fle v (Fin p) = true) /\
    (classify v = "poor" <->
       fle v (Fin g) = false /\
       ~ (flt (Fin g) v = true /\ fle v (Fin p) = true)).

(** The order of the bands: good < needs_improvement < poor. *)
Definition band_rank (band : string) : nat :=
  if String.eqb band "good" then 0
  else if String.eqb band "needs_improvement" then 1
  else 2.

(** [r] is [q] rounded to [n] decimals: a multiple of [10 ** -n] at most
    half a unit of the last place away. *)
Definition is_rounding (n : nat) (q r : Q) : Prop :=
  (exists z : Z, r == z # scale10 n)%Q /\
  (q - (1 # (2 * scale10 n)) <= r)%Q /\
  (r <= q + (1 # (2 * scale10 n)))%Q.

(** The three-way test both [get_status] functions end in. *)
Definition band_of (good poor : float) (v : float) : string :=
  if fle v good then "good"
  else if fle v poor then "needs_improvement"
  else "poor".

(** What a conversion to [n] decimals in a unit of [c] raw units does to a
    finite raw value: the result is the raw value over [c], rounded. *)
Definition displays (convert : float -> float * string)
    (c : positive) (n : nat) (u : string) : Prop :=
  (forall q : Q, exists r : Q,
      convert (Fin q) = (Fin r, u) /\
      is_rounding n (q / inject_Z (Zpos c)) r) /\
  convert PosInf = (PosInf, u) /\
  convert NegInf = (NegInf, u) /\
  convert NaN = (NaN, u).

End Spec.

Export Spec.

(* ===================================================================== *)
(** * Text of numbers *)
(* ===================================================================== *)

Module Text.

(** [str(n)] for an [int]: its decimal digits, with a minus sign when it
    is negative. *)
Definition of_int (z : Z) : string := NilZero.string_of_int (Z.to_int z).

(** [format(n, "02d")] for an [int]: at least two characters, zero-padded
    (the sign counts as a character). *)
Definition format_02d (z : Z) : string :=
  if (0 <=? z)%Z && (z <? 10)%Z then String "0" (of_int z) else of_int z.

(** [format(v, "02d")] for a value: only an [int] (and a [bool], which is
    one) has the format code [d]. *)
Definition format_02d_value (v : value) : res string :=
  match v with
  | VInt z => Ok (format_02d z)
  | VBool b => Ok (if b then "01" else "00")
  | VFloat _ | VStr _ => Raise ValueError
  | VNone | VList _ | VDict _ => Raise TypeError
  end.

(** The [int] a value is, if it is one. *)
Definition int_of (v : value) : option Z :=
  match v with
  | VInt z => Some z
  | VBool b => Some (if b then 1 else 0)%Z
  | _ => None
  end.

(** [s[n:]] *)
Fixpoint drop (n : nat) (s : string) : string :=
  match n, s with
  | S n', String _ r => drop n' r
  | _, _ => s
  end.

(** Every character of the string passes [p]. *)
Fixpoint all_chars (p : ascii -> bool) (s : string) : bool :=
  match s with
  | String c r => p c && all_chars p r
  | EmptyString => true
  end.

End Text.

(* ===================================================================== *)
(** * fetch_psi.py: the normalizer of a provider response *)
(* ===================================================================== *)

Module Psi.

(** [round(v, ndigits)] on a value of a document: an [int] is returned as
    it is (a [bool] as the [int] it is), a [float] is rounded; nothing
    else can be rounded. *)
Definition round_value (v : value) (ndigits : nat) : res value :=
  match v with
  | VInt z => Ok (VInt z)
  | VBool b => Ok (VInt (if b then 1 else 0))
  | VFloat x => Ok (VFloat (round_q x ndigits))
  | _ => Raise TypeError
  end.

(** [convert_to_display_unit] on a value of a document; on a [float] it
    is [FetchPsi.convert_to_display_unit]. *)
Definition convert_to_display_unit (metric : string) (value_ms : value)
  : res (value * string) :=
  let m := Str.lower metric in
  if String.eqb m "lcp" || String.eqb m "fcp" || String.eqb m "ttfb" then
    let* x := Val.number value_ms in
    Ok (VFloat (round_q (Qred (x / inject_Z 1000)) 2), "s")
  else if String.eqb m "inp" || String.eqb m "tbt" then
    let* r := round_value value_ms 0 in
    Ok (r, "ms")
  else if String.eqb m "cls" then
    let* r := round_value value_ms 3 in
    Ok (r, "")
  else
    let* r := round_value value_ms 2 in
    Ok (r, "ms").

(** [get_status] on a value of a document: the comparisons with the
    thresholds raise unless the value is a number. *)
Definition get_status (metric : string) (v : value) : res string :=
  let* x := Val.number v in
  Ok (FetchPsi.get_status metric (Fin x)).

(** ** Lab metrics *)

(** The dict of one metric; [tbt] and [speed_index] carry no status. *)
Definition metric_entry (v : value) (u : string) (raw : value)
    (status : option string) : value :=
  VDict ([("value", v); ("unit", VStr u); ("raw_ms", raw)]
         ++ match status with Some s => [("status", VStr s)] | None => [] end).

(** One of the seven blocks of [parse_lighthouse_metrics]: when the audit
    is there, its [numericValue] (0 when missing) is converted, classified
    when the block has a status, and stored under [name]. *)
Definition lab_metric (audits : value) (audit_id name : string)
    (convert : value -> res (value * string))
    (status : option (value -> res string))
    (metrics : list (string * value)) : res (list (string * value)) :=
  let* present := Val.contains audits audit_id in
  if present then
    let* audit := Val.getitem audits audit_id in
    let* raw := Val.get audit "numericValue" (VInt 0) in
    let* '(v, u) := convert raw in
    let* st :=
      match status with
      | Some classify => let* s := classify raw in Ok (Some s)
      | None => Ok None
      end in
    Ok (Dict.set metrics name (metric_entry v u raw st))
  else Ok metrics.

(** The seven blocks, in the order of the source: audit, key under which
    the metric is stored, conversion, and classification if any. The
    [cls] block rounds to three decimals itself, with the empty unit. *)
Definition lab_blocks
  : list (string * string * (value -> res (value * string))
          * option (value -> res string)) :=
  [ ("largest-contentful-paint", "lcp",
      convert_to_display_unit "lcp", Some (get_status "lcp"));
    ("experimental-interaction-to-next-paint", "inp",
      convert_to_display_unit "inp", Some (get_status "inp"));
    ("cumulative-layout-shift", "cls",
      (fun cls_value => let* r := round_value cls_value 3 in Ok (r, "")),
      Some (get_status "cls"));
    ("first-contentful-paint", "fcp",
      convert_to_display_unit "fcp", Some (get_status "fcp"));
    ("server-response-time", "ttfb",
      convert_to_display_unit "ttfb", Some (get_status "ttfb"));
    ("total-blocking-time", "tbt",
      convert_to_display_unit "tbt", None);
    ("speed-index", "speed_index",
      convert_to_display_unit "speed_index", None) ].

Definition parse_lighthouse_metrics (lighthouse_result : value) : res value :=
  let* audits := Val.get lighthouse_result "audits" (VDict []) in
  let* metrics :=
    Val.foldM
      (fun metrics '(audit_id, name, convert, status) =>
         lab_metric audits audit_id name convert status metrics)
      lab_blocks [] in
  Ok (VDict metrics).

(** ** Diagnostics *)

Definition diagnostic_ids : list string :=
  [ "largest-contentful-paint-element"; "layout-shift-elements";
    "long-tasks"; "render-blocking-resources"; "unused-javascript";
    "unused-css-rules"; "modern-image-formats"; "uses-responsive-images";
    "offscreen-images" ].

(** [score is None or score < 0.9] *)
Definition has_issue (score : value) : res bool :=
  if is_none score then Ok true
  else
    let* sc := Val.number score in
    Ok (negb (Qle_bool (9 # 10) sc)).

(** The problematic element of a diagnostic: the selector of the node of
    the first item, or else the URL of the first item. *)
Definition with_first_item (diagnostic : list (string * value))
    (items : value) : res (list (string * value)) :=
  if truthy items then
    let* first_item := Val.first items in
    let* has_node := Val.contains first_item "node" in
    if has_node then
      let* node := Val.getitem first_item "node" in
      let* selector := Val.get node "selector" (VStr "") in
      Ok (Dict.set diagnostic "element" selector)
    else
      let* has_url := Val.contains first_item "url" in
      if has_url then
        let* u := Val.getitem first_item "url" in
        Ok (Dict.set diagnostic "resource" u)
      else Ok diagnostic
  else Ok diagnostic.

(** The body of the loop over [diagnostic_ids]: [None] when the audit is
    missing or passes. *)
Definition diagnostic_of (audits : value) (audit_id : string)
  : res (option value) :=
  let* present := Val.contains audits audit_id in
  if negb present then Ok None
  else
    let* audit := Val.getitem audits audit_id in
    let* score := Val.get audit "score" VNone in
    let* issue := has_issue score in
    if issue then
      let* t := Val.get audit "title" (VStr "") in
      let* d := Val.get audit "description" (VStr "") in
      let diagnostic :=
        [("id", VStr audit_id); ("title", t); ("description", d)] in
      let* details := Val.get audit "details" (VDict []) in
      let* items := Val.get details "items" (VList []) in
      let* diagnostic := with_first_item diagnostic items in
      Ok (Some (VDict diagnostic))
    else Ok None.

Definition add_diagnostic (audits : value) (diagnostics : list value)
    (audit_id : string) : res (list value) :=
  let* d := diagnostic_of audits audit_id in
  match d with
  | Some d => Ok (diagnostics ++ [d])
  | None => Ok diagnostics
  end.

Definition parse_diagnostics (lighthouse_result : value)
  : res (list value) :=
  let* audits := Val.get lighthouse_result "audits" (VDict []) in
  Val.foldM (add_diagnostic audits) diagnostic_ids [].

(** ** Field data *)

(** [round(m.get("percentile", 0) / c, n)] *)
Definition scaled_percentile (m : value) (c : positive) (n : nat)
  : res value :=
  let* percentile := Val.get m "percentile" (VInt 0) in
  let* x := Val.number percentile in
  Ok (VFloat (round_q (Qred (x / inject_Z (Zpos c))) n)).

(** A block [if key in metrics: field_data[name] = f(metrics[key])]. *)
Definition field_block (metrics : value) (key name : string)
    (f : value -> res value) (field_data : list (string * value))
  : res (list (string * value)) :=
  let* present := Val.contains metrics key in
  if present then
    let* m := Val.getitem metrics key in
    let* v := f m in
    Ok (Dict.set field_data name v)
  else Ok field_data.

(** Real-user metrics of a loading experience: [None] when there is no
    experience, no metric, or no metric the function knows. *)
Definition parse_field_data (loading_experience : value) : res value :=
  if negb (truthy loading_experience) then Ok VNone
  else
    let* metrics := Val.get loading_experience "metrics" (VDict []) in
    if negb (truthy metrics) then Ok VNone
    else
      let field_data := [] in
      let* field_data :=
        field_block metrics "LARGEST_CONTENTFUL_PAINT_MS" "lcp_p75"
          (fun lcp => scaled_percentile lcp 1000 2) field_data in
      let* has_inp := Val.contains metrics "INTERACTION_TO_NEXT_PAINT" in
      let* field_data :=
        if has_inp then
          let* inp := Val.getitem metrics "INTERACTION_TO_NEXT_PAINT" in
          let* v := Val.get inp "percentile" (VInt 0) in
          Ok (Dict.set field_data "inp_p75" v)
        else
          field_block metrics "FIRST_INPUT_DELAY_MS" "fid_p75"
            (fun fid => Val.get fid "percentile" (VInt 0)) field_data in
      let* field_data :=
        field_block metrics "CUMULATIVE_LAYOUT_SHIFT_SCORE" "cls_p75"
          (fun cls => scaled_percentile cls 100 3) field_data in
      let* field_data :=
        field_block metrics "EXPERIMENTAL_TIME_TO_FIRST_BYTE" "ttfb_p75"
          (fun ttfb => scaled_percentile ttfb 1000 2) field_data in
      let* field_data :=
        field_block metrics "FIRST_CONTENTFUL_PAINT_MS" "fcp_p75"
          (fun fcp => scaled_percentile fcp 1000 2) field_data in
      Ok (if truthy (VDict field_data) then VDict field_data else VNone).

(** ** The result for one strategy *)

(** What the provider answered: the status code, the body as text and
    the body as a parsed document. *)
Record Response : Type := {
  status : Z;
  text : string;
  json : value
}.

(** [round((performance.get("score", 0) or 0) * 100)] *)
Definition performance_score (performance : value) : res value :=
  let* score := Val.get performance "score" (VInt 0) in
  let* x := Val.number (por score (VInt 0)) in
  Ok (VInt (round_half_even (x * 100))).

(** [fetch_psi] from the provider's answer on (the request itself is left
    out): the error dict for a status other than 200, the normalized
    result otherwise. The dict returned is given by its bindings. *)
Definition fetch_psi (strategy : string) (response : Response)
  : res (list (string * value)) :=
  if negb (status response =? 200)%Z then
    Ok [ ("success", VBool false);
         ("strategy", VStr strategy);
         ("error",
           VStr ("API request failed: " ++ Text.of_int (status response)
                 ++ " - " ++ Str.take 200 (text response))) ]
  else
    let data := json response in
    let* lighthouse_result := Val.get data "lighthouseResult" (VDict []) in
    let* categories := Val.get lighthouse_result "categories" (VDict []) in
    let* performance := Val.get categories "performance" (VDict []) in
    let* core_web_vitals := parse_lighthouse_metrics lighthouse_result in
    let* opportunities := FetchPsi.parse_opportunities lighthouse_result in
    let* diagnostics := parse_diagnostics lighthouse_result in
    let* loading_experience := Val.get data "loadingExperience" (VDict []) in
    let* origin_loading_experience :=
      Val.get data "originLoadingExperience" (VDict []) in
    let* field_data := parse_field_data loading_experience in
    let* origin_field_data := parse_field_data origin_loading_experience in
    let* score := performance_score performance in
    Ok [ ("success", VBool true);
         ("strategy", VStr strategy);
         ("performance_score", score);
         ("core_web_vitals", core_web_vitals);
         ("field_data_available", VBool (negb (is_none field_data)));
         ("field_metrics", field_data);
         ("origin_field_metrics", origin_field_data);
         ("opportunities",
           VList (map FetchPsi.opportunity_dict opportunities));
         ("diagnostics", VList diagnostics) ].

(** ** The run over the strategies *)

(** What a call of [fetch_psi] comes to in [main]: the dict it returns, a
    time-out, or any other exception with its text. *)
Inductive attempt : Type :=
| Returned (strategy_result : list (string * value))
| TimedOut
| Failed (message : string).

(** The call of [fetch_psi] as [main] sees it: an exception is caught,
    with its text. *)
Definition attempt_of (message : exn -> string)
    (r : res (list (string * value))) : attempt :=
  match r with
  | Ok strategy_result => Returned strategy_result
  | Raise e => Failed (message e)
  end.

(** The document [main] builds: [success], the strategies fetched so far
    and, after a failure, the error. *)
Record Run : Type := {
  success : bool;
  strategies : list (string * value);
  error : option value
}.

(** [["mobile", "desktop"] if args.strategy == "both" else [args.strategy]] *)
Definition strategies_of (strategy : string) : list string :=
  if String.eqb strategy "both" then ["mobile"; "desktop"] else [strategy].

(** [d.get(k)] on the bindings of a dict. *)
Definition lookup (d : list (string * value)) (k : string) : value :=
  match Dict.get d k with Some v => v | None => VNone end.

(** The loop over the strategies: it stops at the first one that fails. *)
Fixpoint fetch_all (fetch : string -> attempt) (todo : list string)
    (result : Run) : Run :=
  match todo with
  | [] => result
  | strategy :: rest =>
      match fetch strategy with
      | Returned strategy_result =>
          if negb (truthy (lookup strategy_result "success")) then
            {| success := false; strategies := strategies result;
               error := Some (lookup strategy_result "error") |}
          else
            fetch_all fetch rest
              {| success := success result;
                 strategies :=
                   Dict.set (strategies result) strategy
                     (VDict strategy_result);
                 error := error result |}
      | TimedOut =>
          {| success := false; strategies := strategies result;
             error :=
               Some (VStr ("Timeout fetching " ++ strategy ++ " data")) |}
      | Failed message =>
          {| success := false; strategies := strategies result;
             error :=
               Some (VStr ("Error fetching " ++ strategy ++ " data: "
                           ++ message)) |}
      end
  end.

(** The document written by [main], with its keys in the order in which
    they were set. *)
Definition document (url : string) (result : Run) : value :=
  VDict ([ ("success", VBool (success result));
           ("url", VStr url);
           ("strategies", VDict (strategies result)) ]
         ++ match error result with
            | Some e => [("error", e)]
            | None => []
            end).

(** [main]: the document and the exit code. *)
Definition main (url strategy : string) (fetch : string -> attempt)
  : value * Z :=
  let result :=
    fetch_all fetch (strategies_of strategy)
      {| success := true; strategies := []; error := None |} in
  (document url result, if success result then 0%Z else 1%Z).

(** ** What the results are read against *)

(** The audit of a lab document under an identifier, if there is one. *)
Definition audit_of (lighthouse_result : value) (audit_id : string)
  : option value :=
  match Val.get lighthouse_result "audits" (VDict []) with
  | Ok (VDict audits) => Dict.get audits audit_id
  | _ => None
  end.

(** The raw value of an audit: its [numericValue], 0 when it has none. *)
Definition raw_value (audit : value) : value :=
  match Val.get audit "numericValue" (VInt 0) with
  | Ok raw => raw
  | Raise _ => VNone
  end.

(** The audit behind each lab metric. *)
Definition lab_audits : list (string * string) :=
  [ ("largest-contentful-paint", "lcp");
    ("experimental-interaction-to-next-paint", "inp");
    ("cumulative-layout-shift", "cls");
    ("first-contentful-paint", "fcp");
    ("server-response-time", "ttfb");
    ("total-blocking-time", "tbt");
    ("speed-index", "speed_index") ].

(** The name of a block of [lab_blocks]. *)
Definition block_name
    (b : string * string * (value -> res (value * string))
         * option (value -> res string)) : string :=
  snd (fst (fst b)).

(** The outcome of a block for the metrics: the entry of its audit, or no
    entry when the audit is missing. *)
Definition block_outcome (audits : value)
    (b : string * string * (value -> res (value * string))
         * option (value -> res string))
    (o : option value) : Prop :=
  let '(audit_id, name, convert, status) := b in
  match match audits with VDict kv => Dict.get kv audit_id | _ => None end with
  | Some audit =>
      exists v u st,
        convert (raw_value audit) = Ok (v, u) /\
        match status with
        | Some classify => exists s, classify (raw_value audit) = Ok s /\
                                     st = Some s
        | None => st = None
        end /\
        o = Some (metric_entry v u (raw_value audit) st)
  | None => o = None
  end.

(** The lab metrics that carry a status. *)
Definition classified (name : string) : bool :=
  existsb (String.eqb name) ["lcp"; "inp"; "cls"; "fcp"; "ttfb"].

(** The entry of the metric [name] is that of the raw value [raw]: a
    number, displayed as [convert_to_display_unit] converts it, stored as
    it came, and, for a classified metric, with its own band (not that of
    the displayed value). *)
Definition entry_of (name : string) (raw m : value) : Prop :=
  exists (x : Q) (v : value) (u : string),
    as_number raw = Some x /\
    convert_to_display_unit name raw = Ok (v, u) /\
    m = metric_entry v u raw
          (if classified name
           then Some (FetchPsi.get_status name (Fin x))
           else None).

(** The audit is reported as a diagnostic: it has no score, or a score
    which is a number below 0.9. *)
Definition reported (audit : value) : Prop :=
  exists score,
    Val.get audit "score" VNone = Ok score /\ has_issue score = Ok true.

(** The keys a diagnostic can have: the three it always has, and at most
    one of [element] and [resource]. *)
Definition diagnostic_keys : list (list string) :=
  [ ["id"; "title"; "description"];
    ["id"; "title"; "description"; "element"];
    ["id"; "title"; "description"; "resource"] ].

(** The diagnostic [d] is that of the audit [audit_id]. *)
Definition diagnostic_for (lighthouse_result : value) (d : value)
    (audit_id : string) : Prop :=
  exists audit kv,
    audit_of lighthouse_result audit_id = Some audit /\
    reported audit /\
    d = VDict kv /\
    In (Dict.keys kv) diagnostic_keys /\
    Dict.get kv "id" = Some (VStr audit_id) /\
    Val.get audit "title" (VStr "") = Ok (lookup kv "title") /\
    Val.get audit "description" (VStr "") = Ok (lookup kv "description").

(** ** Provider responses of the expected shape

    Every part may be missing; a part that is there has the type the
    provider gives it. *)

Definition wf_item : value -> bool :=
  GenerateExcel.dict_of (fun kv => opt_field kv "node" GenerateExcel.is_dict).

Definition wf_details : value -> bool :=
  GenerateExcel.dict_of (fun kv =>
    opt_field kv "overallSavingsMs" is_number
    && opt_field kv "overallSavingsBytes" (GenerateExcel.none_or is_number)
    && opt_field kv "items" (GenerateExcel.list_of wf_item)).

Definition wf_audit : value -> bool :=
  GenerateExcel.dict_of (fun kv =>
    opt_field kv "score" (GenerateExcel.none_or is_number)
    && opt_field kv "numericValue" is_number
    && opt_field kv "description" GenerateExcel.is_str
    && opt_field kv "details" wf_details).

Definition wf_performance : value -> bool :=
  GenerateExcel.dict_of (fun kv =>
    opt_field kv "score" (GenerateExcel.none_or is_number)
    && opt_field kv "auditRefs" FetchPsi.wf_refs).

Definition wf_lighthouse : value -> bool :=
  GenerateExcel.dict_of (fun kv =>
    opt_field kv "audits"
      (GenerateExcel.dict_of (forallb (fun b => wf_audit (snd b))))
    && opt_field kv "categories"
         (GenerateExcel.dict_of (fun c =>
            opt_field c "performance" wf_performance))).

(** The provider's keys of the field metrics. *)
Definition field_keys : list string :=
  [ "LARGEST_CONTENTFUL_PAINT_MS"; "INTERACTION_TO_NEXT_PAINT";
    "FIRST_INPUT_DELAY_MS"; "CUMULATIVE_LAYOUT_SHIFT_SCORE";
    "EXPERIMENTAL_TIME_TO_FIRST_BYTE"; "FIRST_CONTENTFUL_PAINT_MS" ].

Definition wf_percentile : value -> bool :=
  GenerateExcel.dict_of (fun kv => opt_field kv "percentile" is_number).

Definition wf_experience : value -> bool :=
  GenerateExcel.none_or
    (GenerateExcel.dict_of (fun kv =>
       opt_field kv "metrics"
         (GenerateExcel.dict_of (fun m =>
            forallb (fun k => opt_field m k wf_percentile) field_keys)))).

Definition wf_response : value -> bool :=
  GenerateExcel.dict_of (fun kv =>
    opt_field kv "lighthouseResult" wf_lighthouse
    && opt_field kv "loadingExperience" wf_experience
    && opt_field kv "originLoadingExperience" wf_experience).

(** A block whose conversion and classification return on numbers. *)
Definition block_total
    (b : string * string * (value -> res (value * string))
         * option (value -> res string)) : Prop :=
  let '(_, _, convert, status) := b in
  (forall raw, is_number raw = true -> exists vu, convert raw = Ok vu) /\
  match status with
  | Some classify =>
      forall raw, is_number raw = true -> exists s, classify raw = Ok s
  | None => True
  end.

(** ** The results in the report *)

(** The lab document of a response. *)
Definition lighthouse_of (response : Response) : value :=
  match Val.get (json response) "lighthouseResult" (VDict []) with
  | Ok lighthouse_result => lighthouse_result
  | Raise _ => VNone
  end.

(** The performance category of the lab document of a response. *)
Definition performance_of (response : Response) : value :=
  match Val.get (lighthouse_of response) "categories" (VDict []) with
  | Ok categories =>
      match Val.get categories "performance" (VDict []) with
      | Ok performance => performance
      | Raise _ => VNone
      end
  | Raise _ => VNone
  end.

(** The collected data of one URL analysed with one strategy. *)
Definition collected (url strategy : string)
    (strategy_result : list (string * value)) : value :=
  VDict
    [ ("psi_results",
        VList
          [ VDict [ ("url", VStr url);
                    ("strategies",
                      VDict [(strategy, VDict strategy_result)]) ] ]) ].

(** The status of a raw value as the Summary sheet words it, by the
    thresholds of the metric. *)
Definition status_label (k : kind) (x : Q) : string :=
  if Qle_bool x (spec_good k) then "Good"
  else if Qle_bool x (spec_poor k) then "Needs Improvement"
  else "Poor".

(** The columns of the Summary sheet that hold a status: column, metric,
    and the audit behind it. *)
Definition status_columns : list (nat * kind * string) :=
  [ (4%nat, LCP, "largest-contentful-paint");
    (5%nat, INP, "experimental-interaction-to-next-paint");
    (6%nat, CLS, "cumulative-layout-shift") ].

(** The metric of a mapping of metrics under a key. *)
Definition metric_of (metrics : value) (key : string) : option value :=
  match metrics with
  | VDict m => Dict.get m key
  | _ => None
  end.

(** The metrics of the page-level field data of a response, when it has
    field data. *)
Definition field_metrics_of (response : Response) : value :=
  match Val.get (json response) "loadingExperience" (VDict []) with
  | Ok loading_experience =>
      if truthy loading_experience then
        match Val.get loading_experience "metrics" (VDict []) with
        | Ok metrics => if truthy metrics then metrics else VNone
        | Raise _ => VNone
        end
      else VNone
  | Raise _ => VNone
  end.




(** The 75th percentile the provider gives for a field metric of the
    page, 0 when the metric has none. *)
Definition field_percentile (response : Response) (key : string)
  : option value :=
  match metric_of (field_metrics_of response) key with
  | Some metric =>
      match Val.get metric "percentile" (VInt 0) with
      | Ok p => Some p
      | Raise _ => None
      end
  | None => None
  end.

(** The columns of the Core Web Vitals sheet that hold a lab metric:
    column, audit and key of the metric. *)
Definition lab_columns : list (nat * string * string) :=
  [ (4%nat, "largest-contentful-paint", "lcp");
    (6%nat, "experimental-interaction-to-next-paint", "inp");
    (8%nat, "cumulative-layout-shift", "cls");
    (10%nat, "first-contentful-paint", "fcp");
    (11%nat, "server-response-time", "ttfb");
    (12%nat, "total-blocking-time", "tbt") ].

(** The attempt went through: a dict came back, with a true [success]. *)
Definition succeeded (a : attempt) : bool :=
  match a with
  | Returned strategy_result => truthy (lookup strategy_result "success")
  | _ => false
  end.

End Psi.

(* ===================================================================== *)
(** * fetch_crux.py: the records of the field data provider *)
(* ===================================================================== *)

Module Crux.

(** The entry of one metric of [parse_crux_metrics]. The percentile comes
    from [float(...)] of a string of the provider, which can be an
    infinity or a NaN. *)
Record metric : Type := {
  p75 : float;
  p75_raw : float;
  unit : string;
  status : string;
  distribution : list (string * float)
}.

(** The body of the loop of [parse_crux_metrics]. *)
Definition parse_metric (parsed : list (string * metric))
    (item : string * value) : res (list (string * metric)) :=
  let '(metric_key, metric_data) := item in
  let metric_key_lower := Str.lower metric_key in
  match Dict.get FetchCrux.METRIC_DISPLAY_NAMES metric_key_lower with
  | None => Ok parsed
  | Some display_name =>
      let* percentiles := Val.get metric_data "percentiles" (VDict []) in
      let* p := Val.get percentiles "p75" (VInt 0) in
      let* p75_raw := Val.to_float p in
      let '(p75_display, unit) :=
        FetchCrux.convert_p75 metric_key_lower p75_raw in
      let* histogram := Val.get metric_data "histogram" (VList []) in
      let* distribution := FetchCrux.parse_histogram histogram in
      let status := FetchCrux.get_status metric_key_lower p75_raw in
      Ok (Dict.set parsed display_name
            {| p75 := p75_display; p75_raw := p75_raw; unit := unit;
               status := status; distribution := distribution |})
  end.

(** Parse a record of the provider into structured metrics. *)
Definition parse_crux_metrics (record : value)
  : res (list (string * metric)) :=
  let* metrics_data := Val.get record "metrics" (VDict []) in
  let* its := Val.items metrics_data in
  Val.foldM parse_metric its [].

(** What [fetch_crux] returns: one of its three shapes of dict. *)
Inductive outcome : Type :=
| Failure (error : string)
| NotInCrux (query_type query_value form_factor : string)
| Found (query_type query_value form_factor : string)
        (first_date last_date : string) (metrics : list (string * metric)).

(** The [success] key of the dict. *)
Definition success (o : outcome) : bool :=
  match o with
  | Failure _ => false
  | NotInCrux _ _ _ | Found _ _ _ _ _ _ => true
  end.

(** An argument that is given and not empty. *)
Definition given (s : option string) : bool :=
  match s with
  | Some s => negb (String.eqb s "")
  | None => false
  end.

(** The request that is posted: its URL and the keys of its body. *)
Record Request : Type := {
  request_url : string;
  body : list (string * string)
}.

(** What comes of the request: an answer of the provider, the time-out of
    the session, or another exception of the client (which includes an
    answer whose body cannot be read). *)
Inductive reply : Type :=
| Answered (response : Psi.Response)
| TimedOut
| Broken (message : string).

(** How a call ends when it does not return. *)
Inductive failure : Type :=
| Timeout
| Raised (e : exn)
| Error (message : string).

Definition base_url : string :=
  "https://chromeuxreport.googleapis.com/v1/records:queryRecord".

(** The text of an argument that is given. *)
Definition text_of (s : option string) : string :=
  match s with Some s => s | None => "" end.

(** The query of a call: what is asked for, and under which key. The URL
    goes before the origin. *)
Definition query_of (url origin : option string) : option (string * string) :=
  if given url then Some ("url", text_of url)
  else if given origin then Some ("origin", text_of origin)
  else None.

(** The request of a call that has a query. *)
Definition request_of (query : string * string) (form_factor : string)
    (api_key : option string) : Request :=
  let body := [query] in
  let body :=
    if negb (String.eqb form_factor "ALL_FORM_FACTORS")
    then Dict.set body "formFactor" form_factor
    else body in
  {| request_url :=
       (if given api_key then base_url ++ "?key=" ++ text_of api_key
        else base_url)%string;
     body := body |}.

Section Formatting.

Variable repr : value -> string.

(** A date of the collection period, as the f-string writes it: the year
    as it is, the month and the day with the format code [02d]. *)
Definition date_text (date : value) : res string :=
  let* year := Val.get date "year" (VStr "") in
  let* month := Val.get date "month" (VStr "") in
  let* mm := Text.format_02d_value month in
  let* day := Val.get date "day" (VStr "") in
  let* dd := Text.format_02d_value day in
  Ok (GenerateExcel.py_str repr year ++ "-" ++ mm ++ "-" ++ dd)%string.

(** What [fetch_crux] does with the answer to its request. *)
Definition read_answer (query : string * string) (form_factor : string)
    (response : Psi.Response) : res outcome :=
  if (Psi.status response =? 404)%Z then
    Ok (NotInCrux (fst query) (snd query) form_factor)
  else if negb (Psi.status response =? 200)%Z then
    Ok (Failure ("API request failed: " ++ Text.of_int (Psi.status response)
                 ++ " - " ++ Str.take 200 (Psi.text response))%string)
  else
    let data := Psi.json response in
    let* record := Val.get data "record" (VDict []) in
    let* collection_period := Val.get record "collectionPeriod" (VDict []) in
    let* first_date := Val.get collection_period "firstDate" (VDict []) in
    let* last_date := Val.get collection_period "lastDate" (VDict []) in
    let* first := date_text first_date in
    let* last := date_text last_date in
    let* metrics := parse_crux_metrics record in
    Ok (Found (fst query) (snd query) form_factor first last metrics).

(** Fetch the field data of a URL or of an origin. *)
Definition fetch_crux (url origin : option string) (form_factor : string)
    (api_key : option string) (post : Request -> reply)
  : failure + outcome :=
  match query_of url origin with
  | None => inr (Failure "Either --url or --origin is required")
  | Some query =>
      match post (request_of query form_factor api_key) with
      | Answered response =>
          match read_answer query form_factor response with
          | Ok o => inr o
          | Raise e => inl (Raised e)
          end
      | TimedOut => inl Timeout
      | Broken message => inl (Error message)
      end
  end.

(** The entry point: the result that is written, and the exit code. The
    key of the environment stands in when the option is not given. *)
Definition main (message : exn -> string) (url origin : option string)
    (form_factor : string) (api_key environment_key : option string)
    (post : Request -> reply) : outcome * Z :=
  if negb (given url) && negb (given origin) then
    (Failure "Either --url or --origin is required", 1%Z)
  else
    let api_key := if given api_key then api_key else environment_key in
    let result :=
      match fetch_crux url origin form_factor api_key post with
      | inr result => result
      | inl Timeout => Failure "Request timed out"
      | inl (Raised e) => Failure (message e)
      | inl (Error message) => Failure message
      end in
    (result, if success result then 0%Z else 1%Z).

End Formatting.

(** The metric of the provider behind each name of the result. *)
Definition metric_keys : list (string * string) :=
  map (fun '(key, name) => (name, key)) FetchCrux.METRIC_DISPLAY_NAMES.

(** The raw percentile of a metric of the provider: [float] of its
    [p75], 0 when it has none. *)
Definition raw_p75 (metric_data : value) : res float :=
  let* percentiles := Val.get metric_data "percentiles" (VDict []) in
  let* p := Val.get percentiles "p75" (VInt 0) in
  Val.to_float p.

(** The entry of [name] is that of the data of the metric [key]. *)
Definition entry_of (key : string) (metric_data : value) (m : metric)
  : Prop :=
  exists raw,
    raw_p75 metric_data = Ok raw /\
    p75_raw m = raw /\
    (p75 m, unit m) = FetchCrux.convert_p75 key raw /\
    status m = FetchCrux.get_status key raw /\
    exists histogram,
      Val.get metric_data "histogram" (VList []) = Ok histogram /\
      FetchCrux.parse_histogram histogram = Ok (distribution m).

End Crux.

(* ===================================================================== *)
(** * capture_network.py: the waterfall and the views of the trace *)
(* ===================================================================== *)

Module Trace.

Import CaptureNetwork.

(** [sorted(l, key=key)] for a key that is a [float]: the sort is stable
    and compares keys with [<] only, so insertion sort stands for it as
    long as no key is a NaN. An element goes in front of the first one
    whose key is not smaller than its own. *)
Fixpoint insert_asc {A : Type} (key : A -> float) (x : A) (l : list A)
  : list A :=
  match l with
  | [] => [x]
  | y :: r =>
      if flt (key y) (key x) then y :: insert_asc key x r
      else x :: y :: r
  end.

Definition sorted_asc {A : Type} (key : A -> float) (l : list A) : list A :=
  foldr (insert_asc key) [] l.

(** One entry of [waterfall]. *)
Record WaterfallEntry : Type := {
  w_url : string;
  w_type : string;
  w_start_time : float;
  w_duration_ms : float;
  w_size_bytes : Z;
  w_status : Z
}.

Definition waterfall_entry (r : RequestData) : WaterfallEntry :=
  {| w_url := url r;
     w_type := resource_type r;
     w_start_time := round_nd (start_time r) 0;
     w_duration_ms := round_nd (duration_ms r) 0;
     w_size_bytes := size_bytes r;
     w_status := status r |}.

(** [sorted(requests_list, key=lambda r: r.start_time)[:100]] *)
Definition sorted_by_time (requests_list : list RequestData)
  : list RequestData :=
  firstn 100 (sorted_asc start_time requests_list).

Definition waterfall_of (requests_list : list RequestData)
  : list WaterfallEntry :=
  map waterfall_entry (sorted_by_time requests_list).

(** The waterfall of a capture. *)
Definition waterfall (events : list event)
    (resource_timing : list timing_entry) : list WaterfallEntry :=
  waterfall_of (Dict.values (request_map_of events resource_timing)).

(** The error of a capture that failed: the text of the exception, or the
    navigation time-out when the text mentions one. *)
Definition error_of (message : string) (timeout : Z) : string :=
  if Str.is_substring "Timeout" message
  then ("Navigation timeout: page did not load within "
        ++ Text.of_int timeout ++ "ms")%string
  else message.

(** A key that can be compared. *)
Definition is_nan (x : float) : bool :=
  match x with NaN => true | _ => false end.

(** Ascending by key. *)
Definition ascending {A : Type} (key : A -> float) (l : list A) : Prop :=
  StronglySorted (fun a b => fle (key a) (key b) = true) l.

(** The simplified categories of a resource. *)
Definition categories : list string :=
  ["document"; "script"; "stylesheet"; "image"; "font"; "xhr"; "media";
   "websocket"; "other"].

(** The records of one category. *)
Definition of_type (t : string) (requests_list : list RequestData)
  : list RequestData :=
  List.filter (fun r => String.eqb (resource_type r) t) requests_list.

(** A record that counts as blocking: a stylesheet or a script that
    started in the first half second. *)
Definition is_blocking (req : RequestData) : bool :=
  (String.eqb (resource_type req) "stylesheet"
   || String.eqb (resource_type req) "script")
  && flt (start_time req) (Fin 500).

(** ** The document of a capture *)

Section Document.

(** A float as the JSON text of the result gives it back. *)
Variable number : float -> value.

Definition bucket_dict (b : bucket) : value :=
  VDict [("count", VInt (count b)); ("bytes", VInt (bytes b))].

Definition by_type_dict (by_type : list (string * bucket)) : value :=
  VDict (map (fun kb => (fst kb, bucket_dict (snd kb))) by_type).

Definition summary_dict (s : Summary) : value :=
  VDict
    [ ("total_requests", VInt (Z.of_nat (total_requests s)));
      ("total_transfer_bytes", VInt (total_transfer_bytes s));
      ("total_transfer_mb", number (total_transfer_mb s));
      ("by_type", by_type_dict (by_type s)) ].

Definition largest_dict (l : LargestResource) : value :=
  VDict
    [ ("url", VStr (l_url l));
      ("type", VStr (l_type l));
      ("size_bytes", VInt (l_size_bytes l));
      ("size_kb", number (l_size_kb l));
      ("duration_ms", number (l_duration_ms l)) ].

Definition blocking_dict (b : BlockingResource) : value :=
  VDict
    [ ("url", VStr (b_url b));
      ("type", VStr (b_type b));
      ("size_bytes", VInt (b_size_bytes b));
      ("blocks", VStr (b_blocks b)) ].

Definition waterfall_dict (w : WaterfallEntry) : value :=
  VDict
    [ ("url", VStr (w_url w));
      ("type", VStr (w_type w));
      ("start_time", number (w_start_time w));
      ("duration_ms", number (w_duration_ms w));
      ("size_bytes", VInt (w_size_bytes w));
      ("status", VInt (w_status w)) ].

(** [timing.get(k, 0)] on the object the page returned. *)
Definition timing_get (timing : list (string * value)) (k : string) : value :=
  match Dict.get timing k with Some v => v | None => VInt 0 end.

(** The dict a successful capture returns. *)
Definition document (url : string) (timing : list (string * value))
    (events : list event) (resource_timing : list timing_entry) : value :=
  let c := capture_network events resource_timing in
  VDict
    [ ("success", VBool true);
      ("url", VStr url);
      ("timing",
        VDict
          [ ("navigation_start", VInt 0);
            ("time_to_first_byte", timing_get timing "time_to_first_byte");
            ("dom_interactive", timing_get timing "dom_interactive_time");
            ("dom_content_loaded",
              timing_get timing "dom_content_loaded_time");
            ("load_event", timing_get timing "total_load_time_ms");
            ("total_load_time_ms", timing_get timing "total_load_time_ms") ]);
      ("summary", summary_dict (summary c));
      ("largest_resources", VList (map largest_dict (largest_resources c)));
      ("blocking_resources",
        VList (map blocking_dict (blocking_resources c)));
      ("waterfall",
        VList (map waterfall_dict (waterfall events resource_timing))) ].

(** The dict a failed capture returns. *)
Definition failure_document (url message : string) (timeout : Z) : value :=
  VDict
    [ ("success", VBool false);
      ("url", VStr url);
      ("error", VStr (error_of message timeout)) ].

End Document.

(** The columns of the Network Analysis sheet that hold the count of a
    category; the kilobytes of the category are in the next column. *)
Definition count_columns : list (nat * string) :=
  [ (4%nat, "script"); (6%nat, "image"); (8%nat, "stylesheet");
    (10%nat, "font") ].

(** The buckets hold, for each category seen, the number and the sizes
    of its records, and no bucket is empty. *)
Definition buckets_of (by_type : list (string * bucket))
    (requests_list : list RequestData) : Prop :=
  NoDup (Dict.keys by_type) /\
  forall t,
    match Dict.get by_type t with
    | Some b =>
        count b = Z.of_nat (List.length (of_type t requests_list)) /\
        bytes b = sum_sizes (of_type t requests_list) /\
        of_type t requests_list <> []
    | None => of_type t requests_list = []
    end.

End Trace.

(* ===================================================================== *)
(** * generate_excel.py: the entry point *)
(* ===================================================================== *)

Module Report.

Import GenerateExcel.

(** No character of the text is one the workbook format forbids. *)
Definition legal_text (s : string) : bool :=
  Text.all_chars (fun c => negb (illegal c)) s.

(** What reading the data file gives: the parsed document, no file, or a
    text that is not JSON. *)
Inductive read : Type :=
| Loaded (data : value)
| NotFound
| Malformed (message : string).

(** What is printed: the error, or the manifest of the workbook. *)
Inductive outcome : Type :=
| Failed (error : string)
| Generated (wb : Workbook).

Section Main.

Variable repr : value -> string.

(** The text of an exception. *)
Variable message : exn -> string.

(** The entry point: what is printed and the exit code. An exception of
    the validation is not caught. The file of the workbook is taken to
    be written: the exceptions [generate_excel] is guarded against are
    those of the sheets, the refusal of a value by a cell among them. *)
Definition main (path : string) (file : read) : res (outcome * Z) :=
  match file with
  | NotFound =>
      Ok (Failed ("Failed to read data file: File not found: " ++ path)%string,
          1%Z)
  | Malformed text =>
      Ok (Failed ("Failed to parse JSON data: " ++ text)%string, 1%Z)
  | Loaded data =>
      let* psi_results := Val.get data "psi_results" (VList []) in
      let* network_results := Val.get data "network_results" (VList []) in
      if negb (truthy psi_results) then
        let* psi_files := Val.get data "psi_files" VNone in
        if truthy psi_files then
          Ok (Failed
                ("Invalid data format: 'psi_files' found but 'psi_results' is missing. "
                 ++ "The collected_data.json must contain actual PSI data inline in 'psi_results', "
                 ++ "not file path references. Read each PSI JSON file and include the data directly.")%string,
              1%Z)
        else
          Ok (Failed
                ("No PSI results found in data. The 'psi_results' array is empty. "
                 ++ "Ensure collected_data.json contains PSI data before running Excel generation.")%string,
              1%Z)
      else
        match generate_excel repr data with
        | Ok wb => Ok (Generated wb, 0%Z)
        | Raise e =>
            Ok (Failed ("Failed to generate Excel report: " ++ message e)%string,
                1%Z)
        end
  end.

End Main.

End Report.

(* ===================================================================== *)
(** * analyzer: the request, the agent's messages and the report *)
(* ===================================================================== *)

Module Analyzer.

(** ** models.py *)

(** A URL with its template type, empty when it has none. *)
Record UrlTemplate : Type := {
  url : string;
  template_type : string
}.

Definition get_urls (url_templates : list UrlTemplate) : list string :=
  map url url_templates.

(** The dict comprehension of [get_template_mapping]: the items with a
    template type, each written under its URL. *)
Definition get_template_mapping (url_templates : list UrlTemplate)
  : list (string * string) :=
  fold_left
    (fun mapping item =>
       if negb (String.eqb (template_type item) "")
       then Dict.set mapping (url item) (template_type item)
       else mapping)
    url_templates [].

(** ** client.py *)

(** A result message of the agent; the cost is a finite number. *)
Record ResultMessage : Type := {
  result : option string;
  session_id : option string;
  total_cost_usd : option Q;
  duration_ms : option Z;
  num_turns : option Z;
  is_error : bool
}.

(** A message of the stream: only a result message is looked at. *)
Inductive message : Type :=
| Result (m : ResultMessage)
| Other.

Record ClaudeCodeResult : Type := {
  r_result : string;
  r_session_id : option string;
  r_total_cost_usd : option Q;
  r_duration_ms : option Z;
  r_num_turns : option Z;
  r_is_error : bool
}.

(** The variables of the loop. *)
Record state : Type := {
  current : ClaudeCodeResult;
  result_captured : bool
}.

Definition initial : state :=
  {| current :=
       {| r_result := ""; r_session_id := None; r_total_cost_usd := None;
          r_duration_ms := None; r_num_turns := None; r_is_error := false |};
     result_captured := false |}.

(** [msg_cost is None or msg_cost == 0] *)
Definition cost_free (cost : option Q) : bool :=
  match cost with
  | None => true
  | Some q => Qeq_bool q 0
  end.

(** [message.result or ""] *)
Definition text_of (result : option string) : string :=
  match result with Some s => s | None => "" end.

(** The body of the loop over the messages. *)
Definition step (st : state) (msg : message) : state :=
  match msg with
  | Other => st
  | Result m =>
      let msg_is_error := is_error m in
      let msg_cost := total_cost_usd m in
      let msg_result := text_of (result m) in
      if result_captured st && msg_is_error && cost_free msg_cost then st
      else
        {| current :=
             {| r_result := msg_result;
                r_session_id := session_id m;
                r_total_cost_usd := msg_cost;
                r_duration_ms := duration_ms m;
                r_num_turns := num_turns m;
                r_is_error := msg_is_error |};
           result_captured :=
             if negb msg_is_error
                && (negb (cost_free msg_cost)
                    || negb (String.eqb msg_result ""))
             then true
             else result_captured st |}
  end.

(** The query: the messages the stream delivers and, when it ends with
    an exception, the text of the exception. *)
Definition run_claude_code (messages : list message) (raised : option string)
  : ClaudeCodeResult :=
  match raised with
  | Some e =>
      {| r_result := ("Error: " ++ e)%string; r_session_id := None;
         r_total_cost_usd := None; r_duration_ms := None;
         r_num_turns := None; r_is_error := true |}
  | None => current (fold_left step messages initial)
  end.

(** ** engine.py *)

(** [\w] on a character of ASCII text. *)
Definition is_word (c : ascii) : bool :=
  let n := nat_of_ascii c in
  ((48 <=? n)%nat && (n <=? 57)%nat)
  || ((65 <=? n)%nat && (n <=? 90)%nat)
  || ((97 <=? n)%nat && (n <=? 122)%nat)
  || (n =? 95)%nat.

(** The class [[./\w-]]. *)
Definition in_class (c : ascii) : bool :=
  is_word c || Ascii.eqb c "." || Ascii.eqb c "/" || Ascii.eqb c "-".

(** The match of [[./\w-]+\.xlsx] at the start of the text: the repetition
    is greedy, so the longest run of the class that the suffix can follow
    is tried first. *)
Fixpoint match_here (s : string) : option string :=
  match s with
  | String c r =>
      if in_class c then
        match match_here r with
        | Some m => Some (String c m)
        | None =>
            if String.prefix ".xlsx" r then Some (String c ".xlsx") else None
        end
      else None
  | EmptyString => None
  end.

(** [re.search]: the match at the leftmost position that has one. *)
Fixpoint search (s : string) : option string :=
  match match_here s with
  | Some m => Some m
  | None =>
      match s with
      | String _ r => search r
      | EmptyString => None
      end
  end.

Definition _extract_excel_path (markdown : string) : option string :=
  search markdown.

(** What [analyze_pages] returns (the path of the saved report is left
    out). *)
Record Analysis : Type := {
  markdown : string;
  excel_path : option string;
  cost_usd : Q;
  duration_sec : Q
}.

(** [analyze_pages] from the result of the agent on: the text of the
    [RuntimeError] it raises, or what it returns. The cost table is that
    of [_build_cost_table]. *)
Definition analyze_result (cost_table : string) (result : ClaudeCodeResult)
  : string + Analysis :=
  if r_is_error result then
    inl ("Page speed analysis failed: " ++ r_result result)%string
  else if String.prefix "SKILL_EXECUTION_FAILED:" (Str.strip (r_result result))
  then inl ("Skill execution failed: " ++ r_result result)%string
  else
    let raw_markdown := r_result result in
    let excel_path := _extract_excel_path raw_markdown in
    if (String.length raw_markdown <? 500)%nat then
      inl "Report too short - analysis may have failed"
    else
      inr {| markdown :=
               (cost_table
                ++ String "010" (String "010" raw_markdown))%string;
             excel_path := excel_path;
             cost_usd :=
               match r_total_cost_usd result with
               | Some q => if Qeq_bool q 0 then 0 else q
               | None => 0
               end;
             duration_sec :=
               (match r_duration_ms result with
                | Some z => if (z =? 0)%Z then 0 else inject_Z z
                | None => 0
                end / 1000)%Q |}.

(** A run of the class followed by the suffix is at the start of the
    text. *)
Definition matches_at (s run : string) : Prop :=
  run <> "" /\ Text.all_chars in_class run = true /\
  String.prefix (run ++ ".xlsx") s = true.

(** The messages the loop passes over once a result is captured: errors
    with no cost. *)
Definition late_error (msg : message) : bool :=
  match msg with
  | Result m => is_error m && cost_free (total_cost_usd m)
  | Other => true
  end.

(** A result that was captured is kept unless a result that is no error,
    or an error with a cost, replaces it. *)
Definition settled (st : state) : Prop :=
  result_captured st = true /\
  (r_is_error (current st) = true ->
   cost_free (r_total_cost_usd (current st)) = false).

End Analyzer.

(* ===================================================================== *)
(** * More sample documents *)
(* ===================================================================== *)

Module Samples.

(** An audit of a lab metric. *)
Definition metric_audit (x : value) : value :=
  VDict [("score", VFloat (1 # 2)); ("numericValue", x)].

(** A lab document: four metric audits (the largest paint at 2500.4 ms),
    two opportunities, one of which is a diagnostic audit too, and a
    diagnostic audit with no score. *)
Definition lighthouse_result : value :=
  VDict
    [ ("audits",
        VDict
          [ ("largest-contentful-paint", metric_audit (VFloat (25004 # 10)));
            ("cumulative-layout-shift", metric_audit (VFloat (5 # 100)));
            ("total-blocking-time", metric_audit (VInt 180));
            ("speed-index", VDict [("score", VInt 1)]);
            ("unused-javascript",
              Examples.audit "Reduce unused JavaScript" (VInt 0)
                [ ("overallSavingsMs", VInt 900);
                  ("overallSavingsBytes", VInt 2048);
                  ("items",
                    VList [VDict [("url", VStr "https://a.test/app.js")]]) ]);
            ("uses-text-compression",
              Examples.audit "Enable text compression" (VFloat (1 # 2))
                [("overallSavingsMs", VInt 150)]);
            ("largest-contentful-paint-element",
              Examples.audit "Largest Contentful Paint element" VNone
                [ ("items",
                    VList
                      [VDict [("node", VDict [("selector", VStr "img.hero")]);
                              ("url", VStr "https://a.test/hero.jpg")]]) ]);
            ("long-tasks",
              Examples.audit "Avoid long main-thread tasks" (VInt 1) []) ]);
      ("categories",
        VDict
          [ ("performance",
              VDict
                [ ("score", VFloat (65 # 100));
                  ("auditRefs",
                    VList
                      [ Examples.audit_ref "unused-javascript"
                          "load-opportunities";
                        Examples.audit_ref "uses-text-compression"
                          "load-opportunities";
                        Examples.audit_ref "long-tasks" "diagnostics" ]) ]) ]) ].

(** Field data without the interaction metric: the first-input delay is
    the fallback. *)
Definition loading_experience : value :=
  VDict
    [ ("id", VStr "https://a.test/");
      ("metrics",
        VDict
          [ ("LARGEST_CONTENTFUL_PAINT_MS", VDict [("percentile", VInt 2512)]);
            ("FIRST_INPUT_DELAY_MS", VDict [("percentile", VInt 12)]);
            ("CUMULATIVE_LAYOUT_SHIFT_SCORE", VDict [("percentile", VInt 5)]);
            ("ROUND_TRIP_TIME", VDict [("percentile", VInt 110)]) ]) ].

(** The provider's answer for a page with field data of its own and
    none for its origin. *)
Definition response : Psi.Response :=
  {| Psi.status := 200;
     Psi.text := "";
     Psi.json :=
       VDict
         [ ("id", VStr "https://a.test/");
           ("lighthouseResult", lighthouse_result);
           ("loadingExperience", loading_experience);
           ("originLoadingExperience", VDict []) ] |}.

(** The text of an exception, abridged. *)
Definition message (e : exn) : string :=
  match e with
  | AttributeError => "AttributeError"
  | TypeError => "TypeError"
  | KeyError => "KeyError"
  | IndexError => "IndexError"
  | ValueError => "ValueError"
  | IllegalCharacterError => "IllegalCharacterError"
  end.

(** A run in which the first strategy comes back and the second times
    out. *)
Definition mobile_only (strategy : string) : Psi.attempt :=
  if String.eqb strategy "mobile"
  then Psi.attempt_of message (Psi.fetch_psi strategy response)
  else Psi.TimedOut.

(** A record of the field data provider: two known metrics, with the
    percentiles as the strings the provider sends, and one it does not
    read. *)
Definition crux_record : value :=
  VDict
    [ ("key", VDict [("url", VStr "https://a.test/")]);
      ("metrics",
        VDict
          [ ("largest_contentful_paint",
              VDict
                [ ("histogram",
                    VList [ VDict [("density", VStr "0.8123")];
                            VDict [("density", VStr "0.15")];
                            VDict [("density", VStr "0.0377")] ]);
                  ("percentiles", VDict [("p75", VInt 2512)]) ]);
            ("cumulative_layout_shift",
              VDict [("percentiles", VDict [("p75", VStr "0.12")])]);
            ("round_trip_time", VInt 3) ]);
      ("collectionPeriod",
        VDict
          [ ("firstDate",
              VDict [("year", VInt 2025); ("month", VInt 1); ("day", VInt 5)]);
            ("lastDate",
              VDict [("year", VInt 2025); ("month", VInt 2);
                     ("day", VInt 1)]) ]) ].

(** What the handlers see while a page loads three resources, one of
    them requested twice, and the timing entries read after the load: the
    script has none. *)
Definition events : list CaptureNetwork.event :=
  [ CaptureNetwork.Request "https://a.test/" "document";
    CaptureNetwork.Response "https://a.test/" 200 false (Some "5120");
    CaptureNetwork.Request "https://a.test/site.css" "stylesheet";
    CaptureNetwork.Request "https://a.test/app.js" "script";
    CaptureNetwork.Response "https://a.test/app.js" 200 false (Some "2048");
    CaptureNetwork.Request "https://a.test/site.css" "stylesheet";
    CaptureNetwork.Response "https://a.test/site.css" 200 false None ].

Definition resource_timing : list CaptureNetwork.timing_entry :=
  [ {| CaptureNetwork.name := "https://a.test/site.css";
       CaptureNetwork.entry_start_time := Fin (1205 # 2);
       CaptureNetwork.duration := Fin 40;
       CaptureNetwork.transfer_size := 0;
       CaptureNetwork.encoded_body_size := 3072 |};
    {| CaptureNetwork.name := "https://a.test/";
       CaptureNetwork.entry_start_time := Fin 3;
       CaptureNetwork.duration := Fin 120;
       CaptureNetwork.transfer_size := 6000;
       CaptureNetwork.encoded_body_size := 5120 |} ].

End Samples.

(* ===================================================================== *)
(** * Properties *)
(* ===================================================================== *)

(** ** Comparison and rounding *)

(** Split a [Forall] over an explicit list into one goal per member. *)
Ltac each_member :=
  repeat match goal with
         | |- Forall _ (_ :: _) => constructor
         | |- Forall _ [] => constructor
         end.

Lemma fle_trans (x y z : float) :
  fle x y = true -> fle y z = true -> fle x z = true.
Proof.
  destruct x, y, z; simpl; try congruence.
  rewrite !Qle_bool_iff. apply Qle_trans.
Qed.

Lemma flt_fle_false (g : Q) (v : float) :
  flt (Fin g) v = true -> fle v (Fin g) = false.
Proof.
  destruct v; simpl; try congruence.
  now rewrite negb_true_iff.
Qed.

Lemma fle_false_flt (g : Q) (v : float) :
  v <> NaN -> fle v (Fin g) = false -> flt (Fin g) v = true.
Proof.
  destruct v; simpl; try congruence.
  intros _ ->. reflexivity.
Qed.

Lemma round_half_even_near (q : Q) :
  (q - (1 # 2) <= inject_Z (round_half_even q))%Q /\
  (inject_Z (round_half_even q) <= q + (1 # 2))%Q.
Proof.
  destruct q as [n d]. unfold round_half_even, Qle; simpl.
  pose proof (Z.div_mod n (Zpos d) ltac:(lia)) as Hdm.
  pose proof (Z.mod_pos_bound n (Zpos d) ltac:(lia)) as Hb.
  set (fl := (n / Zpos d)%Z) in *. set (r := (n mod Zpos d)%Z) in *.
  destruct (Z.compare_spec (2 * r) (Zpos d)); [destruct (Z.even fl)| |]; nia.
Qed.

Lemma round_q_is_rounding (n : nat) (q : Q) : is_rounding n q (round_q q n).
Proof.
  unfold is_rounding, round_q.
  set (s := scale10 n).
  set (z := round_half_even (q * inject_Z (Zpos s))).
  destruct (round_half_even_near (q * inject_Z (Zpos s))) as [Hlo Hhi].
  fold z in Hlo, Hhi.
  split; [exists z; apply Qred_correct|].
  rewrite !Qred_correct.
  destruct q as [a b]. unfold Qle in *; simpl in *. split; nia.
Qed.

(** ** The threshold classifier *)

Lemma fle_not_nan_l (x y : float) : fle x y = true -> x <> NaN.
Proof. destruct x; simpl; congruence. Qed.

Lemma band_of_banded (g p : Q) : banded (band_of (Fin g) (Fin p)) g p.
Proof.
  intros v. unfold band_of.
  destruct (fle v (Fin g)) eqn:Hg; [|destruct (fle v (Fin p)) eqn:Hp].
  - assert (Hn : flt (Fin g) v = false).
    { destruct (flt (Fin g) v) eqn:E; [|reflexivity].
      apply flt_fle_false in E. congruence. }
    rewrite Hn. intuition (try discriminate; congruence).
  - assert (Hn : flt (Fin g) v = true).
    { apply fle_false_flt; [eapply fle_not_nan_l; eassumption | assumption]. }
    rewrite Hn. intuition (try discriminate; congruence).
  - intuition (try discriminate; congruence).
Qed.

Lemma psi_get_status_band_of (metric : string) (v : float) :
  FetchPsi.get_status metric v =
  band_of (FetchPsi.good_of (Dict.get FetchPsi.CWV_THRESHOLDS (Str.lower metric)))
          (FetchPsi.poor_of (Dict.get FetchPsi.CWV_THRESHOLDS (Str.lower metric))) v.
Proof. reflexivity. Qed.

Lemma crux_get_status_band_of (metric_key : string) (v : float) :
  FetchCrux.get_status metric_key v =
  band_of (FetchCrux.good_of (Dict.get FetchCrux.CWV_THRESHOLDS metric_key))
          (FetchCrux.poor_of (Dict.get FetchCrux.CWV_THRESHOLDS metric_key)) v.
Proof. reflexivity. Qed.

Lemma band_of_monotone (g p v1 v2 : float) :
  fle v1 v2 = true ->
  (band_rank (band_of g p v1) <= band_rank (band_of g p v2))%nat.
Proof.
  intros H. unfold band_of.
  destruct (fle v2 g) eqn:H2g.
  - rewrite (fle_trans _ _ _ H H2g). vm_compute. lia.
  - destruct (fle v2 p) eqn:H2p.
    + rewrite (fle_trans _ _ _ H H2p).
      destruct (fle v1 g); vm_compute; lia.
    + destruct (fle v1 g); [|destruct (fle v1 p)]; vm_compute; lia.
Qed.

Lemma band_of_never_back (g p v1 v2 : float) :
  fle v1 v2 = true -> band_of g p v1 = "poor" -> band_of g p v2 <> "good".
Proof.
  intros H H1 H2. pose proof (band_of_monotone g p v1 v2 H) as Hm.
  rewrite H1, H2 in Hm. vm_compute in Hm. lia.
Qed.

(** The two names of a kind: the field-side table of display names sends
    the provider's key of each kind to its lab-side name. *)
Lemma kinds_named :
  Forall (fun k => Dict.get FetchCrux.METRIC_DISPLAY_NAMES (field_key k)
                   = Some (lab_key k)) kinds.
Proof. unfold kinds. each_member; reflexivity. Qed.

(** C1, as amended: on the field side the bands of all six kinds of the
    table are those of the policy (good iff the raw value is at most the
    good threshold, needs_improvement iff it is above it and at most the
    poor threshold, poor otherwise); on the lab side the same holds for the
    five kinds its table has, LCP, INP, CLS, FCP and TTFB. The lab-side
    table has no FID entry: there every finite FID value is good. *)
Theorem C1_classifier_bands :
  Forall (fun k => banded (FetchCrux.get_status (field_key k))
                     (spec_good k) (spec_poor k)) kinds /\
  Forall (fun k => banded (FetchPsi.get_status (lab_key k))
                     (spec_good k) (spec_poor k)) lab_kinds /\
  (forall q : Q, FetchPsi.get_status (lab_key FID) (Fin q) = "good").
Proof.
  split; [|split].
  - unfold kinds. each_member; intros v;
      rewrite crux_get_status_band_of; apply band_of_banded.
  - unfold lab_kinds. each_member; intros v;
      rewrite psi_get_status_band_of; apply band_of_banded.
  - intros q. reflexivity.
Qed.

(** C1, as stated, fails on the lab side for FID at the raw value 150:
    the policy with the thresholds 100 and 300 asks for needs_improvement,
    and the lab-side classifier, whose table has no FID entry, answers
    good. *)
Lemma C1_lab_fid_150_counterexample :
  FetchPsi.get_status (lab_key FID) (Fin 150) = "good" /\
  FetchCrux.get_status (field_key FID) (Fin 150) = "needs_improvement" /\
  ~ banded (FetchPsi.get_status (lab_key FID)) (spec_good FID) (spec_poor FID).
Proof.
  split; [reflexivity|split; [reflexivity|]].
  intros H. destruct (H (Fin 150)) as (_ & [_ Hni] & _).
  discriminate Hni. split; reflexivity.
Qed.

(** C6: classification is monotonic in the raw value, for every metric
    name and so for every kind of either threshold table: when
    [v1 <= v2] the band of [v1] is at most as bad as the band of [v2]
    in the order good < needs_improvement < poor, and a band never goes
    from poor back to good. *)
Theorem C6_classify_monotonic (metric : string) (v1 v2 : float) :
  fle v1 v2 = true ->
  (band_rank (FetchPsi.get_status metric v1)
   <= band_rank (FetchPsi.get_status metric v2))%nat /\
  (band_rank (FetchCrux.get_status metric v1)
   <= band_rank (FetchCrux.get_status metric v2))%nat /\
  (FetchPsi.get_status metric v1 = "poor" ->
   FetchPsi.get_status metric v2 <> "good") /\
  (FetchCrux.get_status metric v1 = "poor" ->
   FetchCrux.get_status metric v2 <> "good").
Proof.
  intros H. rewrite !psi_get_status_band_of, !crux_get_status_band_of.
  split; [|split; [|split]].
  - now apply band_of_monotone.
  - now apply band_of_monotone.
  - now apply band_of_never_back.
  - now apply band_of_never_back.
Qed.

Lemma C6_classify_monotonic_witness :
  fle (Fin 2600) (Fin 4200) = true /\
  (band_rank (FetchPsi.get_status "lcp" (Fin 2600))
   <= band_rank (FetchPsi.get_status "lcp" (Fin 4200)))%nat.
Proof.
  split; [reflexivity|].
  apply (C6_classify_monotonic "lcp" (Fin 2600) (Fin 4200)). reflexivity.
Defined.

(** ** Display units *)

Lemma fdiv_fin (q : Q) (c : positive) :
  exists s, fdiv (Fin q) c = Fin s /\ (s == q / inject_Z (Zpos c))%Q.
Proof. eexists; split; [reflexivity|apply Qred_correct]. Qed.

Lemma is_rounding_proper (n : nat) (q q' r : Q) :
  (q == q')%Q -> is_rounding n q r -> is_rounding n q' r.
Proof.
  intros E (Hz & Hlo & Hhi). split; [assumption|].
  split; rewrite <- E; assumption.
Qed.

Lemma displays_seconds (n : nat) (u : string) :
  displays (fun v => (round_nd (fdiv v 1000) n, u)) 1000 n u.
Proof.
  split; [|repeat split].
  intros q. destruct (fdiv_fin q 1000) as (s & -> & E).
  exists (round_q s n). split; [reflexivity|].
  eapply is_rounding_proper; [exact E|apply round_q_is_rounding].
Qed.

Lemma displays_same_unit (n : nat) (u : string) :
  displays (fun v => (round_nd v n, u)) 1 n u.
Proof.
  split; [|repeat split].
  intros q. exists (round_q q n). split; [reflexivity|].
  eapply is_rounding_proper; [|apply round_q_is_rounding].
  unfold Qdiv. change (/ inject_Z 1)%Q with 1%Q. now rewrite Qmult_1_r.
Qed.

(** C2: on both sides LCP, FCP and TTFB are shown in seconds (the raw
    milliseconds over 1000) rounded to 2 decimals with the unit "s", INP
    (and TBT on the lab side) in milliseconds rounded to 0 decimals with
    the unit "ms", and CLS without a unit rounded to 3 decimals; a raw LCP
    of 4200 ms is classified poor and shown as (4.2, "s"), 4.2 being the
    fraction 21/5 in lowest terms. *)
Theorem C2_convert_to_display :
  Forall (fun m => displays (FetchPsi.convert_to_display_unit m) 1000 2 "s")
    ["lcp"; "fcp"; "ttfb"] /\
  Forall (fun m => displays (FetchPsi.convert_to_display_unit m) 1 0 "ms")
    ["inp"; "tbt"] /\
  displays (FetchPsi.convert_to_display_unit "cls") 1 3 "" /\
  Forall (fun k => displays (FetchCrux.convert_p75 (field_key k)) 1000 2 "s")
    [LCP; FCP; TTFB] /\
  displays (FetchCrux.convert_p75 (field_key INP)) 1 0 "ms" /\
  displays (FetchCrux.convert_p75 (field_key CLS)) 1 3 "" /\
  FetchPsi.get_status "lcp" (Fin 4200) = "poor" /\
  FetchPsi.convert_to_display_unit "lcp" (Fin 4200) = (Fin (21 # 5), "s")
  /\ FetchCrux.get_status (field_key LCP) (Fin 4200) = "poor" /\
  FetchCrux.convert_p75 (field_key LCP) (Fin 4200) = (Fin (21 # 5), "s").
Proof.
  repeat match goal with
         | |- _ /\ _ => split
         | |- Forall _ (_ :: _) => constructor
         | |- Forall _ [] => constructor
         end;
    try apply (displays_seconds 2 "s");
    try apply (displays_same_unit 0 "ms");
    try apply (displays_same_unit 3 "");
    try reflexivity.
Qed.

(** ** Dictionaries *)

Section DictFacts.

Context {V : Type}.
Implicit Types (d : list (string * V)) (k : string) (v : V).

Lemma dict_get_set_same d k v : Dict.get (Dict.set d k v) k = Some v.
Proof.
  induction d as [|[k' v'] d IH]; simpl.
  - now rewrite String.eqb_refl.
  - destruct (String.eqb k' k) eqn:E; simpl; rewrite E; [reflexivity|exact IH].
Qed.

Lemma dict_get_In d k v : Dict.get d k = Some v -> In (k, v) d.
Proof.
  induction d as [|[k' v'] d IH]; simpl; [discriminate|].
  destruct (String.eqb k' k) eqn:E.
  - apply String.eqb_eq in E. intros [= ->]. subst. now left.
  - intros H. right. now apply IH.
Qed.

Lemma dict_get_None_keys d k : Dict.get d k = None <-> ~ In k (Dict.keys d).
Proof.
  induction d as [|[k' v'] d IH]; simpl; [tauto|].
  destruct (String.eqb k' k) eqn:E.
  - apply String.eqb_eq in E. split; [discriminate|]. intros H. tauto.
  - apply String.eqb_neq in E. rewrite IH. tauto.
Qed.

(** Writing under a key that is there keeps the keys; a new key goes to
    the end. *)
Lemma dict_keys_set d k v :
  Dict.keys (Dict.set d k v) =
  if Dict.mem d k then Dict.keys d else Dict.keys d ++ [k].
Proof.
  unfold Dict.mem. induction d as [|[k' v'] d IH]; simpl; [reflexivity|].
  destruct (String.eqb k' k) eqn:E; simpl; [reflexivity|].
  rewrite IH. now destruct (Dict.get d k).
Qed.

Lemma dict_set_NoDup d k v :
  NoDup (Dict.keys d) -> NoDup (Dict.keys (Dict.set d k v)).
Proof.
  intros H. rewrite dict_keys_set. unfold Dict.mem.
  destruct (Dict.get d k) eqn:E; [assumption|].
  apply dict_get_None_keys in E.
  apply NoDup_app. split; [assumption|]. split.
  - intros x Hx Hk. apply list_elem_of_In in Hx, Hk.
    destruct Hk as [<-|[]]. contradiction.
  - apply NoDup_singleton.
Qed.

(** The entries of a dict after a write: the written one, and the old
    ones under other keys. *)
Lemma dict_set_In d k v k' v' :
  In (k', v') (Dict.set d k v) -> (k' = k /\ v' = v) \/ In (k', v') d.
Proof.
  induction d as [|[k0 v0] d IH]; simpl.
  - intros [[= <- <-]|[]]. now left.
  - destruct (String.eqb k0 k) eqn:E; simpl.
    + apply String.eqb_eq in E. subst k0.
      intros [[= <- <-]|H]; [now left|right; now right].
    + intros [H|H]; [right; now left|].
      destruct (IH H) as [?|?]; [now left|right; now right].
Qed.

(** A sum over the values of a dict follows a write: the new value comes
    in, the one it replaces goes out. *)
Lemma dict_sum_set (f : V -> Z) d k v :
  fold_right (fun kv acc => (f (snd kv) + acc)%Z) 0%Z (Dict.set d k v) =
  (fold_right (fun kv acc => (f (snd kv) + acc)%Z) 0%Z d + f v
   - match Dict.get d k with Some o => f o | None => 0 end)%Z.
Proof.
  induction d as [|[k' v'] d IH]; simpl; [lia|].
  destruct (String.eqb k' k) eqn:E; simpl; [lia|].
  rewrite IH. lia.
Qed.

End DictFacts.

(** ** Stable sorting *)

Section SortFacts.

Context {A : Type} (key : A -> Z).

Lemma insert_desc_perm (x : A) (l : list A) :
  Permutation (Sort.insert_desc key x l) (x :: l).
Proof.
  induction l as [|y l IH]; simpl; [reflexivity|].
  destruct (key y <=? key x)%Z; [reflexivity|].
  rewrite IH. apply perm_swap.
Qed.

Lemma sorted_desc_perm (l : list A) : Permutation (Sort.sorted_desc key l) l.
Proof.
  induction l as [|x l IH]; simpl; [reflexivity|].
  rewrite insert_desc_perm. now constructor.
Qed.

Lemma insert_desc_descending (x : A) (l : list A) :
  Sort.descending key l -> Sort.descending key (Sort.insert_desc key x l).
Proof.
  unfold Sort.descending.
  induction l as [|y l IH]; simpl; intros H.
  - repeat constructor.
  - apply StronglySorted_inv in H as [Hl Hy].
    destruct (key y <=? key x)%Z eqn:E.
    + apply Z.leb_le in E. constructor; [now constructor|].
      constructor; [exact E|].
      eapply List.Forall_impl; [|exact Hy]. simpl. intros; lia.
    + apply Z.leb_gt in E. constructor; [now apply IH|].
      eapply Permutation_Forall; [symmetry; apply insert_desc_perm|].
      constructor; [lia|exact Hy].
Qed.

Lemma sorted_desc_descending (l : list A) :
  Sort.descending key (Sort.sorted_desc key l).
Proof.
  induction l as [|x l IH]; simpl.
  - constructor.
  - now apply insert_desc_descending.
Qed.

(** Stability: the elements of any one key are in the order they had. *)
Lemma insert_desc_stable (z : Z) (x : A) (l : list A) :
  List.filter (fun a => (key a =? z)%Z) (Sort.insert_desc key x l) =
  List.filter (fun a => (key a =? z)%Z) (x :: l).
Proof.
  induction l as [|y l IH]; [reflexivity|].
  cbn [Sort.insert_desc].
  destruct (key y <=? key x)%Z eqn:E; [reflexivity|].
  apply Z.leb_gt in E.
  cbn [List.filter] in *. rewrite IH.
  destruct (key y =? z)%Z eqn:Ey, (key x =? z)%Z eqn:Ex; try reflexivity.
  apply Z.eqb_eq in Ey, Ex. lia.
Qed.

Lemma sorted_desc_stable (z : Z) (l : list A) :
  List.filter (fun a => (key a =? z)%Z) (Sort.sorted_desc key l) =
  List.filter (fun a => (key a =? z)%Z) l.
Proof.
  induction l as [|x l IH]; [reflexivity|].
  cbn [Sort.sorted_desc foldr]. rewrite insert_desc_stable.
  cbn [List.filter]. fold (Sort.sorted_desc key l). now rewrite IH.
Qed.

(** In a descending list the elements above a bound form a prefix. *)
Lemma descending_filter_prefix (b : Z) (l : list A) :
  Sort.descending key l ->
  List.filter (fun a => (b <? key a)%Z) l =
  firstn (List.length (List.filter (fun a => (b <? key a)%Z) l)) l.
Proof.
  unfold Sort.descending.
  induction l as [|x l IH]; [reflexivity|]; intros H.
  apply StronglySorted_inv in H as [Hl Hx].
  cbn [List.filter]. destruct (b <? key x)%Z eqn:E.
  - cbn [List.length firstn]. f_equal. now apply IH.
  - apply Z.ltb_ge in E.
    assert (Hnil : List.filter (fun a => (b <? key a)%Z) l = []).
    { clear IH Hl. induction l as [|y l IHl]; [reflexivity|].
      apply List.Forall_cons_iff in Hx as [Hy Hx]. cbn [List.filter].
      assert ((b <? key y)%Z = false) as -> by (apply Z.ltb_ge; lia).
      now apply IHl. }
    rewrite Hnil. reflexivity.
Qed.

(** Taking a prefix and keeping the elements above a bound commute on a
    descending list. *)
Lemma descending_filter_firstn (b : Z) (n : nat) (l : list A) :
  Sort.descending key l ->
  List.filter (fun a => (b <? key a)%Z) (firstn n l) =
  firstn n (List.filter (fun a => (b <? key a)%Z) l).
Proof.
  unfold Sort.descending. revert n.
  induction l as [|x l IH]; intros n H.
  - now rewrite !firstn_nil.
  - apply StronglySorted_inv in H as [Hl Hx].
    destruct n as [|n]; [reflexivity|].
    cbn [firstn List.filter]. destruct (b <? key x)%Z eqn:E.
    + cbn [firstn]. f_equal. now apply IH.
    + apply Z.ltb_ge in E.
      assert (Hnil : forall l', Forall (fun y => (key y <= key x)%Z) l' ->
                List.filter (fun a => (b <? key a)%Z) l' = []).
      { clear -E. induction l' as [|y l' IHl]; [reflexivity|]; intros HF.
        apply List.Forall_cons_iff in HF as [Hy HF]. cbn [List.filter].
        assert ((b <? key y)%Z = false) as -> by (apply Z.ltb_ge; lia).
        now apply IHl. }
      rewrite (Hnil l Hx). rewrite firstn_nil. apply Hnil.
      clear -Hx. revert n. induction l as [|y l IHl]; intros n.
      * rewrite firstn_nil. constructor.
      * apply List.Forall_cons_iff in Hx as [Hy Hx].
        destruct n; [constructor|]. cbn [firstn]. constructor; [exact Hy|].
        now apply IHl.
Qed.

End SortFacts.

(** ** The network trace aggregator *)

Section NetworkFacts.

Import CaptureNetwork.

Lemma keyed_set request_map u r :
  keyed request_map -> url r = u -> keyed (Dict.set request_map u r).
Proof.
  intros [Hnd Hk] Hu. split; [now apply dict_set_NoDup|].
  apply List.Forall_forall. intros [k v] Hin.
  apply dict_set_In in Hin as [[-> ->]|Hin]; [exact Hu|].
  rewrite List.Forall_forall in Hk. exact (Hk _ Hin).
Qed.

Lemma keyed_get request_map u r :
  keyed request_map -> Dict.get request_map u = Some r -> url r = u.
Proof.
  intros [_ Hk] Hg. apply dict_get_In in Hg.
  rewrite List.Forall_forall in Hk. exact (Hk _ Hg).
Qed.

Lemma keyed_urls request_map :
  keyed request_map -> map url (Dict.values request_map) = Dict.keys request_map.
Proof.
  intros [_ Hk]. unfold Dict.values, Dict.keys.
  induction Hk as [|[k v] l Hkv _ IH]; simpl; [reflexivity|].
  simpl in Hkv. now rewrite Hkv, IH.
Qed.

Lemma on_response_keyed request_map u st sw cl :
  keyed request_map -> keyed (on_response request_map u st sw cl).
Proof.
  intros H. unfold on_response.
  destruct (Dict.get request_map u) as [r|] eqn:E; [|exact H].
  apply keyed_set; [exact H|].
  pose proof (keyed_get _ _ _ H E) as Hu.
  destruct cl as [cl|]; [|exact Hu].
  destruct (negb (String.eqb cl "")); [|exact Hu].
  destruct (Str.parse_int cl); exact Hu.
Qed.

Lemma apply_timing_keyed request_map entry :
  keyed request_map -> keyed (apply_timing request_map entry).
Proof.
  intros H. unfold apply_timing.
  destruct (Dict.get request_map (name entry)) as [r|] eqn:E; [|exact H].
  apply keyed_set; [exact H|].
  pose proof (keyed_get _ _ _ H E) as Hu.
  destruct (0 <? transfer_size entry)%Z; [exact Hu|].
  destruct (0 <? encoded_body_size entry)%Z; exact Hu.
Qed.

Lemma handle_keyed request_map e :
  keyed request_map -> keyed (handle request_map e).
Proof.
  intros H. destruct e as [u rt|u st sw cl]; simpl.
  - now apply keyed_set.
  - now apply on_response_keyed.
Qed.

Lemma fold_keyed {E : Type} (step : list (string * RequestData) -> E ->
                                    list (string * RequestData)) :
  (forall m e, keyed m -> keyed (step m e)) ->
  forall l m, keyed m -> keyed (fold_left step l m).
Proof.
  intros Hstep l. induction l as [|e l IH]; intros m Hm; simpl; auto.
Qed.

Lemma request_map_keyed events resource_timing :
  keyed (request_map_of events resource_timing).
Proof.
  unfold request_map_of.
  apply fold_keyed; [apply apply_timing_keyed|].
  apply fold_keyed; [apply handle_keyed|].
  split; constructor.
Qed.

(** A write under a key that is there leaves the keys as they are. *)
Lemma dict_keys_update {V : Type} (d : list (string * V)) k v o :
  Dict.get d k = Some o -> Dict.keys (Dict.set d k v) = Dict.keys d.
Proof. intros H. rewrite dict_keys_set. unfold Dict.mem. now rewrite H. Qed.

Lemma on_response_keys request_map u st sw cl :
  Dict.keys (on_response request_map u st sw cl) = Dict.keys request_map.
Proof.
  unfold on_response.
  destruct (Dict.get request_map u) as [r|] eqn:E; [|reflexivity].
  eapply dict_keys_update; eassumption.
Qed.

Lemma apply_timing_keys request_map entry :
  Dict.keys (apply_timing request_map entry) = Dict.keys request_map.
Proof.
  unfold apply_timing.
  destruct (Dict.get request_map (name entry)) as [r|] eqn:E; [|reflexivity].
  eapply dict_keys_update; eassumption.
Qed.

Lemma timing_fold_keys resource_timing request_map :
  Dict.keys (fold_left apply_timing resource_timing request_map)
  = Dict.keys request_map.
Proof.
  revert request_map.
  induction resource_timing as [|e l IH]; intros m; simpl; [reflexivity|].
  now rewrite IH, apply_timing_keys.
Qed.

Lemma on_request_keys request_map u rt x :
  In x (Dict.keys (on_request request_map u rt)) <->
  In x (Dict.keys request_map) \/ x = u.
Proof.
  unfold on_request. rewrite dict_keys_set. unfold Dict.mem.
  destruct (Dict.get request_map u) eqn:E.
  - split; [now left|]. intros [H| ->]; [exact H|].
    apply dict_get_In in E.
    change u with (fst (u, r)). now apply in_map.
  - rewrite in_app_iff. simpl. intuition congruence.
Qed.

Lemma handle_fold_keys events request_map x :
  In x (Dict.keys (fold_left handle events request_map)) <->
  In x (Dict.keys request_map) \/ exists rt, In (Request x rt) events.
Proof.
  revert request_map.
  induction events as [|e l IH]; intros m; simpl.
  - split; [now left|]. intros [H|[rt []]]. exact H.
  - rewrite IH. destruct e as [u rt|u st sw cl]; simpl.
    + rewrite on_request_keys. split.
      * intros [[H| ->]|[rt' H]]; [now left| |right; exists rt'; now right].
        right. exists rt. now left.
      * intros [H|[rt' [[= -> ->]|H]]];
          [left; now left|left; now right|right; now exists rt'].
    + rewrite on_response_keys. split.
      * intros [H|[rt' H]]; [now left|right; exists rt'; now right].
      * intros [H|[rt' [[=]|H]]]; [now left|right; now exists rt'].
Qed.

(** One pass of the summary loop adds the record to its bucket and to the
    running total. *)
Lemma summary_step_sums bt t r :
  sum_bytes (fst (summary_step (bt, t) r)) = (sum_bytes bt + size_bytes r)%Z /\
  sum_counts (fst (summary_step (bt, t) r)) = (sum_counts bt + 1)%Z /\
  snd (summary_step (bt, t) r) = (t + size_bytes r)%Z.
Proof.
  unfold summary_step, Dict.mem.
  destruct (Dict.get bt (resource_type r)) as [b|] eqn:E.
  - rewrite E. cbn [fst snd]. unfold sum_bytes, sum_counts.
    rewrite (dict_sum_set bytes), (dict_sum_set count), E. simpl. lia.
  - rewrite dict_get_set_same. cbn [fst snd]. unfold sum_bytes, sum_counts.
    rewrite !(dict_sum_set bytes), !(dict_sum_set count).
    rewrite dict_get_set_same, E. simpl. lia.
Qed.

Lemma summary_fold_sums requests_list acc :
  sum_bytes (fst (fold_left summary_step requests_list acc))
    = (sum_bytes (fst acc) + sum_sizes requests_list)%Z /\
  sum_counts (fst (fold_left summary_step requests_list acc))
    = (sum_counts (fst acc) + Z.of_nat (List.length requests_list))%Z /\
  snd (fold_left summary_step requests_list acc)
    = (snd acc + sum_sizes requests_list)%Z.
Proof.
  revert acc.
  induction requests_list as [|r l IH]; intros acc.
  - cbn. lia.
  - cbn [fold_left].
    destruct (IH (summary_step acc r)) as (Hb & Hc & Ht).
    destruct acc as [bt t].
    destruct (summary_step_sums bt t r) as (Hb1 & Hc1 & Ht1).
    rewrite Hb, Hc, Ht, Hb1, Hc1, Ht1.
    change (sum_sizes (r :: l)) with (size_bytes r + sum_sizes l)%Z.
    cbn [List.length fst snd]. lia.
Qed.

End NetworkFacts.

(** C5: requests are kept one entry per resource URL (the URLs of the
    entries are distinct and are exactly the URLs requested), the total of
    transferred bytes is the sum of the byte sums of the [by_type] buckets
    (and of the sizes of the entries, each counted once), and the total
    of requests is the sum of the counts of the buckets (and the number of
    entries). *)
Theorem C5_network_totals (events : list CaptureNetwork.event)
    (resource_timing : list CaptureNetwork.timing_entry) :
  let requests_list :=
    Dict.values (CaptureNetwork.request_map_of events resource_timing) in
  let s := CaptureNetwork.summary
             (CaptureNetwork.capture_network events resource_timing) in
  NoDup (map CaptureNetwork.url requests_list) /\
  (forall u, In u (map CaptureNetwork.url requests_list) <->
             exists rt, In (CaptureNetwork.Request u rt) events) /\
  CaptureNetwork.total_transfer_bytes s
    = CaptureNetwork.sum_bytes (CaptureNetwork.by_type s) /\
  CaptureNetwork.total_transfer_bytes s
    = CaptureNetwork.sum_sizes requests_list /\
  Z.of_nat (CaptureNetwork.total_requests s)
    = CaptureNetwork.sum_counts (CaptureNetwork.by_type s) /\
  CaptureNetwork.total_requests s = List.length requests_list.
Proof.
  intros requests_list s.
  pose proof (request_map_keyed events resource_timing) as Hk.
  pose proof (keyed_urls _ Hk) as Hurls. fold requests_list in Hurls.
  split; [rewrite Hurls; apply Hk|].
  split.
  { intros u. rewrite Hurls. unfold CaptureNetwork.request_map_of.
    rewrite timing_fold_keys, handle_fold_keys. simpl. tauto. }
  subst s. unfold CaptureNetwork.capture_network.
  fold requests_list. unfold CaptureNetwork.summary_loop.
  destruct (summary_fold_sums requests_list ([], 0%Z)) as (Hb & Hc & Ht).
  destruct (fold_left CaptureNetwork.summary_step requests_list ([], 0%Z))
    as [bt t].
  cbn [fst snd] in Hb, Hc, Ht.
  cbn [CaptureNetwork.summary CaptureNetwork.total_transfer_bytes
       CaptureNetwork.by_type CaptureNetwork.total_requests].
  rewrite Hb, Hc, Ht.
  change (CaptureNetwork.sum_bytes []) with 0%Z.
  change (CaptureNetwork.sum_counts []) with 0%Z.
  repeat split; lia.
Qed.

(** ** The largest resources *)

Lemma capture_largest events resource_timing :
  CaptureNetwork.largest_resources
    (CaptureNetwork.capture_network events resource_timing)
  = CaptureNetwork.largest_of
      (Dict.values (CaptureNetwork.request_map_of events resource_timing)).
Proof.
  unfold CaptureNetwork.capture_network.
  now destruct (CaptureNetwork.summary_loop _).
Qed.

Lemma largest_of_length requests_list :
  (List.length (CaptureNetwork.largest_of requests_list) <= 10)%nat.
Proof.
  unfold CaptureNetwork.largest_of. rewrite List.length_map.
  etransitivity; [apply List.filter_length_le|].
  apply List.firstn_le_length.
Qed.

Lemma largest_of_positive requests_list :
  Forall (fun e => (0 < CaptureNetwork.l_size_bytes e)%Z)
    (CaptureNetwork.largest_of requests_list).
Proof.
  unfold CaptureNetwork.largest_of.
  apply List.Forall_forall. intros e He.
  apply List.in_map_iff in He as (r & <- & Hr).
  apply List.filter_In in Hr as [_ Hr]. simpl. lia.
Qed.

Lemma largest_of_filter_first requests_list :
  CaptureNetwork.largest_of requests_list =
  map CaptureNetwork.largest_entry
    (firstn 10
       (List.filter (fun r => (0 <? CaptureNetwork.size_bytes r)%Z)
          (CaptureNetwork.sorted_by_size requests_list))).
Proof.
  unfold CaptureNetwork.largest_of. f_equal.
  apply (descending_filter_firstn CaptureNetwork.size_bytes 0).
  apply sorted_desc_descending.
Qed.

Lemma largest_of_prefix requests_list :
  exists n : nat,
    CaptureNetwork.largest_of requests_list =
    map CaptureNetwork.largest_entry
      (firstn n (CaptureNetwork.sorted_by_size requests_list)).
Proof.
  rewrite largest_of_filter_first.
  rewrite (descending_filter_prefix CaptureNetwork.size_bytes 0)
    by apply sorted_desc_descending.
  rewrite List.firstn_firstn. eexists. reflexivity.
Qed.

Lemma nonzero_is_positive (l : list CaptureNetwork.RequestData) :
  Forall (fun r => (0 <= CaptureNetwork.size_bytes r)%Z) l ->
  List.filter (fun r => negb (CaptureNetwork.size_bytes r =? 0)%Z) l =
  List.filter (fun r => (0 <? CaptureNetwork.size_bytes r)%Z) l.
Proof.
  intros H. apply List.filter_ext_in. intros r Hr.
  rewrite List.Forall_forall in H. specialize (H r Hr).
  destruct (Z.eqb_spec (CaptureNetwork.size_bytes r) 0);
    destruct (Z.ltb_spec 0 (CaptureNetwork.size_bytes r)); simpl; lia.
Qed.

(** C4: the list of largest resources has at most 10 entries, each of a
    size above zero; it is a prefix of the records sorted descending by
    size (a stable sort of the request list), and it is what is left of
    that sorted list after the records without a positive size are
    dropped and the first 10 are taken; sizes being byte counts, never
    negative, these are the zero-size records. *)
Theorem C4_largest_resources (events : list CaptureNetwork.event)
    (resource_timing : list CaptureNetwork.timing_entry) :
  let requests_list :=
    Dict.values (CaptureNetwork.request_map_of events resource_timing) in
  let sorted := CaptureNetwork.sorted_by_size requests_list in
  let largest := CaptureNetwork.largest_resources
                   (CaptureNetwork.capture_network events resource_timing) in
  (List.length largest <= 10)%nat /\
  Forall (fun e => (0 < CaptureNetwork.l_size_bytes e)%Z) largest /\
  Permutation sorted requests_list /\
  Sort.descending CaptureNetwork.size_bytes sorted /\
  (exists n : nat,
      largest = map CaptureNetwork.largest_entry (firstn n sorted)) /\
  largest =
    map CaptureNetwork.largest_entry
      (firstn 10
         (List.filter (fun r => (0 <? CaptureNetwork.size_bytes r)%Z) sorted)) /\
  (Forall (fun r => (0 <= CaptureNetwork.size_bytes r)%Z) requests_list ->
   largest =
     map CaptureNetwork.largest_entry
       (firstn 10
          (List.filter (fun r => negb (CaptureNetwork.size_bytes r =? 0)%Z)
             sorted))).
Proof.
  intros requests_list sorted largest. subst largest.
  rewrite capture_largest. fold requests_list.
  split; [apply largest_of_length|].
  split; [apply largest_of_positive|].
  split; [apply sorted_desc_perm|].
  split; [apply sorted_desc_descending|].
  split; [apply largest_of_prefix|].
  split; [apply largest_of_filter_first|].
  intros Hnn. rewrite nonzero_is_positive; [apply largest_of_filter_first|].
  eapply Permutation_Forall; [symmetry; apply sorted_desc_perm|exact Hnn].
Qed.

Lemma C4_largest_resources_witness :
  let events :=
    [ CaptureNetwork.Request "https://a.test/app.js" "script";
      CaptureNetwork.Response "https://a.test/app.js" 200 false (Some "1200");
      CaptureNetwork.Request "https://a.test/pixel.gif" "image";
      CaptureNetwork.Request "https://a.test/site.css" "stylesheet";
      CaptureNetwork.Response "https://a.test/site.css" 200 false (Some "3400") ] in
  let requests_list :=
    Dict.values (CaptureNetwork.request_map_of events []) in
  Forall (fun r => (0 <= CaptureNetwork.size_bytes r)%Z) requests_list /\
  map CaptureNetwork.l_size_bytes
    (CaptureNetwork.largest_resources
       (CaptureNetwork.capture_network events [])) = [3400%Z; 1200%Z] /\
  CaptureNetwork.largest_resources (CaptureNetwork.capture_network events [])
  = map CaptureNetwork.largest_entry
      (firstn 10
         (List.filter (fun r => negb (CaptureNetwork.size_bytes r =? 0)%Z)
            (CaptureNetwork.sorted_by_size requests_list))).
Proof.
  intros events requests_list.
  assert (Hnn : Forall (fun r => (0 <= CaptureNetwork.size_bytes r)%Z)
                  requests_list).
  { repeat constructor; vm_compute; discriminate. }
  split; [exact Hnn|]. split; [reflexivity|].
  exact (proj2 (proj2 (proj2 (proj2 (proj2 (proj2
           (C4_largest_resources events [])))))) Hnn).
Defined.

(** ** The result monad *)

Lemma bind_ok {A B : Type} (m : res A) (k : A -> res B) (b : B) :
  Py.bind m k = Ok b -> exists a, m = Ok a /\ k a = Ok b.
Proof. destruct m; simpl; [eauto|discriminate]. Qed.

Lemma ok_inj {A : Type} (a b : A) : Ok a = Ok b -> a = b.
Proof. now intros [= ->]. Qed.

(** A write that returns has put a value the library takes in the cell. *)
Lemma cell_ok (ws : GenerateExcel.worksheet) (r c : nat) (v : value)
    (ws' : GenerateExcel.worksheet) :
  GenerateExcel.cell ws r c v = Ok ws' ->
  GenerateExcel.accepted v = true /\ ws' = <[(r, c) := v]> ws.
Proof.
  unfold GenerateExcel.cell, GenerateExcel.accepted.
  destruct v as [|b|z|q|s|l|d]; intros H;
    try (apply ok_inj in H; split; [reflexivity|now symmetry]);
    try discriminate H.
  destruct (GenerateExcel.legal _); [|discriminate H].
  apply ok_inj in H. split; [reflexivity|now symmetry].
Qed.

Lemma cell_accepted (ws : GenerateExcel.worksheet) (r c : nat) (v : value) :
  GenerateExcel.accepted v = true ->
  GenerateExcel.cell ws r c v = Ok (<[(r, c) := v]> ws).
Proof.
  unfold GenerateExcel.cell, GenerateExcel.accepted.
  destruct v as [|b|z|q|s|l|d]; intros H; try reflexivity;
    try discriminate H.
  rewrite H. reflexivity.
Qed.

(** The header row, when it is written. *)
Lemma write_headers_cells (ws : GenerateExcel.worksheet) (c : nat)
    (headers : list string) (ws' : GenerateExcel.worksheet) :
  GenerateExcel.write_headers ws c headers = Ok ws' ->
  ws' = GenerateExcel.write_cells ws 1 c (map VStr headers).
Proof.
  revert ws c. induction headers as [|h headers IH]; intros ws c H.
  - apply ok_inj in H. now symmetry.
  - cbn [GenerateExcel.write_headers] in H.
    apply bind_ok in H as (ws1 & E & H). apply cell_ok in E as [_ ->].
    exact (IH _ _ H).
Qed.


Lemma headers_written (headers : list string) (ws : GenerateExcel.worksheet) :
  GenerateExcel.write_headers ∅ 1 headers = Ok ws ->
  ws = GenerateExcel.header_row headers.
Proof. apply write_headers_cells. Qed.

(** The writes at the head of a successful sequence. *)
Ltac skip_cells H :=
  repeat match type of H with
         | Py.bind (GenerateExcel.cell _ _ _ _) _ = Ok _ =>
             let ws := fresh "ws" in
             let A := fresh "Hacc" in
             apply bind_ok in H as (ws & A & H);
             apply cell_ok in A as [A ->]
         | Py.bind (GenerateExcel.write_headers ∅ 1 _) _ = Ok _ =>
             let ws := fresh "ws" in
             let A := fresh "Hhead" in
             apply bind_ok in H as (ws & A & H);
             apply headers_written in A; subst ws
         end.

(** The last write of a successful sequence. *)
Ltac last_cell H :=
  skip_cells H;
  let A := fresh "Hacc" in
  apply cell_ok in H as [A ->].

(** Split a successful sequence into its successful steps. *)
Ltac bind_inv H :=
  let a := fresh "a" in
  let E := fresh "E" in
  skip_cells H; apply bind_ok in H as (a & E & H); skip_cells H.

Tactic Notation "bind_split" hyp(H) "as" ident(a) ident(E) :=
  skip_cells H; apply bind_ok in H as (a & E & H); skip_cells H.

Lemma eq_str_true (v : value) (s : string) :
  eq_str v s = true <-> v = VStr s.
Proof.
  destruct v; simpl; try (split; [discriminate|intros [=]]).
  rewrite String.eqb_eq. split; [now intros ->|now intros [= ->]].
Qed.

Lemma get_dict (kv : list (string * value)) (k : string) (default : value) :
  Val.get (VDict kv) k default =
  Ok (match Dict.get kv k with Some v => v | None => default end).
Proof. reflexivity. Qed.

(** ** The opportunities of the lab normalizer *)

Section Opportunities.

Import FetchPsi.

Lemma is_opportunity_In ids audit_id :
  is_opportunity ids audit_id = true <-> In (VStr audit_id) ids.
Proof.
  unfold is_opportunity. rewrite existsb_exists. split.
  - intros (v & Hin & Hv). apply eq_str_true in Hv. now subst.
  - intros Hin. exists (VStr audit_id). split; [exact Hin|].
    now apply eq_str_true.
Qed.

Lemma add_opportunity_id_spec ids ref ids' :
  add_opportunity_id ids ref = Ok ids' ->
  ids' = ids \/
  exists v, ids' = ids ++ [v] /\
            Val.get ref "group" VNone = Ok (VStr "load-opportunities") /\
            Val.getitem ref "id" = Ok v.
Proof.
  unfold add_opportunity_id. intros H. bind_inv H.
  destruct (eq_str a "load-opportunities") eqn:Eg.
  - apply eq_str_true in Eg. subst a. bind_inv H.
    destruct (hashable a); [|discriminate].
    injection H as <-. right. eauto.
  - injection H as <-. now left.
Qed.

Lemma opportunity_ids_fold refs acc ids :
  Val.foldM add_opportunity_id refs acc = Ok ids ->
  forall v, In v ids ->
    In v acc \/
    exists ref, In ref refs /\
      Val.get ref "group" VNone = Ok (VStr "load-opportunities") /\
      Val.getitem ref "id" = Ok v.
Proof.
  revert acc. induction refs as [|ref refs IH]; intros acc H v Hv.
  - injection H as <-. now left.
  - cbn [Val.foldM] in H. bind_inv H.
    destruct (IH _ H v Hv) as [Hin|(r & Hr & Hg & Hi)].
    + apply add_opportunity_id_spec in E as [->|(w & -> & Hg & Hi)];
        [now left|].
      apply in_app_iff in Hin as [Hin|[<-|[]]]; [now left|].
      right. exists ref. split; [now left|]. now split.
    + right. exists r. split; [now right|]. now split.
Qed.

(** What an entry says of the audit it was made from. *)
Lemma opportunity_of_Some ids audit_id audit o :
  opportunity_of ids audit_id audit = Ok (Some o) ->
  id o = audit_id /\ is_opportunity ids audit_id = true /\
  score_below audit /\ savings_from audit o /\
  Val.get audit "title" (VStr "") = Ok (title o) /\
  Val.get audit "description" (VStr "") = Ok (description o).
Proof.
  unfold opportunity_of. intros H.
  destruct (is_opportunity ids audit_id) eqn:Eid; [|discriminate].
  cbn [negb] in H. bind_inv H. rename a into score, E into Escore.
  destruct (is_none score) eqn:En; [discriminate|].
  bind_inv H. rename a into sc, E into Esc.
  destruct (Qle_bool (9 # 10) sc) eqn:Ele; [discriminate|].
  bind_inv H. rename a into details, E into Edetails.
  bind_inv H. rename a into t, E into Et.
  bind_inv H. rename a into d, E into Ed.
  bind_inv H. rename a into has_ms, E into Ehas_ms.
  bind_inv H. rename a into ms, E into Ems.
  bind_inv H. rename a into has_bytes, E into Ehas_bytes.
  bind_inv H. rename a into bs, E into Ebs.
  injection H as <-. cbn.
  split; [reflexivity|]. split; [reflexivity|].
  split.
  { exists score, sc. split; [exact Escore|]. split.
    - unfold Val.number in Esc. destruct (as_number score); congruence.
    - apply Qnot_le_lt. intros Hle. apply Qle_bool_iff in Hle. congruence. }
  split; [|now split].
  exists details. split; [exact Edetails|]. split.
  - intros z [= ->]. destruct has_ms; [|discriminate].
    bind_inv Ems. bind_inv Ems. injection Ems as <-.
    exists a, a0. split; [exact E|]. split; [|reflexivity].
    unfold Val.number in E0. destruct (as_number a); congruence.
  - intros b [= ->]. destruct has_bytes; [|discriminate].
    bind_inv Ebs. now injection Ebs as <-.
Qed.

Lemma add_opportunity_spec ids acc item acc' :
  add_opportunity ids acc item = Ok acc' ->
  (acc' = acc /\ opportunity_of ids (fst item) (snd item) = Ok None) \/
  exists o, acc' = acc ++ [o] /\
            opportunity_of ids (fst item) (snd item) = Ok (Some o).
Proof.
  unfold add_opportunity. intros H. bind_inv H.
  destruct a as [o|]; injection H as <-; [right; eauto|now left].
Qed.

(** The loop appends entries in the order of the audits. *)
Lemma collect_fold ids audits acc out :
  Val.foldM (add_opportunity ids) audits acc = Ok out ->
  exists new,
    out = acc ++ new /\
    sublist (map id new) (map fst audits) /\
    Forall (fun o => exists audit,
                In (id o, audit) audits /\
                opportunity_of ids (id o) audit = Ok (Some o)) new.
Proof.
  revert acc. induction audits as [|[i audit] audits IH]; intros acc H.
  - injection H as <-. exists []. rewrite app_nil_r.
    split; [reflexivity|]. split; constructor.
  - cbn [Val.foldM] in H. bind_inv H.
    destruct (IH _ H) as (new & -> & Hsub & Hall).
    assert (Hall' : Forall (fun o => exists audit0,
                In (id o, audit0) ((i, audit) :: audits) /\
                opportunity_of ids (id o) audit0 = Ok (Some o)) new).
    { eapply List.Forall_impl; [|exact Hall].
      intros o (au & Hin & Ho). exists au. split; [now right|exact Ho]. }
    apply add_opportunity_spec in E as [[-> _]|(o & -> & Ho)].
    + exists new. split; [reflexivity|].
      split; [now apply sublist_cons|exact Hall'].
    + cbn [fst snd] in Ho.
      pose proof (opportunity_of_Some _ _ _ _ Ho) as (Hid & _).
      exists (o :: new). split; [now rewrite <- app_assoc|].
      split.
      * cbn [map fst]. rewrite Hid. now apply sublist_skip.
      * constructor; [|exact Hall'].
        exists audit. rewrite Hid. split; [now left|exact Ho].
Qed.

End Opportunities.

(** ** The lab normalizer returns on documents of the expected shape *)

Lemma foldM_total {A S : Type} (f : S -> A -> res S) (P : A -> Prop) :
  (forall s a, P a -> exists s', f s a = Ok s') ->
  forall l, Forall P l -> forall s, exists s', Val.foldM f l s = Ok s'.
Proof.
  intros Hf l Hl. induction Hl as [|a l Ha _ IH]; intros s; simpl.
  - eauto.
  - destruct (Hf s a Ha) as (s1 & ->). simpl. apply IH.
Qed.

Lemma forallb_Forall_true {A : Type} (p : A -> bool) (l : list A) :
  forallb p l = true -> Forall (fun a => p a = true) l.
Proof. intros H. apply List.Forall_forall. now apply forallb_forall. Qed.

Section OpportunitiesTotal.

Import FetchPsi.

(** An optional field is its default or a value of the right shape. *)
Lemma opt_field_get kv k ok default :
  opt_field kv k ok = true -> ok default = true ->
  exists v, Val.get (VDict kv) k default = Ok v /\ ok v = true.
Proof.
  unfold opt_field. rewrite get_dict. intros H Hd.
  destruct (Dict.get kv k); eauto.
Qed.

Lemma add_opportunity_id_total ids ref :
  wf_ref ref = true -> exists ids', add_opportunity_id ids ref = Ok ids'.
Proof.
  unfold wf_ref, add_opportunity_id. destruct ref; try discriminate.
  rewrite get_dict. cbn [Py.bind].
  destruct (Dict.get d "id") as [[]|] eqn:Eid; try discriminate. intros _.
  destruct (eq_str _ _); [|eauto].
  cbn [Val.getitem]. rewrite Eid. cbn. eauto.
Qed.

Lemma number_total v : is_number v = true -> exists x, Val.number v = Ok x.
Proof.
  unfold is_number, Val.number. destruct (as_number v); [eauto|discriminate].
Qed.

Lemma opportunity_of_total ids audit_id audit :
  wf_audit audit = true -> exists r, opportunity_of ids audit_id audit = Ok r.
Proof.
  unfold wf_audit, opportunity_of. destruct audit; try discriminate.
  intros H. apply andb_true_iff in H as [Hscore Hdetails].
  destruct (negb (is_opportunity ids audit_id)); [eauto|].
  destruct (opt_field_get d "score" _ VNone Hscore eq_refl) as (sc & -> & Hsc).
  cbn [Py.bind]. destruct (is_none sc) eqn:En; [eauto|].
  cbn [orb] in Hsc. destruct (number_total _ Hsc) as (x & ->). cbn [Py.bind].
  destruct (Qle_bool (9 # 10) x); [eauto|].
  destruct (opt_field_get d "details" _ (VDict []) Hdetails eq_refl)
    as (details & -> & Hd).
  rewrite !get_dict. cbn [Py.bind].
  destruct details; try discriminate. cbn [Val.contains Py.bind].
  unfold wf_details, opt_field in Hd. unfold Dict.mem. cbn [Val.getitem].
  destruct (Dict.get d0 "overallSavingsMs") as [raw|]; cbn [Py.bind].
  - destruct (number_total _ Hd) as (y & ->). cbn [Py.bind].
    destruct (Dict.get d0 "overallSavingsBytes"); cbn [Py.bind]; eauto.
  - destruct (Dict.get d0 "overallSavingsBytes"); cbn [Py.bind]; eauto.
Qed.

Lemma add_opportunity_total ids acc item :
  wf_audit (snd item) = true -> exists acc', add_opportunity ids acc item = Ok acc'.
Proof.
  intros H. unfold add_opportunity.
  destruct (opportunity_of_total ids (fst item) _ H) as ([o|] & ->); cbn; eauto.
Qed.

Lemma parse_opportunities_total lighthouse_result :
  wf_lighthouse lighthouse_result = true ->
  exists opps, parse_opportunities lighthouse_result = Ok opps.
Proof.
  unfold wf_lighthouse, parse_opportunities.
  destruct lighthouse_result; try discriminate.
  intros H. apply andb_true_iff in H as [Ha Hc].
  destruct (opt_field_get d "audits" _ (VDict []) Ha eq_refl) as (au & -> & Hau).
  destruct (opt_field_get d "categories" _ (VDict []) Hc eq_refl)
    as (ca & -> & Hca).
  cbn [Py.bind]. unfold wf_categories in Hca. destruct ca; try discriminate.
  destruct (opt_field_get _ "performance" _ (VDict []) Hca eq_refl)
    as (pe & -> & Hpe).
  cbn [Py.bind]. unfold wf_performance in Hpe. destruct pe; try discriminate.
  destruct (opt_field_get _ "auditRefs" _ (VList []) Hpe eq_refl)
    as (refs & -> & Hrefs).
  cbn [Py.bind]. unfold wf_refs in Hrefs. destruct refs; try discriminate.
  unfold opportunity_ids. cbn [Val.iter Py.bind].
  destruct (foldM_total add_opportunity_id (fun r => wf_ref r = true)
              (fun s a Ha' => add_opportunity_id_total s a Ha')
              l (forallb_Forall_true _ _ Hrefs) []) as (ids & ->).
  cbn [Py.bind]. unfold wf_audits in Hau. destruct au; try discriminate.
  cbn [Val.items Py.bind]. unfold collect_opportunities.
  destruct (foldM_total (add_opportunity ids)
              (fun kv => wf_audit (snd kv) = true)
              (fun s a Ha' => add_opportunity_total ids s a Ha')
              d2 (forallb_Forall_true _ _ Hau) []) as (opps & ->).
  cbn. eauto.
Qed.

End OpportunitiesTotal.

(** C3: on a lab document of the expected shape the normalizer returns a
    list of opportunities, and whatever list it returns holds only audits
    that are referenced in the load-opportunities group and have a score,
    a number below 0.9 (an audit with a score of 0.9 or more, or with no
    score, never appears); the list is in descending order of
    [savings_ms] (0 when the entry has none), and entries of equal
    savings are in the order the provider's document lists their audits:
    the list is a stable sort of the entries taken in provider order. *)
Theorem C3_opportunities (lighthouse_result : value) :
  (FetchPsi.wf_lighthouse lighthouse_result = true ->
   exists opps, FetchPsi.parse_opportunities lighthouse_result = Ok opps) /\
  (forall opps,
      FetchPsi.parse_opportunities lighthouse_result = Ok opps ->
      Forall (fun o => exists audit,
                  In (FetchPsi.id o, audit)
                     (FetchPsi.audits_of lighthouse_result) /\
                  FetchPsi.in_load_opportunities lighthouse_result
                     (FetchPsi.id o) /\
                  FetchPsi.score_below audit /\
                  FetchPsi.savings_from audit o) opps /\
      Sort.descending FetchPsi.savings_key opps /\
      exists provider_order,
        sublist (map FetchPsi.id provider_order)
                (Dict.keys (FetchPsi.audits_of lighthouse_result)) /\
        Permutation opps provider_order /\
        forall z : Z,
          List.filter (fun o => (FetchPsi.savings_key o =? z)%Z) opps =
          List.filter (fun o => (FetchPsi.savings_key o =? z)%Z)
            provider_order).
Proof.
  split; [apply parse_opportunities_total|].
  intros opps H. unfold FetchPsi.parse_opportunities in H.
  bind_inv H. rename a into audits, E into Eaudits.
  bind_inv H. rename a into categories, E into Ecat.
  bind_inv H. rename a into performance, E into Eperf.
  bind_inv H. rename a into perf_audits, E into Erefs.
  bind_inv H. rename a into ids, E into Eids.
  bind_inv H. rename a into items, E into Eitems.
  bind_inv H. rename a into unsorted, E into Ecollect.
  injection H as <-.
  destruct audits; try discriminate. injection Eitems as ->.
  unfold FetchPsi.opportunity_ids in Eids. bind_inv Eids.
  rename a into refs, E into Eiter.
  assert (Hau : FetchPsi.audits_of lighthouse_result = items).
  { unfold FetchPsi.audits_of. now rewrite Eaudits. }
  assert (Hre : FetchPsi.audit_refs_of lighthouse_result = refs).
  { unfold FetchPsi.audit_refs_of. rewrite Ecat. cbn [Py.bind].
    rewrite Eperf. cbn [Py.bind]. rewrite Erefs. cbn [Py.bind].
    now rewrite Eiter. }
  apply collect_fold in Ecollect as (new & -> & Hsub & Hall).
  cbn [app] in *.
  split; [|split].
  - eapply Permutation_Forall; [symmetry; apply sorted_desc_perm|].
    eapply List.Forall_impl; [|exact Hall].
    intros o (audit & Hin & Ho). exists audit.
    apply opportunity_of_Some in Ho as (_ & Hid & Hsc & Hsv & _).
    rewrite Hau. split; [exact Hin|]. split; [|now split].
    apply is_opportunity_In in Hid.
    destruct (opportunity_ids_fold _ _ _ Eids _ Hid) as [[]|(r & Hr & Hg & Hi)].
    exists r. rewrite Hre. now repeat split.
  - apply sorted_desc_descending.
  - exists new. rewrite Hau. split; [exact Hsub|].
    split; [apply sorted_desc_perm|].
    intros z. apply sorted_desc_stable.
Qed.

(** ** Worksheets *)

Section WorksheetFacts.

Import GenerateExcel.

Lemma write_cells_other_row (ws : worksheet) r c cells r' c' :
  r' <> r -> write_cells ws r c cells !! (r', c') = ws !! (r', c').
Proof.
  intros Hne. revert ws c.
  induction cells as [|v cells IH]; intros ws c; simpl; [reflexivity|].
  rewrite IH. apply lookup_insert_ne. congruence.
Qed.

Lemma write_cells_before (ws : worksheet) r c cells c' :
  (c' < c)%nat -> write_cells ws r c cells !! (r, c') = ws !! (r, c').
Proof.
  revert ws c. induction cells as [|v cells IH]; intros ws c Hlt; simpl;
    [reflexivity|].
  rewrite IH by lia. apply lookup_insert_ne.
  intros [= ->]. lia.
Qed.

(** The cell of column [c + i] of a written row is its [i]-th one. *)
Lemma write_cells_lookup (ws : worksheet) r c cells i v :
  cells !! i = Some v -> write_cells ws r c cells !! (r, (c + i)%nat) = Some v.
Proof.
  revert ws c i. induction cells as [|x cells IH]; intros ws c i H.
  - discriminate.
  - destruct i as [|i]; simpl in *.
    + injection H as ->. rewrite write_cells_before by lia.
      rewrite Nat.add_0_r. apply lookup_insert_eq.
    + replace (c + S i)%nat with (S c + i)%nat by lia. now apply IH.
Qed.

Lemma write_table_before (ws : worksheet) r rows r' c' :
  (r' < r)%nat -> write_table ws r rows !! (r', c') = ws !! (r', c').
Proof.
  revert ws r. induction rows as [|cells rows IH]; intros ws r Hlt; simpl;
    [reflexivity|].
  rewrite IH by lia. apply write_cells_other_row. lia.
Qed.

(** The cell of row [r + i] and column [1 + j] of a written table is the
    [j]-th cell of its [i]-th row. *)
Lemma write_table_lookup (ws : worksheet) r rows i cells j v :
  rows !! i = Some cells -> cells !! j = Some v ->
  write_table ws r rows !! ((r + i)%nat, S j) = Some v.
Proof.
  revert ws r i. induction rows as [|x rows IH]; intros ws r i Hi Hj.
  - discriminate.
  - destruct i as [|i]; simpl in *.
    + injection Hi as ->. rewrite write_table_before by lia.
      rewrite Nat.add_0_r. now apply (write_cells_lookup ws r 1 cells j).
    + replace (r + S i)%nat with (S r + i)%nat by lia. now apply IH.
Qed.

Lemma write_table_app (ws : worksheet) r rows1 rows2 :
  write_table ws r (rows1 ++ rows2) =
  write_table (write_table ws r rows1) (r + List.length rows1) rows2.
Proof.
  revert ws r. induction rows1 as [|x rows1 IH]; intros ws r; simpl.
  - now rewrite Nat.add_0_r.
  - rewrite IH. f_equal. lia.
Qed.

(** A loop of rows, each of which writes its cells in its own row, writes
    a table. *)
Lemma write_rows_table {A : Type}
    (row : worksheet -> nat -> A -> res worksheet)
    (P : A -> list value -> Prop) :
  (forall ws r x ws', row ws r x = Ok ws' ->
     exists cells, ws' = write_cells ws r 1 cells /\ P x cells) ->
  forall l ws r ws' r',
    write_rows row ws r l = Ok (ws', r') ->
    exists rows, Forall2 P l rows /\ ws' = write_table ws r rows /\
                 r' = (r + List.length l)%nat.
Proof.
  intros Hrow l. induction l as [|x l IH]; intros ws r ws' r' H.
  - injection H as <- <-. exists []. split; [constructor|].
    split; [reflexivity|simpl; lia].
  - cbn [write_rows] in H. bind_inv H.
    destruct (Hrow _ _ _ _ E) as (cells & -> & HP).
    destruct (IH _ _ _ _ H) as (rows & Hall & -> & ->).
    exists (cells :: rows). split; [now constructor|].
    split; [reflexivity|simpl; lia].
Qed.


End WorksheetFacts.

(** ** The Core Web Vitals sheet *)

Section CoreWebVitalsFacts.

Import GenerateExcel.

Variable repr : value -> string.

(** The text the code puts in a field column is the one the specification
    describes. *)
Lemma format_field_metric_spec sd fm key unit s :
  Val.get sd "field_metrics" (VDict []) = Ok fm ->
  _format_field_metric repr (por fm (VDict [])) key unit = Ok s ->
  s = field_cell repr sd key unit.
Proof.
  intros Hget H. destruct sd; try discriminate.
  rewrite get_dict in Hget. injection Hget as <-.
  unfold field_cell, field_metric, field_mapping.
  destruct (Dict.get d "field_metrics") as [fm|];
    [|cbn in H; now injection H as <-].
  unfold por in H. destruct (truthy fm) eqn:Et.
  2: { cbn in H. injection H as <-.
       destruct fm as [| | | | | |f]; try reflexivity.
       destruct f; [reflexivity|discriminate Et]. }
  unfold _format_field_metric in H. rewrite Et in H. cbn [negb] in H.
  destruct fm as [|b|z|q|t|l|f]; cbn [Val.contains Py.bind] in H;
    try discriminate H; try discriminate Et.
  - destruct (Str.is_substring key t); cbn in H;
      [discriminate H|now injection H as <-].
  - destruct (existsb _ _); cbn in H; [discriminate H|now injection H as <-].
  - unfold Dict.mem in H. cbn [Val.getitem] in H.
    destruct (Dict.get f key) as [v|]; cbn [negb Py.bind] in H;
      [|now injection H as <-].
    destruct v; cbn [is_none] in H; now injection H as <-.
Qed.

(** A row of the sheet writes the twelve cells of its pair. *)
Lemma cwv_row_cells url ws r item ws' :
  cwv_row repr url ws r item = Ok ws' ->
  exists cells, ws' = write_cells ws r 1 cells /\
                cwv_cells_spec repr (url, item) cells.
Proof.
  destruct item as [name sd]. unfold cwv_row. intros H.
  bind_split H as cwv Ecwv. bind_split H as fm Efm.
  bind_split H as lcp Elcp. bind_split H as inp Einp. bind_split H as cls Ecls.
  bind_split H as fcp Efcp. bind_split H as ttfb Ettfb. bind_split H as tbt Etbt.
  bind_split H as score Escore.
  bind_split H as c4 E4. bind_split H as c5 E5. bind_split H as c6 E6.
  bind_split H as c7 E7. bind_split H as c8 E8. bind_split H as c9 E9.
  bind_split H as c10 E10. bind_split H as c11 E11. bind_split H as c12 E12.
  last_cell H.
  apply (format_field_metric_spec _ _ _ _ _ Efm) in E5, E7, E9.
  subst c5 c7 c9.
  exists [ VStr (sanitize_for_excel repr url); VStr (Str.capitalize name);
           score;
           VStr c4; VStr (field_cell repr sd "lcp_p75" "s");
           VStr c6; VStr (field_cell repr sd "inp_p75" "ms");
           VStr c8; VStr (field_cell repr sd "cls_p75" "");
           VStr c10; VStr c11; VStr c12 ].
  split; [reflexivity|].
  unfold cwv_cells_spec. cbn [fst snd]. eauto 10.
Qed.

Lemma cwv_rows_table ws r psi ws' r' :
  cwv_rows repr (ws, r) psi = Ok (ws', r') ->
  exists rows,
    Forall2 (cwv_cells_spec repr) (strategies_of psi) rows /\
    ws' = write_table ws r rows /\ r' = (r + List.length rows)%nat.
Proof.
  unfold cwv_rows. intros H.
  bind_inv H. rename a into url, E into Eurl.
  bind_inv H. rename a into strategies, E into Est.
  bind_inv H. rename a into its, E into Eits.
  destruct strategies; try discriminate. injection Eits as ->.
  destruct (write_rows_table (cwv_row repr url)
              (fun it cells => cwv_cells_spec repr (url, it) cells)
              (cwv_row_cells url) _ _ _ _ _ H) as (rows & Hall & -> & ->).
  exists rows. unfold strategies_of. rewrite Eurl, Est.
  split; [now apply Forall2_fmap_l|].
  split; [reflexivity|]. now rewrite (Forall2_length _ _ _ Hall).
Qed.

Lemma cwv_fold_table results ws r ws' r' :
  Val.foldM (cwv_rows repr) results (ws, r) = Ok (ws', r') ->
  exists rows,
    Forall2 (cwv_cells_spec repr) (concat (map strategies_of results)) rows /\
    ws' = write_table ws r rows /\ r' = (r + List.length rows)%nat.
Proof.
  revert ws r. induction results as [|psi results IH]; intros ws r H.
  - injection H as <- <-. exists []. split; [constructor|].
    split; [reflexivity|simpl; lia].
  - cbn [Val.foldM] in H. bind_inv H. destruct a as [ws1 r1].
    apply cwv_rows_table in E as (rows1 & Hall1 & -> & ->).
    apply IH in H as (rows2 & Hall2 & -> & ->).
    exists (rows1 ++ rows2). cbn [map concat].
    split; [now apply Forall2_app|].
    split; [now rewrite write_table_app|].
    rewrite List.length_app. lia.
Qed.

(** The sheet is the header row followed by the rows of the (URL,
    strategy) pairs of the document. *)
Lemma cwv_sheet_table data ws :
  create_core_web_vitals_sheet repr data = Ok ws ->
  exists rows,
    Forall2 (cwv_cells_spec repr) (strategy_rows data) rows /\
    ws = write_table (header_row cwv_headers) 2 rows.
Proof.
  unfold create_core_web_vitals_sheet. intros H.
  bind_inv H. rename a into psi_results, E into Epsi.
  bind_inv H. rename a into results, E into Eres.
  bind_inv H. destruct a as [ws1 r1]. injection H as <-.
  apply cwv_fold_table in E as (rows & Hall & -> & _).
  exists rows. split; [|reflexivity].
  unfold strategy_rows, psi_results_of. now rewrite Epsi, Eres.
Qed.

Lemma field_cell_nonempty sd key unit :
  (forall v, repr v <> "") -> field_numeric sd ->
  field_cell repr sd key unit <> "".
Proof.
  intros Hrepr Hnum. unfold field_cell.
  destruct (field_metric sd key) as [v|] eqn:E; [|discriminate].
  specialize (Hnum key v E).
  assert (Hv : py_str repr v <> "").
  { destruct v; try discriminate Hnum; apply Hrepr. }
  destruct (py_str repr v); [contradiction|discriminate].
Qed.

End CoreWebVitalsFacts.

(** C8: in the Core Web Vitals sheet the row of every (URL, strategy)
    pair holds, in each of the columns LCP Field, INP Field and CLS
    Field, the value of the field metric followed by its unit when the
    metric is present, and "N/A" when the field mapping or the key is
    absent or null; the cell is never the empty string, the field metrics
    being numbers, whose text is never empty. *)
Theorem C8_field_cells (repr : value -> string) (data : value)
    (ws : GenerateExcel.worksheet) (i : nat) (url : value) (name : string)
    (strategy_data : value) :
  GenerateExcel.create_core_web_vitals_sheet repr data = Ok ws ->
  GenerateExcel.strategy_rows data !! i = Some (url, (name, strategy_data)) ->
  (forall v, repr v <> "") ->
  GenerateExcel.field_numeric strategy_data ->
  let row := (2 + i)%nat in
  ws !! (row, 1%nat) = Some (VStr (GenerateExcel.sanitize_for_excel repr url)) /\
  ws !! (row, 2%nat) = Some (VStr (Str.capitalize name)) /\
  Forall (fun '(column, key, unit) =>
            exists s : string,
              ws !! (row, column) = Some (VStr s) /\ s <> "" /\
              match GenerateExcel.field_metric strategy_data key with
              | Some v => s = (GenerateExcel.py_str repr v ++ unit)%string
              | None => s = "N/A"
              end)
    [ (5%nat, "lcp_p75", "s"); (7%nat, "inp_p75", "ms");
      (9%nat, "cls_p75", "") ].
Proof.
  intros Hws Hrow Hrepr Hnum row.
  apply cwv_sheet_table in Hws as (rows & Hall & ->).
  destruct (Forall2_lookup_l _ _ _ _ _ Hall Hrow) as (cells & Hcells & Hspec).
  destruct Hspec as (score & lcp & inp & cls & fcp & ttfb & tbt & ->).
  cbn [fst snd] in Hcells.
  pose proof (fun j v => write_table_lookup
                (GenerateExcel.header_row GenerateExcel.cwv_headers)
                2 rows i _ j v Hcells) as L.
  split; [now apply (L 0%nat)|]. split; [now apply (L 1%nat)|].
  each_member.
  - exists (GenerateExcel.field_cell repr strategy_data "lcp_p75" "s").
    split; [now apply (L 4%nat)|].
    split; [now apply field_cell_nonempty|].
    unfold GenerateExcel.field_cell. now destruct (GenerateExcel.field_metric _ _).
  - exists (GenerateExcel.field_cell repr strategy_data "inp_p75" "ms").
    split; [now apply (L 6%nat)|].
    split; [now apply field_cell_nonempty|].
    unfold GenerateExcel.field_cell. now destruct (GenerateExcel.field_metric _ _).
  - exists (GenerateExcel.field_cell repr strategy_data "cls_p75" "").
    split; [now apply (L 8%nat)|].
    split; [now apply field_cell_nonempty|].
    unfold GenerateExcel.field_cell. now destruct (GenerateExcel.field_metric _ _).
Qed.

(** ** The origin-level field metrics are never read *)

Section OriginFacts.

Import GenerateExcel.

Variable repr : value -> string.

Lemma dict_get_drop_key k k' (kv : list (string * value)) :
  k' <> k -> Dict.get (drop_key k kv) k' = Dict.get kv k'.
Proof.
  intros Hne. unfold drop_key.
  induction kv as [|[k0 v0] kv IH]; [reflexivity|].
  cbn [List.filter Dict.get fst].
  destruct (String.eqb k0 k) eqn:E0; cbn [negb].
  - apply String.eqb_eq in E0. subst k0.
    assert (String.eqb k k' = false) as -> by (apply String.eqb_neq; congruence).
    exact IH.
  - cbn [Dict.get]. now rewrite IH.
Qed.

Lemma get_without_origin sd k default :
  k <> "origin_field_metrics" ->
  Val.get (strategy_without_origin sd) k default = Val.get sd k default.
Proof.
  intros Hne. destruct sd; try reflexivity.
  cbn [strategy_without_origin Val.get]. now rewrite dict_get_drop_key.
Qed.

Lemma dict_get_map_values (f : value -> value) kv k :
  Dict.get (map (fun b => (fst b, f (snd b))) kv) k
  = option_map f (Dict.get kv k).
Proof.
  induction kv as [|[k0 v0] kv IH]; [reflexivity|].
  cbn [map Dict.get fst snd]. now destruct (String.eqb k0 k).
Qed.

Lemma dict_get_map_field_same (f : value -> value) kv k :
  Dict.get (map (fun b => if String.eqb (fst b) k
                          then (fst b, f (snd b)) else b) kv) k
  = option_map f (Dict.get kv k).
Proof.
  induction kv as [|[k0 v0] kv IH]; [reflexivity|].
  cbn [map Dict.get fst snd].
  destruct (String.eqb k0 k) eqn:E; cbn [Dict.get]; rewrite E;
    [reflexivity|exact IH].
Qed.

Lemma dict_get_map_field_other (f : value -> value) kv k k' :
  k' <> k ->
  Dict.get (map (fun b => if String.eqb (fst b) k
                          then (fst b, f (snd b)) else b) kv) k'
  = Dict.get kv k'.
Proof.
  intros Hne. induction kv as [|[k0 v0] kv IH]; [reflexivity|].
  cbn [map Dict.get fst snd].
  destruct (String.eqb k0 k) eqn:E; cbn [Dict.get].
  - apply String.eqb_eq in E. subst k0.
    assert (String.eqb k k' = false) as -> by (apply String.eqb_neq; congruence).
    exact IH.
  - now rewrite IH.
Qed.

Lemma get_map_field_same k f d default :
  f default = default ->
  Val.get (map_field k f d) k default
  = (let* v := Val.get d k default in Ok (f v)).
Proof.
  intros Hd. destruct d; try reflexivity.
  cbn [map_field Val.get Py.bind]. rewrite dict_get_map_field_same.
  destruct (Dict.get d k); cbn [option_map]; congruence.
Qed.

Lemma get_map_field_other k k' f d default :
  k' <> k -> Val.get (map_field k f d) k' default = Val.get d k' default.
Proof.
  intros Hne. destruct d; try reflexivity.
  cbn [map_field Val.get]. now rewrite dict_get_map_field_other.
Qed.

Lemma get_map_values f d k default :
  f default = default ->
  Val.get (map_values f d) k default
  = (let* v := Val.get d k default in Ok (f v)).
Proof.
  intros Hd. destruct d; try reflexivity.
  cbn [map_values Val.get Py.bind]. rewrite dict_get_map_values.
  destruct (Dict.get d k); cbn [option_map]; congruence.
Qed.

Lemma write_rows_map {A : Type}
    (row : worksheet -> nat -> A -> res worksheet) (g : A -> A) ws r l :
  (forall ws r x, row ws r (g x) = row ws r x) ->
  write_rows row ws r (map g l) = write_rows row ws r l.
Proof.
  intros Hg. revert ws r. induction l as [|x l IH]; intros ws r;
    [reflexivity|].
  cbn [map write_rows]. rewrite Hg. destruct (row ws r x); [|reflexivity].
  cbn [Py.bind]. apply IH.
Qed.

Lemma foldM_map {A S : Type} (f : S -> A -> res S) (g : A -> A) l s :
  (forall s x, f s (g x) = f s x) ->
  Val.foldM f (map g l) s = Val.foldM f l s.
Proof.
  intros Hg. revert s. induction l as [|x l IH]; intros s; [reflexivity|].
  cbn [map Val.foldM]. rewrite Hg. destruct (f s x); [|reflexivity].
  cbn [Py.bind]. apply IH.
Qed.

Lemma cwv_row_without_origin url ws r (b : string * value) :
  cwv_row repr url ws r (fst b, strategy_without_origin (snd b))
  = cwv_row repr url ws r b.
Proof.
  destruct b as [name sd]. unfold cwv_row. cbn [fst snd].
  now rewrite !get_without_origin by discriminate.
Qed.

Lemma cwv_rows_without_origin st psi :
  cwv_rows repr st (result_without_origin psi) = cwv_rows repr st psi.
Proof.
  destruct st as [ws r]. unfold cwv_rows, result_without_origin.
  rewrite get_map_field_other by discriminate.
  rewrite get_map_field_same by reflexivity.
  destruct (Val.get psi "url" (VStr "")) as [url|]; [|reflexivity].
  cbn [Py.bind].
  destruct (Val.get psi "strategies" (VDict [])) as [s|]; [|reflexivity].
  cbn [Py.bind]. destruct s; try reflexivity.
  cbn [map_values Val.items Py.bind].
  apply (write_rows_map (cwv_row repr url)
           (fun b => (fst b, strategy_without_origin (snd b)))).
  intros ws0 r0 x. apply cwv_row_without_origin.
Qed.

Lemma summary_row_without_origin ws r psi :
  summary_row repr ws r (result_without_origin psi) = summary_row repr ws r psi.
Proof.
  unfold summary_row, result_without_origin.
  rewrite get_map_field_other by discriminate.
  rewrite get_map_field_same by reflexivity.
  destruct (Val.get psi "url" (VStr "")) as [url|]; [|reflexivity].
  cbn [Py.bind].
  destruct (Val.get psi "strategies" (VDict [])) as [s|]; [|reflexivity].
  cbn [Py.bind]. rewrite !get_map_values by reflexivity.
  destruct (Val.get s "mobile" (VDict [])) as [mobile|]; [|reflexivity].
  cbn [Py.bind].
  destruct (Val.get s "desktop" (VDict [])) as [desktop|]; [|reflexivity].
  cbn [Py.bind]. now rewrite !get_without_origin by discriminate.
Qed.

Lemma opportunities_of_strategy_without_origin url st (b : string * value) :
  opportunities_of_strategy repr url st
    (fst b, strategy_without_origin (snd b))
  = opportunities_of_strategy repr url st b.
Proof.
  destruct st as [ws r], b as [name sd].
  unfold opportunities_of_strategy. cbn [fst snd].
  now rewrite get_without_origin by discriminate.
Qed.

Lemma opportunities_of_psi_without_origin st psi :
  opportunities_of_psi repr st (result_without_origin psi)
  = opportunities_of_psi repr st psi.
Proof.
  unfold opportunities_of_psi, result_without_origin.
  rewrite get_map_field_other by discriminate.
  rewrite get_map_field_same by reflexivity.
  destruct (Val.get psi "url" (VStr "")) as [url|]; [|reflexivity].
  cbn [Py.bind].
  destruct (Val.get psi "strategies" (VDict [])) as [s|]; [|reflexivity].
  cbn [Py.bind]. destruct s; try reflexivity.
  cbn [map_values Val.items Py.bind].
  apply (foldM_map (opportunities_of_strategy repr url)
           (fun b => (fst b, strategy_without_origin (snd b)))).
  intros s0 x. apply opportunities_of_strategy_without_origin.
Qed.

(** The results of the document without the origin-level metrics. *)
Lemma psi_results_without_origin data :
  Val.get (without_origin data) "psi_results" (VList [])
  = (let* v := Val.get data "psi_results" (VList []) in
     Ok (map_list result_without_origin v)).
Proof. unfold without_origin. now rewrite get_map_field_same. Qed.

Lemma create_summary_without_origin data :
  create_summary_sheet repr (without_origin data)
  = create_summary_sheet repr data.
Proof.
  unfold create_summary_sheet.
  destruct (write_headers ∅ 1 _) as [ws0|]; [|reflexivity]. cbn [Py.bind].
  rewrite psi_results_without_origin.
  destruct (Val.get data "psi_results" (VList [])) as [v|]; [|reflexivity].
  cbn [Py.bind]. destruct v; try reflexivity.
  cbn [map_list Val.iter Py.bind].
  rewrite (write_rows_map (summary_row repr) result_without_origin)
    by (intros; apply summary_row_without_origin).
  destruct (write_rows _ _ _ _) as [[ws r]|]; [|reflexivity].
  cbn [Py.bind]. now destruct l.
Qed.

Lemma create_cwv_without_origin data :
  create_core_web_vitals_sheet repr (without_origin data)
  = create_core_web_vitals_sheet repr data.
Proof.
  unfold create_core_web_vitals_sheet.
  destruct (write_headers ∅ 1 _) as [ws0|]; [|reflexivity]. cbn [Py.bind].
  rewrite psi_results_without_origin.
  destruct (Val.get data "psi_results" (VList [])) as [v|]; [|reflexivity].
  cbn [Py.bind]. destruct v; try reflexivity.
  cbn [map_list Val.iter Py.bind].
  now rewrite (foldM_map (cwv_rows repr) result_without_origin)
    by (intros; apply cwv_rows_without_origin).
Qed.

Lemma create_opportunities_without_origin data :
  create_opportunities_sheet repr (without_origin data)
  = create_opportunities_sheet repr data.
Proof.
  unfold create_opportunities_sheet.
  destruct (write_headers ∅ 1 _) as [ws0|]; [|reflexivity]. cbn [Py.bind].
  rewrite psi_results_without_origin.
  destruct (Val.get data "psi_results" (VList [])) as [v|]; [|reflexivity].
  cbn [Py.bind]. destruct v; try reflexivity.
  cbn [map_list Val.iter Py.bind].
  now rewrite (foldM_map (opportunities_of_psi repr) result_without_origin)
    by (intros; apply opportunities_of_psi_without_origin).
Qed.

Lemma create_network_without_origin data :
  create_network_analysis_sheet repr (without_origin data)
  = create_network_analysis_sheet repr data.
Proof.
  unfold create_network_analysis_sheet, without_origin.
  destruct (write_headers ∅ 1 _) as [ws0|]; [|reflexivity]. cbn [Py.bind].
  now rewrite get_map_field_other by discriminate.
Qed.

Lemma generate_excel_without_origin data :
  generate_excel repr (without_origin data) = generate_excel repr data.
Proof.
  unfold generate_excel.
  rewrite create_summary_without_origin, create_cwv_without_origin,
    create_network_without_origin, create_opportunities_without_origin.
  rewrite psi_results_without_origin.
  unfold without_origin at 1. rewrite get_map_field_other by discriminate.
  destruct (create_summary_sheet repr data); [|reflexivity].
  destruct (create_core_web_vitals_sheet repr data); [|reflexivity].
  destruct (create_network_analysis_sheet repr data); [|reflexivity].
  destruct (create_opportunities_sheet repr data); [|reflexivity].
  cbn [Py.bind].
  destruct (Val.get data "urls" (VList [])) as [urls|]; [|reflexivity].
  cbn [Py.bind]. destruct (Val.len urls) as [[|k]|]; try reflexivity.
  cbn [Py.bind].
  destruct (Val.get data "psi_results" (VList [])) as [v|]; [|reflexivity].
  cbn [Py.bind]. destruct v; try reflexivity.
  cbn [map_list Val.len]. now rewrite List.length_map.
Qed.

End OriginFacts.

(** C10: the report builder never reads the origin-level field metrics:
    two documents that differ only in the [origin_field_metrics] of
    their strategies give the same Core Web Vitals sheet, and the same
    workbook altogether; and the row of a strategy with no page-level
    field mapping holds "N/A" in the three field columns, whatever
    origin-level metrics the strategy carries. *)
Theorem C10_origin_never_read (repr : value -> string) :
  (forall d1 d2 : value,
      GenerateExcel.differ_only_in_origin d1 d2 ->
      GenerateExcel.create_core_web_vitals_sheet repr d1
      = GenerateExcel.create_core_web_vitals_sheet repr d2 /\
      GenerateExcel.generate_excel repr d1
      = GenerateExcel.generate_excel repr d2) /\
  (forall (data : value) (ws : GenerateExcel.worksheet) (i : nat)
          (url : value) (name : string) (strategy_data : value),
      GenerateExcel.create_core_web_vitals_sheet repr data = Ok ws ->
      GenerateExcel.strategy_rows data !! i
        = Some (url, (name, strategy_data)) ->
      GenerateExcel.field_mapping strategy_data = None ->
      Forall (fun column => ws !! ((2 + i)%nat, column) = Some (VStr "N/A"))
        [5%nat; 7%nat; 9%nat]).
Proof.
  split.
  - intros d1 d2 Hd. unfold GenerateExcel.differ_only_in_origin in Hd. split.
    + rewrite <- (create_cwv_without_origin repr d1),
        <- (create_cwv_without_origin repr d2). now rewrite Hd.
    + rewrite <- (generate_excel_without_origin repr d1),
        <- (generate_excel_without_origin repr d2). now rewrite Hd.
  - intros data ws i url name sd Hws Hrow Hnone.
    apply cwv_sheet_table in Hws as (rows & Hall & ->).
    destruct (Forall2_lookup_l _ _ _ _ _ Hall Hrow) as (cells & Hcells & Hspec).
    destruct Hspec as (score & lcp & inp & cls & fcp & ttfb & tbt & ->).
    cbn [fst snd] in Hcells.
    pose proof (fun j v => write_table_lookup
                  (GenerateExcel.header_row GenerateExcel.cwv_headers)
                  2 rows i _ j v Hcells) as L.
    assert (Hna : forall key unit,
               GenerateExcel.field_cell repr sd key unit = "N/A").
    { intros key unit.
      unfold GenerateExcel.field_cell, GenerateExcel.field_metric.
      now rewrite Hnone. }
    each_member.
    + rewrite <- (Hna "lcp_p75" "s"). now apply (L 4%nat).
    + rewrite <- (Hna "inp_p75" "ms"). now apply (L 6%nat).
    + rewrite <- (Hna "cls_p75" ""). now apply (L 8%nat).
Qed.

Lemma C10_origin_never_read_witness :
  GenerateExcel.differ_only_in_origin
    Examples.report_document Examples.report_document_other_origin /\
  Examples.report_document <> Examples.report_document_other_origin /\
  GenerateExcel.generate_excel Examples.repr Examples.report_document
  = GenerateExcel.generate_excel Examples.repr
      Examples.report_document_other_origin /\
  exists ws,
    GenerateExcel.create_core_web_vitals_sheet Examples.repr
      Examples.report_document = Ok ws /\
    Forall (fun column => ws !! (3%nat, column) = Some (VStr "N/A"))
      [5%nat; 7%nat; 9%nat].
Proof.
  assert (Hd : GenerateExcel.differ_only_in_origin
                 Examples.report_document
                 Examples.report_document_other_origin) by reflexivity.
  split; [exact Hd|]. split; [discriminate|].
  split; [exact (proj2 (proj1 (C10_origin_never_read Examples.repr) _ _ Hd))|].
  destruct (GenerateExcel.create_core_web_vitals_sheet Examples.repr
              Examples.report_document) as [ws|e] eqn:E;
    [|vm_compute in E; discriminate E].
  exists ws. split; [reflexivity|].
  exact (proj2 (C10_origin_never_read Examples.repr)
           Examples.report_document ws 1%nat
           (VStr "https://a.test/") "desktop" _ E eq_refl eq_refl).
Defined.

(** ** The histogram of a field metric *)

(** C7: the histogram parser returns the empty mapping for every histogram
    of fewer than three buckets (and for a missing one), with no density
    filled in; for the three buckets of densities "0.6", "0.3" and "0.1"
    it returns good 0.6, needs_improvement 0.3 and poor 0.1, the texts
    parsed to numbers (3/5, 3/10 and 1/10 in lowest terms). *)
Theorem C7_parse_histogram :
  (forall buckets : list value,
      (List.length buckets < 3)%nat ->
      FetchCrux.parse_histogram (VList buckets) = Ok []) /\
  FetchCrux.parse_histogram VNone = Ok [] /\
  FetchCrux.parse_histogram
    (VList [ Examples.histogram_bucket "0.6";
             Examples.histogram_bucket "0.3";
             Examples.histogram_bucket "0.1" ])
  = Ok [ ("good", Fin (3 # 5)); ("needs_improvement", Fin (3 # 10));
         ("poor", Fin (1 # 10)) ] /\
  Val.to_float (VStr "0.6") = Ok (Fin (3 # 5)).
Proof.
  split; [|repeat split].
  intros buckets Hlen. unfold FetchCrux.parse_histogram.
  destruct buckets as [|b0 [|b1 [|b2 rest]]]; try reflexivity.
  simpl in Hlen. lia.
Qed.

Lemma C7_parse_histogram_witness :
  (List.length [Examples.histogram_bucket "0.7";
                Examples.histogram_bucket "0.3"] < 3)%nat /\
  FetchCrux.parse_histogram
    (VList [Examples.histogram_bucket "0.7"; Examples.histogram_bucket "0.3"])
  = Ok [].
Proof.
  assert (H : (List.length [Examples.histogram_bucket "0.7";
                            Examples.histogram_bucket "0.3"] < 3)%nat)
    by (simpl; lia).
  split; [exact H|].
  exact (proj1 C7_parse_histogram _ H).
Defined.

(** ** Witnesses on the sample documents *)

Lemma C3_opportunities_witness :
  FetchPsi.wf_lighthouse Examples.lab_document = true /\
  FetchPsi.parse_opportunities Examples.lab_document
  = Ok Examples.lab_opportunities /\
  (exists opps,
      FetchPsi.parse_opportunities Examples.lab_document = Ok opps) /\
  Sort.descending FetchPsi.savings_key Examples.lab_opportunities.
Proof.
  assert (Hwf : FetchPsi.wf_lighthouse Examples.lab_document = true)
    by reflexivity.
  assert (Hp : FetchPsi.parse_opportunities Examples.lab_document
               = Ok Examples.lab_opportunities) by reflexivity.
  split; [exact Hwf|]. split; [exact Hp|]. split.
  - exact (proj1 (C3_opportunities Examples.lab_document) Hwf).
  - exact (proj1 (proj2 (proj2 (C3_opportunities Examples.lab_document)
                           _ Hp))).
Defined.

Lemma digits_nonempty (z : Z) : Examples.digits z <> "".
Proof.
  unfold Examples.digits.
  destruct (Z.to_int z) as [d|d]; [|discriminate].
  destruct d; discriminate.
Qed.

Lemma append_nonempty_r (s t : string) : t <> "" -> (s ++ t)%string <> "".
Proof.
  intros Ht. destruct s; [exact Ht|discriminate].
Qed.

Lemma float_text_nonempty (q : Q) : Examples.float_text q <> "".
Proof.
  unfold Examples.float_text.
  destruct (Examples.decimals _ _ _).
  - apply append_nonempty_r, append_nonempty_r. discriminate.
  - apply append_nonempty_r. discriminate.
Qed.

Lemma repr_nonempty (v : value) : Examples.repr v <> "".
Proof.
  destruct v as [|[]| | | | |]; try discriminate.
  - apply digits_nonempty.
  - apply float_text_nonempty.
Qed.

Lemma mobile_strategy_numeric :
  GenerateExcel.field_numeric Examples.mobile_strategy.
Proof.
  intros key v. unfold GenerateExcel.field_metric.
  change (GenerateExcel.field_mapping Examples.mobile_strategy)
    with (Some [ ("lcp_p75", VFloat (25 # 10)); ("inp_p75", VInt 180);
                 ("cls_p75", VFloat (5 # 100)) ]).
  cbn [Dict.get].
  repeat match goal with
         | |- context [String.eqb ?a key] =>
             destruct (String.eqb a key); [intros [= <-]; reflexivity|]
         end.
  discriminate.
Qed.

Lemma C8_field_cells_witness :
  exists ws,
    GenerateExcel.create_core_web_vitals_sheet Examples.repr
      Examples.report_document = Ok ws /\
    ws !! (2%nat, 5%nat) = Some (VStr "2.5s") /\
    Forall (fun '(column, key, unit) =>
              exists s : string,
                ws !! (2%nat, column) = Some (VStr s) /\ s <> "" /\
                match GenerateExcel.field_metric Examples.mobile_strategy key with
                | Some v => s = (GenerateExcel.py_str Examples.repr v ++ unit)%string
                | None => s = "N/A"
                end)
      [ (5%nat, "lcp_p75", "s"); (7%nat, "inp_p75", "ms");
        (9%nat, "cls_p75", "") ].
Proof.
  destruct (GenerateExcel.create_core_web_vitals_sheet Examples.repr
              Examples.report_document) as [ws|e] eqn:E;
    [|vm_compute in E; discriminate E].
  exists ws. split; [reflexivity|].
  pose proof (C8_field_cells Examples.repr Examples.report_document ws 0%nat
                (VStr "https://a.test/") "mobile" Examples.mobile_strategy
                E eq_refl repr_nonempty mobile_strategy_numeric) as H.
  cbv zeta in H. change (2 + 0)%nat with 2%nat in H.
  destruct H as (_ & _ & H). split; [|exact H].
  apply List.Forall_cons_iff in H as [(s & Hs & _ & Hv) _].
  rewrite Hs, Hv. reflexivity.
Defined.

(** ** The four sheets of a document with parts missing *)

Lemma dict_of_inv ok v :
  GenerateExcel.dict_of ok v = true -> exists kv, v = VDict kv /\ ok kv = true.
Proof. destruct v; try discriminate. eauto. Qed.

Lemma list_of_inv ok v :
  GenerateExcel.list_of ok v = true ->
  exists l, v = VList l /\ forallb ok l = true.
Proof. destruct v; try discriminate. eauto. Qed.

Lemma none_or_inv ok v :
  GenerateExcel.none_or ok v = true -> v = VNone \/ ok v = true.
Proof. destruct v; simpl; auto. Qed.

Lemma is_dict_inv v : GenerateExcel.is_dict v = true -> exists kv, v = VDict kv.
Proof. destruct v; try discriminate. eauto. Qed.


(** A value of a dict whose values all pass [ok] passes it, and so does
    the default. *)
Lemma forallb_get (ok : value -> bool) kv k default :
  forallb (fun b => ok (snd b)) kv = true -> ok default = true ->
  exists v, Val.get (VDict kv) k default = Ok v /\ ok v = true.
Proof.
  intros H Hd. rewrite get_dict.
  destruct (Dict.get kv k) as [v|] eqn:E; [|eauto].
  exists v. split; [reflexivity|].
  apply dict_get_In in E. rewrite forallb_forall in H. exact (H _ E).
Qed.

(** Split a conjunction of checks into its checks. *)
Ltac split_checks :=
  repeat match goal with
         | H : (_ && _)%bool = true |- _ =>
             apply andb_true_iff in H as [? ?]
         end.

(** ** Text a cell takes *)

Section CellText.

Import GenerateExcel.

Variable repr : value -> string.

Lemma length_append (a b : string) :
  String.length (a ++ b)%string = (String.length a + String.length b)%nat.
Proof.
  induction a as [|c a IH]; [reflexivity|].
  change (S (String.length (a ++ b)%string)
          = S (String.length a + String.length b)). now f_equal.
Qed.

Lemma length_take (n : nat) (s : string) :
  String.length (Str.take n s) = Nat.min n (String.length s).
Proof.
  revert s. induction n as [|n IH]; intros [|c s]; simpl; try reflexivity.
  now rewrite IH.
Qed.

Lemma legal_append (a b : string) :
  legal (a ++ b)%string = (legal a && legal b)%bool.
Proof.
  induction a as [|c a IH]; [reflexivity|].
  change (negb (illegal c) && legal (a ++ b)%string
          = negb (illegal c) && legal a && legal b)%bool.
  rewrite IH. now destruct (illegal c).
Qed.

Lemma legal_take (n : nat) (s : string) :
  legal s = true -> legal (Str.take n s) = true.
Proof.
  revert s. induction n as [|n IH]; intros [|c s]; simpl; try reflexivity.
  intros H. apply andb_true_iff in H as [Hc Hs]. now rewrite Hc, IH.
Qed.

Lemma strip_illegal_legal (s : string) : legal (strip_illegal s) = true.
Proof.
  induction s as [|c s IH]; simpl; [reflexivity|].
  destruct (illegal c) eqn:E; [exact IH|]. simpl. now rewrite E, IH.
Qed.

Lemma strip_illegal_id (s : string) : legal s = true -> strip_illegal s = s.
Proof.
  induction s as [|c s IH]; simpl; [reflexivity|].
  intros H. apply andb_true_iff in H as [Hc Hs].
  apply negb_true_iff in Hc. rewrite Hc. now rewrite IH.
Qed.

Lemma strip_illegal_length (s : string) :
  (String.length (strip_illegal s) <= String.length s)%nat.
Proof.
  induction s as [|c s IH]; simpl; [lia|].
  destruct (illegal c); simpl; lia.
Qed.

(** A text that is legal and not too long is kept as it is. *)
Lemma sanitize_short (s : string) :
  legal s = true ->
  (Z.of_nat (String.length s) <= max_length)%Z ->
  sanitize_for_excel repr (VStr s) = s.
Proof.
  intros Hl Hn. unfold sanitize_for_excel. cbn [py_str].
  rewrite (strip_illegal_id _ Hl).
  destruct (max_length <? Z.of_nat (String.length s))%Z eqn:E;
    [|reflexivity].
  apply Z.ltb_lt in E. lia.
Qed.

(** What [sanitize_for_excel] returns is legal and fits a cell. *)
Lemma sanitize_result (v : value) :
  legal (sanitize_for_excel repr v) = true /\
  (Z.of_nat (String.length (sanitize_for_excel repr v)) <= max_length)%Z.
Proof.
  unfold sanitize_for_excel.
  assert (Hmark : legal "... [truncated]" = true) by reflexivity.
  assert (Hlen : String.length "... [truncated]" = 15%nat) by reflexivity.
  assert (Hmax : max_length = 32767%Z) by reflexivity.
  assert (Hgen : forall s,
             legal
               (let content := strip_illegal s in
                if (max_length <? Z.of_nat (String.length content))%Z then
                  let content :=
                    Str.take (Z.to_nat (max_length - 20)) content in
                  match rfind_space content with
                  | Some last_space =>
                      if (26214 <=? Z.of_nat last_space)%Z then
                        (Str.take last_space content ++ "... [truncated]")%string
                      else (content ++ "... [truncated]")%string
                  | None => (content ++ "... [truncated]")%string
                  end
                else content) = true /\
             (Z.of_nat (String.length
               (let content := strip_illegal s in
                if (max_length <? Z.of_nat (String.length content))%Z then
                  let content :=
                    Str.take (Z.to_nat (max_length - 20)) content in
                  match rfind_space content with
                  | Some last_space =>
                      if (26214 <=? Z.of_nat last_space)%Z then
                        (Str.take last_space content ++ "... [truncated]")%string
                      else (content ++ "... [truncated]")%string
                  | None => (content ++ "... [truncated]")%string
                  end
                else content)) <= max_length)%Z).
  { intros s. cbv zeta.
    pose proof (strip_illegal_legal s) as Hs.
    set (content := strip_illegal s) in *. clearbody content.
    destruct (max_length <? Z.of_nat (String.length content))%Z eqn:E.
    - apply Z.ltb_lt in E.
      set (cut := Str.take (Z.to_nat (max_length - 20)) content).
      assert (Hcut : legal cut = true) by now apply legal_take.
      assert (Hcl : String.length cut = Z.to_nat (max_length - 20)).
      { subst cut. rewrite length_take. lia. }
      assert (Happ : forall t,
                 legal t = true ->
                 (String.length t <= String.length cut)%nat ->
                 legal (t ++ "... [truncated]")%string = true /\
                 (Z.of_nat (String.length (t ++ "... [truncated]")%string)
                  <= max_length)%Z).
      { intros t Ht Htl. split.
        - now rewrite legal_append, Ht.
        - rewrite length_append, Hlen. lia. }
      destruct (rfind_space cut) as [i|].
      + destruct (26214 <=? Z.of_nat i)%Z.
        * apply Happ; [now apply legal_take|].
          rewrite length_take. lia.
        * now apply Happ.
      + now apply Happ.
    - apply Z.ltb_ge in E. now split. }
  destruct v; try apply Hgen. split; [reflexivity|]. rewrite Hmax. cbn. lia.
Qed.

(** A legal text is one the library takes. *)
Lemma accepted_legal (s : string) : legal s = true -> accepted (VStr s) = true.
Proof. intros H. unfold accepted. now apply legal_take. Qed.

Lemma accepted_sanitized (v : value) :
  accepted (VStr (sanitize_for_excel repr v)) = true.
Proof. apply accepted_legal. apply sanitize_result. Qed.

Lemma accepted_number (v : value) : is_number v = true -> accepted v = true.
Proof. now destruct v. Qed.








End CellText.

(** ** Parts that are missing *)

Section MissingParts.

Import GenerateExcel.

Variable repr : value -> string.











End MissingParts.

(** ** The rows of the four sheets *)



Section SheetsRows.

Import GenerateExcel.

Variable repr : value -> string.

(** The cells of a row of the Summary sheet. *)
Lemma summary_row_parts ws r psi ws' :
  summary_row repr ws r psi = Ok ws' ->
  exists url strategies mobile desktop mobile_cwv mobile_opps top ms ds
         lcp inp cls,
    Val.get psi "url" (VStr "") = Ok url /\
    Val.get psi "strategies" (VDict []) = Ok strategies /\
    Val.get strategies "mobile" (VDict []) = Ok mobile /\
    Val.get strategies "desktop" (VDict []) = Ok desktop /\
    Val.get mobile "core_web_vitals" (VDict []) = Ok mobile_cwv /\
    Val.get mobile "opportunities" (VList []) = Ok mobile_opps /\
    (if truthy mobile_opps
     then let* o := Val.first mobile_opps in Val.get o "title" (VStr "")
     else Ok (VStr "")) = Ok top /\
    Val.get mobile "performance_score" (VStr "") = Ok ms /\
    Val.get desktop "performance_score" (VStr "") = Ok ds /\
    get_with _get_status_text mobile_cwv "lcp" = Ok lcp /\
    get_with _get_status_text mobile_cwv "inp" = Ok inp /\
    get_with _get_status_text mobile_cwv "cls" = Ok cls /\
    ws' = write_cells ws r 1
            [ VStr (sanitize_for_excel repr url); ms; ds; lcp; inp; cls;
              VStr (sanitize_for_excel repr top) ].
Proof.
  unfold summary_row. intros H.
  bind_split H as url Eurl. bind_split H as strategies Est.
  bind_split H as mobile Em. bind_split H as desktop Ed.
  bind_split H as cwv Ecwv. bind_split H as opps Eopps.
  bind_split H as top Etop. bind_split H as ms Ems. bind_split H as ds Eds.
  bind_split H as lcp Elcp. bind_split H as inp Einp.
  bind_split H as cls Ecls. last_cell H.
  exists url, strategies, mobile, desktop, cwv, opps, top, ms, ds,
         lcp, inp, cls.
  repeat (split; [assumption|]). reflexivity.
Qed.

(** The cells of a row of the Core Web Vitals sheet. *)
Lemma cwv_row_parts url ws r item ws' :
  cwv_row repr url ws r item = Ok ws' ->
  exists cwv score c4 c6 c8 c10 c11 c12,
    Val.get (snd item) "core_web_vitals" (VDict []) = Ok cwv /\
    Val.get (snd item) "performance_score" (VStr "") = Ok score /\
    get_with (_format_metric repr) cwv "lcp" = Ok (VStr c4) /\
    get_with (_format_metric repr) cwv "inp" = Ok (VStr c6) /\
    get_with (_format_metric repr) cwv "cls" = Ok (VStr c8) /\
    get_with (_format_metric repr) cwv "fcp" = Ok (VStr c10) /\
    get_with (_format_metric repr) cwv "ttfb" = Ok (VStr c11) /\
    get_with (_format_metric repr) cwv "tbt" = Ok (VStr c12) /\
    ws' = write_cells ws r 1
            [ VStr (sanitize_for_excel repr url);
              VStr (Str.capitalize (fst item));
              score;
              VStr c4; VStr (field_cell repr (snd item) "lcp_p75" "s");
              VStr c6; VStr (field_cell repr (snd item) "inp_p75" "ms");
              VStr c8; VStr (field_cell repr (snd item) "cls_p75" "");
              VStr c10; VStr c11; VStr c12 ].
Proof.
  destruct item as [name sd]. unfold cwv_row. intros H.
  bind_split H as cwv Ecwv. bind_split H as fm Efm.
  bind_split H as lcp Elcp. bind_split H as inp Einp. bind_split H as cls Ecls.
  bind_split H as fcp Efcp. bind_split H as ttfb Ettfb. bind_split H as tbt Etbt.
  bind_split H as score Escore.
  bind_split H as c4 E4. bind_split H as c5 E5. bind_split H as c6 E6.
  bind_split H as c7 E7. bind_split H as c8 E8. bind_split H as c9 E9.
  bind_split H as c10 E10. bind_split H as c11 E11. bind_split H as c12 E12.
  last_cell H.
  apply (format_field_metric_spec _ _ _ _ _ _ Efm) in E5, E7, E9.
  subst c5 c7 c9.
  exists cwv, score, c4, c6, c8, c10, c11, c12. cbn [fst snd].
  unfold get_with.
  rewrite Elcp, Einp, Ecls, Efcp, Ettfb, Etbt. cbn [Py.bind].
  rewrite E4, E6, E8, E10, E11, E12. cbn [Py.bind].
  repeat (split; [first [assumption|reflexivity]|]). reflexivity.
Qed.










End SheetsRows.

(** ** The tables of the four sheets *)

Section SheetTables.

Import GenerateExcel.

Variable repr : value -> string.










End SheetTables.

(** ** Writing the rows *)

Lemma bind_step {A B : Type} (m : res A) (a : A) (k : A -> res B)
    (b : res B) :
  m = Ok a -> k a = b -> Py.bind m k = b.
Proof. intros -> <-. reflexivity. Qed.

(** One step of a sequence: a read that returns, a write the library
    takes. *)
Ltac step E := apply (bind_step _ _ _ _ E); cbv beta zeta.
Ltac put_cell :=
  eapply bind_step; [apply cell_accepted; assumption|]; cbv beta zeta.
Ltac last_put := apply cell_accepted; assumption.



Lemma opt_field_default kv k (ok : value -> bool) default :
  opt_field kv k ok = true -> ok default = true ->
  ok (match Dict.get kv k with Some v => v | None => default end) = true.
Proof. unfold opt_field. now destruct (Dict.get kv k). Qed.

Section RowsWritten.

Import GenerateExcel.

Variable repr : value -> string.



(** The same of a row of the Network Analysis sheet. *)
Lemma network_row_intro ws r network url summary by_type total_requests
    total_bytes largest scripts images css fonts largest_name tb
    c4 c5 c6 c7 c8 c9 c10 c11 :
  Val.get network "url" (VStr "") = Ok url ->
  Val.get network "summary" (VDict []) = Ok summary ->
  get_or network summary "by_type" (VDict []) = Ok by_type ->
  get_or network summary "total_requests" (VInt 0) = Ok total_requests ->
  get_or network summary "total_transfer_bytes" (VInt 0) = Ok total_bytes ->
  Val.get network "largest_resources" (VList []) = Ok largest ->
  Val.get by_type "script" (VDict []) = Ok scripts ->
  Val.get by_type "image" (VDict []) = Ok images ->
  Val.get by_type "stylesheet" (VDict []) = Ok css ->
  Val.get by_type "font" (VDict []) = Ok fonts ->
  largest_name_of largest = Ok largest_name ->
  Val.number total_bytes = Ok tb ->
  Val.get scripts "count" (VInt 0) = Ok c4 -> kb_of scripts = Ok c5 ->
  Val.get images "count" (VInt 0) = Ok c6 -> kb_of images = Ok c7 ->
  Val.get css "count" (VInt 0) = Ok c8 -> kb_of css = Ok c9 ->
  Val.get fonts "count" (VInt 0) = Ok c10 -> kb_of fonts = Ok c11 ->
  forallb accepted
    [ VStr (sanitize_for_excel repr url); total_requests;
      VFloat (round_q (tb / 1024 / 1024)%Q 2);
      c4; c5; c6; c7; c8; c9; c10; c11;
      VStr (sanitize_for_excel repr (VStr largest_name)) ] = true ->
  network_row repr ws r network
  = Ok (write_cells ws r 1
          [ VStr (sanitize_for_excel repr url); total_requests;
            VFloat (round_q (tb / 1024 / 1024)%Q 2);
            c4; c5; c6; c7; c8; c9; c10; c11;
            VStr (sanitize_for_excel repr (VStr largest_name)) ]).
Proof.
  intros Eurl Esm Ebt Etr Etb Elg Es Ei Ec Ef Eln Eq E4 E5 E6 E7 E8 E9
    E10 E11 Hacc.
  cbn [forallb] in Hacc. split_checks.
  unfold network_row.
  step Eurl. step Esm. step Ebt. step Etr. step Etb. step Elg. step Es.
  step Ei. step Ec. step Ef. step Eln. put_cell. put_cell. step Eq.
  put_cell. step E4. put_cell. step E5. put_cell. step E6. put_cell.
  step E7. put_cell. step E8. put_cell. step E9. put_cell. step E10.
  put_cell. step E11. put_cell. last_put.
Qed.


End RowsWritten.

(** ** The rows of documents with parts missing *)

Section RowsTotal.

Import GenerateExcel.

Variable repr : value -> string.


Lemma format_metric_total m :
  is_dict m = true -> exists s, _format_metric repr m = Ok s.
Proof.
  intros H. apply is_dict_inv in H as (kv & ->).
  unfold _format_metric. destruct (negb _); [eauto|].
  rewrite !get_dict. cbn [Py.bind]. destruct (eq_str _ _); eauto.
Qed.



Lemma format_metric_of_total kv k :
  opt_field kv k is_dict = true ->
  exists m s, Val.get (VDict kv) k (VDict []) = Ok m /\
              _format_metric repr m = Ok s.
Proof.
  intros H.
  destruct (opt_field_get kv k _ (VDict []) H eq_refl) as (m & E & Hm).
  destruct (format_metric_total m Hm) as (s & Es). eauto.
Qed.

Lemma kb_of_total kv k :
  opt_field kv k wf_bucket = true ->
  exists b c kb, Val.get (VDict kv) k (VDict []) = Ok (VDict b) /\
                 Val.get (VDict b) "count" (VInt 0) = Ok c /\
                 kb_of (VDict b) = Ok kb.
Proof.
  intros H.
  destruct (opt_field_get kv k _ (VDict []) H eq_refl) as (bv & E & Hb).
  unfold wf_bucket in Hb. apply dict_of_inv in Hb as (b & -> & Hb).
  exists b. rewrite get_dict. unfold kb_of.
  destruct (opt_field_get b "bytes" is_number (VInt 0) Hb eq_refl)
    as (x & -> & Hx).
  cbn [Py.bind]. destruct (number_total _ Hx) as (q & ->). cbn. eauto.
Qed.









Lemma accepted_get kv k default :
  opt_field kv k accepted = true -> accepted default = true ->
  forall v, Val.get (VDict kv) k default = Ok v -> accepted v = true.
Proof.
  intros H Hd v E. rewrite get_dict in E. apply ok_inj in E. subst v.
  now apply opt_field_default.
Qed.










End RowsTotal.

(** ** The sheets of documents with parts missing *)

Section SheetsTotal.

Import GenerateExcel.

Variable repr : value -> string.


















End SheetsTotal.





(* ===================================================================== *)
(** * Further properties of the scripts and of the analyzer *)
(* ===================================================================== *)

(* ===================================================================== *)
(** * The normalizer of a provider response *)
(* ===================================================================== *)

(** ** Field data *)

(** ** Lab metrics *)

Lemma dict_get_app_fresh {V : Type} (d : list (string * V)) k v k' :
  Dict.get d k = None ->
  Dict.get (d ++ [(k, v)]) k' =
  if String.eqb k k' then Some v else Dict.get d k'.
Proof.
  intros Hfresh. induction d as [|[k0 v0] d IH]; simpl in *.
  - reflexivity.
  - destruct (String.eqb k0 k) eqn:E0; [discriminate|].
    destruct (String.eqb k0 k') eqn:E1.
    + apply String.eqb_eq in E1. subst k0. now rewrite String.eqb_sym, E0.
    + now apply IH.
Qed.

Lemma dict_set_fresh {V : Type} (d : list (string * V)) k v :
  Dict.get d k = None -> Dict.set d k v = d ++ [(k, v)].
Proof.
  intros Hfresh. induction d as [|[k0 v0] d IH]; simpl in *; [reflexivity|].
  destruct (String.eqb k0 k); [discriminate|]. f_equal. now apply IH.
Qed.

Lemma contains_getitem audits audit_id audit :
  Val.contains audits audit_id = Ok true ->
  Val.getitem audits audit_id = Ok audit ->
  exists kv, audits = VDict kv /\ Dict.get kv audit_id = Some audit.
Proof.
  destruct audits; simpl; try discriminate. intros _ H.
  exists d. split; [reflexivity|].
  destruct (Dict.get d audit_id); [now injection H as ->|discriminate].
Qed.

Lemma contains_false_dict audits audit_id :
  Val.contains audits audit_id = Ok false ->
  match audits with VDict kv => Dict.get kv audit_id | _ => None end = None.
Proof.
  destruct audits; simpl; try reflexivity. unfold Dict.mem.
  destruct (Dict.get d audit_id); [discriminate|reflexivity].
Qed.

Section LabMetrics.

Import Psi.

Variable audits : value.

Lemma lab_metric_outcome audit_id name convert status metrics metrics' :
  Psi.lab_metric audits audit_id name convert status metrics = Ok metrics' ->
  Dict.get metrics name = None ->
  (metrics' = metrics /\
   block_outcome audits (audit_id, name, convert, status) None) \/
  (exists m, metrics' = metrics ++ [(name, m)] /\
             block_outcome audits (audit_id, name, convert, status) (Some m)).
Proof.
  unfold Psi.lab_metric, block_outcome. intros H Hfresh.
  bind_split H as present Ep. destruct present.
  - bind_split H as audit Ea. bind_split H as raw Er.
    bind_split H as vu Ec. destruct vu as [v u].
    bind_split H as st Es. apply ok_inj in H. subst metrics'.
    destruct (contains_getitem _ _ _ Ep Ea) as (kv & -> & ->).
    right. eexists. split; [now apply dict_set_fresh|].
    assert (Hraw : Psi.raw_value audit = raw)
      by (unfold Psi.raw_value; now rewrite Er).
    rewrite Hraw. exists v, u, st. split; [exact Ec|]. split; [|reflexivity].
    destruct status as [classify|].
    + bind_split Es as s Es'. apply ok_inj in Es. eauto.
    + now apply ok_inj in Es.
  - apply ok_inj in H. subst metrics'. left. split; [reflexivity|].
    now rewrite (contains_false_dict _ _ Ep).
Qed.

Lemma lab_fold blocks : forall acc out,
  Val.foldM
    (fun metrics '(audit_id, name, convert, status) =>
       Psi.lab_metric audits audit_id name convert status metrics)
    blocks acc = Ok out ->
  NoDup (map block_name blocks) ->
  (forall b, In b blocks -> Dict.get acc (block_name b) = None) ->
  (exists new, out = acc ++ new /\
               sublist (Dict.keys new) (map block_name blocks)) /\
  (forall k, ~ In k (map block_name blocks) -> Dict.get out k = Dict.get acc k) /\
  (forall b, In b blocks -> block_outcome audits b (Dict.get out (block_name b))).
Proof.
  induction blocks as [|b blocks IH]; intros acc out H Hnd Hfresh.
  - apply ok_inj in H. subst out. split; [|split].
    + exists []. now rewrite app_nil_r.
    + reflexivity.
    + intros b [].
  - cbn [Val.foldM] in H. bind_split H as acc1 E1.
    destruct b as [[[audit_id name] convert] status].
    cbn [map] in Hnd. apply NoDup_cons in Hnd as [Hnotin Hnd].
    rewrite list_elem_of_In in Hnotin.
    change (block_name (audit_id, name, convert, status)) with name in *.
    assert (Hacc : Dict.get acc name = None).
    { apply (Hfresh (audit_id, name, convert, status)). now left. }
    apply lab_metric_outcome in E1; [|exact Hacc].
    assert (Hget1 : forall k, k <> name -> Dict.get acc1 k = Dict.get acc k).
    { intros k Hk. destruct E1 as [[-> _]|(m & -> & _)]; [reflexivity|].
      rewrite dict_get_app_fresh by exact Hacc.
      destruct (String.eqb name k) eqn:E; [|reflexivity].
      apply String.eqb_eq in E. congruence. }
    destruct (IH acc1 out H Hnd) as ((new & -> & Hsub) & Hother & Hblocks).
    { intros b' Hb'. rewrite Hget1.
      - apply Hfresh. now right.
      - intros Heq. apply Hnotin. rewrite <- Heq. now apply in_map. }
    split; [|split].
    + destruct E1 as [[-> _]|(m & -> & _)].
      * exists new. split; [reflexivity|]. now apply sublist_cons.
      * exists ((name, m) :: new). split; [now rewrite <- app_assoc|].
        cbn [map Dict.keys fst]. apply sublist_skip. exact Hsub.
    + intros k Hk. cbn [map] in Hk. rewrite Hother by (intros Hin; apply Hk; now right).
      apply Hget1. intros ->. apply Hk. now left.
    + intros b' [<-|Hb']; [|now apply Hblocks].
      change (block_name (audit_id, name, convert, status)) with name.
      rewrite (Hother name Hnotin).
      destruct E1 as [[-> Ho]|(m & -> & Ho)].
      * now rewrite Hacc.
      * rewrite dict_get_app_fresh by exact Hacc.
        now rewrite String.eqb_refl.
Qed.

End LabMetrics.

Lemma get_status_number name raw s :
  Psi.get_status name raw = Ok s ->
  exists x, as_number raw = Some x /\ s = FetchPsi.get_status name (Fin x).
Proof.
  unfold Psi.get_status, Val.number. intros H.
  destruct (as_number raw) as [x|]; [|discriminate].
  apply ok_inj in H. eauto.
Qed.

Lemma round_value_number raw n r :
  Psi.round_value raw n = Ok r -> exists x, as_number raw = Some x.
Proof. destruct raw; simpl; try discriminate; eauto. Qed.

Lemma convert_number name raw vu :
  Psi.convert_to_display_unit name raw = Ok vu ->
  exists x, as_number raw = Some x.
Proof.
  unfold Psi.convert_to_display_unit, Val.number. intros H.
  repeat match type of H with
         | (if ?b then _ else _) = _ => destruct b
         end;
    bind_split H as r Er;
    first [ now destruct (as_number raw); [eauto|discriminate]
          | now apply round_value_number in Er ].
Qed.

Lemma lab_metrics_spec (lighthouse_result r : value) :
  Psi.parse_lighthouse_metrics lighthouse_result = Ok r ->
  exists metrics,
    r = VDict metrics /\
    sublist (Dict.keys metrics) (map snd Psi.lab_audits) /\
    Forall (fun '(audit_id, name) =>
              match Psi.audit_of lighthouse_result audit_id with
              | Some audit =>
                  exists m, Dict.get metrics name = Some m /\
                            Psi.entry_of name (Psi.raw_value audit) m
              | None => Dict.get metrics name = None
              end) Psi.lab_audits.
Proof.
  unfold Psi.parse_lighthouse_metrics. intros H.
  bind_split H as audits Ea. bind_split H as metrics Em.
  apply ok_inj in H. subst r. exists metrics. split; [reflexivity|].
  apply lab_fold in Em as ((new & -> & Hsub) & _ & Hblocks).
  - split; [exact Hsub|].
    assert (Haudit : forall audit_id,
               Psi.audit_of lighthouse_result audit_id =
               match audits with
               | VDict kv => Dict.get kv audit_id
               | _ => None
               end).
    { intros audit_id. unfold Psi.audit_of. rewrite Ea.
      now destruct audits. }
    assert (HF : Forall (fun b => Psi.block_outcome audits b
                                    (Dict.get new (Psi.block_name b)))
                   Psi.lab_blocks).
    { apply List.Forall_forall. intros b Hb. now apply Hblocks. }
    unfold Psi.lab_blocks in HF.
    repeat match type of HF with
           | Forall _ (_ :: _) =>
               let Hb := fresh "Hb" in
               apply List.Forall_cons_iff in HF as [Hb HF];
               unfold Psi.block_outcome, Psi.block_name in Hb;
               cbn [fst snd] in Hb
           end.
    clear HF Hblocks.
    unfold Psi.lab_audits.
    destruct audits as [| | | | | |kv];
      each_member; cbv beta iota; rewrite Haudit; try assumption;
      lazymatch goal with
      | |- match Dict.get kv ?audit_id with _ => _ end =>
          destruct (Dict.get kv audit_id) as [audit|]; [|assumption]
      end;
      match goal with
      | Hb : exists v u st, _ |- _ =>
          solve
            [ destruct Hb as (v & u & st & Hc & Hst & Hm);
              exists (Psi.metric_entry v u (Psi.raw_value audit) st);
              split; [exact Hm|];
              first
                [ destruct Hst as (s & Hs & ->);
                  apply get_status_number in Hs as (x & Hx & ->);
                  exists x, v, u; split; [exact Hx|];
                  split; [exact Hc|reflexivity]
                | subst st;
                  destruct (convert_number _ _ _ Hc) as (x & Hx);
                  exists x, v, u; split; [exact Hx|];
                  split; [exact Hc|reflexivity] ] ]
      end.
  - apply NoDup_ListNoDup. cbn.
    repeat (constructor; [cbn; intuition discriminate|]). constructor.
  - intros b _. reflexivity.
Qed.

(** X2: the lab metrics hold an entry exactly for the audits the document
    has, under the keys [lcp], [inp], [cls], [fcp], [ttfb], [tbt] and
    [speed_index] in this order; the entry of an audit is made of its raw
    value, which is a number: the displayed value and unit are the
    conversion of the raw value, [raw_ms] is the raw value itself, and
    the status (the first five metrics have one, [tbt] and [speed_index]
    none) is the band of the raw value, not of the displayed one. *)
Theorem X2_lab_metrics (lighthouse_result r : value) :
  Psi.parse_lighthouse_metrics lighthouse_result = Ok r ->
  exists metrics,
    r = VDict metrics /\
    sublist (Dict.keys metrics) (map snd Psi.lab_audits) /\
    Forall (fun '(audit_id, name) =>
              match Psi.audit_of lighthouse_result audit_id with
              | Some audit =>
                  exists m, Dict.get metrics name = Some m /\
                            Psi.entry_of name (Psi.raw_value audit) m
              | None => Dict.get metrics name = None
              end) Psi.lab_audits.
Proof. exact (lab_metrics_spec lighthouse_result r). Qed.

(** ** Diagnostics *)

Lemma with_first_item_keys (t d items : value) audit_id diagnostic :
  Psi.with_first_item
    [("id", VStr audit_id); ("title", t); ("description", d)] items
  = Ok diagnostic ->
  In (Dict.keys diagnostic) Psi.diagnostic_keys /\
  Dict.get diagnostic "id" = Some (VStr audit_id) /\
  Psi.lookup diagnostic "title" = t /\
  Psi.lookup diagnostic "description" = d.
Proof.
  unfold Psi.with_first_item. intros H.
  destruct (truthy items).
  - bind_split H as first_item Ef. bind_split H as has_node En.
    destruct has_node.
    + bind_split H as node Enode. bind_split H as selector Es.
      apply ok_inj in H. subst diagnostic. cbn. tauto.
    + bind_split H as has_url Eu. destruct has_url.
      * bind_split H as u Eurl. apply ok_inj in H. subst diagnostic.
        cbn. tauto.
      * apply ok_inj in H. subst diagnostic. cbn. tauto.
  - apply ok_inj in H. subst diagnostic. cbn. tauto.
Qed.

Lemma diagnostic_of_spec lighthouse_result audits audit_id o :
  Val.get lighthouse_result "audits" (VDict []) = Ok audits ->
  Psi.diagnostic_of audits audit_id = Ok o ->
  match o with
  | Some d => Psi.diagnostic_for lighthouse_result d audit_id
  | None =>
      forall audit, Psi.audit_of lighthouse_result audit_id = Some audit ->
                    ~ Psi.reported audit
  end.
Proof.
  unfold Psi.diagnostic_of. intros Ea H.
  bind_split H as present Ep. destruct present; cbn [negb] in H.
  - bind_split H as audit Eaudit. bind_split H as score Es.
    bind_split H as issue Ei.
    destruct (contains_getitem _ _ _ Ep Eaudit) as (kv & -> & Hget).
    assert (Haudit : Psi.audit_of lighthouse_result audit_id = Some audit).
    { unfold Psi.audit_of. now rewrite Ea. }
    destruct issue.
    + bind_split H as t Et. bind_split H as d Ed.
      bind_split H as details Edet. bind_split H as items Eit.
      bind_split H as diagnostic Ediag. apply ok_inj in H. subst o.
      apply with_first_item_keys in Ediag as (Hk & Hid & Ht & Hd).
      exists audit, diagnostic. split; [exact Haudit|].
      split; [now exists score|]. split; [reflexivity|].
      split; [exact Hk|]. split; [exact Hid|]. now rewrite Ht, Hd.
    + apply ok_inj in H. subst o. intros audit' Haudit' (score' & Hs' & Hi').
      rewrite Haudit in Haudit'. injection Haudit' as <-.
      rewrite Es in Hs'. injection Hs' as <-. congruence.
  - apply ok_inj in H. subst o. intros audit Haudit.
    apply contains_false_dict in Ep.
    unfold Psi.audit_of in Haudit. rewrite Ea in Haudit.
    destruct audits; congruence.
Qed.

Lemma diagnostics_fold lighthouse_result audits ids : forall acc out,
  Val.get lighthouse_result "audits" (VDict []) = Ok audits ->
  Val.foldM (Psi.add_diagnostic audits) ids acc = Ok out ->
  exists new reported_ids,
    out = acc ++ new /\
    sublist reported_ids ids /\
    Forall2 (Psi.diagnostic_for lighthouse_result) new reported_ids /\
    (forall audit_id audit,
        In audit_id ids -> ~ In audit_id reported_ids ->
        Psi.audit_of lighthouse_result audit_id = Some audit ->
        ~ Psi.reported audit).
Proof.
  induction ids as [|audit_id ids IH]; intros acc out Ea H.
  - apply ok_inj in H. subst out. exists [], [].
    rewrite app_nil_r. split; [reflexivity|]. split; [reflexivity|].
    split; [constructor|]. intros ? ? [].
  - cbn [Val.foldM] in H. bind_split H as acc1 E1.
    unfold Psi.add_diagnostic in E1. bind_split E1 as o Eo.
    pose proof (diagnostic_of_spec _ _ _ _ Ea Eo) as Hspec.
    destruct (IH _ _ Ea H) as (new & rids & -> & Hsub & Hall & Hrest).
    destruct o as [d|]; apply ok_inj in E1; subst acc1.
    + exists (d :: new), (audit_id :: rids).
      split; [now rewrite <- app_assoc|].
      split; [now apply sublist_skip|].
      split; [now constructor|].
      intros i audit [<-|Hin] Hnot; [exfalso; apply Hnot; now left|].
      apply Hrest; [exact Hin|]. intros Hr. apply Hnot. now right.
    + exists new, rids. split; [reflexivity|].
      split; [now apply sublist_cons|]. split; [exact Hall|].
      intros i audit [<-|Hin] Hnot; [now apply Hspec|].
      now apply Hrest.
Qed.

Lemma diagnostics_spec (lighthouse_result : value) (diagnostics : list value) :
  Psi.parse_diagnostics lighthouse_result = Ok diagnostics ->
  exists reported_ids,
    sublist reported_ids Psi.diagnostic_ids /\
    Forall2 (Psi.diagnostic_for lighthouse_result) diagnostics reported_ids /\
    (List.length diagnostics <= 9)%nat /\
    (forall audit_id audit,
        In audit_id Psi.diagnostic_ids ->
        Psi.audit_of lighthouse_result audit_id = Some audit ->
        (In audit_id reported_ids <-> Psi.reported audit)).
Proof.
  unfold Psi.parse_diagnostics. intros H. bind_split H as audits Ea.
  destruct (diagnostics_fold _ _ _ _ _ Ea H)
    as (new & rids & -> & Hsub & Hall & Hrest).
  cbn [app]. exists rids. split; [exact Hsub|]. split; [exact Hall|].
  split.
  - rewrite (Forall2_length _ _ _ Hall).
    apply sublist_length in Hsub. exact Hsub.
  - intros audit_id audit Hin Haudit. split.
    + intros Hr.
      apply list_elem_of_In in Hr.
      destruct (list_elem_of_lookup_1 _ _ Hr) as (i & Hi).
      destruct (Forall2_lookup_r _ _ _ _ _ Hall Hi)
        as (d & _ & audit' & kv & Haudit' & Hrep & _).
      rewrite Haudit in Haudit'. now injection Haudit' as <-.
    + intros Hrep.
      destruct (in_dec String.string_dec audit_id rids) as [Hr|Hr];
        [exact Hr|].
      exfalso. exact (Hrest _ _ Hin Hr Haudit Hrep).
Qed.

(** X3: the diagnostics are those of the nine diagnostic audits, in the
    order of the list of the nine, each at most once: an audit of the
    list is reported exactly when the document has it with no score or
    with a score below 0.9. A diagnostic carries the identifier, the
    title and the description of its audit and at most one of [element]
    and [resource], never both. *)
Theorem X3_diagnostics (lighthouse_result : value) (diagnostics : list value) :
  Psi.parse_diagnostics lighthouse_result = Ok diagnostics ->
  exists reported_ids,
    sublist reported_ids Psi.diagnostic_ids /\
    Forall2 (Psi.diagnostic_for lighthouse_result) diagnostics reported_ids /\
    (List.length diagnostics <= 9)%nat /\
    (forall audit_id audit,
        In audit_id Psi.diagnostic_ids ->
        Psi.audit_of lighthouse_result audit_id = Some audit ->
        (In audit_id reported_ids <-> Psi.reported audit)).
Proof. exact (diagnostics_spec lighthouse_result diagnostics). Qed.

(** ** Opportunities and diagnostics *)

Lemma dict_NoDup_In {V : Type} (d : list (string * V)) k v :
  List.NoDup (Dict.keys d) -> In (k, v) d -> Dict.get d k = Some v.
Proof.
  induction d as [|[k0 v0] d IH]; intros Hnd Hin; [destruct Hin|].
  cbn [Dict.keys map fst] in Hnd. apply List.NoDup_cons_iff in Hnd as [Hk Hnd].
  simpl. destruct Hin as [[= -> ->]|Hin].
  - now rewrite String.eqb_refl.
  - destruct (String.eqb k0 k) eqn:E.
    + apply String.eqb_eq in E. subst k0. exfalso. apply Hk.
      change k with (fst (k, v)). now apply in_map.
    + now apply IH.
Qed.

(** X4: an opportunity whose audit is one of the nine diagnostic audits
    is reported among the diagnostics too, under the same identifier and
    with the same title and description (the audits of the document
    being a dict, each key once): what is below 0.9 for the one list is
    so for the other. *)
Theorem X4_opportunity_is_diagnostic (lighthouse_result : value)
    (opportunities : list FetchPsi.Opportunity) (diagnostics : list value) :
  List.NoDup (Dict.keys (FetchPsi.audits_of lighthouse_result)) ->
  FetchPsi.parse_opportunities lighthouse_result = Ok opportunities ->
  Psi.parse_diagnostics lighthouse_result = Ok diagnostics ->
  forall o,
    In o opportunities ->
    In (FetchPsi.id o) Psi.diagnostic_ids ->
    exists kv,
      In (VDict kv) diagnostics /\
      Dict.get kv "id" = Some (VStr (FetchPsi.id o)) /\
      Psi.lookup kv "title" = FetchPsi.title o /\
      Psi.lookup kv "description" = FetchPsi.description o.
Proof.
  intros Hnd Hopps Hdiag o Ho Hid.
  unfold FetchPsi.parse_opportunities in Hopps.
  bind_split Hopps as audits Ea. bind_split Hopps as categories Ec.
  bind_split Hopps as performance Ep. bind_split Hopps as refs Er.
  bind_split Hopps as ids Eids. bind_split Hopps as items Eit.
  bind_split Hopps as unsorted Eu. apply ok_inj in Hopps. subst opportunities.
  destruct audits as [| | | | | |kv]; try discriminate.
  apply ok_inj in Eit. subst items.
  assert (Hau : FetchPsi.audits_of lighthouse_result = kv).
  { unfold FetchPsi.audits_of. now rewrite Ea. }
  rewrite Hau in Hnd.
  apply collect_fold in Eu as (new & -> & _ & Hall). cbn [app] in Ho.
  apply (Permutation_in _ (sorted_desc_perm FetchPsi.savings_key new)) in Ho.
  rewrite List.Forall_forall in Hall.
  destruct (Hall o Ho) as (audit & Hin & Hof).
  apply opportunity_of_Some in Hof as (_ & _ & Hscore & _ & Ht & Hd).
  pose proof (dict_NoDup_In _ _ _ Hnd Hin) as Hget.
  assert (Haudit : Psi.audit_of lighthouse_result (FetchPsi.id o) = Some audit).
  { unfold Psi.audit_of. now rewrite Ea. }
  assert (Hrep : Psi.reported audit).
  { destruct Hscore as (sc & x & Hsc & Hx & Hlt). exists sc.
    split; [exact Hsc|]. unfold Psi.has_issue, Val.number.
    destruct sc; try discriminate; cbn in Hx |- *;
      injection Hx as <-; f_equal;
      apply negb_true_iff; apply not_true_iff_false;
      rewrite Qle_bool_iff; now apply Qlt_not_le. }
  destruct (diagnostics_spec lighthouse_result diagnostics Hdiag)
    as (rids & _ & Hall2 & _ & Hiff).
  apply (Hiff _ _ Hid Haudit) in Hrep.
  apply list_elem_of_In in Hrep.
  destruct (list_elem_of_lookup_1 _ _ Hrep) as (i & Hi).
  destruct (Forall2_lookup_r _ _ _ _ _ Hall2 Hi)
    as (d & Hd' & audit' & kv' & Haudit' & _ & -> & _ & Hid' & Ht' & Hd'').
  rewrite Haudit in Haudit'. injection Haudit' as <-.
  exists kv'. split.
  { apply list_elem_of_In. eapply list_elem_of_lookup_2. exact Hd'. }
  split; [exact Hid'|].
  rewrite Ht in Ht'. rewrite Hd in Hd''.
  split; congruence.
Qed.

(** ** The run over the strategies *)

Lemma fetch_all_spec (fetch : string -> Psi.attempt) (todo : list string) :
  forall result,
    List.NoDup todo ->
    (forall s, In s todo -> Dict.get (Psi.strategies result) s = None) ->
    exists done,
      done `prefix_of` todo /\
      Forall (fun s => Psi.succeeded (fetch s) = true) done /\
      Psi.strategies (Psi.fetch_all fetch todo result) =
        Psi.strategies result
        ++ map (fun s => (s, VDict match fetch s with
                                   | Psi.Returned d => d
                                   | _ => []
                                   end)) done /\
      ((done = todo /\
        Psi.success (Psi.fetch_all fetch todo result) = Psi.success result /\
        Psi.error (Psi.fetch_all fetch todo result) = Psi.error result) \/
       (exists s, (done ++ [s]) `prefix_of` todo /\
                  Psi.succeeded (fetch s) = false /\
                  Psi.success (Psi.fetch_all fetch todo result) = false /\
                  Psi.error (Psi.fetch_all fetch todo result) =
                    Some match fetch s with
                         | Psi.Returned d => Psi.lookup d "error"
                         | Psi.TimedOut =>
                             VStr ("Timeout fetching " ++ s ++ " data")
                         | Psi.Failed message =>
                             VStr ("Error fetching " ++ s ++ " data: "
                                   ++ message)
                         end)).
Proof.
  induction todo as [|s todo IH]; intros result Hnd Hfresh.
  - exists []. split; [reflexivity|]. split; [constructor|].
    cbn. rewrite app_nil_r. split; [reflexivity|]. left. tauto.
  - apply List.NoDup_cons_iff in Hnd as [Hs Hnd].
    assert (Hstop : forall result',
               Psi.strategies result' = Psi.strategies result ->
               Psi.success result' = false ->
               Psi.succeeded (fetch s) = false ->
               Psi.error result' =
                 Some match fetch s with
                      | Psi.Returned d => Psi.lookup d "error"
                      | Psi.TimedOut =>
                          VStr ("Timeout fetching " ++ s ++ " data")
                      | Psi.Failed message =>
                          VStr ("Error fetching " ++ s ++ " data: " ++ message)
                      end ->
               exists done,
                 done `prefix_of` (s :: todo) /\
                 Forall (fun s => Psi.succeeded (fetch s) = true) done /\
                 Psi.strategies result' =
                   Psi.strategies result
                   ++ map (fun s => (s, VDict match fetch s with
                                              | Psi.Returned d => d
                                              | _ => []
                                              end)) done /\
                 ((done = s :: todo /\
                   Psi.success result' = Psi.success result /\
                   Psi.error result' = Psi.error result) \/
                  (exists s', (done ++ [s']) `prefix_of` (s :: todo) /\
                      Psi.succeeded (fetch s') = false /\
                      Psi.success result' = false /\
                      Psi.error result' =
                        Some match fetch s' with
                             | Psi.Returned d => Psi.lookup d "error"
                             | Psi.TimedOut =>
                                 VStr ("Timeout fetching " ++ s' ++ " data")
                             | Psi.Failed message =>
                                 VStr ("Error fetching " ++ s' ++ " data: "
                                       ++ message)
                             end))).
    { intros result' Hst Hsu Hfail Herr. exists [].
      split; [apply prefix_nil|]. split; [constructor|].
      cbn [map]. rewrite app_nil_r. split; [exact Hst|].
      right. exists s. split; [now apply prefix_cons, prefix_nil|].
      now repeat split. }
    cbn [Psi.fetch_all].
    destruct (fetch s) as [d| |message] eqn:Ef.
    + destruct (truthy (Psi.lookup d "success")) eqn:Et; cbn [negb].
      * rewrite dict_set_fresh by (apply Hfresh; now left).
        destruct (IH {| Psi.success := Psi.success result;
                        Psi.strategies :=
                          Psi.strategies result ++ [(s, VDict d)];
                        Psi.error := Psi.error result |} Hnd)
          as (done & Hpre & Hall & Hst & Hend).
        { intros s' Hs'. cbn [Psi.strategies].
          rewrite dict_get_app_fresh by (apply Hfresh; now left).
          destruct (String.eqb s s') eqn:E.
          - apply String.eqb_eq in E. congruence.
          - apply Hfresh. now right. }
        cbn [Psi.strategies Psi.success Psi.error] in Hst, Hend.
        exists (s :: done). split; [now apply prefix_cons|].
        split.
        { constructor; [|exact Hall]. rewrite Ef. exact Et. }
        split.
        { rewrite Hst, <- app_assoc. cbn [map app]. now rewrite Ef. }
        destruct Hend as [(-> & Hsu & Her)|(s' & Hpre' & Hf & Hsu & Her)].
        -- left. tauto.
        -- right. exists s'. split; [now apply prefix_cons|]. tauto.
      * apply Hstop; cbn [Psi.strategies Psi.success Psi.error];
          try reflexivity. exact Et.
    + apply Hstop; reflexivity.
    + apply Hstop; reflexivity.
Qed.

(** X5: [main] fetches the strategies in order ([mobile] before [desktop]
    for [both]) and stops at the first one that fails: the document holds
    the results of the strategies before it, in order, and no later one;
    the exit code is 0 exactly when every strategy succeeded, and then
    the document has no error; otherwise [success] is false and the error
    is that of the first failure (the error of the result that came back,
    or the text for a time-out or an exception). *)
Theorem X5_main_stops_at_first_failure (url strategy : string)
    (fetch : string -> Psi.attempt) :
  let todo := Psi.strategies_of strategy in
  let result :=
    Psi.fetch_all fetch todo
      {| Psi.success := true; Psi.strategies := []; Psi.error := None |} in
  Psi.main url strategy fetch
    = (Psi.document url result, if Psi.success result then 0%Z else 1%Z) /\
  Psi.strategies_of "both" = ["mobile"; "desktop"] /\
  (snd (Psi.main url strategy fetch) = 0%Z <->
   Forall (fun s => Psi.succeeded (fetch s) = true) todo) /\
  exists done,
    done `prefix_of` todo /\
    Forall (fun s => Psi.succeeded (fetch s) = true) done /\
    Psi.strategies result =
      map (fun s => (s, VDict match fetch s with
                            | Psi.Returned d => d
                            | _ => []
                            end)) done /\
    ((done = todo /\ Psi.success result = true /\ Psi.error result = None) \/
     (exists s, (done ++ [s]) `prefix_of` todo /\
                Psi.succeeded (fetch s) = false /\
                Psi.success result = false /\
                Psi.error result =
                  Some match fetch s with
                       | Psi.Returned d => Psi.lookup d "error"
                       | Psi.TimedOut =>
                           VStr ("Timeout fetching " ++ s ++ " data")
                       | Psi.Failed message =>
                           VStr ("Error fetching " ++ s ++ " data: "
                                 ++ message)
                       end)).
Proof.
  intros todo result. split; [reflexivity|]. split; [reflexivity|].
  assert (Hnd : List.NoDup todo).
  { subst todo. unfold Psi.strategies_of.
    destruct (String.eqb strategy "both").
    - repeat constructor; cbn; intuition discriminate.
    - repeat constructor. intros []. }
  destruct (fetch_all_spec fetch todo
              {| Psi.success := true; Psi.strategies := [];
                 Psi.error := None |} Hnd (fun _ _ => eq_refl))
    as (done & Hpre & Hall & Hst & Hend).
  fold result in Hst, Hend. cbn [Psi.strategies Psi.success Psi.error app] in *.
  split.
  - unfold Psi.main. fold todo. fold result. cbn [snd].
    destruct Hend as [(-> & Hsu & _)|(s & Hpre' & Hf & Hsu & _)].
    + rewrite Hsu. split; [intros _; exact Hall|reflexivity].
    + rewrite Hsu. split; [discriminate|].
      intros Htodo. exfalso.
      destruct Hpre' as (rest & Hrest). rewrite Hrest in Htodo.
      rewrite <- app_assoc in Htodo.
      apply List.Forall_app in Htodo as [_ Htodo].
      apply List.Forall_cons_iff in Htodo as [Hs _]. congruence.
  - exists done. split; [exact Hpre|]. split; [exact Hall|].
    split; [exact Hst|exact Hend].
Qed.

(** ** The normalizer returns on responses of the expected shape *)

Section PsiTotal.

Import GenerateExcel.

Lemma opt_field_weaken kv k (ok ok' : value -> bool) :
  (forall v, ok v = true -> ok' v = true) ->
  opt_field kv k ok = true -> opt_field kv k ok' = true.
Proof. unfold opt_field. destruct (Dict.get kv k); auto. Qed.

Lemma forallb_weaken {A : Type} (p q : A -> bool) (l : list A) :
  (forall a, p a = true -> q a = true) ->
  forallb p l = true -> forallb q l = true.
Proof.
  intros Hpq. rewrite !forallb_forall. intros H a Ha. apply Hpq, H, Ha.
Qed.

Lemma none_or_number v :
  none_or is_number v = true -> (is_none v || is_number v)%bool = true.
Proof. destruct v; simpl; auto. Qed.

Lemma wf_audit_weaken audit :
  Psi.wf_audit audit = true -> FetchPsi.wf_audit audit = true.
Proof.
  unfold Psi.wf_audit, FetchPsi.wf_audit. intros H.
  apply dict_of_inv in H as (kv & -> & H). split_checks.
  apply andb_true_iff. split.
  - eapply opt_field_weaken; [|eassumption]. apply none_or_number.
  - eapply opt_field_weaken; [|eassumption].
    intros d Hd. unfold Psi.wf_details in Hd.
    apply dict_of_inv in Hd as (dk & -> & Hd). split_checks. assumption.
Qed.

Lemma wf_lighthouse_weaken lighthouse_result :
  Psi.wf_lighthouse lighthouse_result = true ->
  FetchPsi.wf_lighthouse lighthouse_result = true.
Proof.
  unfold Psi.wf_lighthouse, FetchPsi.wf_lighthouse. intros H.
  apply dict_of_inv in H as (kv & -> & H). split_checks.
  apply andb_true_iff. split.
  - eapply opt_field_weaken; [|eassumption].
    intros a Ha. apply dict_of_inv in Ha as (au & -> & Ha).
    unfold FetchPsi.wf_audits.
    eapply forallb_weaken; [|exact Ha].
    intros b. apply wf_audit_weaken.
  - eapply opt_field_weaken; [|eassumption].
    intros c Hc. apply dict_of_inv in Hc as (ck & -> & Hc).
    unfold FetchPsi.wf_categories.
    eapply opt_field_weaken; [|exact Hc].
    intros p Hp. unfold Psi.wf_performance in Hp.
    apply dict_of_inv in Hp as (pk & -> & Hp). split_checks.
    unfold FetchPsi.wf_performance. assumption.
Qed.

(** The audit under a key of typed audits. *)
Lemma audits_get audits audit_id :
  forallb (fun b => Psi.wf_audit (snd b)) audits = true ->
  (Val.contains (VDict audits) audit_id = Ok false) \/
  (exists kv,
      Val.contains (VDict audits) audit_id = Ok true /\
      Val.getitem (VDict audits) audit_id = Ok (VDict kv) /\
      Psi.wf_audit (VDict kv) = true).
Proof.
  intros H. cbn [Val.contains Val.getitem]. unfold Dict.mem.
  destruct (Dict.get audits audit_id) as [audit|] eqn:E; [|now left].
  right. apply dict_get_In in E. rewrite forallb_forall in H.
  pose proof (H _ E) as Ha. cbn [snd] in Ha.
  destruct (dict_of_inv _ _ Ha) as (kv & -> & _). eauto.
Qed.

Lemma round_value_total raw n :
  is_number raw = true -> exists r, Psi.round_value raw n = Ok r.
Proof. destruct raw; try discriminate; cbn; eauto. Qed.

Lemma convert_total name raw :
  is_number raw = true ->
  exists vu, Psi.convert_to_display_unit name raw = Ok vu.
Proof.
  intros H. unfold Psi.convert_to_display_unit.
  destruct (number_total _ H) as (x & Ex).
  repeat match goal with
         | |- context [if ?b then _ else _] => destruct b
         end;
    first [ rewrite Ex; cbn; eauto
          | destruct (round_value_total raw 0 H) as (r & ->); cbn; now eauto
          | destruct (round_value_total raw 3 H) as (r & ->); cbn; now eauto
          | destruct (round_value_total raw 2 H) as (r & ->); cbn; now eauto ].
Qed.

Lemma get_status_total name raw :
  is_number raw = true -> exists s, Psi.get_status name raw = Ok s.
Proof.
  intros H. unfold Psi.get_status.
  destruct (number_total _ H) as (x & ->). cbn. eauto.
Qed.

Lemma dict_set_all {V : Type} (p : V -> bool) (d : list (string * V)) k v :
  forallb (fun b => p (snd b)) d = true -> p v = true ->
  forallb (fun b => p (snd b)) (Dict.set d k v) = true.
Proof.
  intros Hd Hv. induction d as [|[k0 v0] d IH]; cbn.
  - now rewrite Hv.
  - cbn in Hd. apply andb_true_iff in Hd as [H0 Hd].
    destruct (String.eqb k0 k); cbn.
    + now rewrite Hv, Hd.
    + now rewrite H0, IH.
Qed.

Lemma lab_metric_total audits audit_id name convert status metrics :
  forallb (fun b => Psi.wf_audit (snd b)) audits = true ->
  Psi.block_total (audit_id, name, convert, status) ->
  forallb (fun b => is_dict (snd b)) metrics = true ->
  exists metrics',
    Psi.lab_metric (VDict audits) audit_id name convert status metrics
    = Ok metrics' /\
    forallb (fun b => is_dict (snd b)) metrics' = true.
Proof.
  intros Ha [Hc Hs] Hm. unfold Psi.lab_metric.
  destruct (audits_get audits audit_id Ha) as [->|(kv & -> & -> & Hkv)];
    cbn [Py.bind]; [eauto|].
  unfold Psi.wf_audit in Hkv. cbn [dict_of] in Hkv. split_checks.
  destruct (opt_field_get kv "numericValue" is_number (VInt 0)
              ltac:(eassumption) eq_refl) as (raw & -> & Hraw).
  cbn [Py.bind]. destruct (Hc raw Hraw) as ([v u] & ->). cbn [Py.bind].
  destruct status as [classify|].
  - destruct (Hs raw Hraw) as (s & ->). cbn [Py.bind].
    eexists. split; [reflexivity|]. now apply dict_set_all.
  - cbn [Py.bind]. eexists. split; [reflexivity|]. now apply dict_set_all.
Qed.

Lemma lab_blocks_total : Forall Psi.block_total Psi.lab_blocks.
Proof.
  unfold Psi.lab_blocks. each_member; split;
    solve [ intros raw Hraw; apply convert_total; exact Hraw
          | intros raw Hraw; apply get_status_total; exact Hraw
          | intros raw Hraw;
            destruct (round_value_total raw 3 Hraw) as (r & ->); cbn; eauto
          | exact I ].
Qed.

Lemma lab_fold_total audits blocks :
  forallb (fun b => Psi.wf_audit (snd b)) audits = true ->
  Forall Psi.block_total blocks ->
  forall metrics,
    forallb (fun b => is_dict (snd b)) metrics = true ->
    exists metrics',
      Val.foldM
        (fun metrics '(audit_id, name, convert, status) =>
           Psi.lab_metric (VDict audits) audit_id name convert status metrics)
        blocks metrics = Ok metrics' /\
      forallb (fun b => is_dict (snd b)) metrics' = true.
Proof.
  intros Ha Hb. induction Hb as [|b blocks Hb _ IH]; intros metrics Hm.
  - cbn. eauto.
  - cbn [Val.foldM]. destruct b as [[[audit_id name] convert] status].
    destruct (lab_metric_total audits audit_id name convert status metrics
                Ha Hb Hm) as (m1 & -> & Hm1).
    cbn [Py.bind]. now apply IH.
Qed.

Lemma all_dicts_field metrics k :
  forallb (fun b => is_dict (snd b)) metrics = true ->
  opt_field metrics k is_dict = true.
Proof.
  intros H. unfold opt_field.
  destruct (Dict.get metrics k) as [v|] eqn:E; [|reflexivity].
  apply dict_get_In in E. rewrite forallb_forall in H. exact (H _ E).
Qed.

Lemma parse_lighthouse_metrics_total lighthouse_result :
  Psi.wf_lighthouse lighthouse_result = true ->
  exists cwv,
    Psi.parse_lighthouse_metrics lighthouse_result = Ok cwv /\
    wf_cwv cwv = true.
Proof.
  unfold Psi.wf_lighthouse. intros H.
  apply dict_of_inv in H as (kv & -> & H). split_checks.
  unfold Psi.parse_lighthouse_metrics.
  destruct (opt_field_get kv "audits" _ (VDict []) ltac:(eassumption) eq_refl)
    as (au & -> & Hau).
  cbn [Py.bind]. apply dict_of_inv in Hau as (audits & -> & Ha).
  destruct (lab_fold_total audits Psi.lab_blocks Ha lab_blocks_total []
              eq_refl) as (metrics & -> & Hm).
  cbn [Py.bind]. eexists. split; [reflexivity|].
  unfold wf_cwv. cbn [dict_of].
  rewrite !all_dicts_field by exact Hm. reflexivity.
Qed.

Lemma has_issue_total score :
  none_or is_number score = true -> exists b, Psi.has_issue score = Ok b.
Proof.
  intros H. unfold Psi.has_issue.
  apply none_or_inv in H as [->|H]; [cbn; eauto|].
  destruct (number_total _ H) as (x & ->).
  destruct (is_none score); cbn; eauto.
Qed.

Lemma with_first_item_total diagnostic items :
  list_of Psi.wf_item items = true ->
  exists d, Psi.with_first_item diagnostic items = Ok d.
Proof.
  intros H. apply list_of_inv in H as (l & -> & Hl).
  unfold Psi.with_first_item. destruct l as [|x l]; [cbn; eauto|].
  cbn [truthy Val.first Py.bind]. cbn [forallb] in Hl.
  apply andb_true_iff in Hl as [Hx _]. unfold Psi.wf_item in Hx.
  apply dict_of_inv in Hx as (kv & -> & Hx).
  cbn [Val.contains Py.bind Val.getitem]. unfold Dict.mem, opt_field in *.
  destruct (Dict.get kv "node") as [node|].
  - cbn [Py.bind]. apply is_dict_inv in Hx as (n & ->).
    rewrite get_dict. cbn. eauto.
  - cbn [Py.bind]. destruct (Dict.get kv "url"); cbn; eauto.
Qed.

Lemma diagnostic_of_total audits audit_id :
  forallb (fun b => Psi.wf_audit (snd b)) audits = true ->
  exists o, Psi.diagnostic_of (VDict audits) audit_id = Ok o.
Proof.
  intros Ha. unfold Psi.diagnostic_of.
  destruct (audits_get audits audit_id Ha) as [->|(kv & -> & -> & Hkv)];
    cbn [Py.bind negb]; [eauto|].
  unfold Psi.wf_audit in Hkv. cbn [dict_of] in Hkv. split_checks.
  destruct (opt_field_get kv "score" (none_or is_number) VNone
              ltac:(eassumption) eq_refl) as (score & -> & Hscore).
  cbn [Py.bind]. destruct (has_issue_total score Hscore) as (issue & ->).
  cbn [Py.bind]. destruct issue; [|eauto].
  rewrite (get_dict kv "title"), (get_dict kv "description"). cbn [Py.bind].
  destruct (opt_field_get kv "details" Psi.wf_details (VDict [])
              ltac:(eassumption) eq_refl) as (details & -> & Hd).
  cbn [Py.bind]. unfold Psi.wf_details in Hd.
  apply dict_of_inv in Hd as (dk & -> & Hd). split_checks.
  destruct (opt_field_get dk "items" (list_of Psi.wf_item) (VList [])
              ltac:(eassumption) eq_refl) as (items & -> & Hi).
  cbn [Py.bind].
  destruct (with_first_item_total
              [("id", VStr audit_id);
               ("title", match Dict.get kv "title" with
                         | Some v => v | None => VStr "" end);
               ("description", match Dict.get kv "description" with
                               | Some v => v | None => VStr "" end)]
              items Hi) as (d & ->).
  cbn. eauto.
Qed.

Lemma parse_diagnostics_total lighthouse_result :
  Psi.wf_lighthouse lighthouse_result = true ->
  exists diagnostics, Psi.parse_diagnostics lighthouse_result = Ok diagnostics.
Proof.
  unfold Psi.wf_lighthouse. intros H.
  apply dict_of_inv in H as (kv & -> & H). split_checks.
  unfold Psi.parse_diagnostics.
  destruct (opt_field_get kv "audits" _ (VDict []) ltac:(eassumption) eq_refl)
    as (au & -> & Hau).
  cbn [Py.bind]. apply dict_of_inv in Hau as (audits & -> & Ha).
  apply (foldM_total (Psi.add_diagnostic (VDict audits)) (fun _ => True)).
  - intros s a _. unfold Psi.add_diagnostic.
    destruct (diagnostic_of_total audits a Ha) as ([d|] & ->); cbn; eauto.
  - apply List.Forall_forall. trivial.
Qed.

Lemma scaled_percentile_total m c n :
  Psi.wf_percentile m = true -> exists v, Psi.scaled_percentile m c n = Ok v.
Proof.
  unfold Psi.wf_percentile. intros H.
  apply dict_of_inv in H as (kv & -> & H). unfold Psi.scaled_percentile.
  destruct (opt_field_get kv "percentile" is_number (VInt 0) H eq_refl)
    as (p & -> & Hp).
  cbn [Py.bind]. destruct (number_total _ Hp) as (x & ->). cbn. eauto.
Qed.

Lemma field_block_total metrics key name f field_data :
  opt_field metrics key Psi.wf_percentile = true ->
  (forall m, Psi.wf_percentile m = true -> exists v, f m = Ok v) ->
  exists fd, Psi.field_block (VDict metrics) key name f field_data = Ok fd.
Proof.
  intros Hk Hf. unfold Psi.field_block, opt_field in *.
  cbn [Val.contains Val.getitem Py.bind]. unfold Dict.mem.
  destruct (Dict.get metrics key) as [m|]; cbn [Py.bind]; [|eauto].
  destruct (Hf m Hk) as (v & ->). cbn. eauto.
Qed.

Lemma percentile_total m :
  Psi.wf_percentile m = true ->
  exists v, Val.get m "percentile" (VInt 0) = Ok v.
Proof.
  unfold Psi.wf_percentile. intros H.
  apply dict_of_inv in H as (kv & -> & _). rewrite get_dict. eauto.
Qed.

(** The field data is [None] or a mapping. *)
Lemma parse_field_data_kind loading_experience r :
  Psi.parse_field_data loading_experience = Ok r ->
  none_or is_dict r = true.
Proof.
  unfold Psi.parse_field_data. intros H.
  destruct (negb (truthy loading_experience)); [now injection H as <-|].
  bind_split H as metrics Em.
  destruct (negb (truthy metrics)); [now injection H as <-|].
  bind_split H as fd1 E1. bind_split H as has_inp Ei.
  bind_split H as fd2 E2. bind_split H as fd3 E3.
  bind_split H as fd4 E4. bind_split H as fd5 E5.
  apply ok_inj in H. subst r. now destruct (truthy (VDict fd5)).
Qed.

Lemma parse_field_data_total loading_experience :
  Psi.wf_experience loading_experience = true ->
  exists r, Psi.parse_field_data loading_experience = Ok r.
Proof.
  unfold Psi.wf_experience. intros H.
  apply none_or_inv in H as [->|H]; [cbn; eauto|].
  apply dict_of_inv in H as (kv & -> & H). unfold Psi.parse_field_data.
  destruct (negb (truthy (VDict kv))); [eauto|].
  destruct (opt_field_get kv "metrics" _ (VDict []) H eq_refl)
    as (mv & -> & Hm).
  cbn [Py.bind]. apply dict_of_inv in Hm as (m & -> & Hm).
  destruct (negb (truthy (VDict m))); [eauto|].
  unfold Psi.field_keys in Hm. cbn [forallb] in Hm. split_checks.
  destruct (field_block_total m "LARGEST_CONTENTFUL_PAINT_MS" "lcp_p75"
              (fun lcp => Psi.scaled_percentile lcp 1000 2) []
              ltac:(eassumption)
              (fun x Hx => scaled_percentile_total x 1000 2 Hx))
    as (fd1 & ->).
  cbn [Py.bind Val.contains].
  assert (E2 : exists fd2,
             (if Dict.mem m "INTERACTION_TO_NEXT_PAINT"
              then
                let* inp :=
                  Val.getitem (VDict m) "INTERACTION_TO_NEXT_PAINT" in
                let* v := Val.get inp "percentile" (VInt 0) in
                Ok (Dict.set fd1 "inp_p75" v)
              else
                Psi.field_block (VDict m) "FIRST_INPUT_DELAY_MS" "fid_p75"
                  (fun fid => Val.get fid "percentile" (VInt 0)) fd1)
             = Ok fd2).
  { unfold Dict.mem. cbn [Val.getitem].
    destruct (Dict.get m "INTERACTION_TO_NEXT_PAINT") as [inp|] eqn:Ei.
    - cbn [Py.bind].
      assert (Hinp : Psi.wf_percentile inp = true).
      { match goal with
        | Hk : opt_field m "INTERACTION_TO_NEXT_PAINT" _ = true |- _ =>
            unfold opt_field in Hk; now rewrite Ei in Hk
        end. }
      destruct (percentile_total inp Hinp) as (v & ->). cbn. eauto.
    - apply field_block_total; [assumption|].
      intros x Hx. now apply percentile_total. }
  destruct E2 as (fd2 & ->). cbn [Py.bind].
  destruct (field_block_total m "CUMULATIVE_LAYOUT_SHIFT_SCORE" "cls_p75"
              (fun cls => Psi.scaled_percentile cls 100 3) fd2
              ltac:(eassumption)
              (fun x Hx => scaled_percentile_total x 100 3 Hx))
    as (fd3 & ->).
  cbn [Py.bind].
  destruct (field_block_total m "EXPERIMENTAL_TIME_TO_FIRST_BYTE" "ttfb_p75"
              (fun ttfb => Psi.scaled_percentile ttfb 1000 2) fd3
              ltac:(eassumption)
              (fun x Hx => scaled_percentile_total x 1000 2 Hx))
    as (fd4 & ->).
  cbn [Py.bind].
  destruct (field_block_total m "FIRST_CONTENTFUL_PAINT_MS" "fcp_p75"
              (fun fcp => Psi.scaled_percentile fcp 1000 2) fd4
              ltac:(eassumption)
              (fun x Hx => scaled_percentile_total x 1000 2 Hx))
    as (fd5 & ->).
  cbn [Py.bind]. eauto.
Qed.

Lemma performance_score_total performance :
  Psi.wf_performance performance = true ->
  exists z, Psi.performance_score performance = Ok (VInt z).
Proof.
  unfold Psi.wf_performance. intros H.
  apply dict_of_inv in H as (kv & -> & H). split_checks.
  unfold Psi.performance_score.
  destruct (opt_field_get kv "score" (none_or is_number) (VInt 0)
              ltac:(eassumption) eq_refl) as (score & -> & Hs).
  cbn [Py.bind].
  assert (Hn : is_number (por score (VInt 0)) = true).
  { unfold por. apply none_or_inv in Hs as [->|Hs]; [reflexivity|].
    now destruct (truthy score). }
  destruct (number_total _ Hn) as (x & ->). cbn. eauto.
Qed.

(** The opportunities of typed audits are typed entries. *)
Lemma opportunity_dict_wf (o : FetchPsi.Opportunity) :
  is_str (FetchPsi.description o) = true ->
  (forall b, FetchPsi.savings_bytes o = Some b ->
             none_or is_number b = true) ->
  wf_opportunity (FetchPsi.opportunity_dict o) = true.
Proof.
  intros Hd Hb. unfold wf_opportunity, FetchPsi.opportunity_dict.
  cbn [dict_of]. apply andb_true_iff. unfold opt_field.
  destruct (FetchPsi.savings_ms o), (FetchPsi.savings_bytes o) as [b|];
    cbn; (split; [|exact Hd]); try reflexivity; now apply Hb.
Qed.

Lemma opportunities_wf lighthouse_result opportunities :
  Psi.wf_lighthouse lighthouse_result = true ->
  FetchPsi.parse_opportunities lighthouse_result = Ok opportunities ->
  forallb wf_opportunity (map FetchPsi.opportunity_dict opportunities) = true.
Proof.
  unfold Psi.wf_lighthouse. intros Hwf H.
  apply dict_of_inv in Hwf as (kv & -> & Hwf). split_checks.
  unfold FetchPsi.parse_opportunities in H.
  bind_split H as audits Ea. bind_split H as categories Ec.
  bind_split H as performance Ep. bind_split H as refs Er.
  bind_split H as ids Eids. bind_split H as items Eit.
  bind_split H as unsorted Eu. apply ok_inj in H. subst opportunities.
  destruct (opt_field_get kv "audits" _ (VDict []) ltac:(eassumption) eq_refl)
    as (au & Eau & Hau).
  rewrite Ea in Eau. apply ok_inj in Eau. subst au.
  apply dict_of_inv in Hau as (aus & -> & Haus).
  apply ok_inj in Eit. subst items.
  apply collect_fold in Eu as (new & -> & _ & Hall). cbn [app].
  apply forallb_forall. intros d Hd. apply in_map_iff in Hd as (o & <- & Ho).
  apply (Permutation_in _ (sorted_desc_perm FetchPsi.savings_key new)) in Ho.
  rewrite List.Forall_forall in Hall.
  destruct (Hall o Ho) as (audit & Hin & Hof).
  apply opportunity_of_Some in Hof as (_ & _ & _ & Hsav & _ & Hdesc).
  rewrite forallb_forall in Haus. pose proof (Haus _ Hin) as Haudit.
  cbn [snd] in Haudit. unfold Psi.wf_audit in Haudit.
  apply dict_of_inv in Haudit as (ak & -> & Hak). split_checks.
  apply opportunity_dict_wf.
  - destruct (opt_field_get ak "description" is_str (VStr "")
                ltac:(eassumption) eq_refl) as (dv & Edv & Hdv).
    rewrite Hdesc in Edv. apply ok_inj in Edv. now subst dv.
  - intros b Hb. destruct Hsav as (details & Edet & _ & Hbytes).
    destruct (opt_field_get ak "details" Psi.wf_details (VDict [])
                ltac:(eassumption) eq_refl) as (dv & Edv & Hdv).
    rewrite Edet in Edv. apply ok_inj in Edv. subst dv.
    unfold Psi.wf_details in Hdv.
    apply dict_of_inv in Hdv as (dk & -> & Hdk). split_checks.
    pose proof (Hbytes b Hb) as Hget. cbn [Val.getitem] in Hget.
    match goal with
    | Hk : opt_field dk "overallSavingsBytes" _ = true |- _ =>
        unfold opt_field in Hk;
        destruct (Dict.get dk "overallSavingsBytes") as [w|];
        [apply ok_inj in Hget; subst w; exact Hk|discriminate Hget]
    end.
Qed.

(** The result for a typed response, and its shape. *)
Lemma fetch_psi_total strategy response :
  Psi.status response = 200%Z ->
  Psi.wf_response (Psi.json response) = true ->
  exists r,
    Psi.fetch_psi strategy response = Ok r /\
    wf_strategy (VDict r) = true /\
    Dict.get r "success" = Some (VBool true).
Proof.
  intros Hst Hwf. unfold Psi.fetch_psi. rewrite Hst. cbn [Z.eqb Pos.eqb negb].
  unfold Psi.wf_response in Hwf.
  apply dict_of_inv in Hwf as (kv & -> & Hwf). split_checks.
  destruct (opt_field_get kv "lighthouseResult" Psi.wf_lighthouse (VDict [])
              ltac:(eassumption) eq_refl) as (lr & -> & Hlr).
  cbn [Py.bind].
  pose proof Hlr as Hlr'. unfold Psi.wf_lighthouse in Hlr'.
  apply dict_of_inv in Hlr' as (lk & Elr & Hlk). split_checks.
  subst lr.
  destruct (opt_field_get lk "categories" _ (VDict []) ltac:(eassumption)
              eq_refl) as (cat & -> & Hcat).
  cbn [Py.bind]. apply dict_of_inv in Hcat as (ck & -> & Hck).
  destruct (opt_field_get ck "performance" Psi.wf_performance (VDict [])
              Hck eq_refl) as (perf & -> & Hperf).
  cbn [Py.bind].
  destruct (parse_lighthouse_metrics_total _ Hlr) as (cwv & -> & Hcwv).
  cbn [Py.bind].
  destruct (parse_opportunities_total _ (wf_lighthouse_weaken _ Hlr))
    as (opps & Eopps).
  rewrite Eopps. cbn [Py.bind].
  destruct (parse_diagnostics_total _ Hlr) as (diags & ->). cbn [Py.bind].
  destruct (opt_field_get kv "loadingExperience" Psi.wf_experience (VDict [])
              ltac:(eassumption) eq_refl) as (le & -> & Hle).
  cbn [Py.bind].
  destruct (opt_field_get kv "originLoadingExperience" Psi.wf_experience
              (VDict []) ltac:(eassumption) eq_refl) as (ole & -> & Hole).
  cbn [Py.bind].
  destruct (parse_field_data_total le Hle) as (fd & Efd). rewrite Efd.
  cbn [Py.bind].
  destruct (parse_field_data_total ole Hole) as (ofd & ->). cbn [Py.bind].
  destruct (performance_score_total perf Hperf) as (z & ->). cbn [Py.bind].
  eexists. split; [reflexivity|]. split; [|reflexivity].
  unfold wf_strategy. cbn [dict_of]. unfold opt_field. cbn.
  rewrite Hcwv, (parse_field_data_kind _ _ Efd). cbn.
  exact (opportunities_wf _ opps Hlr Eopps).
Qed.

End PsiTotal.

(** ** The values of a result can be written *)

Section PsiWritable.

Import GenerateExcel.

Variable repr : value -> string.

(** The text of a number has no control character. *)
Hypothesis repr_legal : forall v, is_number v = true -> legal (repr v) = true.
















End PsiWritable.







(** ** From the provider's answer to the report *)




(** ** The performance score *)

(** X7: the performance score of a result is an integer: 0 when the
    category has no score or a [null] one, and for a score [x] between 0
    and 1 the integer nearest to [100 x], between 0 and 100. A score that
    is not a number makes the call raise. *)
Theorem X7_performance_score (performance : list (string * value)) :
  (forall v, Psi.performance_score (VDict performance) = Ok v ->
             exists z, v = VInt z) /\
  (Dict.get performance "score" = None ->
   Psi.performance_score (VDict performance) = Ok (VInt 0)) /\
  (Dict.get performance "score" = Some VNone ->
   Psi.performance_score (VDict performance) = Ok (VInt 0)) /\
  (forall score x,
      Dict.get performance "score" = Some score ->
      as_number score = Some x -> (0 <= x)%Q -> (x <= 1)%Q ->
      exists z,
        Psi.performance_score (VDict performance) = Ok (VInt z) /\
        (0 <= z <= 100)%Z /\
        (100 * x - (1 # 2) <= inject_Z z)%Q /\
        (inject_Z z <= 100 * x + (1 # 2))%Q) /\
  (forall score,
      Dict.get performance "score" = Some score ->
      truthy score = true -> as_number score = None ->
      Psi.performance_score (VDict performance) = Raise TypeError).
Proof.
  unfold Psi.performance_score. rewrite get_dict. cbn [Py.bind].
  split; [|split; [|split; [|split]]].
  - intros v H. bind_split H as x Ex. apply ok_inj in H. eauto.
  - intros ->. reflexivity.
  - intros ->. reflexivity.
  - intros score x -> Hx H0 H1.
    assert (Hn : exists y, Val.number (por score (VInt 0)) = Ok y /\ (y == x)%Q).
    { unfold por, Val.number. destruct (truthy score) eqn:Et.
      - rewrite Hx. exists x. split; [reflexivity|apply Qeq_refl].
      - exists 0%Q. split; [reflexivity|].
        destruct score; cbn in Hx, Et; try discriminate;
          injection Hx as <-.
        + destruct b; [discriminate|reflexivity].
        + apply negb_false_iff, Z.eqb_eq in Et. now subst.
        + apply negb_false_iff, Qeq_bool_iff in Et. now symmetry. }
    destruct Hn as (y & -> & Hy). cbn [Py.bind]. eexists.
    split; [reflexivity|].
    pose proof (round_half_even_near (y * 100)) as [Hlo Hhi].
    assert (Hlo' : (100 * x - (1 # 2) <= inject_Z (round_half_even (y * 100)))%Q).
    { rewrite <- Hy. now rewrite (Qmult_comm 100 y). }
    assert (Hhi' : (inject_Z (round_half_even (y * 100)) <= 100 * x + (1 # 2))%Q).
    { rewrite <- Hy. now rewrite (Qmult_comm 100 y). }
    split; [|now split].
    set (z := round_half_even (y * 100)) in *.
    clearbody z. clear Hlo Hhi Hy y. destruct x as [xn xd].
    repeat (unfold Qle, Qplus, Qminus, Qmult, Qopp, inject_Z in *;
            cbn [Qnum Qden] in * ).
    rewrite ?Pos2Z.inj_mul in *.
    pose proof (Pos2Z.is_pos xd) as Hpos.
    set (d := Z.pos xd) in *. clearbody d.
    split.
    + apply Z.nlt_ge. intros Hneg.
      assert (z <= -1)%Z by lia. nia.
    + apply Z.nlt_ge. intros Hbig.
      assert (101 <= z)%Z by lia. nia.
  - intros score -> Ht Hn. unfold por. rewrite Ht. unfold Val.number.
    now rewrite Hn.
Qed.

(** ** The normalizer on the sample response *)

Lemma X2_lab_metrics_witness :
  exists metrics,
    Psi.parse_lighthouse_metrics Samples.lighthouse_result = Ok (VDict metrics) /\
    Dict.get metrics "lcp"
    = Some (VDict [ ("value", VFloat (5 # 2)); ("unit", VStr "s");
                    ("raw_ms", VFloat (25004 # 10));
                    ("status", VStr "needs_improvement") ]) /\
    Dict.get metrics "inp" = None /\
    sublist (Dict.keys metrics) (map snd Psi.lab_audits).
Proof.
  destruct (Psi.parse_lighthouse_metrics Samples.lighthouse_result)
    as [r|e] eqn:E; [|vm_compute in E; discriminate E].
  destruct (X2_lab_metrics _ _ E) as (metrics & -> & Hsub & Hall).
  exists metrics. split; [reflexivity|].
  vm_compute in E. injection E as <-.
  split; [reflexivity|]. split; [reflexivity|exact Hsub].
Defined.

Lemma X3_diagnostics_witness :
  exists diagnostics reported_ids,
    Psi.parse_diagnostics Samples.lighthouse_result = Ok diagnostics /\
    List.length diagnostics = 2%nat /\
    sublist reported_ids Psi.diagnostic_ids /\
    Forall2 (Psi.diagnostic_for Samples.lighthouse_result)
      diagnostics reported_ids.
Proof.
  destruct (Psi.parse_diagnostics Samples.lighthouse_result)
    as [ds|e] eqn:E; [|vm_compute in E; discriminate E].
  destruct (X3_diagnostics _ _ E) as (ids & Hsub & Hall & _).
  exists ds, ids. split; [reflexivity|].
  split; [|split; [exact Hsub|exact Hall]].
  vm_compute in E. injection E as <-. reflexivity.
Defined.

Lemma X4_opportunity_is_diagnostic_witness :
  exists opportunities diagnostics o kv,
    FetchPsi.parse_opportunities Samples.lighthouse_result = Ok opportunities /\
    Psi.parse_diagnostics Samples.lighthouse_result = Ok diagnostics /\
    In o opportunities /\
    FetchPsi.id o = "unused-javascript" /\
    In (VDict kv) diagnostics /\
    Dict.get kv "id" = Some (VStr "unused-javascript").
Proof.
  assert (Hnd : List.NoDup
                  (Dict.keys (FetchPsi.audits_of Samples.lighthouse_result))).
  { cbn. repeat (constructor; [cbn; intuition discriminate|]). constructor. }
  destruct (FetchPsi.parse_opportunities Samples.lighthouse_result)
    as [opps|e] eqn:Eo; [|vm_compute in Eo; discriminate Eo].
  destruct (Psi.parse_diagnostics Samples.lighthouse_result)
    as [ds|e] eqn:Ed; [|vm_compute in Ed; discriminate Ed].
  pose proof (X4_opportunity_is_diagnostic _ _ _ Hnd Eo Ed) as H.
  vm_compute in Eo. injection Eo as <-.
  match type of H with
  | forall o, In o (?o1 :: ?l) -> _ =>
      destruct (H o1 (or_introl eq_refl)) as (kv & Hin & Hid & _);
        [cbn; tauto|];
        exists (o1 :: l), ds, o1, kv
  end.
  split; [reflexivity|]. split; [reflexivity|].
  split; [now left|]. split; [reflexivity|]. split; [exact Hin|exact Hid].
Defined.

Lemma X5_main_stops_at_first_failure_witness :
  snd (Psi.main "https://a.test/" "both" Samples.mobile_only) = 1%Z /\
  ~ Forall (fun s => Psi.succeeded (Samples.mobile_only s) = true)
      (Psi.strategies_of "both").
Proof.
  split; [reflexivity|].
  intros Hall.
  apply (proj1 (proj2 (proj2 (X5_main_stops_at_first_failure
                                "https://a.test/" "both"
                                Samples.mobile_only)))) in Hall.
  discriminate Hall.
Defined.


Lemma X7_performance_score_witness :
  Psi.performance_score (VDict [("score", VFloat (65 # 100))]) = Ok (VInt 65).
Proof.
  destruct (proj1 (proj2 (proj2 (proj2
              (X7_performance_score [("score", VFloat (65 # 100))]))))
              (VFloat (65 # 100)) (65 # 100) eq_refl eq_refl)
    as (z & Hz & _); [discriminate|discriminate|].
  rewrite Hz. vm_compute in Hz. injection Hz as <-. reflexivity.
Defined.

(** ** The lab results in the Summary sheet *)

Section SummaryOfLab.

Import GenerateExcel.

Variable repr : value -> string.

(** The only row of the Summary sheet of one result. *)
Lemma summary_sheet_single psi ws :
  create_summary_sheet repr (VDict [("psi_results", VList [psi])]) = Ok ws ->
  exists ws1,
    summary_row repr (header_row summary_headers) 2 psi = Ok ws1 /\
    ws = ws1.
Proof.
  unfold create_summary_sheet. rewrite get_dict.
  cbn [Dict.get String.eqb Ascii.eqb Bool.eqb Py.bind Val.iter write_rows].
  intros H. bind_split H as st Est. destruct st as [ws1 r1].
  bind_split H as n En. apply ok_inj in H. subst ws.
  bind_split Est as ws2 E2. apply ok_inj in Est. injection Est as <- _.
  eauto.
Qed.

Lemma status_text_of_entry name v u raw x :
  Psi.classified name = true ->
  _get_status_text
    (Psi.metric_entry v u raw (Some (FetchPsi.get_status name (Fin x))))
  = Ok (let s := FetchPsi.get_status name (Fin x) in
        if String.eqb s "good" then "Good"
        else if String.eqb s "needs_improvement" then "Needs Improvement"
        else if String.eqb s "poor" then "Poor"
        else "").
Proof.
  intros _. unfold _get_status_text, Psi.metric_entry.
  cbn [app Val.get Dict.get String.eqb Ascii.eqb Bool.eqb Py.bind eq_str].
  cbv zeta.
  destruct (String.eqb (FetchPsi.get_status name (Fin x)) "good");
    [reflexivity|].
  destruct (String.eqb (FetchPsi.get_status name (Fin x)) "needs_improvement");
    [reflexivity|].
  destruct (String.eqb (FetchPsi.get_status name (Fin x)) "poor"); reflexivity.
Qed.

Lemma status_label_of_band (k : kind) (x : Q) :
  In k lab_kinds ->
  (let s := FetchPsi.get_status (lab_key k) (Fin x) in
   if String.eqb s "good" then "Good"
   else if String.eqb s "needs_improvement" then "Needs Improvement"
   else if String.eqb s "poor" then "Poor"
   else "") = Psi.status_label k x.
Proof.
  intros Hk. cbv zeta. rewrite psi_get_status_band_of.
  unfold Psi.status_label, band_of.
  assert (Hg : FetchPsi.good_of
                 (Dict.get FetchPsi.CWV_THRESHOLDS (Str.lower (lab_key k)))
               = Fin (spec_good k)).
  { unfold lab_kinds in Hk. cbn in Hk.
    repeat (destruct Hk as [<-|Hk]; [reflexivity|]). destruct Hk. }
  assert (Hp : FetchPsi.poor_of
                 (Dict.get FetchPsi.CWV_THRESHOLDS (Str.lower (lab_key k)))
               = Fin (spec_poor k)).
  { unfold lab_kinds in Hk. cbn in Hk.
    repeat (destruct Hk as [<-|Hk]; [reflexivity|]). destruct Hk. }
  rewrite Hg, Hp. cbn [fle].
  destruct (Qle_bool x (spec_good k)); [reflexivity|].
  destruct (Qle_bool x (spec_poor k)); reflexivity.
Qed.

End SummaryOfLab.

(** What [fetch_psi] returns for a status of 200. *)
Lemma fetch_psi_parts strategy response r :
  Psi.status response = 200%Z ->
  Psi.fetch_psi strategy response = Ok r ->
  exists core_web_vitals opportunities diagnostics field_data
         origin_field_data score,
    Psi.parse_lighthouse_metrics (Psi.lighthouse_of response)
      = Ok core_web_vitals /\
    FetchPsi.parse_opportunities (Psi.lighthouse_of response)
      = Ok opportunities /\
    Psi.parse_diagnostics (Psi.lighthouse_of response) = Ok diagnostics /\
    (exists le, Val.get (Psi.json response) "loadingExperience" (VDict [])
                = Ok le /\ Psi.parse_field_data le = Ok field_data) /\
    (exists z, score = VInt z) /\
    r = [ ("success", VBool true);
          ("strategy", VStr strategy);
          ("performance_score", score);
          ("core_web_vitals", core_web_vitals);
          ("field_data_available", VBool (negb (is_none field_data)));
          ("field_metrics", field_data);
          ("origin_field_metrics", origin_field_data);
          ("opportunities",
            VList (map FetchPsi.opportunity_dict opportunities));
          ("diagnostics", VList diagnostics) ].
Proof.
  intros Hst H. unfold Psi.fetch_psi in H. rewrite Hst in H.
  cbn [Z.eqb Pos.eqb negb] in H.
  bind_split H as lr Elr. bind_split H as cat Ecat.
  bind_split H as perf Eperf. bind_split H as cwv Ecwv.
  bind_split H as opps Eopps. bind_split H as diags Ediags.
  bind_split H as le Ele. bind_split H as ole Eole.
  bind_split H as fd Efd. bind_split H as ofd Eofd.
  bind_split H as score Escore. apply ok_inj in H. subst r.
  assert (Hlr : Psi.lighthouse_of response = lr).
  { unfold Psi.lighthouse_of. now rewrite Elr. }
  rewrite Hlr. exists cwv, opps, diags, fd, ofd, score.
  split; [exact Ecwv|]. split; [exact Eopps|]. split; [exact Ediags|].
  split; [eauto|]. split; [|reflexivity].
  unfold Psi.performance_score in Escore.
  bind_split Escore as sc Esc. bind_split Escore as x Ex.
  apply ok_inj in Escore. eauto.
Qed.

(** The score of a result is that of the performance category of the
    response. *)
Lemma fetch_psi_score strategy response r :
  Psi.status response = 200%Z ->
  Psi.fetch_psi strategy response = Ok r ->
  exists z,
    Psi.performance_score (Psi.performance_of response) = Ok (VInt z) /\
    Dict.get r "performance_score" = Some (VInt z).
Proof.
  intros Hst H. unfold Psi.fetch_psi in H. rewrite Hst in H.
  cbn [Z.eqb Pos.eqb negb] in H.
  bind_split H as lr Elr. bind_split H as cat Ecat.
  bind_split H as perf Eperf. bind_split H as cwv Ecwv.
  bind_split H as opps Eopps. bind_split H as diags Ediags.
  bind_split H as le Ele. bind_split H as ole Eole.
  bind_split H as fd Efd. bind_split H as ofd Eofd.
  bind_split H as score Escore. apply ok_inj in H. subst r.
  assert (Hp : Psi.performance_of response = perf).
  { unfold Psi.performance_of, Psi.lighthouse_of.
    now rewrite Elr, Ecat, Eperf. }
  rewrite Hp, Escore.
  unfold Psi.performance_score in Escore.
  bind_split Escore as sc Esc. bind_split Escore as x Ex.
  apply ok_inj in Escore. subst score. eexists. split; reflexivity.
Qed.

(** X8: in the Summary sheet of the data collected for one URL, the
    status cells of the row are those of the raw values of the mobile lab
    result: for the largest paint, the interaction and the layout shift,
    the cell is "Good" up to the good threshold of the metric, "Needs
    Improvement" above it up to the poor threshold and "Poor" above that,
    whatever the rounded value shown elsewhere; it is empty when the
    provider's document has no such audit. *)
Theorem X8_summary_status (repr : value -> string) (url : string)
    (response : Psi.Response) (r : list (string * value))
    (ws : GenerateExcel.worksheet) :
  Psi.status response = 200%Z ->
  Psi.fetch_psi "mobile" response = Ok r ->
  GenerateExcel.create_summary_sheet repr (Psi.collected url "mobile" r)
  = Ok ws ->
  Forall (fun '(column, k, audit_id) =>
            match Psi.audit_of (Psi.lighthouse_of response) audit_id with
            | Some audit =>
                exists x,
                  as_number (Psi.raw_value audit) = Some x /\
                  ws !! (2%nat, column) = Some (VStr (Psi.status_label k x))
            | None => ws !! (2%nat, column) = Some (VStr "")
            end) Psi.status_columns.
Proof.
  intros Hst Hr Hws.
  destruct (fetch_psi_parts _ _ _ Hst Hr)
    as (cwv & opps & diags & fd & ofd & score & Ecwv & _ & _ & _ & _ & ->).
  apply lab_metrics_spec in Ecwv as (metrics & -> & _ & Hall).
  unfold Psi.collected in Hws.
  apply summary_sheet_single in Hws as (ws1 & Hrow & ->).
  apply summary_row_parts in Hrow
    as (u & st & mobile & desktop & mcwv & mopps & top & ms & ds
        & lcp & inp & cls & Eu & Est & Em & Ed & Ec & Eo & Et & Ems & Eds
        & Elcp & Einp & Ecls & ->).
  cbn in Est. apply ok_inj in Est. subst st.
  cbn in Em. apply ok_inj in Em. subst mobile.
  cbn in Ec. apply ok_inj in Ec. subst mcwv.
  unfold Psi.lab_audits in Hall.
  repeat match type of Hall with
         | Forall _ (_ :: _) =>
             let Hb := fresh "Hb" in
             apply List.Forall_cons_iff in Hall as [Hb Hall];
             cbv beta iota in Hb
         end.
  clear Hall.
  assert (Hcell : forall (k : kind) audit_id cell,
             In k lab_kinds ->
             match Psi.audit_of (Psi.lighthouse_of response) audit_id with
             | Some audit =>
                 exists m, Dict.get metrics (lab_key k) = Some m /\
                           Psi.entry_of (lab_key k) (Psi.raw_value audit) m
             | None => Dict.get metrics (lab_key k) = None
             end ->
             GenerateExcel.get_with GenerateExcel._get_status_text
               (VDict metrics) (lab_key k) = Ok cell ->
             match Psi.audit_of (Psi.lighthouse_of response) audit_id with
             | Some audit =>
                 exists x, as_number (Psi.raw_value audit) = Some x /\
                           cell = VStr (Psi.status_label k x)
             | None => cell = VStr ""
             end).
  { intros k audit_id cell Hk Hm Hget.
    unfold GenerateExcel.get_with in Hget. rewrite get_dict in Hget.
    destruct (Psi.audit_of (Psi.lighthouse_of response) audit_id)
      as [audit|].
    - destruct Hm as (m & Hm & x & v & un & Hx & _ & ->).
      rewrite Hm in Hget. cbn [Py.bind] in Hget.
      assert (Hc : Psi.classified (lab_key k) = true).
      { unfold lab_kinds in Hk. cbn in Hk.
        repeat (destruct Hk as [<-|Hk]; [reflexivity|]). destruct Hk. }
      rewrite Hc in Hget. rewrite (status_text_of_entry _ _ _ _ _ Hc) in Hget.
      cbn [Py.bind] in Hget. apply ok_inj in Hget. subst cell.
      exists x. split; [exact Hx|]. f_equal.
      now apply status_label_of_band.
    - rewrite Hm in Hget. cbn in Hget. now apply ok_inj in Hget. }
  unfold Psi.status_columns. each_member; cbv beta iota.
  - pose proof (Hcell LCP "largest-contentful-paint" lcp
                  ltac:(cbn; tauto) Hb Elcp) as H.
    destruct (Psi.audit_of (Psi.lighthouse_of response)
                "largest-contentful-paint");
      [destruct H as (x & Hx & ->); exists x; split; [exact Hx|]|subst lcp];
      apply (write_cells_lookup _ 2 1 _ 3); reflexivity.
  - pose proof (Hcell INP "experimental-interaction-to-next-paint" inp
                  ltac:(cbn; tauto) Hb0 Einp) as H.
    destruct (Psi.audit_of (Psi.lighthouse_of response)
                "experimental-interaction-to-next-paint");
      [destruct H as (x & Hx & ->); exists x; split; [exact Hx|]|subst inp];
      apply (write_cells_lookup _ 2 1 _ 4); reflexivity.
  - pose proof (Hcell CLS "cumulative-layout-shift" cls
                  ltac:(cbn; tauto) Hb1 Ecls) as H.
    destruct (Psi.audit_of (Psi.lighthouse_of response)
                "cumulative-layout-shift");
      [destruct H as (x & Hx & ->); exists x; split; [exact Hx|]|subst cls];
      apply (write_cells_lookup _ 2 1 _ 5); reflexivity.
Qed.

Lemma descending_head {A : Type} (key : A -> Z) (top : A) (rest : list A) :
  Sort.descending key (top :: rest) ->
  Forall (fun o => (key o <= key top)%Z) (top :: rest).
Proof.
  intros H. apply StronglySorted_inv in H as [_ H].
  constructor; [lia|exact H].
Qed.

(** X9: in the Summary sheet of the data collected for one URL, the Top
    Issue of the row is the title of the first opportunity of the mobile
    result, which is one of the largest estimated saving of time (the
    first in the provider's order among those); it is empty when there
    is no opportunity. The Mobile Score is the performance score of the
    result, that is the integer [fetch_psi] makes of the score of the
    performance category of the response, and the Desktop Score, with no
    desktop result, is empty. *)
Theorem X9_top_issue (repr : value -> string) (url : string)
    (response : Psi.Response) (r : list (string * value))
    (ws : GenerateExcel.worksheet) :
  Psi.status response = 200%Z ->
  Psi.fetch_psi "mobile" response = Ok r ->
  GenerateExcel.create_summary_sheet repr (Psi.collected url "mobile" r)
  = Ok ws ->
  exists opportunities,
    FetchPsi.parse_opportunities (Psi.lighthouse_of response)
      = Ok opportunities /\
    match opportunities with
    | [] => ws !! (2%nat, 7%nat) = Some (VStr "")
    | top :: _ =>
        ws !! (2%nat, 7%nat)
        = Some (VStr (GenerateExcel.sanitize_for_excel repr
                        (FetchPsi.title top))) /\
        Forall (fun o => (FetchPsi.savings_key o
                          <= FetchPsi.savings_key top)%Z) opportunities
    end /\
    ws !! (2%nat, 1%nat)
      = Some (VStr (GenerateExcel.sanitize_for_excel repr (VStr url))) /\
    (exists z,
        Psi.performance_score (Psi.performance_of response) = Ok (VInt z) /\
        Dict.get r "performance_score" = Some (VInt z) /\
        ws !! (2%nat, 2%nat) = Some (VInt z)) /\
    ws !! (2%nat, 3%nat) = Some (VStr "").
Proof.
  intros Hst Hr Hws.
  destruct (fetch_psi_score _ _ _ Hst Hr) as (z' & Hperf & Hscore).
  destruct (fetch_psi_parts _ _ _ Hst Hr)
    as (cwv & opps & diags & fd & ofd & score & _ & Eopps & _ & _
        & (z & ->) & ->).
  cbn in Hscore. injection Hscore as <-.
  exists opps. split; [exact Eopps|].
  unfold Psi.collected in Hws.
  apply summary_sheet_single in Hws as (ws1 & Hrow & ->).
  apply summary_row_parts in Hrow
    as (u & st & mobile & desktop & mcwv & mopps & top & ms & ds
        & lcp & inp & cls & Eu & Est & Em & Ed & Ec & Eo & Et & Ems & Eds
        & Elcp & Einp & Ecls & ->).
  cbn in Eu. apply ok_inj in Eu. subst u.
  cbn in Est. apply ok_inj in Est. subst st.
  cbn in Em. apply ok_inj in Em. subst mobile.
  cbn in Ed. apply ok_inj in Ed. subst desktop.
  cbn in Eo. apply ok_inj in Eo. subst mopps.
  cbn in Ems. apply ok_inj in Ems. subst ms.
  cbn in Eds. apply ok_inj in Eds. subst ds.
  split; [|split; [|split]].
  - destruct opps as [|o opps].
    + cbn in Et. apply ok_inj in Et. subst top.
      apply (write_cells_lookup _ 2 1 _ 6); reflexivity.
    + cbn in Et. apply ok_inj in Et. subst top. split.
      * apply (write_cells_lookup _ 2 1 _ 6); reflexivity.
      * apply descending_head.
        unfold FetchPsi.parse_opportunities in Eopps.
        bind_split Eopps as audits Ea. bind_split Eopps as categories Ecat.
        bind_split Eopps as performance Ep. bind_split Eopps as refs Er.
        bind_split Eopps as ids Eids. bind_split Eopps as items Eit.
        bind_split Eopps as unsorted Eun. apply ok_inj in Eopps.
        rewrite <- Eopps. apply sorted_desc_descending.
  - apply (write_cells_lookup _ 2 1 _ 0); reflexivity.
  - exists z. split; [exact Hperf|]. split; [reflexivity|].
    apply (write_cells_lookup _ 2 1 _ 1); reflexivity.
  - apply (write_cells_lookup _ 2 1 _ 2); reflexivity.
Qed.

Lemma X8_summary_status_witness :
  exists r ws,
    Psi.fetch_psi "mobile" Samples.response = Ok r /\
    GenerateExcel.create_summary_sheet Examples.repr
      (Psi.collected "https://a.test/" "mobile" r) = Ok ws /\
    ws !! (2%nat, 4%nat) = Some (VStr "Needs Improvement") /\
    ws !! (2%nat, 5%nat) = Some (VStr "") /\
    ws !! (2%nat, 6%nat) = Some (VStr "Good").
Proof.
  destruct (Psi.fetch_psi "mobile" Samples.response) as [r|e] eqn:Er;
    [|vm_compute in Er; discriminate Er].
  destruct (GenerateExcel.create_summary_sheet Examples.repr
              (Psi.collected "https://a.test/" "mobile" r)) as [ws|e] eqn:Ews;
    [|vm_compute in Er; injection Er as <-; vm_compute in Ews;
      discriminate Ews].
  exists r, ws. split; [reflexivity|]. split; [exact Ews|].
  pose proof (X8_summary_status Examples.repr "https://a.test/"
                Samples.response r ws eq_refl Er Ews) as H.
  unfold Psi.status_columns in H.
  apply List.Forall_cons_iff in H as [H4 H].
  apply List.Forall_cons_iff in H as [H5 H].
  apply List.Forall_cons_iff in H as [H6 _].
  cbv beta iota in H4, H5, H6.
  change (Psi.audit_of (Psi.lighthouse_of Samples.response)
            "largest-contentful-paint")
    with (Some (Samples.metric_audit (VFloat (25004 # 10)))) in H4.
  change (Psi.audit_of (Psi.lighthouse_of Samples.response)
            "experimental-interaction-to-next-paint")
    with (@None value) in H5.
  change (Psi.audit_of (Psi.lighthouse_of Samples.response)
            "cumulative-layout-shift")
    with (Some (Samples.metric_audit (VFloat (5 # 100)))) in H6.
  destruct H4 as (x4 & Hx4 & H4). destruct H6 as (x6 & Hx6 & H6).
  cbn in Hx4, Hx6. injection Hx4 as <-. injection Hx6 as <-.
  split; [exact H4|]. split; [exact H5|exact H6].
Defined.

Lemma X9_top_issue_witness :
  exists r ws,
    Psi.fetch_psi "mobile" Samples.response = Ok r /\
    GenerateExcel.create_summary_sheet Examples.repr
      (Psi.collected "https://a.test/" "mobile" r) = Ok ws /\
    ws !! (2%nat, 7%nat) = Some (VStr "Reduce unused JavaScript") /\
    ws !! (2%nat, 2%nat) = Some (VInt 65).
Proof.
  destruct (Psi.fetch_psi "mobile" Samples.response) as [r|e] eqn:Er;
    [|vm_compute in Er; discriminate Er].
  destruct (GenerateExcel.create_summary_sheet Examples.repr
              (Psi.collected "https://a.test/" "mobile" r)) as [ws|e] eqn:Ews;
    [|vm_compute in Er; injection Er as <-; vm_compute in Ews;
      discriminate Ews].
  exists r, ws. split; [reflexivity|]. split; [exact Ews|].
  destruct (X9_top_issue Examples.repr "https://a.test/"
              Samples.response r ws eq_refl Er Ews)
    as (opps & Eo & Htop & _ & (z & _ & _ & Hz) & _).
  vm_compute in Eo. injection Eo as <-. destruct Htop as [Htop _].
  split; [exact Htop|].
  rewrite Hz. vm_compute in Er. injection Er as <-.
  vm_compute in Ews. injection Ews as <-.
  vm_compute in Hz. injection Hz as <-. reflexivity.
Defined.

(** ** The results in the Core Web Vitals sheet *)

Lemma metric_of_contains metrics key :
  match Psi.metric_of metrics key with
  | Some m =>
      Val.contains metrics key = Ok true -> Val.getitem metrics key = Ok m
  | None =>
      forall b, Val.contains metrics key = Ok b ->
                b = true -> exists e, Val.getitem metrics key = Raise e
  end.
Proof.
  destruct metrics; cbn; try discriminate; unfold Dict.mem.
  - intros b0 [= <-] Hb. eauto.
  - intros b [= <-] Hb. eauto.
  - destruct (Dict.get d key); [reflexivity|]. intros b [= <-]. discriminate.
Qed.

(** What a block of the field data does, by the metric of the key. *)
Lemma field_block_metric metrics key name f fd fd' :
  Psi.field_block metrics key name f fd = Ok fd' ->
  Dict.get fd name = None ->
  match Psi.metric_of metrics key with
  | Some m => exists v, f m = Ok v /\ fd' = fd ++ [(name, v)]
  | None => fd' = fd
  end.
Proof.
  unfold Psi.field_block. intros H Hfresh.
  bind_split H as present Ep.
  pose proof (metric_of_contains metrics key) as Hm.
  destruct present.
  - bind_split H as m Em. bind_split H as v Ev. apply ok_inj in H. subst fd'.
    destruct (Psi.metric_of metrics key) as [m'|].
    + rewrite (Hm Ep) in Em. apply ok_inj in Em. subst m'.
      exists v. split; [exact Ev|]. now apply dict_set_fresh.
    + destruct (Hm true Ep eq_refl) as (e & He). congruence.
  - apply ok_inj in H. subst fd'.
    destruct (Psi.metric_of metrics key) as [m|] eqn:E; [|reflexivity].
    exfalso. destruct metrics; cbn in E, Ep; try discriminate.
    unfold Dict.mem in Ep. rewrite E in Ep. discriminate.
Qed.

(** The cell of a field metric of a strategy result. *)
Lemma field_cell_of_result (repr : value -> string)
    (r : list (string * value)) (fd : value) key unit :
  Dict.get r "field_metrics" = Some fd ->
  GenerateExcel.field_cell repr (VDict r) key unit =
  match Psi.metric_of fd key with
  | Some v => if is_none v then "N/A"
              else (GenerateExcel.py_str repr v ++ unit)%string
  | None => "N/A"
  end.
Proof.
  intros Hfd. unfold GenerateExcel.field_cell, GenerateExcel.field_metric.
  unfold GenerateExcel.field_mapping. rewrite Hfd.
  destruct fd; try reflexivity. cbn [Psi.metric_of].
  destruct (Dict.get d key) as [v|]; [|reflexivity]. now destruct v.
Qed.

(** The field data by the metrics of the provider, for the three keys
    the report reads. *)
Lemma field_data_lookup loading_experience fd :
  Psi.parse_field_data loading_experience = Ok fd ->
  let metrics :=
    if truthy loading_experience then
      match Val.get loading_experience "metrics" (VDict []) with
      | Ok metrics => if truthy metrics then metrics else VNone
      | Raise _ => VNone
      end
    else VNone in
  match Psi.metric_of metrics "LARGEST_CONTENTFUL_PAINT_MS" with
  | Some m => exists v, Psi.scaled_percentile m 1000 2 = Ok v /\
                        Psi.metric_of fd "lcp_p75" = Some v
  | None => Psi.metric_of fd "lcp_p75" = None
  end /\
  match Psi.metric_of metrics "INTERACTION_TO_NEXT_PAINT" with
  | Some m => exists v, Val.get m "percentile" (VInt 0) = Ok v /\
                        Psi.metric_of fd "inp_p75" = Some v
  | None => Psi.metric_of fd "inp_p75" = None
  end /\
  match Psi.metric_of metrics "CUMULATIVE_LAYOUT_SHIFT_SCORE" with
  | Some m => exists v, Psi.scaled_percentile m 100 3 = Ok v /\
                        Psi.metric_of fd "cls_p75" = Some v
  | None => Psi.metric_of fd "cls_p75" = None
  end.
Proof.
  unfold Psi.parse_field_data. intros H.
  destruct (truthy loading_experience); cbn [negb] in H;
    [|apply ok_inj in H; subst fd; cbn; tauto].
  bind_split H as metrics Em. rewrite Em.
  destruct (truthy metrics); cbn [negb] in H;
    [|apply ok_inj in H; subst fd; cbn; tauto].
  cbv zeta.
  bind_split H as fd1 E1. bind_split H as has_inp Ei.
  bind_split H as fd2 E2. bind_split H as fd3 E3.
  bind_split H as fd4 E4. bind_split H as fd5 E5.
  apply ok_inj in H.
  apply field_block_metric in E1; [|reflexivity].
  assert (E2' :
    match Psi.metric_of metrics "INTERACTION_TO_NEXT_PAINT" with
    | Some m => exists v, Val.get m "percentile" (VInt 0) = Ok v /\
                          fd2 = fd1 ++ [("inp_p75", v)]
    | None => fd2 = fd1 \/ exists v, fd2 = fd1 ++ [("fid_p75", v)]
    end).
  { pose proof (metric_of_contains metrics "INTERACTION_TO_NEXT_PAINT") as Hm.
    destruct has_inp.
    - bind_split E2 as inp Einp. bind_split E2 as v Ev.
      apply ok_inj in E2. subst fd2.
      destruct (Psi.metric_of metrics "INTERACTION_TO_NEXT_PAINT") as [m|].
      + rewrite (Hm Ei) in Einp. apply ok_inj in Einp. subst m.
        exists v. split; [exact Ev|]. apply dict_set_fresh.
        destruct (Psi.metric_of metrics "LARGEST_CONTENTFUL_PAINT_MS") as [?m|];
          [destruct E1 as (?w & _ & ->)|subst fd1]; reflexivity.
      + destruct (Hm true Ei eq_refl) as (e & He). congruence.
    - destruct (Psi.metric_of metrics "INTERACTION_TO_NEXT_PAINT") as [m|] eqn:E.
      + exfalso. destruct metrics; cbn in E, Ei; try discriminate.
        unfold Dict.mem in Ei. rewrite E in Ei. discriminate.
      + apply field_block_metric in E2.
        * destruct (Psi.metric_of metrics "FIRST_INPUT_DELAY_MS") as [fid|];
            [destruct E2 as (v & _ & ->); eauto|now left].
        * destruct (Psi.metric_of metrics "LARGEST_CONTENTFUL_PAINT_MS") as [?m|];
            [destruct E1 as (?w & _ & ->)|subst fd1]; reflexivity. }
  clear E2 Ei.
  assert (Hfresh3 : Dict.get fd2 "cls_p75" = None /\
                    Dict.get fd2 "ttfb_p75" = None /\
                    Dict.get fd2 "fcp_p75" = None).
  { destruct (Psi.metric_of metrics "LARGEST_CONTENTFUL_PAINT_MS") as [?m|];
      [destruct E1 as (?w & _ & ->)|subst fd1];
      (destruct (Psi.metric_of metrics "INTERACTION_TO_NEXT_PAINT") as [?m|];
       [destruct E2' as (?v & _ & ->)|destruct E2' as [->|(?v & ->)]]);
      cbn; tauto. }
  destruct Hfresh3 as (Hf3 & Hf4 & Hf5).
  apply field_block_metric in E3; [|exact Hf3].
  assert (Hfresh4 : Dict.get fd3 "ttfb_p75" = None /\
                    Dict.get fd3 "fcp_p75" = None).
  { destruct (Psi.metric_of metrics "CUMULATIVE_LAYOUT_SHIFT_SCORE") as [?m|];
      [destruct E3 as (?v & _ & ->)|subst fd3];
      rewrite ?dict_get_app_fresh by exact Hf3; cbn; tauto. }
  destruct Hfresh4 as (Hf4' & Hf5').
  apply field_block_metric in E4; [|exact Hf4'].
  assert (Hfresh5 : Dict.get fd4 "fcp_p75" = None).
  { destruct (Psi.metric_of metrics "EXPERIMENTAL_TIME_TO_FIRST_BYTE") as [?m|];
      [destruct E4 as (?v & _ & ->)|subst fd4];
      rewrite ?dict_get_app_fresh by exact Hf4'; cbn; tauto. }
  apply field_block_metric in E5; [|exact Hfresh5].
  destruct (Psi.metric_of metrics "LARGEST_CONTENTFUL_PAINT_MS") as [m1|];
    [destruct E1 as (v1 & Hv1 & ->)|subst fd1];
    (destruct (Psi.metric_of metrics "INTERACTION_TO_NEXT_PAINT") as [m2|];
     [destruct E2' as (v2 & Hv2 & ->)|destruct E2' as [->|(v2 & ->)]]);
    (destruct (Psi.metric_of metrics "CUMULATIVE_LAYOUT_SHIFT_SCORE") as [m3|];
     [destruct E3 as (v3 & Hv3 & ->)|subst fd3]);
    (destruct (Psi.metric_of metrics "EXPERIMENTAL_TIME_TO_FIRST_BYTE") as [?m|];
     [destruct E4 as (v4 & _ & ->)|subst fd4]);
    (destruct (Psi.metric_of metrics "FIRST_CONTENTFUL_PAINT_MS") as [?m|];
     [destruct E5 as (v5 & _ & ->)|subst fd5]);
    cbn in H; subst fd; cbn;
    repeat split; eauto.
Qed.

Section CwvOfResult.

Import GenerateExcel.

Variable repr : value -> string.

(** The only row of the Core Web Vitals sheet of one result. *)
Lemma cwv_sheet_single url strategy r ws :
  create_core_web_vitals_sheet repr (Psi.collected url strategy r) = Ok ws ->
  cwv_row repr (VStr url) (header_row cwv_headers) 2
    (strategy, VDict r) = Ok ws.
Proof.
  unfold create_core_web_vitals_sheet, Psi.collected. rewrite get_dict.
  cbn [Dict.get String.eqb Ascii.eqb Bool.eqb Py.bind Val.iter Val.foldM
       cwv_rows Val.get Val.items write_rows].
  intros H. bind_split H as st Est. destruct st as [ws1 r1].
  apply ok_inj in H. subst ws.
  bind_split Est as st2 E2. destruct st2 as [ws2 r2].
  apply ok_inj in Est. injection Est as <- _.
  bind_split E2 as ws3 E3. apply ok_inj in E2. injection E2 as <- _.
  exact E3.
Qed.

End CwvOfResult.

Lemma append_empty_r (s : string) : (s ++ "")%string = s.
Proof.
  induction s as [|c s IH]; [reflexivity|].
  change (String c (s ++ "") = String c s). now f_equal.
Qed.

Lemma convert_shown name raw v u :
  Psi.convert_to_display_unit name raw = Ok (v, u) -> eq_str v "" = false.
Proof.
  unfold Psi.convert_to_display_unit, Val.number. intros H.
  repeat match type of H with
         | (if ?b then _ else _) = _ => destruct b
         end;
    bind_split H as r Er; apply ok_inj in H; injection H as <- _;
    try reflexivity;
    destruct raw; cbn in Er; try discriminate; apply ok_inj in Er;
    subst r; reflexivity.
Qed.

(** X10: in the Core Web Vitals sheet of the data collected for one URL
    and one strategy, the field columns show the page-level percentiles of
    the provider: "LCP Field" is the percentile in seconds, rounded to two
    decimals, "CLS Field" the percentile divided by 100, rounded to three,
    and "INP Field" the percentile in milliseconds as it came; each is
    "N/A" when the provider has no such metric for the page. The
    first-input delay kept as a fallback is never shown: without the
    interaction metric, "INP Field" is "N/A" whatever the delay. *)
Theorem X10_field_cells (repr : value -> string) (url strategy : string)
    (response : Psi.Response) (r : list (string * value))
    (ws : GenerateExcel.worksheet) :
  Psi.status response = 200%Z ->
  Psi.fetch_psi strategy response = Ok r ->
  GenerateExcel.create_core_web_vitals_sheet repr
    (Psi.collected url strategy r) = Ok ws ->
  match Psi.field_percentile response "LARGEST_CONTENTFUL_PAINT_MS" with
  | Some p =>
      exists x,
        as_number p = Some x /\
        ws !! (2%nat, 5%nat)
        = Some (VStr (repr (VFloat (round_q (Qred (x / 1000)) 2)) ++ "s"))
  | None => ws !! (2%nat, 5%nat) = Some (VStr "N/A")
  end /\
  match Psi.field_percentile response "INTERACTION_TO_NEXT_PAINT" with
  | Some p =>
      ws !! (2%nat, 7%nat)
      = Some (VStr (if is_none p then "N/A"
                    else GenerateExcel.py_str repr p ++ "ms"))
  | None => ws !! (2%nat, 7%nat) = Some (VStr "N/A")
  end /\
  match Psi.field_percentile response "CUMULATIVE_LAYOUT_SHIFT_SCORE" with
  | Some p =>
      exists x,
        as_number p = Some x /\
        ws !! (2%nat, 9%nat)
        = Some (VStr (repr (VFloat (round_q (Qred (x / 100)) 3))))
  | None => ws !! (2%nat, 9%nat) = Some (VStr "N/A")
  end.
Proof.
  intros Hst Hr Hws.
  destruct (fetch_psi_parts _ _ _ Hst Hr)
    as (cwv & opps & diags & fd & ofd & score & _ & _ & _
        & (le & Ele & Efd) & _ & ->).
  apply cwv_sheet_single in Hws.
  apply cwv_row_parts in Hws
    as (cwv' & score' & c4 & c6 & c8 & c10 & c11 & c12 & _ & _ & _ & _ & _
        & _ & _ & _ & ->).
  cbn [fst snd].
  rewrite !(field_cell_of_result repr _ fd) by reflexivity.
  pose proof (field_data_lookup le fd Efd) as Hfd. cbv zeta in Hfd.
  unfold Psi.field_percentile, Psi.field_metrics_of. rewrite Ele.
  set (metrics := if truthy le then _ else VNone) in *. clearbody metrics.
  destruct Hfd as (Hlcp & Hinp & Hcls).
  split; [|split].
  - destruct (Psi.metric_of metrics "LARGEST_CONTENTFUL_PAINT_MS") as [m|].
    + destruct Hlcp as (v & Hv & Hget). unfold Psi.scaled_percentile in Hv.
      bind_split Hv as p Ep. bind_split Hv as x Ex. apply ok_inj in Hv.
      subst v. rewrite Ep. exists x. split.
      * unfold Val.number in Ex. destruct (as_number p); [|discriminate].
        now apply ok_inj in Ex; subst.
      * rewrite Hget. cbn [is_none GenerateExcel.py_str].
        apply (write_cells_lookup _ 2 1 _ 4); reflexivity.
    + rewrite Hlcp. apply (write_cells_lookup _ 2 1 _ 4); reflexivity.
  - destruct (Psi.metric_of metrics "INTERACTION_TO_NEXT_PAINT") as [m|].
    + destruct Hinp as (v & Hv & Hget). rewrite Hv, Hget.
      destruct (is_none v);
        apply (write_cells_lookup _ 2 1 _ 6); reflexivity.
    + rewrite Hinp. apply (write_cells_lookup _ 2 1 _ 6); reflexivity.
  - destruct (Psi.metric_of metrics "CUMULATIVE_LAYOUT_SHIFT_SCORE") as [m|].
    + destruct Hcls as (v & Hv & Hget). unfold Psi.scaled_percentile in Hv.
      bind_split Hv as p Ep. bind_split Hv as x Ex. apply ok_inj in Hv.
      subst v. rewrite Ep. exists x. split.
      * unfold Val.number in Ex. destruct (as_number p); [|discriminate].
        now apply ok_inj in Ex; subst.
      * rewrite Hget. cbn [is_none GenerateExcel.py_str].
        rewrite append_empty_r.
        apply (write_cells_lookup _ 2 1 _ 8); reflexivity.
    + rewrite Hcls. apply (write_cells_lookup _ 2 1 _ 8); reflexivity.
Qed.

(** X11: in the same sheet, each lab column shows the converted value of
    the audit followed by its unit (seconds for the paints and the server
    response time, milliseconds for the interaction and the blocking time,
    none for the layout shift), and is empty when the provider's document
    has no such audit. *)
Theorem X11_lab_cells (repr : value -> string) (url strategy : string)
    (response : Psi.Response) (r : list (string * value))
    (ws : GenerateExcel.worksheet) :
  Psi.status response = 200%Z ->
  Psi.fetch_psi strategy response = Ok r ->
  GenerateExcel.create_core_web_vitals_sheet repr
    (Psi.collected url strategy r) = Ok ws ->
  Forall (fun '(column, audit_id, name) =>
            match Psi.audit_of (Psi.lighthouse_of response) audit_id with
            | Some audit =>
                exists v u,
                  Psi.convert_to_display_unit name (Psi.raw_value audit)
                  = Ok (v, u) /\
                  ws !! (2%nat, column)
                  = Some (VStr (GenerateExcel.py_str repr v ++ u))
            | None => ws !! (2%nat, column) = Some (VStr "")
            end) Psi.lab_columns.
Proof.
  intros Hst Hr Hws.
  destruct (fetch_psi_parts _ _ _ Hst Hr)
    as (cwv & opps & diags & fd & ofd & score & Ecwv & _ & _ & _ & _ & ->).
  apply lab_metrics_spec in Ecwv as (metrics & -> & _ & Hall).
  apply cwv_sheet_single in Hws.
  apply cwv_row_parts in Hws
    as (cwv' & score' & c4 & c6 & c8 & c10 & c11 & c12 & Ec & _ & E4 & E6
        & E8 & E10 & E11 & E12 & ->).
  cbn in Ec. apply ok_inj in Ec. subst cwv'.
  unfold Psi.lab_audits in Hall.
  repeat match type of Hall with
         | Forall _ (_ :: _) =>
             let Hb := fresh "Hb" in
             apply List.Forall_cons_iff in Hall as [Hb Hall];
             cbv beta iota in Hb
         end.
  clear Hall.
  assert (Hcell : forall name audit_id cell,
             match Psi.audit_of (Psi.lighthouse_of response) audit_id with
             | Some audit =>
                 exists m, Dict.get metrics name = Some m /\
                           Psi.entry_of name (Psi.raw_value audit) m
             | None => Dict.get metrics name = None
             end ->
             GenerateExcel.get_with (GenerateExcel._format_metric repr)
               (VDict metrics) name = Ok (VStr cell) ->
             match Psi.audit_of (Psi.lighthouse_of response) audit_id with
             | Some audit =>
                 exists v u,
                   Psi.convert_to_display_unit name (Psi.raw_value audit)
                   = Ok (v, u) /\
                   cell = (GenerateExcel.py_str repr v ++ u)%string
             | None => cell = ""
             end).
  { intros name audit_id cell Hm Hget.
    unfold GenerateExcel.get_with in Hget. rewrite get_dict in Hget.
    destruct (Psi.audit_of (Psi.lighthouse_of response) audit_id)
      as [audit|].
    - destruct Hm as (m & Hm & x & v & un & Hx & Hconv & ->).
      rewrite Hm in Hget. cbn [Py.bind] in Hget.
      exists v, un. split; [exact Hconv|].
      unfold GenerateExcel._format_metric, Psi.metric_entry in Hget.
      cbn [app truthy negb Val.get Dict.get String.eqb Ascii.eqb Bool.eqb
           Py.bind] in Hget.
      rewrite (convert_shown _ _ _ _ Hconv) in Hget.
      cbn [Py.bind GenerateExcel.py_str] in Hget.
      apply ok_inj in Hget. now injection Hget as <-.
    - rewrite Hm in Hget. cbn in Hget. apply ok_inj in Hget.
      now injection Hget as <-. }
  unfold Psi.lab_columns. each_member; cbv beta iota.
  - pose proof (Hcell "lcp" "largest-contentful-paint" c4 Hb E4) as H.
    destruct (Psi.audit_of (Psi.lighthouse_of response)
                "largest-contentful-paint") as [audit|];
      [destruct H as (v & u & Hc & ->); exists v, u; split; [exact Hc|]
      |subst c4];
      apply (write_cells_lookup _ 2 1 _ 3); reflexivity.
  - pose proof (Hcell "inp" "experimental-interaction-to-next-paint" c6
                  Hb0 E6) as H.
    destruct (Psi.audit_of (Psi.lighthouse_of response)
                "experimental-interaction-to-next-paint") as [audit|];
      [destruct H as (v & u & Hc & ->); exists v, u; split; [exact Hc|]
      |subst c6];
      apply (write_cells_lookup _ 2 1 _ 5); reflexivity.
  - pose proof (Hcell "cls" "cumulative-layout-shift" c8 Hb1 E8) as H.
    destruct (Psi.audit_of (Psi.lighthouse_of response)
                "cumulative-layout-shift") as [audit|];
      [destruct H as (v & u & Hc & ->); exists v, u; split; [exact Hc|]
      |subst c8];
      apply (write_cells_lookup _ 2 1 _ 7); reflexivity.
  - pose proof (Hcell "fcp" "first-contentful-paint" c10 Hb2 E10) as H.
    destruct (Psi.audit_of (Psi.lighthouse_of response)
                "first-contentful-paint") as [audit|];
      [destruct H as (v & u & Hc & ->); exists v, u; split; [exact Hc|]
      |subst c10];
      apply (write_cells_lookup _ 2 1 _ 9); reflexivity.
  - pose proof (Hcell "ttfb" "server-response-time" c11 Hb3 E11) as H.
    destruct (Psi.audit_of (Psi.lighthouse_of response)
                "server-response-time") as [audit|];
      [destruct H as (v & u & Hc & ->); exists v, u; split; [exact Hc|]
      |subst c11];
      apply (write_cells_lookup _ 2 1 _ 10); reflexivity.
  - pose proof (Hcell "tbt" "total-blocking-time" c12 Hb4 E12) as H.
    destruct (Psi.audit_of (Psi.lighthouse_of response)
                "total-blocking-time") as [audit|];
      [destruct H as (v & u & Hc & ->); exists v, u; split; [exact Hc|]
      |subst c12];
      apply (write_cells_lookup _ 2 1 _ 11); reflexivity.
Qed.

(** ** The field data of a loading experience *)




Lemma X10_field_cells_witness :
  exists r ws,
    Psi.fetch_psi "mobile" Samples.response = Ok r /\
    GenerateExcel.create_core_web_vitals_sheet Examples.repr
      (Psi.collected "https://a.test/" "mobile" r) = Ok ws /\
    ws !! (2%nat, 5%nat) = Some (VStr "2.51s") /\
    ws !! (2%nat, 7%nat) = Some (VStr "N/A") /\
    ws !! (2%nat, 9%nat) = Some (VStr "0.05").
Proof.
  destruct (Psi.fetch_psi "mobile" Samples.response) as [r|e] eqn:Er;
    [|vm_compute in Er; discriminate Er].
  destruct (GenerateExcel.create_core_web_vitals_sheet Examples.repr
              (Psi.collected "https://a.test/" "mobile" r)) as [ws|e] eqn:Ews;
    [|vm_compute in Er; injection Er as <-; vm_compute in Ews;
      discriminate Ews].
  exists r, ws. split; [reflexivity|]. split; [exact Ews|].
  destruct (X10_field_cells Examples.repr "https://a.test/" "mobile"
              Samples.response r ws eq_refl Er Ews) as (H5 & H7 & H9).
  change (Psi.field_percentile Samples.response "LARGEST_CONTENTFUL_PAINT_MS")
    with (Some (VInt 2512)) in H5.
  change (Psi.field_percentile Samples.response "INTERACTION_TO_NEXT_PAINT")
    with (@None value) in H7.
  change (Psi.field_percentile Samples.response
            "CUMULATIVE_LAYOUT_SHIFT_SCORE")
    with (Some (VInt 5)) in H9.
  destruct H5 as (x5 & Hx5 & H5). destruct H9 as (x9 & Hx9 & H9).
  cbn in Hx5, Hx9. injection Hx5 as <-. injection Hx9 as <-.
  split; [exact H5|]. split; [exact H7|exact H9].
Defined.

Lemma X11_lab_cells_witness :
  exists r ws,
    Psi.fetch_psi "mobile" Samples.response = Ok r /\
    GenerateExcel.create_core_web_vitals_sheet Examples.repr
      (Psi.collected "https://a.test/" "mobile" r) = Ok ws /\
    ws !! (2%nat, 4%nat) = Some (VStr "2.5s") /\
    ws !! (2%nat, 6%nat) = Some (VStr "") /\
    ws !! (2%nat, 12%nat) = Some (VStr "180ms").
Proof.
  destruct (Psi.fetch_psi "mobile" Samples.response) as [r|e] eqn:Er;
    [|vm_compute in Er; discriminate Er].
  destruct (GenerateExcel.create_core_web_vitals_sheet Examples.repr
              (Psi.collected "https://a.test/" "mobile" r)) as [ws|e] eqn:Ews;
    [|vm_compute in Er; injection Er as <-; vm_compute in Ews;
      discriminate Ews].
  exists r, ws. split; [reflexivity|]. split; [exact Ews|].
  pose proof (X11_lab_cells Examples.repr "https://a.test/" "mobile"
                Samples.response r ws eq_refl Er Ews) as H.
  unfold Psi.lab_columns in H.
  apply List.Forall_cons_iff in H as [H4 H].
  apply List.Forall_cons_iff in H as [H6 H].
  apply List.Forall_cons_iff in H as [_ H].
  apply List.Forall_cons_iff in H as [_ H].
  apply List.Forall_cons_iff in H as [_ H].
  apply List.Forall_cons_iff in H as [H12 _].
  cbv beta iota in H4, H6, H12.
  change (Psi.audit_of (Psi.lighthouse_of Samples.response)
            "largest-contentful-paint")
    with (Some (Samples.metric_audit (VFloat (25004 # 10)))) in H4.
  change (Psi.audit_of (Psi.lighthouse_of Samples.response)
            "experimental-interaction-to-next-paint")
    with (@None value) in H6.
  change (Psi.audit_of (Psi.lighthouse_of Samples.response)
            "total-blocking-time")
    with (Some (Samples.metric_audit (VInt 180))) in H12.
  destruct H4 as (v4 & u4 & Hc4 & H4). destruct H12 as (v12 & u12 & Hc12 & H12).
  vm_compute in Hc4, Hc12. injection Hc4 as <- <-. injection Hc12 as <- <-.
  split; [exact H4|]. split; [exact H6|exact H12].
Defined.

(** ** The records of the field data provider *)

Lemma dict_get_set_other {V : Type} (d : list (string * V)) k v k' :
  k <> k' -> Dict.get (Dict.set d k v) k' = Dict.get d k'.
Proof.
  intros Hne. induction d as [|[k0 v0] d IH]; simpl.
  - apply String.eqb_neq in Hne. now rewrite Hne.
  - destruct (String.eqb k0 k) eqn:E; simpl.
    + apply String.eqb_eq in E. subst k0.
      apply String.eqb_neq in Hne. now rewrite Hne.
    + now rewrite IH.
Qed.

(** What one turn of the loop of [parse_crux_metrics] does. *)
Lemma parse_metric_outcome parsed key data parsed' :
  Crux.parse_metric parsed (key, data) = Ok parsed' ->
  match Dict.get FetchCrux.METRIC_DISPLAY_NAMES (Str.lower key) with
  | Some name =>
      exists m, Crux.entry_of (Str.lower key) data m /\
                parsed' = Dict.set parsed name m
  | None => parsed' = parsed
  end.
Proof.
  unfold Crux.parse_metric. intros H.
  destruct (Dict.get FetchCrux.METRIC_DISPLAY_NAMES (Str.lower key))
    as [name|]; [|now apply ok_inj in H].
  bind_split H as percentiles Ep. bind_split H as p Ep75.
  bind_split H as raw Eraw.
  destruct (FetchCrux.convert_p75 (Str.lower key) raw) as [shown u] eqn:Ec.
  bind_split H as histogram Eh. bind_split H as dist Ed.
  apply ok_inj in H. subst parsed'.
  eexists. split; [|reflexivity].
  exists raw. cbn [Crux.p75 Crux.p75_raw Crux.unit Crux.status
                   Crux.distribution].
  split.
  { unfold Crux.raw_p75. rewrite Ep. cbn [Py.bind]. rewrite Ep75. exact Eraw. }
  split; [reflexivity|]. split; [now rewrite Ec|]. split; [reflexivity|].
  exists histogram. now split.
Qed.

Lemma parse_metrics_fold (its : list (string * value)) :
  forall parsed parsed',
    Val.foldM Crux.parse_metric its parsed = Ok parsed' ->
    NoDup (Dict.keys parsed) ->
    NoDup (Dict.keys parsed') /\
    (forall name m,
        Dict.get parsed' name = Some m ->
        Dict.get parsed name = Some m \/
        exists key data,
          In (key, data) its /\
          Dict.get FetchCrux.METRIC_DISPLAY_NAMES (Str.lower key)
            = Some name /\
          Crux.entry_of (Str.lower key) data m) /\
    (forall name, Dict.mem parsed name = true ->
                  Dict.mem parsed' name = true) /\
    (forall key data name,
        In (key, data) its ->
        Dict.get FetchCrux.METRIC_DISPLAY_NAMES (Str.lower key) = Some name ->
        Dict.mem parsed' name = true).
Proof.
  induction its as [|[key data] its IH]; intros parsed parsed' H Hnd.
  - cbn in H. apply ok_inj in H. subst parsed'.
    split; [exact Hnd|]. split; [now left|]. split; [tauto|].
    intros ? ? ? [].
  - cbn [Val.foldM] in H. bind_split H as mid Emid.
    apply parse_metric_outcome in Emid.
    assert (Hmid : NoDup (Dict.keys mid)).
    { destruct (Dict.get FetchCrux.METRIC_DISPLAY_NAMES (Str.lower key));
        [destruct Emid as (m & _ & ->); now apply dict_set_NoDup
        |now subst mid]. }
    destruct (IH mid parsed' H Hmid) as (Hnd' & Hget & Hmem & Hin).
    split; [exact Hnd'|]. split; [|split].
    + intros name m Hm. destruct (Hget name m Hm) as [Hold|Hnew].
      * destruct (Dict.get FetchCrux.METRIC_DISPLAY_NAMES (Str.lower key))
          as [name0|] eqn:En; [|subst mid; now left].
        destruct Emid as (m0 & Hm0 & ->).
        destruct (String.eqb name0 name) eqn:E.
        -- apply String.eqb_eq in E. subst name0.
           rewrite dict_get_set_same in Hold. injection Hold as <-.
           right. exists key, data. split; [now left|]. now split.
        -- apply String.eqb_neq in E.
           rewrite dict_get_set_other in Hold by exact E. now left.
      * destruct Hnew as (k & d & Hk & Hname & He).
        right. exists k, d. split; [now right|]. now split.
    + intros name Hname. apply Hmem.
      destruct (Dict.get FetchCrux.METRIC_DISPLAY_NAMES (Str.lower key))
        as [name0|]; [|now subst mid].
      destruct Emid as (m0 & _ & ->). unfold Dict.mem in *.
      destruct (String.eqb name0 name) eqn:E.
      * apply String.eqb_eq in E. subst name0.
        now rewrite dict_get_set_same.
      * apply String.eqb_neq in E. now rewrite dict_get_set_other.
    + intros k d name [[= -> ->]|Hk] Hname.
      * apply Hmem. rewrite Hname in Emid. destruct Emid as (m0 & _ & ->).
        unfold Dict.mem. now rewrite dict_get_set_same.
      * now apply (Hin k d).
Qed.

(** X12: the metrics [parse_crux_metrics] returns have distinct names;
    each is the entry of a metric of the record whose key, in lower case,
    is one of the six known ones: its raw percentile is [float] of the
    [p75] of the provider (0 when missing), shown in the unit of the
    metric, with the band of the raw percentile and the distribution of
    the histogram. Every known metric of the record has its name in the
    result, and a metric under any other key is skipped unread. *)
Theorem X12_crux_metrics (record : value)
    (parsed : list (string * Crux.metric)) :
  Crux.parse_crux_metrics record = Ok parsed ->
  exists metrics,
    Val.get record "metrics" (VDict []) = Ok (VDict metrics) /\
    NoDup (Dict.keys parsed) /\
    (forall name m,
        Dict.get parsed name = Some m ->
        exists key data,
          In (key, data) metrics /\
          Dict.get FetchCrux.METRIC_DISPLAY_NAMES (Str.lower key)
            = Some name /\
          Crux.entry_of (Str.lower key) data m) /\
    (forall key data name,
        In (key, data) metrics ->
        Dict.get FetchCrux.METRIC_DISPLAY_NAMES (Str.lower key) = Some name ->
        Dict.mem parsed name = true) /\
    (Forall (fun item =>
               Dict.get FetchCrux.METRIC_DISPLAY_NAMES (Str.lower (fst item))
               = None) metrics -> parsed = []).
Proof.
  unfold Crux.parse_crux_metrics. intros H.
  bind_split H as metrics_data Em. bind_split H as its Ei.
  destruct metrics_data; try discriminate. cbn in Ei. apply ok_inj in Ei.
  subst its. exists d. split; [exact Em|].
  destruct (parse_metrics_fold d [] parsed H NoDup_nil_2)
    as (Hnd & Hget & _ & Hin).
  split; [exact Hnd|]. split; [|split; [exact Hin|]].
  - intros name m Hm. destruct (Hget name m Hm) as [Hold|Hnew];
      [discriminate Hold|exact Hnew].
  - intros Hall. destruct parsed as [|[name m] parsed]; [reflexivity|].
    exfalso. destruct (Hget name m) as [Hold|(key & data & Hk & Hname & _)].
    + cbn. now rewrite String.eqb_refl.
    + discriminate Hold.
    + rewrite List.Forall_forall in Hall. specialize (Hall _ Hk).
      cbn [fst] in Hall. rewrite Hname in Hall. discriminate Hall.
Qed.

(** ** The answer of the field data provider *)

Section CruxAnswer.

Variable repr : value -> string.
Variable message : exn -> string.

Lemma format_02d_value_int v s :
  Text.format_02d_value v = Ok s ->
  exists z, Text.int_of v = Some z /\ s = Text.format_02d z.
Proof.
  destruct v; cbn; try discriminate; intros H; apply ok_inj in H; subst s;
    eexists; (split; [reflexivity|]); [now destruct b|reflexivity].
Qed.

Lemma format_02d_value_text kv key :
  Dict.get kv key = None ->
  Text.format_02d_value
    (match Dict.get kv key with Some v => v | None => VStr "" end)
  = Raise ValueError.
Proof. now intros ->. Qed.

Lemma format_02d_length (z : Z) :
  (0 <= z <= 99)%Z -> String.length (Text.format_02d z) = 2%nat.
Proof.
  intros Hz. assert (Hn : exists n, (n < 100)%nat /\ z = Z.of_nat n).
  { exists (Z.to_nat z). lia. }
  destruct Hn as (n & Hn & ->). clear Hz.
  do 100 (destruct n as [|n]; [reflexivity|]). lia.
Qed.

(** The text of a date that can be written. *)
Lemma date_text_parts date s :
  Crux.date_text repr date = Ok s ->
  exists kv m d,
    date = VDict kv /\
    (Dict.get kv "month" ≫= Text.int_of) = Some m /\
    (Dict.get kv "day" ≫= Text.int_of) = Some d /\
    s = (GenerateExcel.py_str repr
           (match Dict.get kv "year" with Some y => y | None => VStr "" end)
         ++ "-" ++ Text.format_02d m ++ "-" ++ Text.format_02d d)%string.
Proof.
  unfold Crux.date_text. intros H.
  destruct date as [| | | | | |kv]; try discriminate.
  rewrite !get_dict in H. cbn [Py.bind] in H.
  bind_split H as mm Em. bind_split H as dd Ed. apply ok_inj in H.
  apply format_02d_value_int in Em as (m & Hm & ->).
  apply format_02d_value_int in Ed as (d & Hd & ->).
  exists kv, m, d. split; [reflexivity|].
  destruct (Dict.get kv "month") as [vm|]; [|discriminate Hm].
  destruct (Dict.get kv "day") as [vd|]; [|discriminate Hd].
  split; [exact Hm|]. split; [exact Hd|]. now subst s.
Qed.

End CruxAnswer.

(** X13: [main] of the field data script exits with 0 exactly when a
    request was made and the provider answered it with 404, or with 200
    and a record that could be read; the result is then a success. An
    answer of 404 is a success with no record, whatever its body; the
    URL is asked for when both a URL and an origin are given; and with
    neither, the exit code is 1 whatever the provider would answer. *)
Theorem X13_crux_exit_code (repr : value -> string) (message : exn -> string)
    (url origin : option string) (form_factor : string)
    (api_key environment_key : option string)
    (post : Crux.Request -> Crux.reply) :
  let key := if Crux.given api_key then api_key else environment_key in
  let run :=
    Crux.main repr message url origin form_factor api_key environment_key
      post in
  (snd run = 0%Z <->
   exists query response,
     Crux.query_of url origin = Some query /\
     post (Crux.request_of query form_factor key) = Crux.Answered response /\
     (Psi.status response = 404%Z \/
      (Psi.status response = 200%Z /\
       exists o, Crux.read_answer repr query form_factor response = Ok o))) /\
  (snd run = 0%Z <-> Crux.success (fst run) = true) /\
  (snd run = 0%Z \/ snd run = 1%Z) /\
  (forall query response,
      Crux.query_of url origin = Some query ->
      post (Crux.request_of query form_factor key) = Crux.Answered response ->
      Psi.status response = 404%Z ->
      run = (Crux.NotInCrux (fst query) (snd query) form_factor, 0%Z)) /\
  (Crux.given url = true ->
   Crux.query_of url origin = Some ("url", Crux.text_of url)) /\
  (Crux.query_of url origin = None ->
   run = (Crux.Failure "Either --url or --origin is required", 1%Z)).
Proof.
  intros key run.
  assert (Hrun : run =
            match Crux.query_of url origin with
            | None => (Crux.Failure "Either --url or --origin is required",
                       1%Z)
            | Some query =>
                match post (Crux.request_of query form_factor key) with
                | Crux.Answered response =>
                    match Crux.read_answer repr query form_factor response
                    with
                    | Ok o => (o, if Crux.success o then 0%Z else 1%Z)
                    | Raise e => (Crux.Failure (message e), 1%Z)
                    end
                | Crux.TimedOut => (Crux.Failure "Request timed out", 1%Z)
                | Crux.Broken text => (Crux.Failure text, 1%Z)
                end
            end).
  { subst run. unfold Crux.main, Crux.fetch_crux, Crux.query_of. fold key.
    destruct (Crux.given url); cbn [negb andb].
    - destruct (post _) as [response| |text]; try reflexivity.
      now destruct (Crux.read_answer _ _ _ _).
    - destruct (Crux.given origin); cbn [negb]; [|reflexivity].
      destruct (post _) as [response| |text]; try reflexivity.
      now destruct (Crux.read_answer _ _ _ _). }
  assert (Hread : forall query response o,
             Crux.read_answer repr query form_factor response = Ok o ->
             Crux.success o = true <->
             (Psi.status response = 404%Z \/ Psi.status response = 200%Z)).
  { intros query response o. unfold Crux.read_answer.
    destruct (Psi.status response =? 404)%Z eqn:E404.
    - apply Z.eqb_eq in E404. intros H. apply ok_inj in H. subst o. cbn.
      split; [now left|reflexivity].
    - apply Z.eqb_neq in E404.
      destruct (Psi.status response =? 200)%Z eqn:E200; cbn [negb].
      + apply Z.eqb_eq in E200. intros H.
        bind_split H as record Er. bind_split H as cp Ecp.
        bind_split H as fd Efd. bind_split H as ld Eld.
        bind_split H as first Ef. bind_split H as last El.
        bind_split H as metrics Em. apply ok_inj in H. subst o. cbn.
        split; [now right|reflexivity].
      + apply Z.eqb_neq in E200. intros H. apply ok_inj in H. subst o. cbn.
        split; [discriminate|]. intros [?|?]; contradiction. }
  split; [|split; [|split; [|split; [|split]]]].
  - rewrite Hrun. destruct (Crux.query_of url origin) as [query|].
    + destruct (post _) as [response| |text] eqn:Ep.
      * destruct (Crux.read_answer repr query form_factor response)
          as [o|e] eqn:Er.
        -- cbn [snd]. pose proof (Hread _ _ _ Er) as Hs.
           destruct (Crux.success o).
           ++ split; [intros _|reflexivity].
              exists query, response. split; [reflexivity|].
              split; [exact Ep|].
              destruct (proj1 Hs eq_refl) as [H|H]; [now left|right].
              split; [exact H|]. eauto.
           ++ split; [discriminate|].
              intros (q & resp & [= <-] & Hp & Hst). rewrite Ep in Hp.
              injection Hp as <-.
              assert (false = true); [|discriminate].
              apply Hs. destruct Hst as [?|[? _]]; [now left|now right].
        -- cbn [snd]. split; [discriminate|].
           intros (q & resp & [= <-] & Hp & Hst). rewrite Ep in Hp.
           injection Hp as <-. exfalso.
           destruct Hst as [H404|(_ & o & Ho)]; [|congruence].
           unfold Crux.read_answer in Er. rewrite H404 in Er.
           discriminate Er.
      * cbn [snd]. split; [discriminate|].
        intros (q & resp & [= <-] & Hp & _). congruence.
      * cbn [snd]. split; [discriminate|].
        intros (q & resp & [= <-] & Hp & _). congruence.
    + cbn [snd]. split; [discriminate|].
      intros (q & resp & Hq & _). discriminate Hq.
  - rewrite Hrun. destruct (Crux.query_of url origin) as [query|];
      [|cbn; split; discriminate].
    destruct (post _) as [response| |text]; try (cbn; split; discriminate).
    destruct (Crux.read_answer repr query form_factor response) as [o|e];
      [|cbn; split; discriminate].
    cbn [fst snd]. destruct (Crux.success o); split; try reflexivity;
      discriminate.
  - rewrite Hrun. destruct (Crux.query_of url origin) as [query|];
      [|now right].
    destruct (post _) as [response| |text]; try now right.
    destruct (Crux.read_answer repr query form_factor response) as [o|e];
      [|now right].
    cbn [snd]. destruct (Crux.success o); [now left|now right].
  - intros query response Hq Hp H404. rewrite Hrun, Hq, Hp.
    unfold Crux.read_answer. now rewrite H404.
  - intros Hu. unfold Crux.query_of. now rewrite Hu.
  - intros Hq. now rewrite Hrun, Hq.
Qed.

(** X14: a date of the collection period can be written only when its
    month and its day are integers, and is then the year, the month and
    the day joined by dashes, the month and the day on two digits when
    they are between 0 and 99. A date with no month makes the f-string
    raise: an answer of 200 whose record has no complete first date ends
    [main] with a failure and the exit code 1, whatever metrics the
    record holds. *)
Theorem X14_collection_period (repr : value -> string)
    (message : exn -> string) :
  (forall date s,
      Crux.date_text repr date = Ok s ->
      exists kv m d,
        date = VDict kv /\
        (Dict.get kv "month" ≫= Text.int_of) = Some m /\
        (Dict.get kv "day" ≫= Text.int_of) = Some d /\
        s = (GenerateExcel.py_str repr
               (match Dict.get kv "year" with
                | Some y => y
                | None => VStr ""
                end)
             ++ "-" ++ Text.format_02d m ++ "-" ++ Text.format_02d d)%string) /\
  (forall z, (0 <= z <= 99)%Z ->
             String.length (Text.format_02d z) = 2%nat) /\
  (forall url origin form_factor api_key environment_key post query response
          record period first_date last_date,
      Crux.query_of url origin = Some query ->
      post (Crux.request_of query form_factor
              (if Crux.given api_key then api_key else environment_key))
      = Crux.Answered response ->
      Psi.status response = 200%Z ->
      Val.get (Psi.json response) "record" (VDict []) = Ok record ->
      Val.get record "collectionPeriod" (VDict []) = Ok period ->
      Val.get period "firstDate" (VDict []) = Ok (VDict first_date) ->
      Val.get period "lastDate" (VDict []) = Ok last_date ->
      Dict.get first_date "month" = None ->
      Crux.main repr message url origin form_factor api_key environment_key
        post
      = (Crux.Failure (message ValueError), 1%Z)).
Proof.
  split; [exact (date_text_parts repr)|]. split; [exact format_02d_length|].
  intros url origin form_factor api_key environment_key post query response
         record period first_date last_date Hq Hp Hst Hrec Hper Hfirst Hlast
         Hmonth.
  assert (Hread : Crux.read_answer repr query form_factor response
                  = Raise ValueError).
  { unfold Crux.read_answer. rewrite Hst. cbn [Z.eqb Pos.eqb negb].
    cbv zeta. rewrite Hrec. cbn [Py.bind]. rewrite Hper. cbn [Py.bind].
    rewrite Hfirst. cbn [Py.bind]. rewrite Hlast. cbn [Py.bind].
    unfold Crux.date_text at 1. rewrite !get_dict. cbn [Py.bind].
    now rewrite Hmonth. }
  unfold Crux.main, Crux.fetch_crux. rewrite Hq.
  assert (Hgiven : (negb (Crux.given url) && negb (Crux.given origin))%bool
                   = false).
  { unfold Crux.query_of in Hq.
    destruct (Crux.given url); [reflexivity|].
    destruct (Crux.given origin); [reflexivity|discriminate Hq]. }
  rewrite Hgiven, Hp, Hread. reflexivity.
Qed.

Lemma X12_crux_metrics_witness :
  exists parsed m,
    Crux.parse_crux_metrics Samples.crux_record = Ok parsed /\
    Dict.keys parsed = ["lcp"; "cls"] /\
    Dict.get parsed "cls" = Some m /\
    Crux.status m = "needs_improvement" /\
    Crux.unit m = "" /\
    NoDup (Dict.keys parsed).
Proof.
  destruct (Crux.parse_crux_metrics Samples.crux_record)
    as [parsed|e] eqn:E; [|vm_compute in E; discriminate E].
  destruct (X12_crux_metrics _ _ E) as (metrics & _ & Hnd & _).
  vm_compute in E. injection E as <-.
  eexists _, _. split; [reflexivity|]. split; [reflexivity|].
  split; [reflexivity|]. split; [reflexivity|]. split; [reflexivity|].
  exact Hnd.
Defined.

(** ** Sorting by a float key *)

Lemma flt_false_fle (x y : float) :
  Trace.is_nan x = false -> Trace.is_nan y = false ->
  flt y x = false -> fle x y = true.
Proof.
  destruct x, y; simpl; try congruence.
  intros _ _ H. apply negb_false_iff in H. exact H.
Qed.

Lemma flt_fle (x y : float) : flt x y = true -> fle x y = true.
Proof.
  destruct x, y; simpl; try congruence.
  intros H. apply negb_true_iff in H. apply Qle_bool_iff.
  apply Qlt_le_weak, Qnot_le_lt. intros Hle.
  apply Qle_bool_iff in Hle. congruence.
Qed.

Section SortAscFacts.

Context {A : Type} (key : A -> float).

Lemma insert_asc_perm (x : A) (l : list A) :
  Permutation (Trace.insert_asc key x l) (x :: l).
Proof.
  induction l as [|y l IH]; simpl; [reflexivity|].
  destruct (flt (key y) (key x)); [|reflexivity].
  rewrite IH. apply perm_swap.
Qed.

Lemma sorted_asc_perm (l : list A) :
  Permutation (Trace.sorted_asc key l) l.
Proof.
  induction l as [|x l IH]; simpl; [reflexivity|].
  rewrite insert_asc_perm. now constructor.
Qed.

Lemma insert_asc_ascending (x : A) (l : list A) :
  Trace.is_nan (key x) = false ->
  Forall (fun y => Trace.is_nan (key y) = false) l ->
  Trace.ascending key l -> Trace.ascending key (Trace.insert_asc key x l).
Proof.
  intros Hx Hl Hs. induction Hs as [|y l Hs IH Hy]; simpl.
  - constructor; constructor.
  - apply List.Forall_cons_iff in Hl as [Hny Hl].
    destruct (flt (key y) (key x)) eqn:E.
    + constructor; [now apply IH|].
      apply List.Forall_forall. intros z Hz.
      apply (Permutation_in _ (insert_asc_perm x l)) in Hz.
      destruct Hz as [<-|Hz]; [now apply flt_fle|].
      rewrite List.Forall_forall in Hy. now apply Hy.
    + assert (Hxy : fle (key x) (key y) = true) by now apply flt_false_fle.
      constructor; [now constructor|].
      constructor; [exact Hxy|].
      eapply List.Forall_impl; [|exact Hy].
      intros z Hz. now apply (fle_trans _ (key y)).
Qed.

Lemma sorted_asc_ascending (l : list A) :
  Forall (fun y => Trace.is_nan (key y) = false) l ->
  Trace.ascending key (Trace.sorted_asc key l).
Proof.
  induction l as [|x l IH]; intros H; simpl; [constructor|].
  apply List.Forall_cons_iff in H as [Hx Hl].
  apply insert_asc_ascending; [exact Hx| |now apply IH].
  apply List.Forall_forall. intros y Hy.
  apply (Permutation_in _ (sorted_asc_perm l)) in Hy.
  rewrite List.Forall_forall in Hl. now apply Hl.
Qed.

End SortAscFacts.

(** ** The records of the trace *)

Section TraceFacts.

Import CaptureNetwork.

(** A property of the records that the handlers and the timing loop
    keep. *)
Lemma dict_set_Forall {V : Type} (P : V -> Prop) (d : list (string * V)) k v :
  Forall P (Dict.values d) -> P v -> Forall P (Dict.values (Dict.set d k v)).
Proof.
  intros Hd Hv. apply List.Forall_forall. intros x Hx.
  apply in_map_iff in Hx as ([k' v'] & <- & Hin).
  apply dict_set_In in Hin as [[_ ->]|Hin]; [exact Hv|].
  rewrite List.Forall_forall in Hd. apply Hd.
  now apply (in_map snd) in Hin.
Qed.

Lemma dict_get_value {V : Type} (P : V -> Prop) (d : list (string * V)) k v :
  Forall P (Dict.values d) -> Dict.get d k = Some v -> P v.
Proof.
  intros Hd Hg. apply dict_get_In in Hg. rewrite List.Forall_forall in Hd.
  apply Hd. now apply (in_map snd) in Hg.
Qed.

Lemma handle_records (P : RequestData -> Prop) :
  (forall u rt, P (new_request u (get_resource_type rt))) ->
  (forall r st fc, P r -> P (set_response r st fc)) ->
  (forall r n, P r -> P (set_size r n)) ->
  forall events request_map,
    Forall P (Dict.values request_map) ->
    Forall P (Dict.values (fold_left handle events request_map)).
Proof.
  intros Hnew Hresp Hsize events.
  induction events as [|e events IH]; intros m Hm; [exact Hm|].
  cbn [fold_left]. apply IH. destruct e as [u rt|u st sw cl]; cbn [handle].
  - unfold on_request. now apply dict_set_Forall.
  - unfold on_response. destruct (Dict.get m u) as [r|] eqn:E; [|exact Hm].
    pose proof (dict_get_value P _ _ _ Hm E) as Hr.
    apply dict_set_Forall; [exact Hm|].
    destruct cl as [cl|]; [|now apply Hresp].
    destruct (negb (String.eqb cl "")); [|now apply Hresp].
    destruct (Str.parse_int cl); [apply Hsize|]; now apply Hresp.
Qed.

Lemma timing_records (P : RequestData -> Prop) (Q : timing_entry -> Prop) :
  (forall r e, P r -> Q e ->
               P (set_timing r (entry_start_time e) (duration e))) ->
  (forall r n, P r -> P (set_size r n)) ->
  forall resource_timing request_map,
    Forall Q resource_timing ->
    Forall P (Dict.values request_map) ->
    Forall P (Dict.values (fold_left apply_timing resource_timing request_map)).
Proof.
  intros Htime Hsize resource_timing.
  induction resource_timing as [|e l IH]; intros m Hq Hm; [exact Hm|].
  apply List.Forall_cons_iff in Hq as [He Hq].
  cbn [fold_left]. apply IH; [exact Hq|]. unfold apply_timing.
  destruct (Dict.get m (name e)) as [r|] eqn:E; [|exact Hm].
  pose proof (dict_get_value P _ _ _ Hm E) as Hr.
  apply dict_set_Forall; [exact Hm|].
  destruct (0 <? transfer_size e)%Z; [apply Hsize; now apply Htime|].
  destruct (0 <? encoded_body_size e)%Z; [apply Hsize|]; now apply Htime.
Qed.

(** The start times of the records can be compared when those of the
    timing entries can. *)
Lemma request_map_times events resource_timing :
  Forall (fun e => Trace.is_nan (entry_start_time e) = false)
    resource_timing ->
  Forall (fun r => Trace.is_nan (start_time r) = false)
    (Dict.values (request_map_of events resource_timing)).
Proof.
  intros Hq. unfold request_map_of.
  apply (timing_records (fun r => Trace.is_nan (start_time r) = false)
           (fun e => Trace.is_nan (entry_start_time e) = false)).
  - now intros r e _ He.
  - now intros.
  - exact Hq.
  - apply handle_records; try (now intros); constructor.
Qed.

(** The category of a record is one of the nine. *)
Lemma get_resource_type_category rt :
  In (get_resource_type rt) Trace.categories.
Proof.
  unfold get_resource_type, type_map. cbn [Dict.get].
  repeat match goal with
         | |- context [String.eqb ?a rt] =>
             destruct (String.eqb a rt); [cbn; tauto|]
         end.
  cbn. tauto.
Qed.

Lemma request_map_categories events resource_timing :
  Forall (fun r => In (resource_type r) Trace.categories)
    (Dict.values (request_map_of events resource_timing)).
Proof.
  unfold request_map_of.
  apply (timing_records (fun r => In (resource_type r) Trace.categories)
           (fun _ => True)).
  - now intros.
  - now intros.
  - apply List.Forall_forall. now intros.
  - apply handle_records; try (now intros).
    intros u rt. apply get_resource_type_category.
Qed.

End TraceFacts.

(** ** The waterfall *)

(** X15: the waterfall of a capture lists at most 100 records of the
    request map, by ascending start time (the times as they came, before
    they are rounded): the records shown and the records left out are
    together those of the map, each once, every record left out starts no
    earlier than every record shown, and nothing is left out when the map
    has at most 100 records. The start times of the timing entries must
    be numbers that can be compared. *)
Theorem X15_waterfall (events : list CaptureNetwork.event)
    (resource_timing : list CaptureNetwork.timing_entry) :
  Forall (fun e => Trace.is_nan (CaptureNetwork.entry_start_time e) = false)
    resource_timing ->
  let requests_list :=
    Dict.values (CaptureNetwork.request_map_of events resource_timing) in
  exists shown rest,
    Trace.waterfall events resource_timing
      = map Trace.waterfall_entry shown /\
    Permutation (shown ++ rest) requests_list /\
    List.length shown = Nat.min 100 (List.length requests_list) /\
    Trace.ascending CaptureNetwork.start_time (shown ++ rest) /\
    ((List.length requests_list <= 100)%nat -> rest = []).
Proof.
  intros Hq requests_list.
  set (sorted := Trace.sorted_asc CaptureNetwork.start_time requests_list).
  exists (firstn 100 sorted), (skipn 100 sorted).
  assert (Hperm : Permutation sorted requests_list)
    by apply sorted_asc_perm.
  assert (Hlen : List.length sorted = List.length requests_list)
    by now apply Permutation_length.
  split; [reflexivity|]. rewrite firstn_skipn.
  split; [exact Hperm|]. split; [|split].
  - rewrite length_firstn, Hlen. reflexivity.
  - apply sorted_asc_ascending. now apply request_map_times.
  - intros Hle. apply skipn_all2. lia.
Qed.

(** ** The blocking resources *)

Lemma timing_fold_get_other resource_timing : forall request_map u,
  ~ In u (map CaptureNetwork.name resource_timing) ->
  Dict.get (fold_left CaptureNetwork.apply_timing resource_timing request_map) u
  = Dict.get request_map u.
Proof.
  induction resource_timing as [|e l IH]; intros m u Hu; [reflexivity|].
  cbn [fold_left]. rewrite IH by (intros H; apply Hu; now right).
  unfold CaptureNetwork.apply_timing.
  destruct (Dict.get m (CaptureNetwork.name e)) as [r|]; [|reflexivity].
  apply dict_get_set_other. intros Heq. apply Hu. now left.
Qed.

Lemma keyed_In_get request_map u r :
  CaptureNetwork.keyed request_map ->
  In (u, r) request_map -> Dict.get request_map u = Some r.
Proof.
  intros [Hnd _] Hin. apply dict_NoDup_In; [|exact Hin].
  now apply NoDup_ListNoDup.
Qed.

(** A record the timing entries do not name has the start time 0. *)
Lemma untimed_start events resource_timing r :
  In r (Dict.values (CaptureNetwork.request_map_of events resource_timing)) ->
  ~ In (CaptureNetwork.url r) (map CaptureNetwork.name resource_timing) ->
  CaptureNetwork.start_time r = Fin 0.
Proof.
  intros Hin Hname.
  pose proof (request_map_keyed events resource_timing) as Hk.
  apply in_map_iff in Hin as ([u r'] & Hr & Hin). cbn in Hr. subst r'.
  assert (Hu : CaptureNetwork.url r = u).
  { destruct Hk as [_ Hk]. rewrite List.Forall_forall in Hk.
    exact (Hk _ Hin). }
  apply (keyed_In_get _ _ _ Hk) in Hin.
  unfold CaptureNetwork.request_map_of in Hin.
  rewrite timing_fold_get_other in Hin by now rewrite <- Hu.
  revert Hin.
  apply (dict_get_value (fun r => CaptureNetwork.start_time r = Fin 0)).
  apply handle_records; try (now intros); constructor.
Qed.

(** X16: the blocking resources of a capture are the stylesheets and the
    scripts of the request map that started before 500 ms, in the order
    of the map and each once; a stylesheet blocks the rendering and a
    script the parser. A stylesheet or a script that no timing entry
    names keeps the start time 0 and is always listed. *)
Theorem X16_blocking_resources (events : list CaptureNetwork.event)
    (resource_timing : list CaptureNetwork.timing_entry) :
  let requests_list :=
    Dict.values (CaptureNetwork.request_map_of events resource_timing) in
  let blocking :=
    CaptureNetwork.blocking_resources
      (CaptureNetwork.capture_network events resource_timing) in
  sublist (map CaptureNetwork.b_url blocking)
    (map CaptureNetwork.url requests_list) /\
  NoDup (map CaptureNetwork.b_url blocking) /\
  (forall b,
      In b blocking ->
      exists r,
        In r requests_list /\
        CaptureNetwork.b_url b = CaptureNetwork.url r /\
        CaptureNetwork.b_type b = CaptureNetwork.resource_type r /\
        CaptureNetwork.b_size_bytes b = CaptureNetwork.size_bytes r /\
        flt (CaptureNetwork.start_time r) (Fin 500) = true /\
        ((CaptureNetwork.b_type b = "stylesheet" /\
          CaptureNetwork.b_blocks b = "render") \/
         (CaptureNetwork.b_type b = "script" /\
          CaptureNetwork.b_blocks b = "parser"))) /\
  (forall r,
      In r requests_list ->
      Trace.is_blocking r = true ->
      In (CaptureNetwork.url r) (map CaptureNetwork.b_url blocking)) /\
  (forall r,
      In r requests_list ->
      CaptureNetwork.resource_type r = "stylesheet" \/
      CaptureNetwork.resource_type r = "script" ->
      ~ In (CaptureNetwork.url r) (map CaptureNetwork.name resource_timing) ->
      In (CaptureNetwork.url r) (map CaptureNetwork.b_url blocking)).
Proof.
  intros requests_list blocking.
  assert (Hb : map CaptureNetwork.b_url blocking =
               map CaptureNetwork.url
                 (List.filter Trace.is_blocking requests_list)).
  { subst blocking. unfold CaptureNetwork.capture_network.
    fold requests_list. destruct (CaptureNetwork.summary_loop requests_list).
    cbn [CaptureNetwork.blocking_resources]. unfold CaptureNetwork.blocking_of.
    rewrite List.map_map. reflexivity. }
  assert (Hsub : sublist (map CaptureNetwork.b_url blocking)
                   (map CaptureNetwork.url requests_list)).
  { rewrite Hb. clear.
    induction requests_list as [|r l IH]; simpl; [constructor|].
    destruct (Trace.is_blocking r); simpl; now constructor. }
  assert (Hnd : NoDup (map CaptureNetwork.url requests_list)).
  { pose proof (request_map_keyed events resource_timing) as Hk.
    subst requests_list. rewrite (keyed_urls _ Hk). apply Hk. }
  assert (Hlisted : forall r, In r requests_list ->
                      Trace.is_blocking r = true ->
                      In (CaptureNetwork.url r)
                        (map CaptureNetwork.b_url blocking)).
  { intros r Hr Hbl. rewrite Hb. apply in_map. apply filter_In. now split. }
  split; [exact Hsub|]. split; [eapply sublist_NoDup; eassumption|].
  split; [|split; [exact Hlisted|]].
  - intros b Hin. subst blocking. unfold CaptureNetwork.capture_network in Hin.
    fold requests_list in Hin.
    destruct (CaptureNetwork.summary_loop requests_list).
    cbn [CaptureNetwork.blocking_resources] in Hin.
    unfold CaptureNetwork.blocking_of in Hin.
    apply in_map_iff in Hin as (r & <- & Hr).
    apply filter_In in Hr as [Hr Hbl]. exists r.
    cbn [CaptureNetwork.b_url CaptureNetwork.b_type
         CaptureNetwork.b_size_bytes CaptureNetwork.b_blocks].
    apply andb_true_iff in Hbl as [Hty Hst].
    repeat (split; [first [assumption|reflexivity]|]).
    destruct (String.eqb (CaptureNetwork.resource_type r) "stylesheet") eqn:E.
    + left. apply String.eqb_eq in E. now split.
    + right. cbn [orb] in Hty. apply String.eqb_eq in Hty. now split.
  - intros r Hr Hty Hname. apply Hlisted; [exact Hr|].
    unfold Trace.is_blocking.
    rewrite (untimed_start events resource_timing r Hr Hname).
    destruct Hty as [-> | ->]; reflexivity.
Qed.

(** ** The buckets of the summary *)

Section Buckets.

Import CaptureNetwork.

Lemma of_type_snoc t l r :
  Trace.of_type t (l ++ [r]) =
  Trace.of_type t l ++ (if String.eqb (resource_type r) t then [r] else []).
Proof. unfold Trace.of_type. now rewrite List.filter_app. Qed.

Lemma sum_sizes_app l l' :
  sum_sizes (l ++ l') = (sum_sizes l + sum_sizes l')%Z.
Proof.
  unfold sum_sizes. induction l as [|r l IH]; simpl; [reflexivity|].
  fold (sum_sizes (l ++ l')) in *. fold (sum_sizes l) in *. lia.
Qed.

Lemma dict_set_twice {V : Type} (d : list (string * V)) k v v' :
  Dict.set (Dict.set d k v) k v' = Dict.set d k v'.
Proof.
  induction d as [|[k0 v0] d IH]; simpl.
  - now rewrite String.eqb_refl.
  - destruct (String.eqb k0 k) eqn:E; simpl; rewrite E; [reflexivity|].
    now rewrite IH.
Qed.

(** One pass of the summary loop keeps the buckets those of the records
    seen. *)
Lemma summary_step_buckets bt total seen r :
  Trace.buckets_of bt seen ->
  Trace.buckets_of (fst (summary_step (bt, total) r)) (seen ++ [r]).
Proof.
  intros [Hnd Hb].
  pose proof (Hb (resource_type r)) as Hr.
  assert (Hstep : exists b,
             fst (summary_step (bt, total) r)
             = Dict.set bt (resource_type r) b /\
             count b = Z.of_nat (List.length
                         (Trace.of_type (resource_type r) (seen ++ [r]))) /\
             bytes b = sum_sizes
                         (Trace.of_type (resource_type r) (seen ++ [r]))).
  { rewrite of_type_snoc, String.eqb_refl, length_app, sum_sizes_app.
    cbn [List.length sum_sizes fold_right].
    unfold summary_step, Dict.mem.
    destruct (Dict.get bt (resource_type r)) as [b|] eqn:E.
    - rewrite E. cbn [fst]. eexists. split; [reflexivity|].
      destruct Hr as (Hc & Hs & _). cbn [count bytes]. lia.
    - rewrite dict_get_set_same. cbn [fst].
      exists {| count := 0 + 1; bytes := 0 + size_bytes r |}. split.
      + cbn [count bytes]. apply dict_set_twice.
      + rewrite Hr. cbn. lia. }
  destruct Hstep as (b & -> & Hc & Hs).
  split; [now apply dict_set_NoDup|].
  intros t. destruct (String.eqb (resource_type r) t) eqn:Et.
  - apply String.eqb_eq in Et. subst t. rewrite dict_get_set_same.
    split; [exact Hc|]. split; [exact Hs|].
    rewrite of_type_snoc, String.eqb_refl. intros H.
    now apply app_eq_nil in H as [_ H].
  - rewrite of_type_snoc, Et, app_nil_r.
    apply String.eqb_neq in Et. rewrite dict_get_set_other by exact Et.
    apply Hb.
Qed.

Lemma summary_fold_buckets requests_list : forall acc seen,
  Trace.buckets_of (fst acc) seen ->
  Trace.buckets_of (fst (fold_left summary_step requests_list acc))
    (seen ++ requests_list).
Proof.
  induction requests_list as [|r l IH]; intros acc seen H.
  - now rewrite app_nil_r.
  - cbn [fold_left]. replace (seen ++ r :: l) with ((seen ++ [r]) ++ l)
      by now rewrite <- app_assoc.
    apply IH. destruct acc as [bt total]. now apply summary_step_buckets.
Qed.

(** The buckets of a capture are those of its records, and its total is
    the sum of their sizes. *)
Lemma capture_buckets events resource_timing :
  let requests_list := Dict.values (request_map_of events resource_timing) in
  let s := summary (capture_network events resource_timing) in
  Trace.buckets_of (by_type s) requests_list /\
  total_requests s = List.length requests_list /\
  total_transfer_bytes s = sum_sizes requests_list.
Proof.
  intros requests_list s. subst s. unfold capture_network.
  fold requests_list. unfold summary_loop.
  pose proof (summary_fold_buckets requests_list ([], 0%Z) []) as H.
  destruct (summary_fold_sums requests_list ([], 0%Z)) as (_ & _ & Ht).
  destruct (fold_left summary_step requests_list ([], 0%Z)) as [bt total].
  cbn [summary by_type total_requests total_transfer_bytes fst snd app] in *.
  split; [|split; [reflexivity|lia]].
  apply H. split; [constructor|]. intros t. reflexivity.
Qed.

End Buckets.

(** X17: the buckets of [by_type] of a capture are one per category that
    has a record, among the nine categories: the count of a bucket is the
    number of records of its category and its bytes are the sum of their
    sizes; a category with no record has no bucket. *)
Theorem X17_buckets (events : list CaptureNetwork.event)
    (resource_timing : list CaptureNetwork.timing_entry) :
  let requests_list :=
    Dict.values (CaptureNetwork.request_map_of events resource_timing) in
  let by_type :=
    CaptureNetwork.by_type
      (CaptureNetwork.summary
         (CaptureNetwork.capture_network events resource_timing)) in
  NoDup (Dict.keys by_type) /\
  (forall t, In t (Dict.keys by_type) -> In t Trace.categories) /\
  forall t,
    match Dict.get by_type t with
    | Some b =>
        CaptureNetwork.count b
        = Z.of_nat (List.length (Trace.of_type t requests_list)) /\
        CaptureNetwork.bytes b
        = CaptureNetwork.sum_sizes (Trace.of_type t requests_list) /\
        (1 <= CaptureNetwork.count b)%Z
    | None => Trace.of_type t requests_list = []
    end.
Proof.
  intros requests_list by_type.
  destruct (capture_buckets events resource_timing) as ([Hnd Hb] & _).
  fold requests_list in Hb. fold by_type in Hnd, Hb.
  split; [exact Hnd|]. split.
  - intros t Ht. pose proof (Hb t) as Hbt.
    destruct (Dict.get by_type t) as [b|] eqn:E.
    + destruct Hbt as (_ & _ & Hne).
      destruct (Trace.of_type t requests_list) as [|r l] eqn:El;
        [contradiction|].
      assert (Hr : In r (Trace.of_type t requests_list))
        by (rewrite El; now left).
      apply filter_In in Hr as [Hr Hty]. apply String.eqb_eq in Hty.
      subst t.
      pose proof (request_map_categories events resource_timing) as Hc.
      rewrite List.Forall_forall in Hc. now apply Hc.
    + apply dict_get_None_keys in E. contradiction.
  - intros t. pose proof (Hb t) as Hbt.
    destruct (Dict.get by_type t) as [b|]; [|exact Hbt].
    destruct Hbt as (Hc & Hs & Hne). split; [exact Hc|]. split; [exact Hs|].
    rewrite Hc. destruct (Trace.of_type t requests_list);
      [contradiction|cbn; lia].
Qed.

Lemma X15_waterfall_witness :
  exists shown,
    Trace.waterfall Samples.events Samples.resource_timing
      = map Trace.waterfall_entry shown /\
    map CaptureNetwork.url shown
      = ["https://a.test/app.js"; "https://a.test/";
         "https://a.test/site.css"] /\
    Trace.ascending CaptureNetwork.start_time shown.
Proof.
  destruct (X15_waterfall Samples.events Samples.resource_timing)
    as (shown & rest & Hw & Hperm & Hlen & Hasc & Hrest).
  { repeat constructor. }
  rewrite (Hrest ltac:(vm_compute; lia)), app_nil_r in Hasc.
  exists shown. split; [exact Hw|]. split; [|exact Hasc].
  assert (Hurl : map Trace.w_url
                   (Trace.waterfall Samples.events Samples.resource_timing)
                 = map CaptureNetwork.url shown).
  { rewrite Hw, List.map_map. reflexivity. }
  rewrite <- Hurl. reflexivity.
Defined.

(** ** A capture in the Network Analysis sheet *)

Section CaptureInSheet.

Import CaptureNetwork GenerateExcel.

Variable repr : value -> string.
Variable number : float -> value.

Lemma dict_get_map_snd {V W : Type} (f : V -> W) (d : list (string * V)) k :
  Dict.get (map (fun kv => (fst kv, f (snd kv))) d) k
  = option_map f (Dict.get d k).
Proof.
  induction d as [|[k0 v0] d IH]; simpl; [reflexivity|].
  now destruct (String.eqb k0 k).
Qed.

(** The cells of a category of the sheet, from the buckets. *)
Lemma bucket_cells bt requests_list t :
  Trace.buckets_of bt requests_list ->
  exists b,
    Val.get (Trace.by_type_dict bt) t (VDict []) = Ok b /\
    Val.get b "count" (VInt 0)
    = Ok (VInt (Z.of_nat (List.length (Trace.of_type t requests_list)))) /\
    kb_of b
    = Ok (VFloat
            (round_q
               (inject_Z (sum_sizes (Trace.of_type t requests_list)) / 1024)
               0)).
Proof.
  intros [_ Hb]. specialize (Hb t). unfold Trace.by_type_dict.
  rewrite get_dict, dict_get_map_snd.
  destruct (Dict.get bt t) as [b|]; cbn [option_map].
  - destruct Hb as (Hc & Hs & _). eexists. split; [reflexivity|].
    unfold Trace.bucket_dict, kb_of. rewrite !get_dict.
    cbn [Dict.get String.eqb Ascii.eqb Bool.eqb Py.bind Val.number as_number].
    now rewrite Hc, Hs.
  - rewrite Hb. eexists. split; [reflexivity|]. split; reflexivity.
Qed.

(** The text of the largest-resource column, from the list of the
    capture. *)
Lemma largest_name_of_capture (ls : list LargestResource) :
  largest_name_of (VList (map (Trace.largest_dict number) ls))
  = Ok match ls with
       | [] => ""
       | l :: _ =>
           (Str.take 30 (last_segment (l_url l)) ++ " ("
            ++ format_0f (inject_Z (l_size_bytes l) / 1024) ++ "KB)")%string
       end.
Proof. destruct ls as [|l ls]; reflexivity. Qed.

End CaptureInSheet.

(** X18: the row the report builder writes for the document of a
    successful capture shows the capture: the number of records of the
    request map, the sum of their sizes in megabytes rounded to two
    decimals, and for scripts, images, stylesheets and fonts the number
    of records of the category and their kilobytes rounded to a whole
    number, 0 for a category with no record; the last cell names the
    first of the largest resources by the end of its URL and its
    kilobytes, and is empty when no record has a size. *)
Theorem X18_capture_row (repr : value -> string) (number : float -> value)
    (url : string) (timing : list (string * value))
    (events : list CaptureNetwork.event)
    (resource_timing : list CaptureNetwork.timing_entry)
    (ws : GenerateExcel.worksheet) (row_idx : nat) :
  let requests_list :=
    Dict.values (CaptureNetwork.request_map_of events resource_timing) in
  let largest :=
    CaptureNetwork.largest_resources
      (CaptureNetwork.capture_network events resource_timing) in
  exists ws',
    GenerateExcel.network_row repr ws row_idx
      (Trace.document number url timing events resource_timing) = Ok ws' /\
    ws' !! (row_idx, 1%nat)
      = Some (VStr (GenerateExcel.sanitize_for_excel repr (VStr url))) /\
    ws' !! (row_idx, 2%nat)
      = Some (VInt (Z.of_nat (List.length requests_list))) /\
    ws' !! (row_idx, 3%nat)
      = Some (VFloat
                (round_q
                   (inject_Z (CaptureNetwork.sum_sizes requests_list)
                    / 1024 / 1024) 2)) /\
    Forall (fun '(column, t) =>
              ws' !! (row_idx, column)
              = Some (VInt (Z.of_nat
                              (List.length (Trace.of_type t requests_list))))
              /\
              ws' !! (row_idx, S column)
              = Some (VFloat
                        (round_q
                           (inject_Z
                              (CaptureNetwork.sum_sizes
                                 (Trace.of_type t requests_list)) / 1024)
                           0))) Trace.count_columns /\
    ws' !! (row_idx, 12%nat)
      = Some (VStr (GenerateExcel.sanitize_for_excel repr
                      (VStr match largest with
                            | [] => ""
                            | l :: _ =>
                                (Str.take 30
                                   (GenerateExcel.last_segment
                                      (CaptureNetwork.l_url l))
                                 ++ " ("
                                 ++ GenerateExcel.format_0f
                                      (inject_Z
                                         (CaptureNetwork.l_size_bytes l)
                                       / 1024)
                                 ++ "KB)")%string
                            end))).
Proof.
  intros requests_list largest.
  destruct (capture_buckets events resource_timing) as (Hb & Hn & Ht).
  fold requests_list in Hb, Hn, Ht.
  destruct (bucket_cells _ _ "script" Hb) as (scripts & Es & Esc & Esk).
  destruct (bucket_cells _ _ "image" Hb) as (images & Ei & Eic & Eik).
  destruct (bucket_cells _ _ "stylesheet" Hb) as (css & Ec & Ecc & Eck).
  destruct (bucket_cells _ _ "font" Hb) as (fonts & Ef & Efc & Efk).
  set (cells :=
         [ VStr (GenerateExcel.sanitize_for_excel repr (VStr url));
           VInt (Z.of_nat (List.length requests_list));
           VFloat (round_q (inject_Z (CaptureNetwork.sum_sizes requests_list)
                            / 1024 / 1024) 2);
           VInt (Z.of_nat (List.length (Trace.of_type "script" requests_list)));
           VFloat (round_q (inject_Z (CaptureNetwork.sum_sizes
                      (Trace.of_type "script" requests_list)) / 1024) 0);
           VInt (Z.of_nat (List.length (Trace.of_type "image" requests_list)));
           VFloat (round_q (inject_Z (CaptureNetwork.sum_sizes
                      (Trace.of_type "image" requests_list)) / 1024) 0);
           VInt (Z.of_nat
                   (List.length (Trace.of_type "stylesheet" requests_list)));
           VFloat (round_q (inject_Z (CaptureNetwork.sum_sizes
                      (Trace.of_type "stylesheet" requests_list)) / 1024) 0);
           VInt (Z.of_nat (List.length (Trace.of_type "font" requests_list)));
           VFloat (round_q (inject_Z (CaptureNetwork.sum_sizes
                      (Trace.of_type "font" requests_list)) / 1024) 0);
           VStr (GenerateExcel.sanitize_for_excel repr
                   (VStr match largest with
                         | [] => ""
                         | l :: _ =>
                             (Str.take 30
                                (GenerateExcel.last_segment
                                   (CaptureNetwork.l_url l))
                              ++ " ("
                              ++ GenerateExcel.format_0f
                                   (inject_Z (CaptureNetwork.l_size_bytes l)
                                    / 1024)
                              ++ "KB)")%string
                         end)) ]).
  assert (Hrow : GenerateExcel.network_row repr ws row_idx
                   (Trace.document number url timing events resource_timing)
                 = Ok (GenerateExcel.write_cells ws row_idx 1 cells)).
  { subst cells. rewrite <- Hn, <- Ht.
    apply (network_row_intro repr ws row_idx
             (Trace.document number url timing events resource_timing)
             (VStr url)
             (Trace.summary_dict number
                (CaptureNetwork.summary
                   (CaptureNetwork.capture_network events resource_timing)))
             _ _ _ _ scripts images css fonts _ _ _ _ _ _ _ _ _ _
             eq_refl eq_refl eq_refl eq_refl eq_refl eq_refl Es Ei Ec Ef
             (largest_name_of_capture number _) eq_refl
             Esc Esk Eic Eik Ecc Eck Efc Efk).
    cbn [forallb]. rewrite !accepted_sanitized. reflexivity. }
  exists (GenerateExcel.write_cells ws row_idx 1 cells).
  split; [exact Hrow|].
  split; [apply (write_cells_lookup _ row_idx 1 _ 0); reflexivity|].
  split; [apply (write_cells_lookup _ row_idx 1 _ 1); reflexivity|].
  split; [apply (write_cells_lookup _ row_idx 1 _ 2); reflexivity|].
  split.
  - unfold Trace.count_columns.
    repeat (constructor; [split|]); try constructor.
    + apply (write_cells_lookup _ row_idx 1 _ 3); reflexivity.
    + apply (write_cells_lookup _ row_idx 1 _ 4); reflexivity.
    + apply (write_cells_lookup _ row_idx 1 _ 5); reflexivity.
    + apply (write_cells_lookup _ row_idx 1 _ 6); reflexivity.
    + apply (write_cells_lookup _ row_idx 1 _ 7); reflexivity.
    + apply (write_cells_lookup _ row_idx 1 _ 8); reflexivity.
    + apply (write_cells_lookup _ row_idx 1 _ 9); reflexivity.
    + apply (write_cells_lookup _ row_idx 1 _ 10); reflexivity.
  - apply (write_cells_lookup _ row_idx 1 _ 11); reflexivity.
Qed.

(** ** Text for a cell *)

(** The two readings of a text with no forbidden character. *)
Lemma legal_text_legal (s : string) :
  Report.legal_text s = GenerateExcel.legal s.
Proof.
  unfold Report.legal_text. induction s as [|c s IH]; [reflexivity|].
  cbn [Text.all_chars GenerateExcel.legal]. now rewrite IH.
Qed.

(** X19: the text [sanitize_for_excel] returns holds none of the control
    characters the workbook format forbids and is never longer than the
    limit of a cell; [None] gives the empty text, a text that is already
    legal and within the limit is returned as it is, and sanitizing twice
    gives what sanitizing once gives. *)
Theorem X19_sanitize (repr : value -> string) (v : value) :
  let s := GenerateExcel.sanitize_for_excel repr v in
  Report.legal_text s = true /\
  (Z.of_nat (String.length s) <= GenerateExcel.max_length)%Z /\
  GenerateExcel.sanitize_for_excel repr (VStr s) = s /\
  GenerateExcel.sanitize_for_excel repr VNone = "" /\
  (forall t,
      Report.legal_text t = true ->
      (Z.of_nat (String.length t) <= GenerateExcel.max_length)%Z ->
      GenerateExcel.sanitize_for_excel repr (VStr t) = t).
Proof.
  intros s. destruct (sanitize_result repr v) as [Hl Hn]. fold s in Hl, Hn.
  split; [now rewrite legal_text_legal|]. split; [exact Hn|].
  split; [now apply sanitize_short|]. split; [reflexivity|].
  intros t Ht. rewrite legal_text_legal in Ht. now apply sanitize_short.
Qed.

(** ** The entry point of the report builder *)


(** ** An answer that is not a success *)

(** X21: when the provider answers a strategy with a status other than
    200, [fetch_psi] returns (it does not raise) a failed result whose
    error holds the status and the first 200 characters of the body, and
    [main] stops there: it exits with 1, and the document it writes has
    [success] false, that error, and the results of the strategies
    answered before it, none after. *)
Theorem X21_http_error (message : exn -> string) (url strategy : string)
    (responses : string -> Psi.Response)
    (done : list string) (failed : string) (rest : list string) :
  Psi.strategies_of strategy = done ++ failed :: rest ->
  (forall s, In s done ->
     Psi.status (responses s) = 200%Z /\
     Psi.wf_response (Psi.json (responses s)) = true) ->
  Psi.status (responses failed) <> 200%Z ->
  let fetch :=
    fun s => Psi.attempt_of message (Psi.fetch_psi s (responses s)) in
  let error :=
    VStr ("API request failed: "
          ++ Text.of_int (Psi.status (responses failed)) ++ " - "
          ++ Str.take 200 (Psi.text (responses failed))) in
  Psi.fetch_psi failed (responses failed)
    = Ok [ ("success", VBool false); ("strategy", VStr failed);
           ("error", error) ] /\
  exists results,
    Forall2 (fun s r => Psi.fetch_psi s (responses s) = Ok r) done results /\
    Psi.main url strategy fetch
    = (VDict [ ("success", VBool false);
               ("url", VStr url);
               ("strategies", VDict (combine done (map VDict results)));
               ("error", error) ],
       1%Z).
Proof.
  intros Htodo Hdone Hfailed fetch error.
  assert (Hf : Psi.fetch_psi failed (responses failed)
               = Ok [ ("success", VBool false); ("strategy", VStr failed);
                      ("error", error) ]).
  { unfold Psi.fetch_psi.
    destruct (Psi.status (responses failed) =? 200)%Z eqn:E;
      [apply Z.eqb_eq in E; contradiction|reflexivity]. }
  split; [exact Hf|].
  assert (Hshape : (done = [] /\ exists rest', Psi.strategies_of strategy
                                               = failed :: rest') \/
                   (done = ["mobile"] /\ failed = "desktop" /\
                    Psi.strategies_of strategy = ["mobile"; "desktop"])).
  { unfold Psi.strategies_of in *.
    destruct (String.eqb strategy "both").
    - destruct done as [|d1 done]; [left; split; [reflexivity|]|].
      + cbn in Htodo. injection Htodo as <- <-. eauto.
      + cbn in Htodo. injection Htodo as <- Htodo.
        destruct done as [|d2 done].
        * cbn in Htodo. injection Htodo as <- <-. right. tauto.
        * cbn in Htodo. injection Htodo as _ Htodo.
          destruct done; discriminate Htodo.
    - destruct done as [|d1 done]; [left; split; [reflexivity|]|].
      + cbn in Htodo. injection Htodo as <- <-. eauto.
      + cbn in Htodo. injection Htodo as _ Htodo.
        destruct done; discriminate Htodo. }
  destruct Hshape as [(-> & rest' & Hs)|(-> & -> & Hs)].
  - exists []. split; [constructor|].
    unfold Psi.main. rewrite Hs. cbn [Psi.fetch_all]. subst fetch.
    cbn beta. rewrite Hf. reflexivity.
  - destruct (Hdone "mobile" ltac:(now left)) as [Hst Hwf].
    destruct (fetch_psi_total "mobile" (responses "mobile") Hst Hwf)
      as (r & Hr & _ & Hsu).
    exists [r]. split; [repeat constructor; exact Hr|].
    unfold Psi.main. rewrite Hs. cbn [Psi.fetch_all]. subst fetch.
    cbn beta. rewrite Hr. cbn [Psi.attempt_of].
    assert (Hok : negb (truthy (Psi.lookup r "success")) = false).
    { unfold Psi.lookup. now rewrite Hsu. }
    rewrite Hok. cbn [Psi.success Psi.strategies Psi.error].
    rewrite Hf. reflexivity.
Qed.

Lemma X21_http_error_witness :
  snd (Psi.main "https://a.test/" "both"
         (fun s => Psi.attempt_of Samples.message
                     (Psi.fetch_psi s
                        (if String.eqb s "mobile" then Samples.response
                         else {| Psi.status := 429;
                                 Psi.text := "Quota exceeded";
                                 Psi.json := VNone |})))) = 1%Z.
Proof.
  destruct (X21_http_error Samples.message "https://a.test/" "both"
              (fun s => if String.eqb s "mobile" then Samples.response
                        else {| Psi.status := 429;
                                Psi.text := "Quota exceeded";
                                Psi.json := VNone |})
              ["mobile"] "desktop" [] eq_refl)
    as (_ & results & _ & Hmain).
  - intros s [<-|[]]. split; reflexivity.
  - discriminate.
  - rewrite Hmain. reflexivity.
Defined.

(** ** The messages of the agent *)

Section ClientFacts.

Import Analyzer.

Lemma step_late st msg :
  result_captured st = true -> late_error msg = true -> step st msg = st.
Proof.
  intros Hc Hl. destruct msg as [m|]; [|reflexivity].
  cbn in Hl. apply andb_true_iff in Hl as [He Hf].
  unfold step. now rewrite Hc, He, Hf.
Qed.

Lemma fold_late late : forall st,
  result_captured st = true ->
  forallb late_error late = true ->
  fold_left step late st = st.
Proof.
  induction late as [|msg late IH]; intros st Hc Hl; [reflexivity|].
  cbn in Hl. apply andb_true_iff in Hl as [Hm Hl].
  cbn [fold_left]. rewrite step_late by assumption. now apply IH.
Qed.

Lemma step_settled st msg :
  Analyzer.settled st -> Analyzer.settled (step st msg).
Proof.
  intros [Hc Hs]. destruct msg as [m|]; [|now split].
  unfold step. rewrite Hc. cbn [andb].
  destruct (is_error m) eqn:He; cbn [andb negb].
  - destruct (cost_free (total_cost_usd m)) eqn:Hf; [now split|].
    split; [reflexivity|]. cbn. now intros _.
  - split; [|cbn; discriminate].
    cbn. now destruct (_ || _).
Qed.

Lemma fold_settled l : forall st,
  Analyzer.settled st -> Analyzer.settled (fold_left step l st).
Proof.
  induction l as [|msg l IH]; intros st H; [exact H|].
  cbn [fold_left]. apply IH. now apply step_settled.
Qed.

(** What the loop holds is the initial state or comes from a message. *)
Lemma fold_from l : forall st,
  current (fold_left step l st) = current st \/
  exists m,
    In (Result m) l /\
    current (fold_left step l st)
    = {| r_result := text_of (result m);
         r_session_id := session_id m;
         r_total_cost_usd := total_cost_usd m;
         r_duration_ms := duration_ms m;
         r_num_turns := num_turns m;
         r_is_error := is_error m |}.
Proof.
  induction l as [|msg l IH]; intros st; [now left|].
  cbn [fold_left]. destruct (IH (step st msg)) as [H|(m & Hin & H)].
  - rewrite H. destruct msg as [m|]; [|now left].
    unfold step.
    destruct (result_captured st && is_error m
              && cost_free (total_cost_usd m)); [now left|].
    right. exists m. split; [now left|reflexivity].
  - right. exists m. split; [now right|exact H].
Qed.

End ClientFacts.

(** X22: in the loop over the messages of the agent, once a result that
    is no error and has a cost or a text is captured, the error messages
    with no cost that follow change nothing. After a result that is no
    error and has a text, the result returned is no error, unless it is
    an error that carries a cost. What is returned is the initial empty
    result or the fields of one of the result messages; and when the
    stream ends with an exception, the result is an error made of the
    text of the exception, whatever was captured before. *)
Theorem X22_captured_result (messages late : list Analyzer.message) :
  (Analyzer.result_captured
     (fold_left Analyzer.step messages Analyzer.initial) = true ->
   forallb Analyzer.late_error late = true ->
   Analyzer.run_claude_code (messages ++ late) None
   = Analyzer.run_claude_code messages None) /\
  (forall before m after,
      messages = before ++ Analyzer.Result m :: after ->
      Analyzer.is_error m = false ->
      Analyzer.text_of (Analyzer.result m) <> "" ->
      let r := Analyzer.run_claude_code messages None in
      Analyzer.r_is_error r = true ->
      Analyzer.cost_free (Analyzer.r_total_cost_usd r) = false) /\
  (let r := Analyzer.run_claude_code messages None in
   r = Analyzer.current Analyzer.initial \/
   exists m,
     In (Analyzer.Result m) messages /\
     r = {| Analyzer.r_result := Analyzer.text_of (Analyzer.result m);
            Analyzer.r_session_id := Analyzer.session_id m;
            Analyzer.r_total_cost_usd := Analyzer.total_cost_usd m;
            Analyzer.r_duration_ms := Analyzer.duration_ms m;
            Analyzer.r_num_turns := Analyzer.num_turns m;
            Analyzer.r_is_error := Analyzer.is_error m |}) /\
  (forall e,
      Analyzer.run_claude_code messages (Some e)
      = {| Analyzer.r_result := "Error: " ++ e;
           Analyzer.r_session_id := None;
           Analyzer.r_total_cost_usd := None;
           Analyzer.r_duration_ms := None;
           Analyzer.r_num_turns := None;
           Analyzer.r_is_error := true |}).
Proof.
  split; [|split; [|split]].
  - intros Hc Hl. unfold Analyzer.run_claude_code.
    rewrite fold_left_app. now rewrite fold_late.
  - intros before m after -> He Ht r. subst r.
    unfold Analyzer.run_claude_code. rewrite fold_left_app.
    cbn [fold_left].
    apply fold_settled.
    set (st := fold_left Analyzer.step before Analyzer.initial).
    unfold Analyzer.step. rewrite He, andb_false_r. cbn [andb negb].
    split; [|cbn; discriminate].
    cbn. apply String.eqb_neq in Ht. rewrite Ht. cbn.
    now rewrite orb_true_r.
  - exact (fold_from messages Analyzer.initial).
  - reflexivity.
Qed.

Lemma X22_captured_result_witness :
  let report :=
    {| Analyzer.result := Some "# Report"; Analyzer.session_id := Some "s1";
       Analyzer.total_cost_usd := Some (3 # 10);
       Analyzer.duration_ms := Some 90000%Z; Analyzer.num_turns := Some 40%Z;
       Analyzer.is_error := false |} in
  let failure :=
    {| Analyzer.result := Some "stream closed"; Analyzer.session_id := None;
       Analyzer.total_cost_usd := None; Analyzer.duration_ms := None;
       Analyzer.num_turns := None; Analyzer.is_error := true |} in
  Analyzer.r_result
    (Analyzer.run_claude_code
       ([Analyzer.Other; Analyzer.Result report]
        ++ [Analyzer.Result failure; Analyzer.Other]) None) = "# Report".
Proof.
  intros report failure.
  rewrite (proj1 (X22_captured_result
                    [Analyzer.Other; Analyzer.Result report]
                    [Analyzer.Result failure; Analyzer.Other])
             eq_refl eq_refl).
  reflexivity.
Defined.

(** ** The path of the workbook in the report *)

Section ExtractFacts.

Import Analyzer.

Lemma append_cons (c : ascii) (a b : string) :
  (String c a ++ b)%string = String c (a ++ b)%string.
Proof. reflexivity. Qed.

Lemma prefix_cons (a b : ascii) (s t : string) :
  String.prefix (String a s) (String b t) = true <->
  a = b /\ String.prefix s t = true.
Proof.
  simpl. destruct (Ascii.ascii_dec a b) as [->|Hne].
  - tauto.
  - split; [discriminate|]. intros [H _]. contradiction.
Qed.

(** A run that matches at the start of a text that begins with [c]
    begins with [c], which is of the class; what follows [c] in the run
    is empty, or a run that matches what follows [c] in the text. *)
Lemma matches_at_cons c r run :
  matches_at (String c r) run ->
  in_class c = true /\
  exists rest,
    run = String c rest /\
    ((rest = "" /\ String.prefix ".xlsx" r = true) \/ matches_at r rest).
Proof.
  intros (Hne & Hall & Hpre). destruct run as [|c' rest]; [contradiction|].
  rewrite append_cons in Hpre. apply prefix_cons in Hpre as [-> Hpre].
  cbn in Hall. apply andb_true_iff in Hall as [Hc Hall].
  split; [exact Hc|]. exists rest. split; [reflexivity|].
  destruct rest as [|c2 rest]; [left; now split|right].
  split; [discriminate|]. now split.
Qed.

Lemma matches_at_extend c r run :
  in_class c = true -> matches_at r run ->
  matches_at (String c r) (String c run).
Proof.
  intros Hc (Hne & Hall & Hpre). split; [discriminate|]. split.
  - cbn. now rewrite Hc.
  - rewrite append_cons. now apply prefix_cons.
Qed.

Lemma match_here_spec (s : string) :
  match match_here s with
  | Some m =>
      exists run,
        m = (run ++ ".xlsx")%string /\ matches_at s run /\
        forall run', matches_at s run' ->
                     (String.length run' <= String.length run)%nat
  | None => forall run, ~ matches_at s run
  end.
Proof.
  induction s as [|c r IH]; cbn [match_here].
  - intros run (Hne & _ & Hpre). destruct run; [contradiction|].
    discriminate Hpre.
  - destruct (in_class c) eqn:Hc.
    + destruct (match_here r) as [m|].
      * destruct IH as (run & -> & Hm & Hmax).
        exists (String c run). split; [reflexivity|].
        split; [now apply matches_at_extend|].
        intros run' H'. apply matches_at_cons in H' as (_ & rest & -> & H').
        destruct H' as [[-> _]|H']; [cbn; lia|].
        apply Hmax in H'. cbn. lia.
      * destruct (String.prefix ".xlsx" r) eqn:Hp.
        -- exists (String c ""). split; [reflexivity|]. split.
           ++ split; [discriminate|]. split; [cbn; now rewrite Hc|].
              rewrite append_cons. now apply prefix_cons.
           ++ intros run' H'.
              apply matches_at_cons in H' as (_ & rest & -> & H').
              destruct H' as [[-> _]|H']; [cbn; lia|].
              now apply IH in H'.
        -- intros run H'.
           apply matches_at_cons in H' as (_ & rest & -> & H').
           destruct H' as [[_ H']|H']; [congruence|].
           now apply IH in H'.
    + intros run H'. apply matches_at_cons in H' as (H' & _). congruence.
Qed.

End ExtractFacts.

(** X23: on ASCII text, [_extract_excel_path] returns the leftmost match
    of the pattern: a run of at least one character among letters,
    digits, [_], [.], [/] and [-], followed by [.xlsx], where no such
    match starts earlier in the text and no longer run matches at the
    same place. It returns [None] exactly when no position of the text
    has a match. *)
Theorem X23_extract_excel_path (markdown : string) :
  match Analyzer._extract_excel_path markdown with
  | Some path =>
      exists i run,
        path = (run ++ ".xlsx")%string /\
        (i <= String.length markdown)%nat /\
        Analyzer.matches_at (Text.drop i markdown) run /\
        (forall run', Analyzer.matches_at (Text.drop i markdown) run' ->
                      (String.length run' <= String.length run)%nat) /\
        (forall j run', (j < i)%nat ->
                        ~ Analyzer.matches_at (Text.drop j markdown) run')
  | None =>
      forall j run, ~ Analyzer.matches_at (Text.drop j markdown) run
  end.
Proof.
  unfold Analyzer._extract_excel_path.
  induction markdown as [|c r IH].
  - cbn. intros j run (Hne & _ & Hpre).
    destruct j; cbn in Hpre; destruct run; try contradiction;
      discriminate Hpre.
  - cbn [Analyzer.search]. pose proof (match_here_spec (String c r)) as Hh.
    destruct (Analyzer.match_here (String c r)) as [m|].
    + destruct Hh as (run & -> & Hm & Hmax).
      exists 0%nat, run. split; [reflexivity|]. split; [cbn; lia|].
      split; [exact Hm|]. split; [exact Hmax|]. intros j run' Hj. lia.
    + destruct (Analyzer.search r) as [m|].
      * destruct IH as (i & run & -> & Hi & Hm & Hmax & Hleft).
        exists (S i), run. split; [reflexivity|]. split; [cbn; lia|].
        split; [exact Hm|]. split; [exact Hmax|].
        intros j run' Hj. destruct j as [|j]; [apply Hh|].
        apply Hleft. lia.
      * intros j run. destruct j as [|j]; [apply Hh|apply IH].
Qed.

(** ** The template mapping of a request *)

Section MappingFacts.

Import Analyzer.

(** The mapping after the items seen so far. *)
Lemma template_fold items : forall mapping u,
  match Dict.get
          (fold_left
             (fun mapping item =>
                if negb (String.eqb (template_type item) "")
                then Dict.set mapping (url item) (template_type item)
                else mapping) items mapping) u with
  | Some t =>
      (Dict.get mapping u = Some t /\
       Forall (fun it => url it = u -> template_type it = "") items) \/
      (t <> "" /\
       exists before after,
         items = before ++ {| url := u; template_type := t |} :: after /\
         Forall (fun it => url it = u -> template_type it = "") after)
  | None =>
      Dict.get mapping u = None /\
      Forall (fun it => url it = u -> template_type it = "") items
  end.
Proof.
  induction items as [|[iu it] items IH]; intros mapping u.
  - cbn. destruct (Dict.get mapping u); [left|]; now split.
  - cbn [fold_left url template_type].
    set (mapping' := if negb (String.eqb it "")
                     then Dict.set mapping iu it else mapping).
    specialize (IH mapping' u).
    destruct (Dict.get (fold_left _ items mapping') u) as [t|].
    + destruct IH as [[Hget Hall]|(Hne & before & after & -> & Hall)].
      * subst mapping'. destruct (String.eqb it "") eqn:Eit; cbn [negb] in Hget.
        -- apply String.eqb_eq in Eit. subst it. left.
           split; [exact Hget|]. now constructor.
        -- destruct (String.eqb iu u) eqn:Eu.
           ++ apply String.eqb_eq in Eu. subst iu.
              rewrite dict_get_set_same in Hget. injection Hget as <-.
              right. apply String.eqb_neq in Eit. split; [exact Eit|].
              exists [], items. now split.
           ++ apply String.eqb_neq in Eu.
              rewrite dict_get_set_other in Hget by exact Eu.
              left. split; [exact Hget|]. constructor; [|exact Hall].
              cbn. intros Hu. contradiction.
      * right. split; [exact Hne|].
        exists ({| url := iu; template_type := it |} :: before), after.
        now split.
    + destruct IH as [Hget Hall]. subst mapping'.
      destruct (String.eqb it "") eqn:Eit; cbn [negb] in Hget.
      * apply String.eqb_eq in Eit. subst it.
        split; [exact Hget|]. now constructor.
      * destruct (String.eqb iu u) eqn:Eu.
        -- apply String.eqb_eq in Eu. subst iu.
           rewrite dict_get_set_same in Hget. discriminate Hget.
        -- apply String.eqb_neq in Eu.
           rewrite dict_get_set_other in Hget by exact Eu.
           split; [exact Hget|]. constructor; [|exact Hall].
           cbn. intros Hu. contradiction.
Qed.

Lemma template_fold_NoDup items : forall mapping,
  NoDup (Dict.keys mapping) ->
  NoDup (Dict.keys
           (fold_left
              (fun mapping item =>
                 if negb (String.eqb (template_type item) "")
                 then Dict.set mapping (url item) (template_type item)
                 else mapping) items mapping)).
Proof.
  induction items as [|item items IH]; intros mapping H; [exact H|].
  cbn [fold_left]. apply IH.
  destruct (negb _); [now apply dict_set_NoDup|exact H].
Qed.

End MappingFacts.

(** X24: the template mapping of a request gives a URL the template type
    of the last of its items that has one, and has no entry for a URL
    whose items have none; each URL is a key at most once. The request
    has one URL per item, repetitions included. *)
Theorem X24_template_mapping (url_templates : list Analyzer.UrlTemplate) :
  let mapping := Analyzer.get_template_mapping url_templates in
  NoDup (Dict.keys mapping) /\
  List.length (Analyzer.get_urls url_templates) = List.length url_templates /\
  forall u,
    match Dict.get mapping u with
    | Some t =>
        t <> "" /\
        exists before after,
          url_templates
          = before
            ++ {| Analyzer.url := u; Analyzer.template_type := t |} :: after /\
          Forall (fun it => Analyzer.url it = u ->
                            Analyzer.template_type it = "") after
    | None =>
        Forall (fun it => Analyzer.url it = u ->
                          Analyzer.template_type it = "") url_templates
    end.
Proof.
  intros mapping. split; [|split].
  - apply template_fold_NoDup. constructor.
  - unfold Analyzer.get_urls. apply length_map.
  - intros u. pose proof (template_fold url_templates [] u) as H.
    fold (Analyzer.get_template_mapping url_templates) in H. fold mapping in H.
    destruct (Dict.get mapping u) as [t|].
    + destruct H as [[Hget _]|H]; [discriminate Hget|exact H].
    + exact (proj2 H).
Qed.

(** ** The report of a run *)

(** X25: [analyze_pages] returns a report exactly for a result of the
    agent that is no error, does not start (leading blanks apart) with
    the failure marker and has at least 500 characters; the report is
    then the cost table, an empty line and the text of the result, the
    workbook path is read from that text, and a missing cost or duration
    counts as 0. It raises when the stream of the agent ended with an
    exception, and when the stream held no result message at all (the
    text is then empty, hence too short). *)
Theorem X25_analysis (cost_table : string)
    (messages : list Analyzer.message) (raised : option string) :
  let result := Analyzer.run_claude_code messages raised in
  (forall a,
      Analyzer.analyze_result cost_table result = inr a <->
      Analyzer.r_is_error result = false /\
      String.prefix "SKILL_EXECUTION_FAILED:"
        (Str.strip (Analyzer.r_result result)) = false /\
      (500 <= String.length (Analyzer.r_result result))%nat /\
      Analyzer.markdown a
      = (cost_table
         ++ String "010" (String "010" (Analyzer.r_result result)))%string /\
      Analyzer.excel_path a
      = Analyzer._extract_excel_path (Analyzer.r_result result) /\
      Analyzer.cost_usd a
      = match Analyzer.r_total_cost_usd result with
        | Some q => if Qeq_bool q 0 then 0%Q else q
        | None => 0%Q
        end /\
      Analyzer.duration_sec a
      = (match Analyzer.r_duration_ms result with
         | Some z => if (z =? 0)%Z then 0 else inject_Z z
         | None => 0
         end / 1000)%Q) /\
  (forall e,
      raised = Some e ->
      Analyzer.analyze_result cost_table result
      = inl ("Page speed analysis failed: Error: " ++ e)%string) /\
  (raised = None ->
   Forall (fun msg => msg = Analyzer.Other) messages ->
   Analyzer.analyze_result cost_table result
   = inl "Report too short - analysis may have failed").
Proof.
  intros result. split; [|split].
  - intros a. unfold Analyzer.analyze_result.
    destruct (Analyzer.r_is_error result);
      [split; [discriminate|intros (H & _); discriminate H]|].
    destruct (String.prefix "SKILL_EXECUTION_FAILED:"
                (Str.strip (Analyzer.r_result result)));
      [split; [discriminate|intros (_ & H & _); discriminate H]|].
    destruct (String.length (Analyzer.r_result result) <? 500)%nat eqn:E.
    + apply Nat.ltb_lt in E.
      split; [discriminate|intros (_ & _ & H & _); lia].
    + apply Nat.ltb_ge in E. split.
      * intros H. injection H as <-. cbn. tauto.
      * intros (_ & _ & _ & Hm & He & Hc & Hd). destruct a as [m p c d].
        cbn in Hm, He, Hc, Hd. now subst.
  - intros e ->. reflexivity.
  - intros -> Hall. subst result. unfold Analyzer.run_claude_code.
    assert (Hfold : fold_left Analyzer.step messages Analyzer.initial
                    = Analyzer.initial).
    { generalize Analyzer.initial.
      induction Hall as [|msg l -> _ IH]; intros st; [reflexivity|].
      cbn [fold_left Analyzer.step]. apply IH. }
    rewrite Hfold. reflexivity.
Qed.

(** ** A failed capture in the Network Analysis sheet *)

(** X26: the document of a failed capture carries the text of the
    exception, or the navigation time-out with the limit in milliseconds
    when the text mentions a time-out. Given to the report builder among
    the network results, it makes a row with the URL, no request, no
    byte and no largest resource: the failure does not show in the
    sheet. *)
Theorem X26_failed_capture_row (repr : value -> string)
    (url message : string) (timeout : Z)
    (ws : GenerateExcel.worksheet) (row_idx : nat) :
  let document := Trace.failure_document url message timeout in
  Val.get document "success" VNone = Ok (VBool false) /\
  Val.get document "error" VNone
  = Ok (VStr (if Str.is_substring "Timeout" message
              then "Navigation timeout: page did not load within "
                   ++ Text.of_int timeout ++ "ms"
              else message)) /\
  GenerateExcel.network_row repr ws row_idx document
  = Ok (GenerateExcel.write_cells ws row_idx 1
          [ VStr (GenerateExcel.sanitize_for_excel repr (VStr url));
            VInt 0; VFloat 0;
            VInt 0; VFloat 0; VInt 0; VFloat 0;
            VInt 0; VFloat 0; VInt 0; VFloat 0;
            VStr "" ]).
Proof.
  intros document. split; [reflexivity|]. split; [reflexivity|].
  assert (Hacc : forallb GenerateExcel.accepted
                   [ VStr (GenerateExcel.sanitize_for_excel repr (VStr url));
                     VInt 0;
                     VFloat (round_q (inject_Z 0 / 1024 / 1024) 2);
                     VInt 0; VFloat 0; VInt 0; VFloat 0;
                     VInt 0; VFloat 0; VInt 0; VFloat 0;
                     VStr (GenerateExcel.sanitize_for_excel repr (VStr "")) ]
                 = true).
  { cbn [forallb]. rewrite !accepted_sanitized. reflexivity. }
  exact (network_row_intro repr ws row_idx document (VStr url) (VDict [])
           (VDict []) (VInt 0) (VInt 0) (VList []) (VDict []) (VDict [])
           (VDict []) (VDict []) "" (inject_Z 0)
           (VInt 0) (VFloat 0) (VInt 0) (VFloat 0)
           (VInt 0) (VFloat 0) (VInt 0) (VFloat 0)
           eq_refl eq_refl eq_refl eq_refl eq_refl eq_refl eq_refl eq_refl
           eq_refl eq_refl eq_refl eq_refl eq_refl eq_refl eq_refl eq_refl
           eq_refl eq_refl eq_refl eq_refl Hacc).
Qed.

(** ** The entry points on sample inputs *)

Lemma X13_crux_exit_code_witness :
  Crux.main Examples.repr Samples.message (Some "https://a.test/")
    (Some "https://a.test") "PHONE" None None
    (fun _ => Crux.Answered
                {| Psi.status := 404; Psi.text := "Not found";
                   Psi.json := VNone |})
  = (Crux.NotInCrux "url" "https://a.test/" "PHONE", 0%Z).
Proof.
  exact (proj1 (proj2 (proj2 (proj2
           (X13_crux_exit_code Examples.repr Samples.message
              (Some "https://a.test/") (Some "https://a.test") "PHONE"
              None None
              (fun _ => Crux.Answered
                          {| Psi.status := 404; Psi.text := "Not found";
                             Psi.json := VNone |})))))
           ("url", "https://a.test/") _ eq_refl eq_refl eq_refl).
Defined.

Lemma X14_collection_period_witness :
  Crux.main Examples.repr Samples.message None (Some "https://a.test")
    "ALL_FORM_FACTORS" None None
    (fun _ => Crux.Answered
                {| Psi.status := 200; Psi.text := "";
                   Psi.json :=
                     VDict
                       [("record",
                          VDict
                            [("metrics",
                               VDict
                                 [("largest_contentful_paint",
                                    VDict
                                      [("percentiles",
                                         VDict [("p75", VInt 2512)])])])])]
                |})
  = (Crux.Failure (Samples.message ValueError), 1%Z).
Proof.
  apply (proj2 (proj2 (X14_collection_period Examples.repr Samples.message))
           None (Some "https://a.test") "ALL_FORM_FACTORS" None None
           (fun _ => Crux.Answered
                       {| Psi.status := 200; Psi.text := "";
                          Psi.json :=
                            VDict
                              [("record",
                                 VDict
                                   [("metrics",
                                      VDict
                                        [("largest_contentful_paint",
                                           VDict
                                             [("percentiles",
                                                VDict
                                                  [("p75", VInt 2512)])])])])]
                       |})
           ("origin", "https://a.test")
           {| Psi.status := 200; Psi.text := "";
              Psi.json :=
                VDict
                  [("record",
                     VDict
                       [("metrics",
                          VDict
                            [("largest_contentful_paint",
                               VDict
                                 [("percentiles",
                                    VDict [("p75", VInt 2512)])])])])] |}
           (VDict
              [("metrics",
                 VDict
                   [("largest_contentful_paint",
                      VDict [("percentiles", VDict [("p75", VInt 2512)])])])])
           (VDict []) [] (VDict []));
    reflexivity.
Defined.

